(* ===== verification/_CoqProject ===== *)
-Q . S2P
Prelude.v
Double.v
Text.v
Packets.v
Timestamps.v
Address.v
Sockets.v
Server.v
Observations.v
ClientState.v
Collator.v
CollatorRuns.v
Sender.v
ClientOutput.v
JsonReport.v
Receiver.v
EndToEnd.v
Setup.v
Resources.v
Program.v
ProgramSpec.v
Accounting.v
Typing.v
Completion.v
Threads.v
Liveness.v
Termination.v
Main.v
