(* ===== verification/Prelude.v ===== *)
(** * twamp-light: a verification library

    twamp-light measures delays with TWAMP-Test packets.  A client
    ([src/client/Client.cpp], [src/client/main_client.cpp]) sends stamped UDP packets,
    a server ([src/server/Server.cpp]) reflects them with its own times, and the
    client turns the four times of each packet into delay samples or losses of four
    statistics.  [src/utils.cpp] and the headers hold what both share.

    ** The parts and the files that model them

    - [Prelude]: machine integers on [Z], bytes and byte order, the option monad for
      undefined behaviour, tactics and the hint database [twamp].
    - [Double]: IEEE doubles as the Standard Library's [SpecFloat] with precision 53,
      and the rounding lemmas through which the conversions below are exact.
    - [Text]: what the programs use of iostreams and of the C string functions.
    - [Packets] (packets.h): the packet structures, their object representation.
    - [Timestamps] (utils.cpp, utils.hpp): clock readings, NTP timestamps,
      nanoseconds, [safe_tspecplus], [isWithinEpsilon].
    - [Address] (utils.cpp): [parseIPPort], [parseIPv6Port].
    - [Sockets] (utils.cpp): messages, ancillary data, socket options.
    - [Server] (Server.cpp, Server.h): [craftReflectorPacket], [handleTestPacket],
      [printMetrics], [listen].
    - [Observations] (packetlist.h, Client.h): observations, raw data, the two
      mutex-guarded queues behind the class [Fifo].
    - [ClientState] (Client.h): arguments and members of the client; the class
      [SqaStats] stands for the statistics library, [SqaLog] records its calls.
    - [Collator] and [CollatorRuns] (Client.cpp): [process_observation],
      [aggregateRawData], [check_if_oldest_packet_should_be_processed],
      [runCollatorThread]; then whole runs of it.
    - [Sender] (Client.cpp): [craftSenderPacket], [sendPacket], [runSenderThread].
    - [ClientOutput] (Client.cpp): [computeTimeData], [printMetrics], [printHeader],
      [printReflectorPacket], [printStats].
    - [JsonReport] (Client.cpp): [td_to_json], [JsonLog]: the document, its date, the
      file and the exceptions.
    - [Receiver] (Client.cpp): [awaitAndHandleResponse], [handleReflectorPacket],
      [runReceiverThread].
    - [EndToEnd]: one packet through sender, server, receiver and collator.
    - [Setup] (main_client.cpp, the constructors): what becomes of the addresses and
      the TOS option, name resolution and the sockets.
    - [Resources] (Client.cpp, Server.cpp): what the constructors acquire and the
      destructors release.
    - [Program] (main_client.cpp, Client.cpp): the three threads of the client as
      steps on one state, with the place each thread is at; the collator's walk over
      the raw data is one step for each entry ([CSearch], [CFound]).
    - [ProgramSpec]: the abstract client, the simulation, and what it gives.
    - [Accounting]: the numbers of the packets the sender enqueues over a schedule, and
      the account of a measurement at rest.
    - [Typing]: every member of every reachable state within its C++ type.
    - [Completion]: from every state after sending, the client can end.
    - [Threads]: the races of start, check, filing and end, and when the end is clean.
    - [Liveness]: every entry is reported in the end.
    - [Termination]: enough turns of each thread end the program.
    - [Main] (main_client.cpp, main_server.cpp): the options and both [main]s, from
      the command line to the exit code.

    Definitions keep the names of the functions they translate.  A function of the
    source that changes members or streams becomes a function from the state record
    to the next ([Server.state], [ClientState.Client], [Sender.Sender]); streams are
    strings of what was written.  Everything read from outside (clocks, [recvmsg],
    [sendmsg], random draws, [time]) is a field of a record of the iteration that
    reads it, so that a loop is a function of the list of its iterations.

    Each loop is modelled twice: as a sequential function ([Sender.runSenderThread],
    [Receiver.runReceiverThread], [Collator.runCollatorThread]) and, cut at the
    accesses to what the threads share, as [Program.sender_step],
    [Program.receiver_step] and [Program.main_step]; both are composed of the same
    parts ([Sender.send_phase], [Receiver.await], [Collator.check_oldest], ...) and
    [Program.thread_turns] shows that an undisturbed turn of steps is one iteration.
    A run is a list of steps, a schedule ([Program.run]); [ProgramSpec.runs] are the
    runs that are [ProgramSpec.exclusive], with the observations enqueued so far: the
    two checks of the oldest entry do not overlap, and the receiver retires no entry
    while the collator's iterator or the entry it found is at it.

    ** Undefined behaviour, errors, integers

    [None] is undefined behaviour: signed overflow ([checked_i]), a cast of a double
    that does not fit, a read past the end of a buffer ([gather], [cmsg_read]), a
    dangling pointer, an iterator at a removed element ([Program.valid_iterator]), the
    front of an empty deque.  A theorem that equates a
    computation with [Some] therefore shows that it is defined.  Exceptions and exits
    are values: sums, [Server.result], [Receiver.recv_result], [Setup.constructed].
    Unsigned integers are in [[0, 2^w)], conversions wrap; the platform is LP64,
    little-endian Linux, with a 64-bit [time_t].

    ** What the theorems show

    - A packet end to end: the reply on the wire, the three observations of a reply,
      the four samples of a measured packet, losses, duplicates ([EndToEnd],
      [Server.receive_reply_wire], [Sender.request_on_the_wire],
      [Receiver.reply_queued], [CollatorRuns.missing_observation_is_loss]).
    - The collator: refinement of the heap of shared raw data to an ordered list
      ([repr], [file]), accounting over all interleavings, first-in first-out
      retirement, termination of a run, independence of the order of arrival.
    - Termination and results of the loops of the sender, the receiver and the
      server, their error paths and the limits of their counters.
    - Numbers: the conversions between clock readings, NTP timestamps and
      nanoseconds through doubles lose exactly what [Timestamps.clock_round_trip]
      says; printed delays are the exact decimals; bounds and wrap-around.
    - The report: the date of the first packet against the Gregorian calendar, the
      nodes listed for the hosts, the duration, what the file holds when printing
      throws ([JsonReport.report_date], [JsonReport.report_document]).
    - Interleavings without the races: the client refines an abstract one that keeps a
      queue, a list of entries and a history ([ProgramSpec.program_refines]); no
      observation is lost or counted twice ([ProgramSpec.observations_partitioned]);
      nothing the collator does is undefined ([ProgramSpec.collator_defined]); every
      entry is reported ([Liveness.entry_reported]); at rest each packet sent since the
      collator started is in exactly one reported entry
      ([Accounting.every_packet_counted]); enough turns of each thread end the
      program ([Termination.program_terminates]), and whatever the threads did, some
      continuation does, if the timeout is not 0 ([Completion.can_finish],
      [Completion.waits_for_ever]).
    - All interleavings: types are preserved ([Typing.members_in_range]); a legacy
      client does nothing with observations ([Threads.legacy_without_collator]).
    - The races: two threads in the check of the oldest entry
      ([Threads.oldest_check_race]), an entry retired under the collator that is filing
      an observation ([Threads.filing_race]), a packet sent before the collator has started
      ([Threads.startup_race]), a collator that ends with observations queued
      ([Threads.collator_ends_early], [Threads.receiver_ends_collator]), and the
      condition under which none is left ([Threads.clean_end]).
    - The programs: what an exit code means ([Main.client_success],
      [Main.client_exit_codes], [Main.server_exit_codes]), which payload lengths can be
      sent ([Main.payload_length_defined]), when a client can be built and
      what it is ([Setup.constructed_client]), and what is released
      ([Resources.resources_released]).

    ** Fuel and bounds

    [tspecplus_loop] has fuel one more than the number of seconds in the sum of the
    nanoseconds, which [Timestamps.safe_tspecplus_sum] shows to be enough;
    [dec_go] has one unit per binary digit.  The other recursions are structural, on
    lists of iterations, steps, hosts, control messages or characters.  Theorems on printed
    delays hold below [2^51] ns, on clock readings below the next NTP era (2106) where
    they say so.

    ** Not modelled

    The statistics library qoo-c and its t-digest (submodules, absent from the
    source: the classes [SqaStats], [SqaSummary], [SqaReport] and
    [TdHistogram]; whether memory could be had for the [k]-th of the four is
    [Setup.allocated]); the option parser CLI11, a function from the command line to the options' values
    ([Main.client_options], [Main.server_options]); the printing of the JSON report by
    the nlohmann library and the opening of its file ([dump] and [can_open], arguments
    of [JsonReport.JsonLog]); name resolution, sockets and clocks themselves: what they
    give is part of the steps and iterations, any value of it in any order, except that
    [Completion.possible] says when a reception cannot time out; exceptions of the
    standard library itself (memory, the creation of threads); the version text.

    A C++ data race on the members that threads read without a lock is undefined in
    the language; the interleavings here are of steps that are atomic: critical
    sections of the queues, accesses to a member, the look at one entry and the filing
    in an entry by [process_observation], and the action on the oldest entry.  An
    [end()] iterator is taken to stay valid when an entry is removed, as it does in
    libstdc++ (the standard does not promise it when the last entry goes).  After
    [std::exit] nothing more happens in the model, where in the program the other
    threads may still run for a while. *)

From Stdlib Require Export ZArith Lia.
From stdpp Require Export base tactics numbers option gmap strings list.

#[global] Open Scope Z_scope.

Declare Scope twamp_scope.
Delimit Scope twamp_scope with twamp.

(** ** Machine integers

    An unsigned [w]-bit integer is a [Z] in [[0, 2^w)]; a conversion to the type
    reduces modulo [2^w].  A signed one is a [Z] in [[-2^(w-1), 2^(w-1))]; the
    conversion keeps the value that is congruent modulo [2^w] (C++20). *)
Definition wrap (w z : Z) : Z := z mod 2 ^ w.

Definition swrap (w z : Z) : Z :=
  let u := wrap w z in if u <? 2 ^ (w - 1) then u else u - 2 ^ w.

Abbreviation u8 := (wrap 8).
Abbreviation u16 := (wrap 16).
Abbreviation u32 := (wrap 32).
Abbreviation u64 := (wrap 64).
Abbreviation i32 := (swrap 32).
Abbreviation i64 := (swrap 64).

Definition in_u (w z : Z) : Prop := 0 ≤ z < 2 ^ w.
Definition in_i (w z : Z) : Prop := - 2 ^ (w - 1) ≤ z < 2 ^ (w - 1).

Notation "z '∈u' w" := (in_u w z) (at level 70, no associativity) : twamp_scope.
Notation "z '∈i' w" := (in_i w z) (at level 70, no associativity) : twamp_scope.
#[global] Open Scope twamp_scope.

#[export] Instance in_u_dec w z : Decision (in_u w z).
Proof. unfold in_u. apply _. Defined.
#[export] Instance in_i_dec w z : Decision (in_i w z).
Proof. unfold in_i. apply _. Defined.

(** Signed arithmetic overflow is undefined behaviour: a checked result. *)
Definition checked_i (w z : Z) : option Z := if decide (in_i w z) then Some z else None.

(** The powers of two the development mentions, as literals. *)
Ltac widths :=
  unfold in_u, in_i in *;
  change (2 ^ 8) with 256 in *; change (2 ^ 16) with 65536 in *;
  change (2 ^ 32) with 4294967296 in *;
  change (2 ^ 64) with 18446744073709551616 in *;
  change (2 ^ (32 - 1)) with 2147483648 in *;
  change (2 ^ (64 - 1)) with 9223372036854775808 in *.

(** Linear arithmetic over machine integers. *)
Ltac wsolve := widths; lia.

Lemma wrap_range w z : 0 ≤ w → wrap w z ∈u w.
Proof. intros Hw. unfold in_u, wrap. apply Z.mod_pos_bound, Z.pow_pos_nonneg; lia. Qed.

Lemma wrap_small w z : z ∈u w → wrap w z = z.
Proof. unfold in_u, wrap. apply Z.mod_small. Qed.

Lemma wrap_wrap w z : wrap w (wrap w z) = wrap w z.
Proof. unfold wrap. apply Zmod_mod. Qed.

Lemma wrap_add_wrap_l w a b : wrap w (wrap w a + b) = wrap w (a + b).
Proof. unfold wrap. apply Zplus_mod_idemp_l. Qed.

Lemma wrap_add_wrap_r w a b : wrap w (a + wrap w b) = wrap w (a + b).
Proof. unfold wrap. apply Zplus_mod_idemp_r. Qed.

Lemma wrap_sub_wrap w a b : wrap w (wrap w a - wrap w b) = wrap w (a - b).
Proof. unfold wrap. symmetry. apply Zminus_mod. Qed.

Lemma swrap_small w z : 0 < w → z ∈i w → swrap w z = z.
Proof.
  unfold in_i, swrap, wrap. intros Hw Hz.
  assert (2 ^ w = 2 * 2 ^ (w - 1)) as E.
  { rewrite <- Z.pow_succ_r by lia. f_equal. lia. }
  destruct (decide (0 ≤ z)).
  - rewrite Z.mod_small by lia. destruct (Z.ltb_spec z (2 ^ (w - 1))); lia.
  - replace (z mod 2 ^ w) with (z + 2 ^ w).
    + destruct (Z.ltb_spec (z + 2 ^ w) (2 ^ (w - 1))); lia.
    + apply Z.mod_unique with (-1); lia.
Qed.

Lemma swrap_range w z : 0 < w → swrap w z ∈i w.
Proof.
  intros Hw. unfold in_i, swrap.
  assert (2 ^ w = 2 * 2 ^ (w - 1)) as E.
  { rewrite <- Z.pow_succ_r by lia. f_equal. lia. }
  pose proof (wrap_range w z ltac:(lia)) as Hr. unfold in_u in Hr.
  destruct (Z.ltb_spec (wrap w z) (2 ^ (w - 1))); lia.
Qed.

Lemma swrap_wrap w z : swrap w (wrap w z) = swrap w z.
Proof. unfold swrap. by rewrite wrap_wrap. Qed.

Lemma checked_i_Some w z : z ∈i w → checked_i w z = Some z.
Proof. intros H. unfold checked_i. by rewrite decide_True. Qed.

(** ** Bytes in memory

    A byte is a [Z] in [[0, 256)].  The hosts the program is built for are
    little-endian, so the memory image of an integer field is [le_bytes]. *)
Fixpoint le_bytes (n : nat) (z : Z) : list Z :=
  match n with
  | O => []
  | S k => z mod 256 :: le_bytes k (z / 256)
  end.

Fixpoint le_int (bs : list Z) : Z :=
  match bs with
  | [] => 0
  | b :: t => b + 256 * le_int t
  end.

Abbreviation bytes := (Forall (in_u 8)).

Lemma length_le_bytes n z : length (le_bytes n z) = n.
Proof. revert z. induction n; intros; simpl; auto. Qed.

Lemma bytes_le_bytes n z : bytes (le_bytes n z).
Proof.
  revert z. induction n as [|n IH]; intros; simpl; constructor; auto.
  unfold in_u. apply Z.mod_pos_bound. lia.
Qed.

Lemma pow256_S (n : nat) : 256 ^ Z.of_nat (S n) = 256 * 256 ^ Z.of_nat n.
Proof. rewrite Nat2Z.inj_succ, Z.pow_succ_r; lia. Qed.

Lemma le_int_le_bytes n z : le_int (le_bytes n z) = z mod 256 ^ Z.of_nat n.
Proof.
  revert z. induction n as [|n IH]; intros z.
  - simpl. by rewrite Z.mod_1_r.
  - rewrite pow256_S. simpl. rewrite IH.
    pose proof (Z.pow_pos_nonneg 256 (Z.of_nat n)) as Hp.
    rewrite Z.rem_mul_r; lia.
Qed.

Lemma le_int_range bs : bytes bs → 0 ≤ le_int bs < 256 ^ Z.of_nat (length bs).
Proof.
  induction 1 as [|b bs Hb _ IH]; [simpl; lia|].
  cbn [length le_int]. rewrite pow256_S. wsolve.
Qed.

Lemma le_bytes_le_int bs : bytes bs → le_bytes (length bs) (le_int bs) = bs.
Proof.
  induction 1 as [|b bs Hb _ IH]; [done|]. simpl. widths. f_equal.
  - rewrite (Z.mul_comm 256), Z.mod_add by lia. apply Z.mod_small. lia.
  - rewrite (Z.mul_comm 256), Z.div_add, (Z.div_small b), Z.add_0_l by lia. done.
Qed.

Lemma le_bytes_inj n a b :
  0 ≤ a < 256 ^ Z.of_nat n → 0 ≤ b < 256 ^ Z.of_nat n → le_bytes n a = le_bytes n b → a = b.
Proof.
  intros Ha Hb H. apply (f_equal le_int) in H.
  rewrite !le_int_le_bytes, !Z.mod_small in H by lia. done.
Qed.

(** [htonl]/[ntohl]/[htons]/[ntohs] on a little-endian host: the bytes of the
    integer in the opposite order. *)
Definition bswap (n : nat) (z : Z) : Z := le_int (rev (le_bytes n z)).

Definition be_bytes (n : nat) (z : Z) : list Z := rev (le_bytes n z).

Lemma bytes_rev bs : bytes bs → bytes (rev bs).
Proof. intros H. apply Forall_rev. done. Qed.

Lemma bswap_range n z : 0 ≤ bswap n z < 256 ^ Z.of_nat n.
Proof.
  pose proof (le_int_range (rev (le_bytes n z)) (bytes_rev _ (bytes_le_bytes n z))) as H.
  rewrite length_rev, length_le_bytes in H. exact H.
Qed.

Lemma le_bytes_bswap n z : le_bytes n (bswap n z) = be_bytes n z.
Proof.
  unfold bswap, be_bytes.
  rewrite <- (length_le_bytes n z) at 1. rewrite <- length_rev.
  apply le_bytes_le_int, bytes_rev, bytes_le_bytes.
Qed.

Lemma bswap_bswap n z : 0 ≤ z < 256 ^ Z.of_nat n → bswap n (bswap n z) = z.
Proof.
  intros Hz. unfold bswap at 1. rewrite le_bytes_bswap. unfold be_bytes.
  rewrite rev_involutive, le_int_le_bytes. by apply Z.mod_small.
Qed.

Abbreviation htonl := (bswap 4).
Abbreviation ntohl := (bswap 4).
Abbreviation htons := (bswap 2).
Abbreviation ntohs := (bswap 2).

Lemma htonl_range z : htonl z ∈u 32.
Proof. exact (bswap_range 4 z). Qed.
Lemma htons_range z : htons z ∈u 16.
Proof. exact (bswap_range 2 z). Qed.
Lemma ntohl_htonl z : z ∈u 32 → ntohl (htonl z) = z.
Proof. apply (bswap_bswap 4). Qed.
Lemma ntohs_htons z : z ∈u 16 → ntohs (htons z) = z.
Proof. apply (bswap_bswap 2). Qed.

Create HintDb twamp discriminated.
Create Rewrite HintDb twamp.
#[export] Hint Resolve htonl_range htons_range wrap_range swrap_range : twamp.
#[export] Hint Resolve bytes_le_bytes bytes_rev : twamp.
#[export] Hint Extern 1 (_ ≤ _) => lia : twamp.
#[export] Hint Extern 1 (_ < _) => lia : twamp.
#[export] Hint Rewrite ntohl_htonl ntohs_htons using (auto with twamp) : twamp.

(** ** Options: the undefined behaviour monad

    A C++ expression whose behaviour the standard leaves undefined evaluates to
    [None]; every theorem that equates a computation with [Some _] shows that the
    expression is defined. *)



Lemma Some_bind {A B} (x : A) (f : A → option B) : (Some x ≫= f) = f x.
Proof. done. Qed.
#[export] Hint Rewrite @Some_bind : twamp.

(** Evaluate the defined steps of a computation in the option monad. *)
Ltac step_option := autorewrite with twamp; cbn [mbind option_bind].
