(* ===== verification/Double.v ===== *)
(** * IEEE 754 binary64

    The C++ [double] of the program: the standard library's specification of
    binary floating point ([SpecFloat]) at precision 53 and maximal exponent 1024,
    with the conversions the source uses ([(double)] of an integer, a cast back to
    an integer, [std::max], [std::min], [std::abs]) and the lemmas that bound the
    rounding error of a product. *)

From S2P Require Import Prelude.
From Stdlib Require Export SpecFloat.

Abbreviation double := spec_float.

(** ** Operations *)

(** [(double) z], rounded to nearest even. *)
Definition of_int (z : Z) : double := binary_normalize 53 1024 z 0 false.

Definition dadd : double → double → double := SFadd 53 1024.
Definition dsub : double → double → double := SFsub 53 1024.
Definition dmul : double → double → double := SFmul 53 1024.
Definition ddiv : double → double → double := SFdiv 53 1024.
Definition dabs : double → double := SFabs.

(** [std::max(a, b)] is [a < b ? b : a]; [std::min(a, b)] is [b < a ? b : a]. *)
Definition dmax (a b : double) : double := if SFltb a b then b else a.
Definition dmin (a b : double) : double := if SFltb b a then b else a.

(** A decimal literal [num / den] (both exactly representable): the nearest double. *)
Definition dlit (num den : Z) : double := ddiv (of_int num) (of_int den).

(** The integral part; none for an infinity or a NaN. *)
Definition trunc (x : double) : option Z :=
  match x with
  | S754_zero _ => Some 0
  | S754_finite s m e => Some (cond_Zopp s (Z.shiftl (Zpos m) e))
  | _ => None
  end.

(** A cast to a [w]-bit integer type: undefined when the integral part does not fit. *)
Definition to_uint (w : Z) (x : double) : option Z :=
  t ← trunc x; if decide (in_u w t) then Some t else None.

Definition to_int (w : Z) (x : double) : option Z :=
  t ← trunc x; if decide (in_i w t) then Some t else None.

(** ** The rounding step *)

Lemma digits2_pos_log2 m : Zpos (digits2_pos m) = Z.log2 (Zpos m) + 1.
Proof.
  assert (digits2_pos m = Pos.size m) as ->.
  { induction m as [m IH|m IH|]; simpl; congruence. }
  destruct m; simpl; lia.
Qed.

Lemma digits_bounds m d : Zpos (digits2_pos m) = d → 2 ^ (d - 1) ≤ Zpos m < 2 ^ d.
Proof.
  intros <-. rewrite digits2_pos_log2, Z.add_simpl_r.
  pose proof (Z.log2_spec (Zpos m)). lia.
Qed.

Lemma digits_unique m d : 2 ^ (d - 1) ≤ Zpos m < 2 ^ d → 0 < d → Zpos (digits2_pos m) = d.
Proof.
  intros H Hd. rewrite digits2_pos_log2, (Z.log2_unique (Zpos m) (d - 1)); [lia|lia|].
  by replace (Z.succ (d - 1)) with d by lia.
Qed.

Lemma iter_pos_swap {A} (f : A → A) p x : iter_pos f p (f x) = f (iter_pos f p x).
Proof. revert x. induction p as [p IH|p IH|]; intros x; simpl; by rewrite ?IH. Qed.

Lemma iter_pos_succ {A} (f : A → A) p x : iter_pos f (Pos.succ p) x = f (iter_pos f p x).
Proof.
  revert x. induction p as [p IH|p IH|]; intros x; simpl; [|by rewrite ?iter_pos_swap..].
  by rewrite !IH, !iter_pos_swap.
Qed.

Lemma shr_1_nonneg m r s : 0 ≤ m →
  shr_1 {| shr_m := m; shr_r := r; shr_s := s |} =
  {| shr_m := m / 2; shr_r := Z.odd m; shr_s := r || s |}.
Proof.
  intros Hm. rewrite <- Z.div2_div.
  destruct m as [|[m|m|]|]; simpl; try done; lia.
Qed.

(** What [n] one-bit shifts leave: quotient, last bit out, "sticky" rest. *)
Definition shifted (m n : Z) : shr_record :=
  {| shr_m := m / 2 ^ n; shr_r := Z.odd (m / 2 ^ (n - 1));
     shr_s := bool_decide (m mod 2 ^ (n - 1) ≠ 0) |}.

Lemma sticky_step m n : 0 ≤ m → 0 < n →
  Z.odd (m / 2 ^ (n - 1)) || bool_decide (m mod 2 ^ (n - 1) ≠ 0) =
  bool_decide (m mod 2 ^ n ≠ 0).
Proof.
  intros Hm Hn.
  assert (2 ^ n = 2 ^ (n - 1) * 2) as E.
  { rewrite Z.mul_comm, <- Z.pow_succ_r by lia. f_equal. lia. }
  pose proof (Z.pow_pos_nonneg 2 (n - 1) ltac:(lia) ltac:(lia)) as Hp.
  rewrite E, Z.rem_mul_r, Zmod_odd by lia.
  pose proof (Z.mod_pos_bound m (2 ^ (n - 1)) Hp) as Hb.
  destruct (Z.odd _); simpl; [|by rewrite Z.mul_0_r, Z.add_0_r].
  symmetry. apply bool_decide_eq_true. lia.
Qed.

Lemma iter_shr m p : 0 ≤ m →
  iter_pos shr_1 p {| shr_m := m; shr_r := false; shr_s := false |} = shifted m (Zpos p).
Proof.
  intros Hm. induction p as [|p IH] using Pos.peano_ind.
  - cbn [iter_pos]. rewrite shr_1_nonneg by done. unfold shifted.
    change (2 ^ (1 - 1)) with 1. by rewrite Z.div_1_r, Z.mod_1_r.
  - rewrite iter_pos_succ, IH. unfold shifted.
    pose proof (Z.pow_pos_nonneg 2 (Zpos p) ltac:(lia) ltac:(lia)) as Hp.
    rewrite shr_1_nonneg by (apply Z.div_pos; lia).
    replace (Zpos (Pos.succ p)) with (Zpos p + 1) by lia.
    rewrite sticky_step, Z.add_simpl_r, Z.pow_add_r, Z.div_div by lia. done.
Qed.

(** The rounded quotient is within half a unit of the exact one. *)
Lemma round_shifted m n : 0 ≤ m → 0 < n →
  let q := round_nearest_even (shr_m (shifted m n)) (loc_of_shr_record (shifted m n)) in
  (q = m / 2 ^ n ∨ q = m / 2 ^ n + 1) ∧ 2 * Z.abs (q * 2 ^ n - m) ≤ 2 ^ n.
Proof.
  intros Hm Hn.
  assert (2 ^ n = 2 ^ (n - 1) * 2) as E.
  { rewrite Z.mul_comm, <- Z.pow_succ_r by lia. f_equal. lia. }
  set (h := 2 ^ (n - 1)) in *.
  assert (0 < h) as Hh by (apply Z.pow_pos_nonneg; lia).
  pose proof (Z.div_mod m h ltac:(lia)) as E1.
  pose proof (Z.mod_pos_bound m h Hh) as Hb.
  pose proof (Z.div_mod (m / h) 2 ltac:(lia)) as E2.
  rewrite Zmod_odd, Z.div_div in E2 by lia.
  unfold shifted. fold h. rewrite E.
  set (Q := m / (h * 2)) in *. cbn [shr_m shr_r shr_s loc_of_shr_record].
  destruct (Z.odd (m / h)); destruct (bool_decide_reflect (m mod h ≠ 0)) as [Hs|Hs];
    cbn [round_nearest_even]; try destruct (Z.even Q); nia.
Qed.

Lemma fexp53 x : fexp 53 1024 x = Z.max (x - 53) (-1074).
Proof. unfold fexp, emin. simpl. lia. Qed.

(** A 53-bit mantissa is left alone. *)
Lemma round_aux_53 s m e :
  2 ^ 52 ≤ Zpos m < 2 ^ 53 → -1074 ≤ e ≤ 971 →
  binary_round_aux 53 1024 s (Zpos m) e loc_Exact = S754_finite s m e.
Proof.
  intros Hm He.
  assert (Zpos (digits2_pos m) = 53) as Hd by (apply digits_unique; lia).
  assert (shr_fexp 53 1024 (Zpos m) e loc_Exact =
    ({| shr_m := Zpos m; shr_r := false; shr_s := false |}, e)) as E.
  { unfold shr_fexp. cbn [Zdigits2 shr_record_of_loc]. rewrite Hd, fexp53.
    replace (Z.max _ _ - e) with 0 by lia. done. }
  unfold binary_round_aux. rewrite E. cbn [shr_m loc_of_shr_record round_nearest_even].
  rewrite E. cbn [shr_m].
  change (Z.leb e (Z.sub 1024 53)) with (e <=? 971).
  destruct (Z.leb_spec e 971); [done|lia].
Qed.

(** A longer mantissa is rounded; [t] counts the bits dropped (one more than the
    excess length when the rounding carries into a new binade). *)
Lemma round_aux_spec s m e n :
  0 < n → 2 ^ (52 + n) ≤ Zpos m < 2 ^ (53 + n) → -1074 ≤ e + n → e + n + 1 ≤ 971 →
  ∃ q t, binary_round_aux 53 1024 s (Zpos m) e loc_Exact = S754_finite s q (e + t) ∧
    2 ^ 52 ≤ Zpos q < 2 ^ 53 ∧ n ≤ t ∧ 2 * Z.abs (Zpos q * 2 ^ t - Zpos m) ≤ 2 ^ n.
Proof.
  intros Hn Hm He1 He2.
  assert (Zpos (digits2_pos m) = 53 + n) as Hd.
  { apply digits_unique; [|lia]. by replace (53 + n - 1) with (52 + n) by lia. }
  assert (shr_fexp 53 1024 (Zpos m) e loc_Exact = (shifted (Zpos m) n, e + n)) as E.
  { unfold shr_fexp. cbn [Zdigits2 shr_record_of_loc]. rewrite Hd, fexp53.
    replace (Z.max _ _ - e) with n by lia.
    destruct n as [|n|n]; try lia. unfold shr. by rewrite iter_shr. }
  unfold binary_round_aux at 1. rewrite E.
  destruct (round_shifted (Zpos m) n ltac:(lia) Hn) as [Hq Hr].
  set (q := round_nearest_even _ _) in *.
  rewrite !Z.pow_add_r in Hm by lia.
  pose proof (Z.pow_pos_nonneg 2 n ltac:(lia) ltac:(lia)) as Hp.
  assert (2 ^ 52 ≤ Zpos m / 2 ^ n) by (apply Z.div_le_lower_bound; lia).
  assert (Zpos m / 2 ^ n < 2 ^ 53) by (apply Z.div_lt_upper_bound; lia).
  clearbody q. destruct (decide (q = 2 ^ 53)) as [Hc|Hc].
  - exists (2 ^ 52)%positive, (n + 1).
    rewrite Hc. replace (shr_fexp 53 1024 (2 ^ 53) (e + n) loc_Exact)
      with (shifted (2 ^ 53) 1, e + n + 1).
    + change (shr_m (shifted (2 ^ 53) 1)) with (Zpos (2 ^ 52)).
      change (Z.leb (e + n + 1) (Z.sub 1024 53)) with (e + n + 1 <=? 971).
      destruct (Z.leb_spec (e + n + 1) 971); [|lia].
      split; [f_equal; lia|]. split; [done|]. split; [lia|].
      rewrite Z.pow_add_r by lia. change (Zpos (2 ^ 52)) with (2 ^ 52). rewrite Hc in Hr.
      lia.
    + unfold shr_fexp. change (Zdigits2 (2 ^ 53)) with 54. rewrite fexp53.
      replace (Z.max _ _ - (e + n)) with 1 by lia. done.
  - assert (2 ^ 52 ≤ q < 2 ^ 53) as Hq' by lia.
    destruct q as [|q|q]; try lia. exists q, n.
    assert (Zpos (digits2_pos q) = 53) as Hd' by (apply digits_unique; lia).
    replace (shr_fexp 53 1024 (Zpos q) (e + n) loc_Exact)
      with ({| shr_m := Zpos q; shr_r := false; shr_s := false |}, e + n).
    + cbn [shr_m]. change (Z.leb (e + n) (Z.sub 1024 53)) with (e + n <=? 971).
      destruct (Z.leb_spec (e + n) 971); [|lia]. repeat split; lia.
    + unfold shr_fexp. cbn [Zdigits2 shr_record_of_loc]. rewrite Hd', fexp53.
      replace (Z.max _ _ - (e + n)) with 0 by lia. done.
Qed.

(** The sign only decides the sign of the result. *)
Lemma round_aux_neg s m e l :
  binary_round_aux 53 1024 (negb s) m e l = SFopp (binary_round_aux 53 1024 s m e l).
Proof.
  unfold binary_round_aux. destruct (shr_fexp 53 1024 m e l) as [mrs e'].
  destruct (shr_fexp 53 1024 _ e' loc_Exact) as [mrs' e''].
  destruct (shr_m mrs') as [|p|p]; try done. by destruct (e'' <=? 1024 - 53).
Qed.

Lemma of_int_opp z : z ≠ 0 → of_int (- z) = SFopp (of_int z).
Proof.
  intros Hz. unfold of_int, binary_normalize.
  destruct z as [|z|z]; [done|..]; unfold binary_round; simpl;
    destruct (shl_align _ _ _) as [mz ez].
  - apply (round_aux_neg false).
  - apply (round_aux_neg true).
Qed.

Lemma dmul_opp x y : x ≠ S754_nan → y ≠ S754_nan → dmul (SFopp x) y = SFopp (dmul x y).
Proof.
  intros Hx Hy. unfold dmul, SFmul, SFopp.
  destruct x as [s|s| |s m e], y as [s'|s'| |s' m' e']; try done;
    try (by rewrite negb_xorb_l). rewrite <- negb_xorb_l. apply round_aux_neg.
Qed.

(** ** Exact conversions and products *)

Lemma iter_xO z k : Zpos (Pos.iter xO z k) = Zpos z * 2 ^ Zpos k.
Proof.
  induction k as [|k IH] using Pos.peano_ind; [simpl; lia|].
  rewrite Pos.iter_succ, Pos2Z.inj_succ, Z.pow_succ_r by lia. lia.
Qed.

(** [(double) z] is exact for [0 < z < 2^53]: its mantissa is [z * 2^k]. *)
Lemma of_int_exact z : 0 < z < 2 ^ 53 →
  ∃ m k, of_int z = S754_finite false m (- k) ∧ Zpos m = z * 2 ^ k ∧
    2 ^ 52 ≤ Zpos m < 2 ^ 53 ∧ 0 ≤ k ≤ 52.
Proof.
  intros Hz. destruct z as [|z|z]; try lia.
  set (d := Zpos (digits2_pos z)).
  assert (d = Z.log2 (Zpos z) + 1) as Hd by apply digits2_pos_log2.
  pose proof (Z.log2_spec (Zpos z) ltac:(lia)) as Hl.
  pose proof (Z.log2_nonneg (Zpos z)).
  assert (d ≤ 53) as Hd53.
  { cut (Z.log2 (Zpos z) < 53); [lia|]. apply Z.log2_lt_pow2; lia. }
  assert (2 ^ 52 ≤ Zpos z * 2 ^ (53 - d) < 2 ^ 53) as Hm.
  { replace (Z.log2 (Zpos z)) with (d - 1) in Hl by lia.
    replace (Z.succ (d - 1)) with d in Hl by lia.
    assert (2 ^ 52 = 2 ^ (d - 1) * 2 ^ (53 - d)) as E52
      by (rewrite <- Z.pow_add_r by lia; f_equal; lia).
    assert (2 ^ 53 = 2 ^ d * 2 ^ (53 - d)) as E53
      by (rewrite <- Z.pow_add_r by lia; f_equal; lia).
    rewrite E52, E53. clear E52 E53.
    pose proof (Z.pow_pos_nonneg 2 (53 - d) ltac:(lia) ltac:(lia)). nia. }
  assert (∃ m, shl_align z 0 (d - 53) = (m, d - 53) ∧ Zpos m = Zpos z * 2 ^ (53 - d)) as (m & E & Em).
  { unfold shl_align. destruct (d - 53 - 0) as [|k|k] eqn:Ek; [|lia|].
    - exists z. replace (d - 53) with 0 by lia. split; [done|].
      replace (53 - d) with 0 by lia. lia.
    - exists (Pos.iter xO z k). split; [done|].
      rewrite iter_xO. do 2 f_equal. lia. }
  exists m, (53 - d). unfold of_int, binary_normalize, binary_round. fold d.
  rewrite Z.add_0_r, fexp53. replace (Z.max (d - 53) (-1074)) with (d - 53) by lia.
  rewrite E. rewrite round_aux_53 by lia.
  repeat split; try lia. f_equal. lia.
Qed.

(** The product of an integer below [2^53] and a normal double: half an ulp. *)
Lemma dmul_of_int z c ec :
  0 < z < 2 ^ 53 → 2 ^ 52 ≤ Zpos c < 2 ^ 53 → -900 ≤ ec ≤ 800 →
  ∃ q t, dmul (of_int z) (S754_finite false c ec) = S754_finite false q (ec + t) ∧
    2 ^ 52 ≤ Zpos q < 2 ^ 53 ∧ 0 ≤ t ∧ 2 * Z.abs (Zpos q * 2 ^ t - z * Zpos c) ≤ 2 ^ t.
Proof.
  intros Hz Hc He. destruct (of_int_exact z Hz) as (m & k & -> & Em & Hm & Hk).
  unfold dmul, SFmul. cbn [xorb].
  assert (∃ n, 52 ≤ n ≤ 53 ∧ 2 ^ (52 + n) ≤ Zpos (m * c) < 2 ^ (53 + n)) as (n & Hn & Hmc).
  { rewrite Pos2Z.inj_mul. destruct (decide (Zpos m * Zpos c < 2 ^ 105)).
    - exists 52. split; [lia|]. change (2 ^ (52 + 52)) with (2 ^ 52 * 2 ^ 52). split; [nia|done].
    - exists 53. split; [lia|]. change (2 ^ (53 + 53)) with (2 ^ 53 * 2 ^ 53). split; [lia|nia]. }
  destruct (round_aux_spec false (m * c) (- k + ec) n) as (q & t & -> & Hq & Ht & Hr); [lia..|].
  exists q, (t - k). split; [f_equal; lia|]. split; [done|]. split; [lia|].
  rewrite Pos2Z.inj_mul, Em in Hr.
  assert (2 ^ n ≤ 2 ^ t) by (apply Z.pow_le_mono_r; lia).
  assert (2 ^ t = 2 ^ (t - k) * 2 ^ k) as Et by (rewrite <- Z.pow_add_r by lia; f_equal; lia).
  rewrite Et in *. pose proof (Z.pow_pos_nonneg 2 k ltac:(lia) ltac:(lia)) as Hp.
  replace (Zpos q * (2 ^ (t - k) * 2 ^ k) - z * 2 ^ k * Zpos c)
    with ((Zpos q * 2 ^ (t - k) - z * Zpos c) * 2 ^ k) in Hr by ring.
  rewrite Z.abs_mul, (Z.abs_eq (2 ^ k)) in Hr by lia.
  apply (Z.mul_le_mono_pos_r _ _ (2 ^ k)); lia.
Qed.

(** The bits dropped by a product are bounded by its size. *)
Lemma dropped_bits V zc q t b :
  V = q * 2 ^ t → 2 ^ 52 ≤ q → 0 ≤ t → 2 * Z.abs (V - zc) ≤ 2 ^ t →
  2 * zc < b * (2 ^ 53 - 1) → 2 ^ t < b.
Proof.
  intros -> Hq Ht Hr Hb. pose proof (Z.pow_pos_nonneg 2 t ltac:(lia) Ht). nia.
Qed.

Lemma trunc_scaled q t p : 0 ≤ t → 0 ≤ p →
  trunc (S754_finite false q (- p + t)) = Some (Zpos q * 2 ^ t / 2 ^ p).
Proof.
  intros Ht Hp. unfold trunc, cond_Zopp. f_equal.
  destruct (decide (p ≤ t)).
  - rewrite Z.shiftl_mul_pow2 by lia.
    replace (2 ^ t) with (2 ^ (- p + t) * 2 ^ p) by (rewrite <- Z.pow_add_r by lia; f_equal; lia).
    rewrite Z.mul_assoc, Z.div_mul; [done|]. apply Z.pow_nonzero; lia.
  - rewrite Z.shiftl_div_pow2 by lia.
    replace (2 ^ p) with (2 ^ (- (- p + t)) * 2 ^ t) by (rewrite <- Z.pow_add_r by lia; f_equal; lia).
    rewrite Z.div_mul_cancel_r; [done|apply Z.pow_nonzero; lia..].
Qed.

Lemma to_uint_Some w x t : trunc x = Some t → t ∈u w → to_uint w x = Some t.
Proof. intros E H. unfold to_uint. rewrite E. cbn. by rewrite decide_True. Qed.

Lemma to_int_Some w x t : trunc x = Some t → t ∈i w → to_int w x = Some t.
Proof. intros E H. unfold to_int. rewrite E. cbn. by rewrite decide_True. Qed.

(** Division by a power of two only moves the exponent. *)
Lemma ddiv_pow2 q e e2 :
  2 ^ 52 ≤ Zpos q < 2 ^ 53 → -900 ≤ e ≤ 800 → -60 ≤ e2 ≤ 60 →
  ddiv (S754_finite false q e) (S754_finite false (2 ^ 52) e2) =
  S754_finite false q (e - e2 - 52).
Proof.
  intros Hq He He2. unfold ddiv, SFdiv, SFdiv_core_binary. cbn [Zdigits2].
  rewrite (digits_unique q 53) by lia.
  change (Zpos (digits2_pos (2 ^ 52))) with 53.
  rewrite fexp53.
  replace (Z.min _ _) with (e - e2 - 53) by lia.
  replace (e - e2 - (e - e2 - 53)) with 53 by lia.
  cbn match. replace (Z.div_eucl (Z.shiftl (Zpos q) 53) (Zpos (2 ^ 52))) with (Zpos q * 2, 0).
  - change (new_location (Zpos (2 ^ 52)) 0) with loc_Exact. cbn [xorb].
    change (Zpos q * 2) with (Zpos (q * 2)).
    destruct (round_aux_spec false (q * 2) (e - e2 - 53) 1) as (q' & t & -> & Hq' & Ht & Hr);
      [change (2 ^ (53 + 1)) with (2 ^ 53 * 2); change (2 ^ (52 + 1)) with (2 ^ 52 * 2); lia..|].
    assert (t = 1) as ->.
    { destruct (decide (t = 1)); [done|]. exfalso.
      assert (2 ^ 2 ≤ 2 ^ t) by (apply Z.pow_le_mono_r; lia).
      change (2 ^ 1) with 2 in Hr. change (2 ^ 2) with 4 in *. nia. }
    change (2 ^ 1) with 2 in Hr. assert (q' = q) as -> by lia. f_equal. lia.
  - rewrite Z.shiftl_mul_pow2 by lia.
    pose proof (Z_div_mod (Zpos q * 2 ^ 53) (Zpos (2 ^ 52)) ltac:(lia)) as H.
    destruct (Z.div_eucl _ _) as [a b]. change (Zpos (2 ^ 52)) with (2 ^ 52) in H.
    change (2 ^ 53) with (2 * 2 ^ 52) in H. f_equal; lia.
Qed.

(** The floor of a rounded product [z * c], where [c] approximates [K * 2^p / D]. *)
Lemma floor_approx V z c D K r p t :
  0 < D → 0 ≤ t ≤ p → 0 ≤ z → c * D = K * 2 ^ p + r →
  2 * Z.abs (V - z * c) ≤ 2 ^ t → (2 ^ t | V) →
  D * 2 ^ t + 2 * z * Z.abs r < 2 * 2 ^ p → 0 ≤ r ∨ (z * K) mod D ≠ 0 →
  V / 2 ^ p = z * K / D.
Proof.
  intros HD Ht Hz Hc HV [v Hv] Hsmall Hr.
  pose proof (Z.div_mod (z * K) D ltac:(lia)) as E.
  pose proof (Z.mod_pos_bound (z * K) D HD) as Hs.
  set (f := z * K / D) in *. set (s := (z * K) mod D) in *.
  assert (2 ^ p = 2 ^ (p - t) * 2 ^ t) as Ep by (rewrite <- Z.pow_add_r by lia; f_equal; lia).
  pose proof (Z.pow_pos_nonneg 2 t ltac:(lia) ltac:(lia)) as Ht'.
  pose proof (Z.pow_pos_nonneg 2 (p - t) ltac:(lia) ltac:(lia)) as Hpt.
  assert (z * (c * D) = D * f * 2 ^ p + s * 2 ^ p + z * r) as Ez.
  { rewrite Hc. replace (z * (K * 2 ^ p + r)) with (z * K * 2 ^ p + z * r) by ring.
    rewrite E. ring. }
  assert (Z.abs (2 * D * (V - f * 2 ^ p) - 2 * s * 2 ^ p) < 2 * 2 ^ p) as Hd.
  { assert (Z.abs (z * r) = z * Z.abs r) by (rewrite Z.abs_mul; lia). nia. }
  assert (V - f * 2 ^ p < 2 ^ p) by nia.
  assert (f * 2 ^ p ≤ V) as Hlow.
  { destruct (decide (s = 0)) as [Hs0|]; [|nia].
    destruct Hr as [Hr|Hr]; [|lia].
    assert (f * 2 ^ p ≤ z * c) by nia. rewrite Hv, Ep in *.
    assert (f * 2 ^ (p - t) ≤ v); [|nia].
    assert (2 * (f * 2 ^ (p - t)) * 2 ^ t ≤ (2 * v + 1) * 2 ^ t) by lia. nia. }
  symmetry. apply Z.div_unique with (V - f * 2 ^ p); lia.
Qed.

(** ** Finite results *)

(** The normal doubles of moderate exponent, where nothing over- or underflows. *)
Definition normal (x : double) : Prop :=
  match x with
  | S754_finite false m e => 2 ^ 52 ≤ Zpos m < 2 ^ 53 ∧ -200 ≤ e ≤ 200
  | _ => False
  end.

#[export] Instance normal_dec x : Decision (normal x).
Proof. destruct x as [| | |[]]; simpl; apply _. Defined.

Lemma of_int_normal z : 0 < z < 2 ^ 64 → normal (of_int z).
Proof.
  intros Hz. destruct (decide (z < 2 ^ 53)) as [Hs|Hs].
  { destruct (of_int_exact z ltac:(lia)) as (m & k & -> & _ & Hm & Hk). simpl. lia. }
  destruct z as [|z|z]; try lia.
  set (d := Zpos (digits2_pos z)).
  assert (2 ^ (d - 1) ≤ Zpos z < 2 ^ d) as Hd by (apply digits_bounds; done).
  assert (54 ≤ d ≤ 64) as Hd'.
  { split.
    - cut (53 < d); [lia|]. apply (Z.pow_lt_mono_r_iff 2); lia.
    - cut (d - 1 < 64); [lia|]. apply (Z.pow_lt_mono_r_iff 2); lia. }
  unfold of_int, binary_normalize, binary_round. fold d. rewrite Z.add_0_r, fexp53.
  replace (Z.max (d - 53) (-1074)) with (d - 53) by lia.
  replace (shl_align z 0 (d - 53)) with (z, 0)
    by (unfold shl_align; destruct (d - 53 - 0) eqn:?; [done|done|lia]).
  destruct (round_aux_spec false z 0 (d - 53)) as (q & t & -> & Hq & Ht & Hr).
  - lia.
  - replace (52 + (d - 53)) with (d - 1) by lia. by replace (53 + (d - 53)) with d by lia.
  - lia.
  - lia.
  - simpl. split; [done|]. rewrite Z.add_0_l. split; [lia|].
    apply Z.le_trans with 64; [|lia]. apply Z.lt_le_incl, (Z.pow_lt_mono_r_iff 2); [lia|lia|].
    assert (2 ^ (d - 53) ≤ 2 ^ 11) by (apply Z.pow_le_mono_r; lia).
    assert (Zpos q * 2 ^ t < 2 ^ 65) by lia.
    pose proof (Z.pow_pos_nonneg 2 t ltac:(lia) ltac:(lia)). nia.
Qed.

Lemma dmul_normal_finite x y : normal x → normal y → ∃ m e, dmul x y = S754_finite false m e.
Proof.
  destruct x as [| | |[] m e]; try done. destruct y as [| | |[] m' e']; try done.
  intros [Hm He] [Hm' He']. unfold dmul, SFmul. cbn [xorb].
  destruct (decide (Zpos m * Zpos m' < 2 ^ 105)).
  - destruct (round_aux_spec false (m * m') (e + e') 52) as (q & t & -> & _); [lia| |lia|lia|eauto].
    rewrite Pos2Z.inj_mul. change (2 ^ (52 + 52)) with (2 ^ 52 * 2 ^ 52). split; [nia|done].
  - destruct (round_aux_spec false (m * m') (e + e') 53) as (q & t & -> & _); [lia| |lia|lia|eauto].
    rewrite Pos2Z.inj_mul. change (2 ^ (53 + 53)) with (2 ^ 53 * 2 ^ 53). split; [lia|nia].
Qed.

(** A rounding of a positive value is never a NaN. *)
Lemma shr_fexp_nonneg m e : 0 ≤ m → 0 ≤ shr_m (shr_fexp 53 1024 m e loc_Exact).1.
Proof.
  intros Hm. unfold shr_fexp, shr. cbn [shr_record_of_loc].
  destruct (_ - e) as [|p|p]; [done| |done]. cbn [fst]. rewrite iter_shr by done.
  apply Z.div_pos; [done|]. apply Z.pow_pos_nonneg; lia.
Qed.

Lemma round_aux_not_nan s m e : binary_round_aux 53 1024 s (Zpos m) e loc_Exact ≠ S754_nan.
Proof.
  unfold binary_round_aux.
  pose proof (shr_fexp_nonneg (Zpos m) e ltac:(lia)) as H1.
  destruct (shr_fexp 53 1024 (Zpos m) e loc_Exact) as [mrs e']. cbn [fst] in H1.
  assert (0 ≤ round_nearest_even (shr_m mrs) (loc_of_shr_record mrs)) as H2.
  { destruct (loc_of_shr_record mrs) as [|[]]; simpl; try lia. destruct (Z.even _); lia. }
  pose proof (shr_fexp_nonneg _ e' H2) as H3.
  destruct (shr_fexp 53 1024 _ e' loc_Exact) as [mrs' e'']. cbn [fst] in H3.
  destruct (shr_m mrs'); [done| |lia]. by destruct (e'' <=? 1024 - 53).
Qed.

(** ** Comparison *)

Lemma dabs_opp x : dabs (SFopp x) = dabs x.
Proof. by destruct x. Qed.

Lemma binary_normalize_opp z e : z ≠ 0 →
  binary_normalize 53 1024 (- z) e false = SFopp (binary_normalize 53 1024 z e false).
Proof.
  intros Hz. destruct z as [|z|z]; [done|..]; simpl; unfold binary_round;
    destruct (shl_align _ _ _) as [mz ez].
  - apply (round_aux_neg false).
  - apply (round_aux_neg true).
Qed.

Lemma dabs_dsub_comm x y : dabs (dsub x y) = dabs (dsub y x).
Proof.
  unfold dsub, SFsub.
  destruct x as [s|s| |s m e], y as [s'|s'| |s' m' e']; try done;
    try (destruct s, s'; done).
  rewrite (Z.min_comm e'). set (a := cond_Zopp s _). set (b := cond_Zopp s' _).
  destruct (decide (a - b = 0)) as [E|E].
  - by replace (b - a) with (a - b) by lia.
  - replace (b - a) with (- (a - b)) by lia. by rewrite binary_normalize_opp, dabs_opp.
Qed.

Lemma SFcompare_abs_antisym x y : SFcompare (dabs y) (dabs x) = CompOpp <$> SFcompare (dabs x) (dabs y).
Proof.
  destruct x as [s|s| |s m e], y as [s'|s'| |s' m' e']; try done. simpl.
  rewrite (Z.compare_antisym e e'). destruct (Z.compare_spec e e'); simpl; try done.
  f_equal. exact (eq_sym (Pos.compare_cont_antisym m m' Eq)).
Qed.

Lemma SFcompare_abs_eq x y : SFcompare (dabs x) (dabs y) = Some Eq → dabs x = dabs y.
Proof.
  destruct x as [s|s| |s m e], y as [s'|s'| |s' m' e']; try done. simpl.
  destruct (Z.compare_spec e e') as [->| |]; try done. intros [= H].
  change (Pos.compare_cont Eq m m') with (Pos.compare m m') in H.
  apply Pos.compare_eq in H as ->. done.
Qed.

Lemma dmax_abs_comm x y : x ≠ S754_nan → y ≠ S754_nan →
  dmax (dabs x) (dabs y) = dmax (dabs y) (dabs x).
Proof.
  intros Hx Hy. unfold dmax, SFltb. rewrite (SFcompare_abs_antisym x y).
  destruct (SFcompare (dabs x) (dabs y)) as [[]|] eqn:E; simpl; try done.
  - by apply SFcompare_abs_eq.
  - exfalso. destruct x, y; done.
Qed.
