(* ===== verification/Text.v ===== *)
(** * Text: the C++ string operations the program uses

    Decimal output of integers ([std::to_string], [operator<<]), fixed notation of
    a double with the default precision 6 ([std::fixed]), [strtol] in base 10,
    [std::stoi], [find]/[rfind]/[substr] of [std::string]. *)

From Stdlib Require Export Ascii.
From S2P Require Import Prelude Double.

Abbreviation string := String.string.
#[global] Open Scope string_scope.
#[global] Open Scope list_scope.
#[global] Arguments String.append : simpl nomatch.
#[global] Open Scope Z_scope.

Abbreviation nl := (String (ascii_of_nat 10) EmptyString).

(** ** Decimal output *)

Definition digit_char (d : Z) : ascii := ascii_of_N (Z.to_N (48 + d)).

Definition char_code (c : ascii) : Z := Z.of_N (N_of_ascii c).

(** The decimal digits of [n ≥ 0] in front of [acc]; [fuel] bounds their number. *)
Fixpoint dec_go (fuel : nat) (n : Z) (acc : string) : string :=
  match fuel with
  | O => acc
  | S k => let acc' := String (digit_char (n mod 10)) acc in
           if n <? 10 then acc' else dec_go k (n / 10) acc'
  end.

Definition to_dec (n : Z) : string := dec_go (S (Z.to_nat (Z.log2 n))) n "".

Definition to_string (z : Z) : string :=
  if z <? 0 then "-" +:+ to_dec (- z) else to_dec z.

(** Exactly [k] digits, zero-padded on the left. *)
Fixpoint dec_pad (k : nat) (n : Z) : string :=
  match k with
  | O => ""
  | S k => dec_pad k (n / 10) +:+ String (digit_char (n mod 10)) ""
  end.

(** [a / b] rounded to the nearest integer, ties to even. *)
Definition rne_div (a b : Z) : Z :=
  let q := a / b in
  let r := a mod b in
  if 2 * r <? b then q
  else if b <? 2 * r then q + 1
  else if Z.even q then q else q + 1.

(** [os << std::fixed << x]: six digits after the point, the exact binary value
    rounded to nearest. *)
Definition print_fixed6 (x : double) : string :=
  let put s n := (if s : bool then "-" else "") +:+ to_dec (n / 10 ^ 6) +:+ "." +:+ dec_pad 6 (n mod 10 ^ 6) in
  match x with
  | S754_zero s => put s 0
  | S754_infinity s => (if s then "-" else "") +:+ "inf"
  | S754_nan => "nan"
  | S754_finite s m e =>
      put s (if 0 <=? e then Zpos m * 2 ^ e * 10 ^ 6 else rne_div (Zpos m * 10 ^ 6) (2 ^ (- e)))
  end.

(** ** strtol and stoi *)

(** The horizontal and vertical white space [isspace] accepts. *)
Definition is_space (c : ascii) : bool :=
  let n := char_code c in (n =? 32) || ((9 <=? n) && (n <=? 13)).

Definition is_digit (c : ascii) : bool :=
  let n := char_code c in (48 <=? n) && (n <=? 57).

Fixpoint skip_spaces (s : string) : string :=
  match s with
  | String c t => if is_space c then skip_spaces t else s
  | EmptyString => s
  end.

(** Accumulate digits; the rest of the string starts at the first non-digit. *)
Fixpoint digits_value (v : Z) (s : string) : Z * string :=
  match s with
  | String c t => if is_digit c then digits_value (10 * v + (char_code c - 48)) t else (v, s)
  | EmptyString => (v, s)
  end.

Definition starts_with_digit (s : string) : bool :=
  match s with String c _ => is_digit c | EmptyString => false end.

(** A [std::string] passed through [c_str()] ends at its first NUL. *)
Fixpoint c_str (s : string) : string :=
  match s with
  | String c t => if char_code c =? 0 then "" else String c (c_str t)
  | EmptyString => ""
  end.

Definition LONG_MAX : Z := 2 ^ 63 - 1.
Definition LONG_MIN : Z := - 2 ^ 63.

(** [strtol(s, &end, 10)]: the value, clamped to [long], and the text at [end];
    [end] is [s] itself when there is no digit. *)
Definition strtol (s : string) : Z * string :=
  let t := skip_spaces s in
  let '(neg, u) :=
    match t with
    | String c u => if Ascii.eqb c "-" then (true, u) else if Ascii.eqb c "+" then (false, u) else (false, t)
    | EmptyString => (false, t)
    end in
  if starts_with_digit u then
    let '(v, rest) := digits_value 0 u in
    (Z.max LONG_MIN (Z.min LONG_MAX (if neg : bool then - v else v)), rest)
  else (0, s).

(** What [std::stoi] throws. *)
Inductive stoi_error := invalid_argument | out_of_range.

#[export] Instance stoi_error_eq_dec : EqDecision stoi_error.
Proof. solve_decision. Defined.

Definition stoi (s : string) : stoi_error + Z :=
  let s := c_str s in
  let '(v, rest) := strtol s in
  if String.eqb rest s then inl invalid_argument
  else if decide (v ∈i 32) then inr v else inl out_of_range.

(** ** find, rfind and substr *)

Fixpoint str_find (c : ascii) (s : string) : option nat :=
  match s with
  | String d t => if Ascii.eqb c d then Some O else S <$> str_find c t
  | EmptyString => None
  end.

Fixpoint str_rfind (c : ascii) (s : string) : option nat :=
  match s with
  | String d t =>
      match str_rfind c t with
      | Some n => Some (S n)
      | None => if Ascii.eqb c d then Some O else None
      end
  | EmptyString => None
  end.

Fixpoint str_take (n : nat) (s : string) : string :=
  match n, s with
  | S n, String c t => String c (str_take n t)
  | _, _ => ""
  end.

Fixpoint str_drop (n : nat) (s : string) : string :=
  match n, s with
  | S n, String c t => str_drop n t
  | O, _ => s
  | _, EmptyString => ""
  end.

(** [os << a << sep << b << sep << ...] *)
Fixpoint join (sep : ascii) (fields : list string) : string :=
  match fields with
  | [] => ""
  | [f] => f
  | f :: rest => f +:+ String sep (join sep rest)
  end.

(** Occurrences of a character. *)
Fixpoint str_count (c : ascii) (s : string) : nat :=
  match s with
  | String d t => (if Ascii.eqb c d then 1 else 0) + str_count c t
  | EmptyString => 0
  end.

(** ** Lemmas: appending, searching *)

Lemma sapp_assoc (a b c : string) : (a +:+ b) +:+ c = a +:+ (b +:+ c).
Proof. induction a; simpl; congruence. Qed.

Lemma sapp_nil_r (a : string) : a +:+ "" = a.
Proof. induction a; simpl; congruence. Qed.

Lemma sapp_length (a b : string) : String.length (a +:+ b) = (String.length a + String.length b)%nat.
Proof. induction a; simpl; congruence. Qed.

Lemma str_find_app c a b : str_find c a = None → str_find c (a +:+ String c b) = Some (String.length a).
Proof.
  induction a as [|d a IH]; simpl; [by rewrite Ascii.eqb_refl|].
  destruct (Ascii.eqb c d); [done|]. destruct (str_find c a); [done|]. intros _. by rewrite IH.
Qed.

Lemma str_rfind_app c a b : str_rfind c b = None → str_rfind c (a +:+ String c b) = Some (String.length a).
Proof.
  intros Hb. induction a as [|d a IH]; simpl; [by rewrite Hb, Ascii.eqb_refl|]. by rewrite IH.
Qed.

Lemma str_take_app a b : str_take (String.length a) (a +:+ b) = a.
Proof. induction a; simpl; congruence. Qed.

Lemma str_drop_app a c b : str_drop (S (String.length a)) (a +:+ String c b) = b.
Proof. induction a as [|d a IH]; [done|]. exact IH. Qed.

Lemma str_find_Some c s n : str_find c s = Some n →
  s = str_take n s +:+ String c (str_drop (S n) s) ∧ str_find c (str_take n s) = None.
Proof.
  revert n. induction s as [|d s IH]; intros n; [done|]. cbn [str_find].
  destruct (Ascii.eqb_spec c d) as [<-|Hne]; [by intros [= <-]|].
  destruct (str_find c s) as [k|] eqn:E; [|done]. intros [= <-].
  destruct (IH k eq_refl) as [H1 H2]. simpl. split; [by f_equal|].
  destruct (Ascii.eqb_spec c d); [done|]. by rewrite H2.
Qed.

Lemma str_rfind_Some c s n : str_rfind c s = Some n →
  s = str_take n s +:+ String c (str_drop (S n) s) ∧ str_rfind c (str_drop (S n) s) = None.
Proof.
  revert n. induction s as [|d s IH]; intros n; [done|]. cbn [str_rfind].
  destruct (str_rfind c s) as [k|] eqn:E.
  - intros [= <-]. destruct (IH k eq_refl) as [H1 H2]. simpl. split; [by f_equal|exact H2].
  - destruct (Ascii.eqb_spec c d) as [<-|Hne]; [|done]. intros [= <-]. done.
Qed.

(** ** Lemmas: digits *)

Lemma digit_cases d : 0 ≤ d < 10 →
  d = 0 ∨ d = 1 ∨ d = 2 ∨ d = 3 ∨ d = 4 ∨ d = 5 ∨ d = 6 ∨ d = 7 ∨ d = 8 ∨ d = 9.
Proof. lia. Qed.

Ltac digit_case H := destruct (digit_cases _ H) as [->|[->|[->|[->|[->|[->|[->|[->|[->| ->]]]]]]]]].

Lemma char_code_digit d : 0 ≤ d < 10 → char_code (digit_char d) = 48 + d.
Proof. intros H. by digit_case H. Qed.

Lemma is_digit_digit d : 0 ≤ d < 10 → is_digit (digit_char d) = true.
Proof. intros H. by digit_case H. Qed.

(** What holds of the tail and survives a leading digit holds of a printed number. *)
Lemma dec_go_ind (P : string → Prop) fuel n acc :
  (∀ d s, 0 ≤ d < 10 → P s → P (String (digit_char d) s)) → P acc → P (dec_go fuel n acc).
Proof.
  intros Hs. revert n acc. induction fuel as [|fuel IH]; intros n acc Hacc; [done|]. simpl.
  assert (P (String (digit_char (n mod 10)) acc)) by (apply Hs; [apply Z.mod_pos_bound; lia|done]).
  destruct (n <? 10); auto.
Qed.

Lemma dec_go_starts fuel n acc : starts_with_digit (dec_go (S fuel) n acc) = true.
Proof.
  simpl. set (acc' := String (digit_char (n mod 10)) acc).
  assert (starts_with_digit acc' = true) as H by (apply is_digit_digit, Z.mod_pos_bound; lia).
  destruct (n <? 10); [done|].
  apply (dec_go_ind (λ s, starts_with_digit s = true)); [|done].
  intros d s Hd _. by apply is_digit_digit.
Qed.

Lemma to_dec_starts n : starts_with_digit (to_dec n) = true.
Proof. apply dec_go_starts. Qed.

Lemma digits_value_go fuel n acc v : 0 ≤ n < 10 ^ Z.of_nat fuel → (0 < fuel)%nat →
  ∃ k, digits_value v (dec_go fuel n acc) = digits_value (v * 10 ^ k + n) acc ∧ 0 ≤ k.
Proof.
  revert n acc. induction fuel as [|fuel IH]; intros n acc Hn Hf; [lia|]. cbn [dec_go].
  pose proof (Z.mod_pos_bound n 10 ltac:(lia)) as Hd.
  pose proof (Z.div_mod n 10 ltac:(lia)) as E.
  assert (∀ w, digits_value w (String (digit_char (n mod 10)) acc) =
    digits_value (10 * w + n mod 10) acc) as Hstep.
  { intros w. cbn [digits_value]. rewrite is_digit_digit, char_code_digit by done. f_equal. lia. }
  destruct (Z.ltb_spec n 10) as [Hlt|Hge].
  - exists 1. rewrite Hstep, Z.mod_small by lia. split; [f_equal; lia|lia].
  - rewrite Nat2Z.inj_succ, Z.pow_succ_r in Hn by lia.
    assert (0 < fuel)%nat by (destruct fuel; simpl in *; lia).
    destruct (IH (n / 10) (String (digit_char (n mod 10)) acc)) as (k & -> & Hk);
      [split; [apply Z.div_pos; lia|apply Z.div_lt_upper_bound; lia]|done|].
    exists (k + 1). rewrite Hstep, Z.pow_add_r by lia. split; [f_equal; lia|lia].
Qed.

Lemma digits_value_to_dec n : 0 ≤ n → digits_value 0 (to_dec n) = (n, "").
Proof.
  intros Hn. unfold to_dec.
  destruct (digits_value_go (S (Z.to_nat (Z.log2 n))) n "" 0) as (k & -> & _); [|lia|done].
  pose proof (Z.log2_nonneg n). rewrite Nat2Z.inj_succ, Z2Nat.id by done. split; [done|].
  destruct (decide (n = 0)) as [->|]; [done|].
  apply Z.lt_le_trans with (2 ^ Z.succ (Z.log2 n)).
  - apply Z.log2_spec. lia.
  - apply Z.pow_le_mono_l. lia.
Qed.

(** Digits are neither space, sign, colon nor NUL. *)
Lemma not_digit_ne c d : is_digit c = false → 0 ≤ d < 10 → Ascii.eqb c (digit_char d) = false.
Proof.
  intros Hc Hd. destruct (Ascii.eqb_spec c (digit_char d)) as [->|]; [|done].
  by rewrite is_digit_digit in Hc.
Qed.

Lemma str_find_to_dec c n : is_digit c = false → str_find c (to_dec n) = None.
Proof.
  intros Hc. apply (dec_go_ind (λ s, str_find c s = None)); [|done].
  intros d s Hd Hs. cbn [str_find]. by rewrite not_digit_ne, Hs.
Qed.

Lemma str_rfind_to_dec c n : is_digit c = false → str_rfind c (to_dec n) = None.
Proof.
  intros Hc. apply (dec_go_ind (λ s, str_rfind c s = None)); [|done].
  intros d s Hd Hs. cbn [str_rfind]. by rewrite Hs, not_digit_ne.
Qed.

Lemma c_str_to_dec n : c_str (to_dec n) = to_dec n.
Proof.
  apply (dec_go_ind (λ s, c_str s = s)); [|done].
  intros d s Hd Hs. cbn [c_str]. rewrite Hs, char_code_digit by done.
  destruct (Z.eqb_spec (48 + d) 0); [lia|done].
Qed.

Lemma skip_spaces_digit s : starts_with_digit s = true → skip_spaces s = s.
Proof.
  destruct s as [|c s]; [done|]. cbn [starts_with_digit skip_spaces]. unfold is_digit, is_space.
  intros H. destruct (Z.eqb_spec (char_code c) 32), (Z.leb_spec 9 (char_code c)),
    (Z.leb_spec (char_code c) 13), (Z.leb_spec 48 (char_code c)); simpl in *; lia || done.
Qed.

Lemma strtol_digit s : starts_with_digit s = true →
  strtol s = (Z.max LONG_MIN (Z.min LONG_MAX (digits_value 0 s).1), (digits_value 0 s).2).
Proof.
  intros Hs. unfold strtol. rewrite skip_spaces_digit by done.
  destruct s as [|c s]; [done|]. cbn [starts_with_digit] in Hs.
  destruct (Ascii.eqb_spec c "-") as [->|]; [done|].
  destruct (Ascii.eqb_spec c "+") as [->|]; [done|].
  cbn [starts_with_digit]. rewrite Hs. by destruct (digits_value 0 (String c s)).
Qed.

Lemma strtol_to_dec n : 0 ≤ n ≤ LONG_MAX → strtol (to_dec n) = (n, "").
Proof.
  intros Hn. rewrite strtol_digit by apply to_dec_starts.
  rewrite digits_value_to_dec by lia. cbn [fst snd]. f_equal. unfold LONG_MIN. lia.
Qed.

Lemma stoi_to_dec n : 0 ≤ n < 2 ^ 31 → stoi (to_dec n) = inr n.
Proof.
  intros Hn. unfold stoi. rewrite c_str_to_dec, strtol_to_dec by (unfold LONG_MAX; lia).
  pose proof (to_dec_starts n) as H. destruct (to_dec n); [done|]. cbn [String.eqb].
  rewrite decide_True; [done|]. unfold in_i. lia.
Qed.

Lemma to_dec_inj n m : 0 ≤ n → 0 ≤ m → to_dec n = to_dec m → n = m.
Proof.
  intros Hn Hm E. apply (f_equal (digits_value 0)) in E.
  rewrite !digits_value_to_dec in E by done. by simplify_eq.
Qed.

(** ** Lemmas: rounding and fixed notation *)

Lemma rne_div_unique a b n : 0 < b → 2 * Z.abs (a - b * n) < b → rne_div a b = n.
Proof.
  intros Hb Hn. unfold rne_div.
  pose proof (Z.div_mod a b ltac:(lia)) as E. pose proof (Z.mod_pos_bound a b Hb).
  destruct (Z.ltb_spec (2 * (a mod b)) b); [nia|].
  destruct (Z.ltb_spec b (2 * (a mod b))); [nia|].
  exfalso. assert (2 * (a - b * n) = b * (2 * (a / b - n) + 1)) by lia.
  destruct (decide (n ≤ a / b)); nia.
Qed.

Lemma rne_div_error a b : 0 < b → 2 * Z.abs (a - b * rne_div a b) ≤ b.
Proof.
  intros Hb. unfold rne_div.
  pose proof (Z.div_mod a b ltac:(lia)) as E. pose proof (Z.mod_pos_bound a b Hb).
  destruct (Z.ltb_spec (2 * (a mod b)) b); [nia|].
  destruct (Z.ltb_spec b (2 * (a mod b))); [nia|].
  destruct (Z.even (a / b)); nia.
Qed.

(** The decimal text of [z] units of [10^-6]. *)
Definition micro_decimal (z : Z) : string :=
  (if z <? 0 then "-" else "") +:+
  to_dec (Z.abs z / 10 ^ 6) +:+ "." +:+ dec_pad 6 (Z.abs z mod 10 ^ 6).

(** [1e-6] as a double: [5^-6 2^-6] rounded to 53 bits. *)
Lemma dlit_micro : dlit 1 1000000 = S754_finite false 4722366482869645 (-72).
Proof. vm_compute. reflexivity. Qed.

Lemma print_fixed6_micro_pos z : 0 < z < 2 ^ 51 →
  ∃ m e, dmul (of_int z) (dlit 1 1000000) = S754_finite false m e ∧
    (if 0 <=? e then Zpos m * 2 ^ e * 10 ^ 6 else rne_div (Zpos m * 10 ^ 6) (2 ^ (- e))) = z.
Proof.
  intros Hz. rewrite dlit_micro.
  destruct (dmul_of_int z 4722366482869645 (-72)) as (q & t & E & Hq & Ht & Hr); [lia..|].
  exists q, (-72 + t). split; [exact E|].
  assert (2 ^ t < 2 ^ 52) as Ht2.
  { apply (dropped_bits _ _ (Zpos q) t (2 ^ 52) eq_refl ltac:(lia) Ht Hr). lia. }
  assert (t < 52) by (apply (Z.pow_lt_mono_r_iff 2); lia).
  destruct (Z.leb_spec 0 (-72 + t)); [lia|].
  replace (- (-72 + t)) with (72 - t) by lia.
  apply rne_div_unique; [apply Z.pow_pos_nonneg; lia|].
  assert (2 ^ 72 = 2 ^ (72 - t) * 2 ^ t) as Ep by (rewrite <- Z.pow_add_r by lia; f_equal; lia).
  pose proof (Z.pow_pos_nonneg 2 t ltac:(lia) ltac:(lia)) as Hp.
  apply (Z.mul_lt_mono_pos_r (2 ^ t)); [done|]. rewrite <- Ep.
  assert (Z.abs (Zpos q * 10 ^ 6 - 2 ^ (72 - t) * z) * 2 ^ t =
          Z.abs (Zpos q * 2 ^ t * 10 ^ 6 - 2 ^ 72 * z)) as Ea.
  { rewrite Ep. rewrite <- (Z.abs_eq (2 ^ t)) at 1 by lia. rewrite <- Z.abs_mul. f_equal. ring. }
  rewrite <- Z.mul_assoc, Ea.
  assert (2 ^ t ≤ 2 ^ 51) by (apply Z.pow_le_mono_r; lia). lia.
Qed.

(** A count of nanoseconds below [2^51] (26 days), times [1e-6], prints in fixed
    notation as its exact decimal value in milliseconds. *)
Lemma print_fixed6_micro z : - 2 ^ 51 < z < 2 ^ 51 →
  print_fixed6 (dmul (of_int z) (dlit 1 1000000)) = micro_decimal z.
Proof.
  intros Hz. unfold micro_decimal. destruct (Z.ltb_spec z 0) as [Hneg|Hpos].
  - destruct (print_fixed6_micro_pos (- z)) as (m & e & E & Em); [lia|].
    replace z with (- (- z)) at 1 by lia.
    assert (of_int (- z) ≠ S754_nan).
    { destruct (of_int_exact (- z)) as (? & ? & -> & _); [lia|done]. }
    rewrite of_int_opp, dmul_opp, E by (lia || done || by rewrite dlit_micro).
    cbn [SFopp negb print_fixed6]. rewrite Em, Z.abs_neq by lia. done.
  - destruct (decide (z = 0)) as [->|]; [rewrite dlit_micro; vm_compute; reflexivity|].
    destruct (print_fixed6_micro_pos z) as (m & e & E & Em); [lia|].
    rewrite E. cbn [print_fixed6]. rewrite Em, Z.abs_eq by lia. done.
Qed.

(** ** Lemmas: separators *)

Lemma str_count_app c a b : str_count c (a +:+ b) = (str_count c a + str_count c b)%nat.
Proof. induction a as [|d a IH]; simpl; [done|]. rewrite IH. lia. Qed.

Lemma str_count_join c fields :
  Forall (λ f, str_count c f = 0%nat) fields → str_count c (join c fields) = pred (length fields).
Proof.
  induction 1 as [|f fields Hf Hfs IH]; [done|]. destruct fields as [|g fields]; [exact Hf|].
  change (join c (f :: g :: fields)) with (f +:+ String c (join c (g :: fields))).
  rewrite str_count_app, Hf. cbn [str_count]. rewrite Ascii.eqb_refl, IH. done.
Qed.

(** A separator that no printed number contains. *)
Definition number_sep (c : ascii) : bool :=
  negb (is_digit c) && negb (Ascii.eqb c "-") && negb (Ascii.eqb c ".").

Lemma number_sep_spec c : number_sep c = true →
  is_digit c = false ∧ Ascii.eqb c "-" = false ∧ Ascii.eqb c "." = false.
Proof.
  unfold number_sep. destruct (is_digit c), (Ascii.eqb c "-"), (Ascii.eqb c "."); done.
Qed.

Lemma str_count_to_dec c n : is_digit c = false → str_count c (to_dec n) = 0%nat.
Proof.
  intros Hc. apply (dec_go_ind (λ s, str_count c s = 0%nat)); [|done].
  intros d s Hd Hs. cbn [str_count]. by rewrite not_digit_ne, Hs.
Qed.

Lemma str_count_dec_pad c k n : is_digit c = false → str_count c (dec_pad k n) = 0%nat.
Proof.
  intros Hc. revert n. induction k as [|k IH]; intros n; [done|]. cbn [dec_pad].
  rewrite str_count_app, IH. cbn [str_count].
  by rewrite not_digit_ne by (done || apply Z.mod_pos_bound; lia).
Qed.

Lemma str_count_to_string c z : number_sep c = true → str_count c (to_string z) = 0%nat.
Proof.
  intros (Hd & Hm & _)%number_sep_spec. unfold to_string. destruct (z <? 0).
  - rewrite str_count_app, str_count_to_dec by done. cbn [str_count]. by rewrite Hm.
  - by apply str_count_to_dec.
Qed.

Lemma str_count_micro_decimal c z : number_sep c = true → str_count c (micro_decimal z) = 0%nat.
Proof.
  intros (Hd & Hm & Hp)%number_sep_spec. unfold micro_decimal.
  rewrite !str_count_app, str_count_to_dec, str_count_dec_pad by done.
  cbn [str_count]. rewrite Hp. destruct (z <? 0); cbn [str_count]; by rewrite ?Hm.
Qed.

#[export] Hint Resolve str_count_to_string str_count_micro_decimal : twamp.
