(* ===== verification/Packets.v ===== *)
(** * Packets: the TWAMP-Test packet formats of [include/packets.h]

    The structures are used as they lie in memory: the sockets send and receive
    the object representation of a [ClientPacket] or [ReflectorPacket].  A record
    holds the fields' values; [client_bytes] and [reflector_bytes] are the object
    representations (no padding between fields: offsets 0, 4, 12, 14 and 0, 4, 12,
    14, 16, 24, 28, 36, 38, 40, 41, 42), [client_of_bytes] and
    [reflector_of_bytes] read a buffer through a pointer to the structure. *)

From S2P Require Import Prelude.

Definition TST_PKT_SIZE : Z := 1472.
Definition REFLECTOR_HEADER_SIZE : Z := 42.

Record Timestamp := mkTimestamp { integer : Z; fractional : Z }.

#[export] Instance Timestamp_eq_dec : EqDecision Timestamp.
Proof. solve_decision. Defined.

Record ClientPacket := mkClientPacket {
  seq_number : Z;
  timestamp : Timestamp;
  timestamp_error_estimate : Z;
  padding : list Z;
}.

Record ReflectorPacket := mkReflectorPacket {
  r_seq_number : Z;
  r_timestamp : Timestamp;
  r_timestamp_error_estimate : Z;
  mbz1 : list Z;
  receive_timestamp : Timestamp;
  sender_seq_number : Z;
  sender_timestamp : Timestamp;
  sender_error_estimate : Z;
  mbz2 : list Z;
  sender_ttl : Z;
  sender_tos : Z;
  r_padding : list Z;
}.

(** The default member initialisers. *)
Definition Timestamp_init : Timestamp := mkTimestamp 0 0.

Definition ClientPacket_init : ClientPacket :=
  mkClientPacket 0 Timestamp_init 0 (replicate (Z.to_nat (TST_PKT_SIZE - 14)) 0).

Definition ReflectorPacket_init : ReflectorPacket :=
  mkReflectorPacket 0 Timestamp_init 0 [0; 0] Timestamp_init 0 Timestamp_init 0 [0; 0] 0 0
    (replicate (Z.to_nat (TST_PKT_SIZE - REFLECTOR_HEADER_SIZE)) 0).

(** ** Object representations *)

Definition timestamp_bytes (ts : Timestamp) : list Z :=
  le_bytes 4 (integer ts) ++ le_bytes 4 (fractional ts).

Definition client_bytes (p : ClientPacket) : list Z :=
  le_bytes 4 (seq_number p) ++ timestamp_bytes (timestamp p) ++
  le_bytes 2 (timestamp_error_estimate p) ++ padding p.

Definition reflector_bytes (p : ReflectorPacket) : list Z :=
  le_bytes 4 (r_seq_number p) ++ timestamp_bytes (r_timestamp p) ++
  le_bytes 2 (r_timestamp_error_estimate p) ++ mbz1 p ++
  timestamp_bytes (receive_timestamp p) ++
  le_bytes 4 (sender_seq_number p) ++ timestamp_bytes (sender_timestamp p) ++
  le_bytes 2 (sender_error_estimate p) ++ mbz2 p ++
  le_bytes 1 (sender_ttl p) ++ le_bytes 1 (sender_tos p) ++ r_padding p.

(** The [n] bytes at offset [off]. *)
Definition field (off n : nat) (bs : list Z) : list Z := take n (drop off bs).

Definition timestamp_of_bytes (bs : list Z) : Timestamp :=
  mkTimestamp (le_int (field 0 4 bs)) (le_int (field 4 4 bs)).

Definition client_of_bytes (bs : list Z) : ClientPacket := {|
  seq_number := le_int (field 0 4 bs);
  timestamp := timestamp_of_bytes (field 4 8 bs);
  timestamp_error_estimate := le_int (field 12 2 bs);
  padding := drop 14 bs;
|}.

Definition reflector_of_bytes (bs : list Z) : ReflectorPacket := {|
  r_seq_number := le_int (field 0 4 bs);
  r_timestamp := timestamp_of_bytes (field 4 8 bs);
  r_timestamp_error_estimate := le_int (field 12 2 bs);
  mbz1 := field 14 2 bs;
  receive_timestamp := timestamp_of_bytes (field 16 8 bs);
  sender_seq_number := le_int (field 24 4 bs);
  sender_timestamp := timestamp_of_bytes (field 28 8 bs);
  sender_error_estimate := le_int (field 36 2 bs);
  mbz2 := field 38 2 bs;
  sender_ttl := le_int (field 40 1 bs);
  sender_tos := le_int (field 41 1 bs);
  r_padding := drop 42 bs;
|}.

(** ** Well-formed packets: every field in the range of its type *)

Definition wf_timestamp (ts : Timestamp) : Prop :=
  integer ts ∈u 32 ∧ fractional ts ∈u 32.

Record wf_client (p : ClientPacket) : Prop := {
  wf_seq : seq_number p ∈u 32;
  wf_ts : wf_timestamp (timestamp p);
  wf_err : timestamp_error_estimate p ∈u 16;
  wf_pad : bytes (padding p);
  wf_pad_len : Z.of_nat (length (padding p)) = TST_PKT_SIZE - 14;
}.

Record wf_reflector (p : ReflectorPacket) : Prop := {
  wf_r_seq : r_seq_number p ∈u 32;
  wf_r_ts : wf_timestamp (r_timestamp p);
  wf_r_err : r_timestamp_error_estimate p ∈u 16;
  wf_mbz1 : bytes (mbz1 p) ∧ length (mbz1 p) = 2%nat;
  wf_recv_ts : wf_timestamp (receive_timestamp p);
  wf_sender_seq : sender_seq_number p ∈u 32;
  wf_sender_ts : wf_timestamp (sender_timestamp p);
  wf_sender_err : sender_error_estimate p ∈u 16;
  wf_mbz2 : bytes (mbz2 p) ∧ length (mbz2 p) = 2%nat;
  wf_ttl : sender_ttl p ∈u 8;
  wf_tos : sender_tos p ∈u 8;
  wf_r_pad : bytes (r_padding p);
  wf_r_pad_len : Z.of_nat (length (r_padding p)) = TST_PKT_SIZE - REFLECTOR_HEADER_SIZE;
}.

(** ** Lemmas: fields of a buffer *)

Lemma field_drop off n bs : field off n bs ++ drop (off + n) bs = drop off bs.
Proof. unfold field. rewrite <- (take_drop n (drop off bs)) at 2. by rewrite drop_drop. Qed.

Lemma length_field off n bs : (off + n ≤ length bs)%nat → length (field off n bs) = n.
Proof. intros H. unfold field. rewrite length_take, length_drop. lia. Qed.

Lemma bytes_field off n bs : bytes bs → bytes (field off n bs).
Proof. intros H. unfold field. by apply Forall_take, Forall_drop. Qed.

Lemma field_field off n off' n' bs : (off' + n' ≤ n)%nat →
  field off' n' (field off n bs) = field (off + off') n' bs.
Proof.
  intros H. unfold field. rewrite skipn_firstn_comm, take_take, drop_drop.
  f_equal. lia.
Qed.

Lemma le_bytes_field n off bs : bytes bs → (off + n ≤ length bs)%nat →
  le_bytes n (le_int (field off n bs)) = field off n bs.
Proof.
  intros Hb Hl. rewrite <- (length_field off n bs Hl) at 1.
  by apply le_bytes_le_int, bytes_field.
Qed.

Lemma le_int_bytes_id n z : 0 ≤ z < 256 ^ Z.of_nat n → le_int (le_bytes n z) = z.
Proof. intros H. rewrite le_int_le_bytes. by apply Z.mod_small. Qed.

Lemma timestamp_bytes_of_bytes off bs : bytes bs → (off + 8 ≤ length bs)%nat →
  timestamp_bytes (timestamp_of_bytes (field off 8 bs)) = field off 8 bs.
Proof.
  intros Hb Hl. unfold timestamp_bytes, timestamp_of_bytes. cbn [integer fractional].
  rewrite !le_bytes_field by (try apply bytes_field; rewrite ?length_field; auto with lia).
  rewrite <- (drop_0 (field off 8 bs)) at 3.
  rewrite <- (field_drop 0 4 (field off 8 bs)). f_equal. cbn [Nat.add].
  unfold field at 1. apply take_ge. rewrite length_drop, length_field; lia.
Qed.

Lemma timestamp_of_bytes_bytes ts : wf_timestamp ts → timestamp_of_bytes (timestamp_bytes ts) = ts.
Proof.
  intros [Hi Hf]. unfold timestamp_of_bytes.
  change (field 0 4 (timestamp_bytes ts)) with (le_bytes 4 (integer ts)).
  change (field 4 4 (timestamp_bytes ts)) with (le_bytes 4 (fractional ts)).
  rewrite !le_int_bytes_id by assumption. by destruct ts.
Qed.

Lemma bytes_range n bs : bytes bs → length bs = n → 0 ≤ le_int bs < 256 ^ Z.of_nat n.
Proof. intros Hb <-. by apply le_int_range. Qed.

Lemma timestamp_of_bytes_wf bs : bytes bs → length bs = 8%nat → wf_timestamp (timestamp_of_bytes bs).
Proof.
  intros Hb Hl. split; apply (bytes_range 4); (apply bytes_field || apply length_field); auto; lia.
Qed.

(** ** The two views of a packet are inverse *)

Lemma client_of_bytes_bytes p : wf_client p → client_of_bytes (client_bytes p) = p.
Proof.
  intros [Hs Ht He Hp _]. unfold client_of_bytes.
  change (field 0 4 (client_bytes p)) with (le_bytes 4 (seq_number p)).
  change (field 4 8 (client_bytes p)) with (timestamp_bytes (timestamp p)).
  change (field 12 2 (client_bytes p)) with (le_bytes 2 (timestamp_error_estimate p)).
  change (drop 14 (client_bytes p)) with (padding p).
  rewrite !le_int_bytes_id, timestamp_of_bytes_bytes by assumption. by destruct p.
Qed.

Lemma client_bytes_of_bytes bs :
  bytes bs → Z.of_nat (length bs) = TST_PKT_SIZE → client_bytes (client_of_bytes bs) = bs.
Proof.
  unfold TST_PKT_SIZE. intros Hb Hl. unfold client_bytes, client_of_bytes. cbn -[le_bytes field drop].
  rewrite !le_bytes_field, timestamp_bytes_of_bytes by (done || lia).
  by rewrite (field_drop 12 2), (field_drop 4 8), (field_drop 0 4).
Qed.

Lemma client_of_bytes_wf bs :
  bytes bs → Z.of_nat (length bs) = TST_PKT_SIZE → wf_client (client_of_bytes bs).
Proof.
  unfold TST_PKT_SIZE. intros Hb Hl. split; cbn -[le_int field drop].
  - apply (bytes_range 4); [by apply bytes_field|apply length_field; lia].
  - apply timestamp_of_bytes_wf; [by apply bytes_field|apply length_field; lia].
  - apply (bytes_range 2); [by apply bytes_field|apply length_field; lia].
  - by apply Forall_drop.
  - rewrite length_drop. unfold TST_PKT_SIZE. lia.
Qed.

Lemma reflector_bytes_of_bytes bs :
  bytes bs → Z.of_nat (length bs) = TST_PKT_SIZE → reflector_bytes (reflector_of_bytes bs) = bs.
Proof.
  unfold TST_PKT_SIZE. intros Hb Hl. unfold reflector_bytes, reflector_of_bytes.
  cbn -[le_bytes field drop].
  rewrite !le_bytes_field, !timestamp_bytes_of_bytes by (done || lia).
  by rewrite (field_drop 41 1), (field_drop 40 1), (field_drop 38 2), (field_drop 36 2),
    (field_drop 28 8), (field_drop 24 4), (field_drop 16 8), (field_drop 14 2),
    (field_drop 12 2), (field_drop 4 8), (field_drop 0 4).
Qed.

Lemma list_length_2 {A} (l : list A) : length l = 2%nat → ∃ a b, l = [a; b].
Proof. destruct l as [|a [|b [|c l]]]; try done. eauto. Qed.

Lemma reflector_of_bytes_bytes p : wf_reflector p → reflector_of_bytes (reflector_bytes p) = p.
Proof.
  intros W. destruct W as [H1 H2 H3 [_ H4] H5 H6 H7 H8 [_ H9] H10 H11 _ _].
  destruct p as [seq ts err m1 rts sseq sts serr m2 ttl tos pad]; cbn [mbz1 mbz2] in *.
  apply list_length_2 in H4 as (a & b & ->). apply list_length_2 in H9 as (c & d & ->).
  set (p := mkReflectorPacket _ _ _ _ _ _ _ _ _ _ _ _) in *. unfold reflector_of_bytes.
  change (field 0 4 (reflector_bytes p)) with (le_bytes 4 (r_seq_number p)).
  change (field 4 8 (reflector_bytes p)) with (timestamp_bytes (r_timestamp p)).
  change (field 12 2 (reflector_bytes p)) with (le_bytes 2 (r_timestamp_error_estimate p)).
  change (field 14 2 (reflector_bytes p)) with [a; b].
  change (field 16 8 (reflector_bytes p)) with (timestamp_bytes (receive_timestamp p)).
  change (field 24 4 (reflector_bytes p)) with (le_bytes 4 (sender_seq_number p)).
  change (field 28 8 (reflector_bytes p)) with (timestamp_bytes (sender_timestamp p)).
  change (field 36 2 (reflector_bytes p)) with (le_bytes 2 (sender_error_estimate p)).
  change (field 38 2 (reflector_bytes p)) with [c; d].
  change (field 40 1 (reflector_bytes p)) with (le_bytes 1 (sender_ttl p)).
  change (field 41 1 (reflector_bytes p)) with (le_bytes 1 (sender_tos p)).
  change (drop 42 (reflector_bytes p)) with (r_padding p).
  by rewrite !le_int_bytes_id, !timestamp_of_bytes_bytes by assumption.
Qed.

Lemma reflector_of_bytes_wf bs :
  bytes bs → Z.of_nat (length bs) = TST_PKT_SIZE → wf_reflector (reflector_of_bytes bs).
Proof.
  unfold TST_PKT_SIZE. intros Hb Hl.
  assert (∀ off n, (off + n ≤ length bs)%nat → 0 ≤ le_int (field off n bs) < 256 ^ Z.of_nat n) as Hf.
  { intros off n H. apply bytes_range; [by apply bytes_field|by apply length_field]. }
  assert (∀ off, (off + 8 ≤ length bs)%nat → wf_timestamp (timestamp_of_bytes (field off 8 bs))) as Ht.
  { intros off H. apply timestamp_of_bytes_wf; [by apply bytes_field|by apply length_field]. }
  split; cbn -[le_int field drop]; try (apply Ht; lia).
  - apply (Hf 0%nat 4%nat); lia.
  - apply (Hf 12%nat 2%nat); lia.
  - split; [by apply bytes_field|apply length_field; lia].
  - apply (Hf 24%nat 4%nat); lia.
  - apply (Hf 36%nat 2%nat); lia.
  - split; [by apply bytes_field|apply length_field; lia].
  - apply (Hf 40%nat 1%nat); lia.
  - apply (Hf 41%nat 1%nat); lia.
  - by apply Forall_drop.
  - rewrite length_drop. unfold TST_PKT_SIZE, REFLECTOR_HEADER_SIZE. lia.
Qed.

Lemma length_timestamp_bytes ts : length (timestamp_bytes ts) = 8%nat.
Proof. done. Qed.

(** [sizeof]: both structures fill exactly [TST_PKT_SIZE] bytes. *)
Lemma length_client_bytes p : wf_client p → Z.of_nat (length (client_bytes p)) = TST_PKT_SIZE.
Proof.
  intros W. unfold client_bytes. rewrite !length_app, length_timestamp_bytes, !length_le_bytes.
  pose proof (wf_pad_len p W). lia.
Qed.

Lemma length_reflector_bytes p : wf_reflector p → Z.of_nat (length (reflector_bytes p)) = TST_PKT_SIZE.
Proof.
  intros W. unfold reflector_bytes. rewrite !length_app, !length_timestamp_bytes, !length_le_bytes.
  pose proof (wf_r_pad_len p W). destruct (wf_mbz1 p W) as [_ ->], (wf_mbz2 p W) as [_ ->].
  unfold REFLECTOR_HEADER_SIZE in *. lia.
Qed.

Lemma bytes_timestamp_bytes ts : bytes (timestamp_bytes ts).
Proof. apply Forall_app; split; apply bytes_le_bytes. Qed.

Lemma bytes_client_bytes p : wf_client p → bytes (client_bytes p).
Proof.
  intros W. unfold client_bytes.
  repeat (apply Forall_app; split); auto using bytes_le_bytes, bytes_timestamp_bytes, wf_pad.
Qed.

Lemma bytes_reflector_bytes p : wf_reflector p → bytes (reflector_bytes p).
Proof.
  intros W. destruct (wf_mbz1 p W), (wf_mbz2 p W). unfold reflector_bytes.
  repeat (apply Forall_app; split);
    auto using bytes_le_bytes, bytes_timestamp_bytes, wf_r_pad.
Qed.

Lemma wf_ClientPacket_init : wf_client ClientPacket_init.
Proof. split; try done. apply Forall_replicate. done. Qed.

Lemma wf_ReflectorPacket_init : wf_reflector ReflectorPacket_init.
Proof.
  split; try done; try (split; [by repeat constructor|done]). by apply Forall_replicate.
Qed.

#[export] Hint Resolve wf_ClientPacket_init wf_ReflectorPacket_init : twamp.
#[export] Hint Resolve bytes_client_bytes bytes_reflector_bytes bytes_timestamp_bytes : twamp.
#[export] Hint Resolve wf_seq wf_ts wf_err wf_pad wf_r_seq wf_r_ts wf_r_err wf_recv_ts
  wf_sender_seq wf_sender_ts wf_sender_err wf_ttl wf_tos wf_r_pad : twamp.

(** A datagram shorter than the structure lies at the front of a zeroed buffer. *)
Definition recv_buffer (size : Z) (datagram : list Z) : list Z :=
  take (Z.to_nat size) datagram ++
  replicate (Z.to_nat size - length (take (Z.to_nat size) datagram)) 0.

Lemma recv_buffer_wf size d : 0 ≤ size → bytes d →
  bytes (recv_buffer size d) ∧ Z.of_nat (length (recv_buffer size d)) = size.
Proof.
  intros Hs Hd. unfold recv_buffer. split.
  - apply Forall_app; split; [by apply Forall_take|by apply Forall_replicate].
  - rewrite length_app, length_replicate, length_take. lia.
Qed.
