(* ===== verification/Timestamps.v ===== *)
(** * Timestamps: the time conversions of [src/utils.cpp] and [include/utils.hpp]

    Unix times ([timespec], [timeval]) and NTP timestamps (seconds since 1900 and a
    32-bit binary fraction), converted through [double] as the source does.
    [time_t], [long] and [suseconds_t] are 64-bit.  A pointer argument is an
    option ([nullptr] is [None]); an out-pointer is the option of what it points
    to, and a function returns its new contents. *)

From S2P Require Import Prelude Double Packets.

Record timespec := mkTimespec { tv_sec : Z; tv_nsec : Z }.
Record timeval := mkTimeval { tvl_sec : Z; tv_usec : Z }.

#[export] Instance timespec_eq_dec : EqDecision timespec.
Proof. solve_decision. Defined.
#[export] Instance timeval_eq_dec : EqDecision timeval.
Proof. solve_decision. Defined.

Definition NTP_EPOCH_OFFSET : Z := 2208988800.
Definition MICROSECONDS_IN_SECOND : double := of_int 1000000.
Definition NANOSECONDS_IN_SECOND : double := of_int 1000000000.
Definition NANOSECONDS_IN_MICROSECOND : Z := 1000.
Definition MICROSEONDS_IN_SECOND_INT : Z := 1000000.
Definition NANOSECONDS_IN_SECOND_INT : Z := 1000000000.
Definition NSEC_PER_SEC : Z := 1000000000.

(** ** Unix time to NTP *)

Definition timeval_to_timestamp (tv : option timeval) (ts : option Timestamp)
    : option (option Timestamp) :=
  match tv, ts with
  | Some tv, Some _ =>
      frac ← to_uint 32 (dmul (of_int (tv_usec tv)) (ddiv (of_int (2 ^ 32)) MICROSECONDS_IN_SECOND));
      Some (Some (mkTimestamp (u32 (u32 (tvl_sec tv) + NTP_EPOCH_OFFSET)) frac))
  | _, _ => Some ts
  end.

Definition timespec_to_timestamp (tv : option timespec) (ts : option Timestamp)
    : option (option Timestamp) :=
  match tv, ts with
  | Some tv, Some _ =>
      frac ← to_uint 32 (dmul (of_int (tv_nsec tv)) (ddiv (of_int (2 ^ 32)) NANOSECONDS_IN_SECOND));
      Some (Some (mkTimestamp (u32 (u32 (tv_sec tv) + NTP_EPOCH_OFFSET)) frac))
  | _, _ => Some ts
  end.

(** ** NTP to Unix time *)

Definition timestamp_to_timeval (ts : option Timestamp) (tv : option timeval)
    : option (option timeval) :=
  match tv, ts with
  | Some _, Some ts =>
      usec ← to_int 64 (ddiv (dmul (of_int (fractional ts)) MICROSECONDS_IN_SECOND) (of_int (2 ^ 32)));
      Some (Some (mkTimeval (u32 (integer ts - NTP_EPOCH_OFFSET)) usec))
  | _, _ => Some tv
  end.

Definition timestamp_to_timespec (ts : option Timestamp) (tv : option timespec)
    : option (option timespec) :=
  match tv, ts with
  | Some _, Some ts =>
      nsec ← to_int 64 (ddiv (dmul (of_int (fractional ts)) NANOSECONDS_IN_SECOND) (of_int (2 ^ 32)));
      Some (Some (mkTimespec (u32 (integer ts - NTP_EPOCH_OFFSET)) nsec))
  | _, _ => Some tv
  end.

(** [clock] is what [clock_gettime(CLOCK_REALTIME)] stores. *)
Definition get_timestamp (clock : timespec) : option Timestamp :=
  ts ← timespec_to_timestamp (Some clock) (Some Timestamp_init);
  ts.

Definition timestamp_to_usec (ts : option Timestamp) : option Z :=
  tv ← timestamp_to_timeval ts (Some (mkTimeval 0 0));
  tv ← tv;
  Some (u64 (u64 (u64 (tvl_sec tv) * MICROSEONDS_IN_SECOND_INT) + u64 (tv_usec tv))).

Definition timestamp_to_nsec (ts : option Timestamp) : option Z :=
  tv ← timestamp_to_timespec ts (Some (mkTimespec 0 0));
  tv ← tv;
  Some (u64 (u64 (u64 (tv_sec tv) * NANOSECONDS_IN_SECOND_INT) + u64 (tv_nsec tv))).

Definition nanosecondsToTimespec (delay_epoch_nanoseconds : Z) : timespec :=
  mkTimespec (i64 (delay_epoch_nanoseconds / NANOSECONDS_IN_SECOND_INT))
             (i64 (delay_epoch_nanoseconds mod NANOSECONDS_IN_SECOND_INT)).

(** [clock] is what [gettimeofday] stores. *)
Definition get_usec (clock : timeval) : Z :=
  u64 (u64 (u64 (tvl_sec clock) * MICROSEONDS_IN_SECOND_INT) + u64 (tv_usec clock)).

(** ** Addition of timespecs *)

(** The loop of [safe_tspecplus]; [None] when the fuel runs out or a signed
    addition overflows. *)
Fixpoint tspecplus_loop (fuel : nat) (sec nsec : Z) : option (Z * Z) :=
  match fuel with
  | O => None
  | S k => if nsec >=? NSEC_PER_SEC then
             sec' ← checked_i 64 (sec + 1);
             tspecplus_loop k sec' (nsec - NSEC_PER_SEC)
           else Some (sec, nsec)
  end.

Definition safe_tspecplus (a b : timespec) : option timespec :=
  sec ← checked_i 64 (tv_sec a + tv_sec b);
  nsec ← checked_i 64 (tv_nsec a + tv_nsec b);
  '(sec, nsec) ← tspecplus_loop (S (Z.to_nat (nsec / NSEC_PER_SEC))) sec nsec;
  Some (mkTimespec sec nsec).

(** ** Comparison and byte order *)

Definition isWithinEpsilon (a b percentEpsilon : double) : bool :=
  SFleb (dabs (dsub a b)) (dmul (dmax (dabs a) (dabs b)) percentEpsilon).

Definition ntohts (ts : Timestamp) : Timestamp :=
  mkTimestamp (ntohl (integer ts)) (ntohl (fractional ts)).

Definition htonts (ts : Timestamp) : Timestamp :=
  mkTimestamp (htonl (integer ts)) (htonl (fractional ts)).

(** ** What the conversions mean *)

(** A valid clock reading: nanoseconds (microseconds) below one second. *)
Definition wf_timespec (tv : timespec) : Prop := tv_sec tv ∈i 64 ∧ 0 ≤ tv_nsec tv < 10 ^ 9.
Definition wf_timeval (tv : timeval) : Prop := tvl_sec tv ∈i 64 ∧ 0 ≤ tv_usec tv < 10 ^ 6.

#[export] Instance wf_timespec_dec tv : Decision (wf_timespec tv).
Proof. unfold wf_timespec. apply _. Defined.

(** The NTP timestamp of a Unix time, and back, in exact arithmetic. *)
Definition ntp_of_timespec (tv : timespec) : Timestamp :=
  mkTimestamp (u32 (tv_sec tv + NTP_EPOCH_OFFSET)) (tv_nsec tv * 2 ^ 32 / 10 ^ 9).

Definition timespec_of_ntp (ts : Timestamp) : timespec :=
  mkTimespec (u32 (integer ts - NTP_EPOCH_OFFSET)) (fractional ts * 10 ^ 9 / 2 ^ 32).

(** Nanoseconds since 1970, modulo the NTP era of [2^32] seconds. *)
Definition ntp_nsec (ts : Timestamp) : Z :=
  u32 (integer ts - NTP_EPOCH_OFFSET) * 10 ^ 9 + fractional ts * 10 ^ 9 / 2 ^ 32.

(** ** The floating-point conversions are exact floors *)

(** [2^32 / 1e9] and [2^32 / 1e6] as the compiler folds them. *)
Lemma nsec_scale : ddiv (of_int (2 ^ 32)) NANOSECONDS_IN_SECOND = S754_finite false 4835703278458517 (-50).
Proof. vm_compute. reflexivity. Qed.

Lemma usec_scale : ddiv (of_int (2 ^ 32)) MICROSECONDS_IN_SECOND = S754_finite false 4722366482869645 (-40).
Proof. vm_compute. reflexivity. Qed.

Lemma to_uint_mul0 w c ec : 0 ≤ w → to_uint w (dmul (of_int 0) (S754_finite false c ec)) = Some 0.
Proof.
  intros Hw. apply to_uint_Some; [done|].
  unfold in_u. split; [lia|]. apply Z.pow_pos_nonneg; lia.
Qed.

Lemma nsec_to_frac n : 0 ≤ n < 10 ^ 9 →
  to_uint 32 (dmul (of_int n) (ddiv (of_int (2 ^ 32)) NANOSECONDS_IN_SECOND)) = Some (n * 2 ^ 32 / 10 ^ 9).
Proof.
  intros Hn. rewrite nsec_scale.
  destruct (decide (n = 0)) as [->|Hn0]; [by apply to_uint_mul0|].
  destruct (dmul_of_int n 4835703278458517 (-50)) as (q & t & -> & Hq & Ht & Hr); [lia..|].
  assert (2 ^ t < 2 ^ 30) as Ht2
    by (apply (dropped_bits _ _ (Zpos q) t (2 ^ 30) eq_refl ltac:(lia) Ht Hr); lia).
  assert (t < 30) by (apply (Z.pow_lt_mono_r_iff 2); lia).
  assert (2 ^ t ≤ 2 ^ 29) by (apply Z.pow_le_mono_r; lia).
  apply to_uint_Some.
  - change (-50) with (- (50)). rewrite trunc_scaled by lia. f_equal.
    replace (n * 2 ^ 32 / 10 ^ 9) with (n * 2 ^ 23 / 1953125).
    + apply (floor_approx _ n 4835703278458517 1953125 (2 ^ 23) 588233 50 t); try lia.
      apply Z.divide_factor_r.
    + change (2 ^ 32) with (2 ^ 23 * 512). change (10 ^ 9) with (1953125 * 512).
      rewrite Z.mul_assoc, Z.div_mul_cancel_r by lia. done.
  - widths. split; [apply Z.div_pos; lia|apply Z.div_lt_upper_bound; lia].
Qed.

(** The multiples of [1/64] second, where the rounding of the scale could show. *)
Lemma usec_multiples :
  forallb (λ k : nat, bool_decide (
    to_uint 32 (dmul (of_int (15625 * Z.of_nat k)) (S754_finite false 4722366482869645 (-40))) =
    Some (15625 * Z.of_nat k * 2 ^ 32 / 10 ^ 6))) (seq 0 64) = true.
Proof. vm_compute. reflexivity. Qed.

Lemma usec_to_frac n : 0 ≤ n < 10 ^ 6 →
  to_uint 32 (dmul (of_int n) (ddiv (of_int (2 ^ 32)) MICROSECONDS_IN_SECOND)) = Some (n * 2 ^ 32 / 10 ^ 6).
Proof.
  intros Hn. rewrite usec_scale.
  destruct (decide (n mod 15625 = 0)) as [Hm|Hm].
  { apply Z.mod_divide in Hm as [k ->]; [|lia].
    pose proof usec_multiples as H. rewrite forallb_forall in H.
    specialize (H (Z.to_nat k)). rewrite Z2Nat.id, (Z.mul_comm 15625) in H by lia.
    apply (bool_decide_eq_true_1 _), H, in_seq. lia. }
  destruct (dmul_of_int n 4722366482869645 (-40)) as (q & t & -> & Hq & Ht & Hr);
    [destruct (decide (n = 0)) as [->|]; [by rewrite Z.mod_0_l in Hm|lia]|lia..|].
  assert (2 ^ t < 2 ^ 20) as Ht2
    by (apply (dropped_bits _ _ (Zpos q) t (2 ^ 20) eq_refl ltac:(lia) Ht Hr); lia).
  assert (t < 20) by (apply (Z.pow_lt_mono_r_iff 2); lia).
  assert (2 ^ t ≤ 2 ^ 19) by (apply Z.pow_le_mono_r; lia).
  apply to_uint_Some.
  - change (-40) with (- (40)). rewrite trunc_scaled by lia. f_equal.
    replace (n * 2 ^ 32 / 10 ^ 6) with (n * 2 ^ 26 / 15625).
    + apply (floor_approx _ n 4722366482869645 15625 (2 ^ 26) (-3339) 40 t); try lia.
      * apply Z.divide_factor_r.
      * right. intros Hd. apply Hm. apply Z.mod_divide in Hd; [|lia].
        apply Z.mod_divide; [lia|]. apply (Z.gauss _ (2 ^ 26)); [by rewrite Z.mul_comm|by vm_compute].
    + change (2 ^ 32) with (2 ^ 26 * 64). change (10 ^ 6) with (15625 * 64).
      rewrite Z.mul_assoc, Z.div_mul_cancel_r by lia. done.
  - widths. split; [apply Z.div_pos; lia|apply Z.div_lt_upper_bound; lia].
Qed.

(** The way back: the product with [10^9] ([10^6]) fits 53 bits, so neither it nor
    the division by [2^32] rounds. *)
Lemma frac_scaled f c D j :
  0 ≤ f < 2 ^ 32 → 2 ^ 52 ≤ Zpos c < 2 ^ 53 → 20 ≤ j ≤ 40 → Zpos c = D * 2 ^ j → 0 < D →
  (∃ w, Zpos c = w * 2 ^ 32) →
  trunc (ddiv (dmul (of_int f) (S754_finite false c (- j))) (of_int (2 ^ 32))) = Some (f * D / 2 ^ 32).
Proof.
  intros Hf Hc Hj Ec HD [w Ew].
  change (of_int (2 ^ 32)) with (S754_finite false (2 ^ 52) (-20)).
  destruct (decide (f = 0)) as [->|Hf0]; [done|].
  destruct (dmul_of_int f c (- j)) as (q & t & -> & Hq & Ht & Hr); [lia..|].
  assert (2 ^ t < 2 ^ 33) as Ht2
    by (apply (dropped_bits _ _ (Zpos q) t (2 ^ 33) eq_refl ltac:(lia) Ht Hr); nia).
  assert (t < 33) by (apply (Z.pow_lt_mono_r_iff 2); lia).
  rewrite ddiv_pow2 by lia.
  assert (Zpos q * 2 ^ t = f * Zpos c) as Eq.
  { assert (2 ^ 32 = 2 ^ (32 - t) * 2 ^ t) as Et by (rewrite <- Z.pow_add_r by lia; f_equal; lia).
    rewrite Ew, Et in *. pose proof (Z.pow_pos_nonneg 2 t ltac:(lia) Ht) as Hp.
    replace (Zpos q * 2 ^ t - f * (w * (2 ^ (32 - t) * 2 ^ t)))
      with ((Zpos q - f * w * 2 ^ (32 - t)) * 2 ^ t) in Hr by ring.
    rewrite Z.abs_mul, (Z.abs_eq (2 ^ t)) in Hr by lia.
    assert (2 * Z.abs (Zpos q - f * w * 2 ^ (32 - t)) ≤ 1) by nia.
    replace (Zpos q) with (f * w * 2 ^ (32 - t)) by lia. ring. }
  replace (- j + t - -20 - 52) with (- (j + 32) + t) by lia.
  rewrite trunc_scaled, Eq, Ec by lia. f_equal.
  rewrite Z.pow_add_r, (Z.mul_comm (2 ^ j)), Z.mul_assoc by lia.
  apply Z.div_mul_cancel_r; [lia|apply Z.pow_nonzero; lia].
Qed.

Lemma frac_to_nsec f : 0 ≤ f < 2 ^ 32 →
  to_int 64 (ddiv (dmul (of_int f) NANOSECONDS_IN_SECOND) (of_int (2 ^ 32))) = Some (f * 10 ^ 9 / 2 ^ 32).
Proof.
  intros Hf. apply to_int_Some.
  - change NANOSECONDS_IN_SECOND with (S754_finite false 8388608000000000 (- (23))).
    apply frac_scaled; try lia. by exists 1953125.
  - widths. split; [|apply Z.div_lt_upper_bound; lia].
    apply Z.le_trans with 0; [lia|apply Z.div_pos; lia].
Qed.

Lemma frac_to_usec f : 0 ≤ f < 2 ^ 32 →
  to_int 64 (ddiv (dmul (of_int f) MICROSECONDS_IN_SECOND) (of_int (2 ^ 32))) = Some (f * 10 ^ 6 / 2 ^ 32).
Proof.
  intros Hf. apply to_int_Some.
  - change MICROSECONDS_IN_SECOND with (S754_finite false 8589934592000000 (- (33))).
    apply frac_scaled; try lia. by exists 2000000.
  - widths. split; [|apply Z.div_lt_upper_bound; lia].
    apply Z.le_trans with 0; [lia|apply Z.div_pos; lia].
Qed.

(** ** The conversions in exact arithmetic *)

Lemma u32_u32_add a b : u32 (u32 a + b) = u32 (a + b).
Proof. apply wrap_add_wrap_l. Qed.

Lemma timespec_to_timestamp_exact tv ts : 0 ≤ tv_nsec tv < 10 ^ 9 →
  timespec_to_timestamp (Some tv) (Some ts) = Some (Some (ntp_of_timespec tv)).
Proof.
  intros Hn. unfold timespec_to_timestamp. rewrite nsec_to_frac by done.
  cbn [mbind option_bind]. by rewrite u32_u32_add.
Qed.

Lemma timestamp_to_timespec_exact ts tv : fractional ts ∈u 32 →
  timestamp_to_timespec (Some ts) (Some tv) = Some (Some (timespec_of_ntp ts)).
Proof. intros Hf. unfold timestamp_to_timespec. by rewrite frac_to_nsec. Qed.

Lemma get_timestamp_exact clock : 0 ≤ tv_nsec clock < 10 ^ 9 →
  get_timestamp clock = Some (ntp_of_timespec clock).
Proof. intros Hn. unfold get_timestamp. by rewrite timespec_to_timestamp_exact. Qed.

Lemma frac_nsec_range f : f ∈u 32 → 0 ≤ f * 10 ^ 9 / 2 ^ 32 < 10 ^ 9.
Proof. widths. intros Hf. split; [apply Z.div_pos; lia|apply Z.div_lt_upper_bound; lia]. Qed.

Lemma ntp_nsec_range ts : fractional ts ∈u 32 → 0 ≤ ntp_nsec ts < 2 ^ 32 * 10 ^ 9.
Proof.
  intros Hf. unfold ntp_nsec. pose proof (frac_nsec_range _ Hf).
  pose proof (wrap_range 32 (integer ts - NTP_EPOCH_OFFSET) ltac:(lia)). wsolve.
Qed.

Lemma ntp_nsec_u64 ts : fractional ts ∈u 32 → ntp_nsec ts ∈u 64.
Proof. intros Hf. pose proof (ntp_nsec_range ts Hf). wsolve. Qed.

Lemma timestamp_to_nsec_exact ts : fractional ts ∈u 32 →
  timestamp_to_nsec (Some ts) = Some (ntp_nsec ts).
Proof.
  intros Hf. unfold timestamp_to_nsec. rewrite timestamp_to_timespec_exact by done.
  cbn [mbind option_bind timespec_of_ntp tv_sec tv_nsec]. f_equal.
  pose proof (frac_nsec_range _ Hf) as Hn.
  pose proof (ntp_nsec_u64 ts Hf) as Hr.
  pose proof (wrap_range 32 (integer ts - NTP_EPOCH_OFFSET) ltac:(lia)) as Hs.
  unfold ntp_nsec, NANOSECONDS_IN_SECOND_INT in *.
  rewrite (wrap_small 64 (u32 _)), (wrap_small 64 (u32 _ * _)), (wrap_small 64 (_ / _)),
    wrap_small by wsolve. done.
Qed.

Lemma wf_ntp_of_timespec tv : 0 ≤ tv_nsec tv < 10 ^ 9 → wf_timestamp (ntp_of_timespec tv).
Proof.
  intros Hn. split; [apply wrap_range; lia|]. cbn [fractional ntp_of_timespec]. widths.
  split; [apply Z.div_pos; lia|apply Z.div_lt_upper_bound; lia].
Qed.

Lemma wf_htonts ts : wf_timestamp (htonts ts).
Proof. split; apply htonl_range. Qed.

Lemma wf_ntohts ts : wf_timestamp (ntohts ts).
Proof. split; apply htonl_range. Qed.

Lemma ntohts_htonts ts : wf_timestamp ts → ntohts (htonts ts) = ts.
Proof.
  intros [Hi Hf]. destruct ts as [i f]. unfold ntohts, htonts. cbn [integer fractional] in *.
  by rewrite !ntohl_htonl.
Qed.

#[export] Hint Resolve wf_htonts wf_ntohts wf_ntp_of_timespec ntp_nsec_u64 : twamp.

(** ** Round trips *)

(** Converting [n / D] seconds to a 32-bit fraction and back, both by truncation,
    gives [n] back when [2^32 n] is a multiple of [D], and [n - 1] otherwise. *)
Lemma frac_round_trip n D : 0 < D ≤ 2 ^ 32 → 0 ≤ n →
  (n * 2 ^ 32 / D) * D / 2 ^ 32 = if decide ((n * 2 ^ 32) mod D = 0) then n else n - 1.
Proof.
  intros HD Hn. pose proof (Z.div_mod (n * 2 ^ 32) D ltac:(lia)) as E.
  pose proof (Z.mod_pos_bound (n * 2 ^ 32) D ltac:(lia)).
  case_decide; symmetry; [apply Z.div_unique with 0; lia|].
  apply Z.div_unique with (2 ^ 32 - (n * 2 ^ 32) mod D); lia.
Qed.

(** [D = d * 2^k] with [d] odd: only the multiples of [d] survive unchanged. *)
Lemma mod_scaled n d k j : 0 < d → 0 ≤ k → 0 ≤ j → Z.gcd d (2 ^ j) = 1 →
  (n * 2 ^ (k + j)) mod (d * 2 ^ k) = 0 ↔ n mod d = 0.
Proof.
  intros Hd Hk Hj Hg. pose proof (Z.pow_pos_nonneg 2 k ltac:(lia) Hk).
  rewrite !Z.mod_divide, Z.pow_add_r by lia. split.
  - intros [w Hw]. apply (Z.gauss _ (2 ^ j)); [|done]. exists w. nia.
  - intros [w ->]. exists (w * 2 ^ j). ring.
Qed.

Definition nsec_round_trip (n : Z) : Z := if decide (n mod 1953125 = 0) then n else n - 1.
Definition usec_round_trip (n : Z) : Z := if decide (n mod 15625 = 0) then n else n - 1.

Lemma nsec_frac_round_trip n : 0 ≤ n → (n * 2 ^ 32 / 10 ^ 9) * 10 ^ 9 / 2 ^ 32 = nsec_round_trip n.
Proof.
  intros Hn. rewrite frac_round_trip by lia. unfold nsec_round_trip.
  pose proof (mod_scaled n 1953125 9 23 ltac:(lia) ltac:(lia) ltac:(lia) eq_refl) as H.
  change (1953125 * 2 ^ 9) with (10 ^ 9) in H. change (9 + 23) with 32 in H.
  repeat case_decide; tauto.
Qed.

Lemma usec_frac_round_trip n : 0 ≤ n → (n * 2 ^ 32 / 10 ^ 6) * 10 ^ 6 / 2 ^ 32 = usec_round_trip n.
Proof.
  intros Hn. rewrite frac_round_trip by lia. unfold usec_round_trip.
  pose proof (mod_scaled n 15625 6 26 ltac:(lia) ltac:(lia) ltac:(lia) eq_refl) as H.
  change (15625 * 2 ^ 6) with (10 ^ 6) in H. change (6 + 26) with 32 in H.
  repeat case_decide; tauto.
Qed.

(** The seconds survive the change of epoch modulo [2^32]. *)
Lemma era_round_trip s : u32 (u32 (s + NTP_EPOCH_OFFSET) - NTP_EPOCH_OFFSET) = u32 s.
Proof.
  rewrite <- (wrap_small 32 NTP_EPOCH_OFFSET) at 2 by done.
  rewrite wrap_sub_wrap. f_equal. lia.
Qed.

Lemma ntp_nsec_of_timespec tv : 0 ≤ tv_nsec tv →
  ntp_nsec (ntp_of_timespec tv) = u32 (tv_sec tv) * 10 ^ 9 + nsec_round_trip (tv_nsec tv).
Proof.
  intros Hn. unfold ntp_nsec, ntp_of_timespec. cbn [integer fractional].
  by rewrite era_round_trip, nsec_frac_round_trip.
Qed.

Lemma nsec_round_trip_mono n m : n ≤ m → nsec_round_trip n ≤ nsec_round_trip m.
Proof.
  intros H. unfold nsec_round_trip. repeat case_decide; try lia.
  destruct (decide (n = m)) as [->|]; [done|lia].
Qed.

Lemma nsec_round_trip_range n : 0 ≤ n → 0 ≤ nsec_round_trip n ∧ n - 1 ≤ nsec_round_trip n ≤ n.
Proof.
  intros H. unfold nsec_round_trip. case_decide; [lia|].
  destruct (decide (n = 0)) as [->|]; [done|lia].
Qed.

(** ** Addition of timespecs *)

Lemma tspecplus_loop_spec fuel sec nsec :
  0 ≤ nsec → nsec / NSEC_PER_SEC < Z.of_nat fuel → sec ∈i 64 → sec + nsec / NSEC_PER_SEC ∈i 64 →
  tspecplus_loop fuel sec nsec = Some (sec + nsec / NSEC_PER_SEC, nsec mod NSEC_PER_SEC).
Proof.
  unfold NSEC_PER_SEC. revert sec nsec.
  induction fuel as [|fuel IH]; intros sec nsec Hn Hf Hs Hs'; [pose proof (Z.div_pos nsec 1000000000); lia|].
  cbn [tspecplus_loop]. unfold NSEC_PER_SEC.
  destruct (Z.geb_spec nsec 1000000000).
  - assert (nsec = (nsec - 1000000000) + 1 * 1000000000) as E by lia.
    assert (nsec / 1000000000 = (nsec - 1000000000) / 1000000000 + 1) as Ed
      by (rewrite E at 1; rewrite Z.div_add by lia; lia).
    pose proof (Z.div_pos (nsec - 1000000000) 1000000000 ltac:(lia) ltac:(lia)).
    rewrite checked_i_Some by (widths; lia). cbn [mbind option_bind].
    rewrite IH by (widths; lia). do 2 f_equal; [lia|].
    rewrite E at 2. by rewrite Z.mod_add.
  - by rewrite Z.div_small, Z.mod_small, Z.add_0_r by lia.
Qed.

(** Nanoseconds of a timespec. *)
Definition timespec_nsec (tv : timespec) : Z := tv_sec tv * 10 ^ 9 + tv_nsec tv.

Lemma safe_tspecplus_exact a b :
  0 ≤ tv_nsec a → 0 ≤ tv_nsec b → 0 ≤ tv_sec a → 0 ≤ tv_sec b →
  tv_nsec a + tv_nsec b ∈i 64 →
  tv_sec a + tv_sec b + (tv_nsec a + tv_nsec b) / 10 ^ 9 ∈i 64 →
  safe_tspecplus a b = Some (mkTimespec
    ((timespec_nsec a + timespec_nsec b) / 10 ^ 9) ((timespec_nsec a + timespec_nsec b) mod 10 ^ 9)).
Proof.
  intros Ha Hb Hsa Hsb Hn Hs.
  pose proof (Z.div_pos (tv_nsec a + tv_nsec b) (10 ^ 9) ltac:(lia) ltac:(lia)).
  unfold safe_tspecplus. rewrite !checked_i_Some by (widths; lia).
  cbn [mbind option_bind]. change NSEC_PER_SEC with (10 ^ 9).
  rewrite tspecplus_loop_spec by (change NSEC_PER_SEC with (10 ^ 9); widths; lia).
  cbn [mbind option_bind]. change NSEC_PER_SEC with (10 ^ 9). unfold timespec_nsec.
  replace (tv_sec a * 10 ^ 9 + tv_nsec a + (tv_sec b * 10 ^ 9 + tv_nsec b))
    with (tv_nsec a + tv_nsec b + (tv_sec a + tv_sec b) * 10 ^ 9) by ring.
  rewrite Z.div_add, Z.mod_add by lia. do 2 f_equal. lia.
Qed.

Lemma nanosecondsToTimespec_exact d : d ∈u 64 →
  nanosecondsToTimespec d = mkTimespec (d / 10 ^ 9) (d mod 10 ^ 9).
Proof.
  intros Hd. unfold nanosecondsToTimespec, NANOSECONDS_IN_SECOND_INT.
  pose proof (Z.mod_pos_bound d 1000000000 ltac:(lia)).
  pose proof (Z.div_pos d 1000000000).
  assert (d / 1000000000 < 18446744074) by (widths; apply Z.div_lt_upper_bound; lia).
  rewrite !swrap_small by wsolve. done.
Qed.

(** ** isWithinEpsilon *)

Lemma isWithinEpsilon_comm a b eps : isWithinEpsilon a b eps = isWithinEpsilon b a eps.
Proof.
  unfold isWithinEpsilon.
  assert (a = S754_nan ∨ a ≠ S754_nan) as [->|Ha] by (destruct a; auto); [by destruct b|].
  assert (b = S754_nan ∨ b ≠ S754_nan) as [->|Hb] by (destruct b; auto); [by destruct a|].
  by rewrite dabs_dsub_comm, dmax_abs_comm.
Qed.

Lemma dsub_diag x : (∃ s m e, x = S754_finite s m e) → dsub x x = S754_zero false.
Proof. intros (s & m & e & ->). unfold dsub, SFsub. by rewrite Z.sub_diag. Qed.

Lemma SFleb_zero_round s m e :
  s = false → SFleb (S754_zero false) (binary_round_aux 53 1024 s (Zpos m) e loc_Exact) = true.
Proof.
  intros ->. pose proof (round_aux_not_nan false m e) as Hn. revert Hn.
  unfold binary_round_aux.
  destruct (shr_fexp 53 1024 (Zpos m) e loc_Exact) as [mrs e'].
  destruct (shr_fexp 53 1024 _ e' loc_Exact) as [mrs' e''].
  destruct (shr_m mrs'); try done. by destruct (e'' <=? 1024 - 53).
Qed.

(** A finite value is within any positive fraction of itself. *)
Lemma isWithinEpsilon_diag s m e m' e' :
  isWithinEpsilon (S754_finite s m e) (S754_finite s m e) (S754_finite false m' e') = true.
Proof.
  unfold isWithinEpsilon. rewrite dsub_diag by eauto.
  replace (dmax _ _) with (S754_finite false m e)
    by (unfold dmax; by destruct (SFltb _ _)).
  by apply SFleb_zero_round.
Qed.

Lemma isWithinEpsilon_zero m' e' :
  isWithinEpsilon (S754_zero false) (S754_zero false) (S754_finite false m' e') = true.
Proof. done. Qed.

(** ** The microsecond variant *)

Lemma frac_usec_range f : f ∈u 32 → 0 ≤ f * 10 ^ 6 / 2 ^ 32 < 10 ^ 6.
Proof. widths. intros Hf. split; [apply Z.div_pos; lia|apply Z.div_lt_upper_bound; lia]. Qed.

Lemma timestamp_to_usec_exact ts : fractional ts ∈u 32 →
  timestamp_to_usec (Some ts) =
  Some (u32 (integer ts - NTP_EPOCH_OFFSET) * 10 ^ 6 + fractional ts * 10 ^ 6 / 2 ^ 32).
Proof.
  intros Hf. unfold timestamp_to_usec, timestamp_to_timeval. rewrite frac_to_usec by done.
  cbn [mbind option_bind tvl_sec tv_usec]. f_equal. unfold MICROSEONDS_IN_SECOND_INT.
  pose proof (frac_usec_range _ Hf) as Hn.
  pose proof (wrap_range 32 (integer ts - NTP_EPOCH_OFFSET) ltac:(lia)) as Hs.
  rewrite (wrap_small 64 (u32 _)), (wrap_small 64 (u32 _ * _)), (wrap_small 64 (_ / _)),
    wrap_small by wsolve. done.
Qed.

Lemma timeval_to_timestamp_exact tv ts : 0 ≤ tv_usec tv < 10 ^ 6 →
  timeval_to_timestamp (Some tv) (Some ts) =
  Some (Some (mkTimestamp (u32 (tvl_sec tv + NTP_EPOCH_OFFSET)) (tv_usec tv * 2 ^ 32 / 10 ^ 6))).
Proof.
  intros Hn. unfold timeval_to_timestamp. rewrite usec_to_frac by done.
  cbn [mbind option_bind]. by rewrite u32_u32_add.
Qed.

Lemma usec_frac_range n : 0 ≤ n < 10 ^ 6 → n * 2 ^ 32 / 10 ^ 6 ∈u 32.
Proof. intros Hn. widths. split; [apply Z.div_pos; lia|apply Z.div_lt_upper_bound; lia]. Qed.

(** ** Properties *)

(** C18: a clock reading converted to an NTP timestamp and back to nanoseconds
    ([get_timestamp], [timestamp_to_nsec]), both through double arithmetic, is defined
    and loses exactly one nanosecond, except on multiples of 1953125 ns (1/512 s),
    which are exact; through the microsecond functions a reading loses exactly one
    microsecond, except on multiples of 15625 us (1/64 s); the era of the NTP
    seconds does not matter before 2106. *)
Theorem clock_round_trip clock tv ts :
  0 ≤ tv_sec clock < 2 ^ 32 → 0 ≤ tv_nsec clock < 10 ^ 9 →
  0 ≤ tvl_sec tv < 2 ^ 32 → 0 ≤ tv_usec tv < 10 ^ 6 →
  (ts ← get_timestamp clock; timestamp_to_nsec (Some ts)) =
  Some (tv_sec clock * 10 ^ 9 +
        if decide (tv_nsec clock mod 1953125 = 0) then tv_nsec clock else tv_nsec clock - 1) ∧
  (out ← timeval_to_timestamp (Some tv) (Some ts); timestamp_to_usec out) =
  Some (tvl_sec tv * 10 ^ 6 +
        if decide (tv_usec tv mod 15625 = 0) then tv_usec tv else tv_usec tv - 1).
Proof.
  intros Hs Hn Hs' Hn'. split.
  - rewrite get_timestamp_exact by done. cbn [mbind option_bind].
    rewrite timestamp_to_nsec_exact by (apply wf_ntp_of_timespec; done).
    rewrite ntp_nsec_of_timespec, wrap_small by (done || lia). done.
  - rewrite timeval_to_timestamp_exact by done. cbn [mbind option_bind].
    rewrite timestamp_to_usec_exact by by apply usec_frac_range. cbn [integer fractional].
    rewrite era_round_trip, usec_frac_round_trip, wrap_small by (done || lia). done.
Qed.

Lemma clock_round_trip_witness :
  (ts ← get_timestamp (mkTimespec 1700000000 123456789); timestamp_to_nsec (Some ts)) =
    Some 1700000000123456788 ∧
  (out ← timeval_to_timestamp (Some (mkTimeval 1609459200 123456)) (Some Timestamp_init);
   timestamp_to_usec out) = Some 1609459200123455.
Proof.
  apply (clock_round_trip (mkTimespec 1700000000 123456789) (mkTimeval 1609459200 123456)
    Timestamp_init); simpl; lia.
Defined.

(** the nanoseconds of successive clock readings never decrease through the
    conversion to an NTP timestamp and back. *)
Lemma clock_nsec_monotone c1 c2 n1 n2 :
  0 ≤ tv_sec c1 < 2 ^ 32 → 0 ≤ tv_nsec c1 < 10 ^ 9 →
  0 ≤ tv_sec c2 < 2 ^ 32 → 0 ≤ tv_nsec c2 < 10 ^ 9 →
  timespec_nsec c1 ≤ timespec_nsec c2 →
  (ts ← get_timestamp c1; timestamp_to_nsec (Some ts)) = Some n1 →
  (ts ← get_timestamp c2; timestamp_to_nsec (Some ts)) = Some n2 →
  n1 ≤ n2.
Proof.
  intros Hs1 Hn1 Hs2 Hn2 Hle. rewrite !get_timestamp_exact by done. cbn [mbind option_bind].
  rewrite !timestamp_to_nsec_exact by (apply wf_ntp_of_timespec; done).
  rewrite !ntp_nsec_of_timespec, !wrap_small by (done || lia). intros [= <-] [= <-].
  unfold timespec_nsec in Hle.
  pose proof (nsec_round_trip_range (tv_nsec c1) ltac:(lia)).
  pose proof (nsec_round_trip_range (tv_nsec c2) ltac:(lia)).
  destruct (decide (tv_sec c1 = tv_sec c2)) as [E|]; [rewrite E in *|lia].
  pose proof (nsec_round_trip_mono (tv_nsec c1) (tv_nsec c2) ltac:(lia)). lia.
Qed.

Lemma clock_nsec_monotone_witness : 1700000000999999998 ≤ 1700000001000000000.
Proof.
  apply (clock_nsec_monotone (mkTimespec 1700000000 999999999) (mkTimespec 1700000001 0));
    [vm_compute; intuition discriminate..|vm_compute; reflexivity|vm_compute; reflexivity].
Defined.

(** The loop of [safe_tspecplus] ends, and on non-negative arguments whose sum
    fits it returns the normalised timespec of the exact sum in nanoseconds, even
    when an argument's [tv_nsec] exceeds one second. *)
Lemma safe_tspecplus_sum a b :
  0 ≤ tv_nsec a → 0 ≤ tv_nsec b → 0 ≤ tv_sec a → 0 ≤ tv_sec b →
  tv_nsec a + tv_nsec b ∈i 64 →
  tv_sec a + tv_sec b + (tv_nsec a + tv_nsec b) / 10 ^ 9 ∈i 64 →
  ∃ r, safe_tspecplus a b = Some r ∧ 0 ≤ tv_nsec r < 10 ^ 9 ∧
    timespec_nsec r = timespec_nsec a + timespec_nsec b.
Proof.
  intros. eexists. split; [by apply safe_tspecplus_exact|]. cbn [tv_nsec].
  split; [apply Z.mod_pos_bound; lia|]. unfold timespec_nsec at 1. cbn [tv_sec tv_nsec].
  pose proof (Z.div_mod (timespec_nsec a + timespec_nsec b) (10 ^ 9)). lia.
Qed.

Lemma safe_tspecplus_sum_witness :
  ∃ r, safe_tspecplus (mkTimespec 1 2999999999) (mkTimespec 1 999999999) = Some r ∧
    0 ≤ tv_nsec r < 10 ^ 9 ∧ timespec_nsec r = 5999999998.
Proof.
  destruct (safe_tspecplus_sum (mkTimespec 1 2999999999) (mkTimespec 1 999999999))
    as (r & H); [vm_compute; intuition discriminate..|].
  exists r. exact H.
Defined.
