(* ===== verification/Address.v ===== *)
(** * Address: the [IP:Port] parsers of [src/utils.cpp]

    The out-parameters [ip] and [port] are passed in and returned, since a failed
    parse can leave [ip] overwritten. *)

From S2P Require Import Prelude Double Text.

Definition parseIPPort (input ip : string) (port : Z) : bool * string * Z :=
  match str_find ":" input with
  | None => (false, ip, port)
  | Some colon_pos =>
      let ip := str_take colon_pos input in
      let port_str := str_drop (S colon_pos) input in
      let '(tmpport, endptr) := strtol (c_str port_str) in
      if negb (String.eqb endptr "") || (tmpport <=? 0) || (tmpport >=? 65536)
      then (false, ip, port)
      else (true, ip, u16 tmpport)
  end.

Definition parseIPv6Port (input ip : string) (port : Z) : bool * string * Z :=
  match str_rfind ":" input with
  | Some lastColonPos =>
      let ip := str_take lastColonPos input in
      let port_str := str_drop (S lastColonPos) input in
      let '(tmpport, endptr) := strtol (c_str port_str) in
      if negb (String.eqb endptr "") || (tmpport <=? 0) || (tmpport >=? 65536)
      then (false, ip, port)
      else (true, ip, u16 tmpport)
  | None => (false, ip, port)
  end.

(** ** Lemmas *)

(** The guard both parsers apply to the text after the colon. *)
Definition port_rejected (tmpport : Z) (endptr : string) : bool :=
  negb (String.eqb endptr "") || (tmpport <=? 0) || (tmpport >=? 65536).

Lemma port_rejected_false v rest : port_rejected v rest = false ↔ rest = "" ∧ 1 ≤ v ≤ 65535.
Proof.
  unfold port_rejected. destruct (String.eqb_spec rest "") as [->|Hne]; simpl;
    destruct (Z.leb_spec v 0), (Z.geb_spec v 65536); simpl; intuition (lia || congruence || discriminate).
Qed.

Lemma strtol_port p : 1 ≤ p ≤ 65535 → strtol (c_str (to_dec p)) = (p, "").
Proof. intros Hp. rewrite c_str_to_dec. apply strtol_to_dec. unfold LONG_MAX. lia. Qed.

Lemma to_string_pos p : 0 ≤ p → to_string p = to_dec p.
Proof. intros Hp. unfold to_string. destruct (Z.ltb_spec p 0); [lia|done]. Qed.

Lemma port_u16 p : 1 ≤ p ≤ 65535 → u16 p = p.
Proof. intros Hp. apply wrap_small. wsolve. Qed.

(** ** Properties *)

(** C38: printing a host and a port and parsing the text gives them back, for every
    valid port: the IPv6 parser cuts at the last colon and takes any host, the IPv4
    parser at the first and takes any host without a colon. *)
Theorem parse_print host p ip0 port0 :
  1 ≤ p ≤ 65535 →
  parseIPv6Port (host +:+ ":" +:+ to_string p) ip0 port0 = (true, host, p) ∧
  (str_find ":" host = None → parseIPPort (host +:+ ":" +:+ to_string p) ip0 port0 = (true, host, p)).
Proof.
  intros Hp. unfold parseIPv6Port, parseIPPort. rewrite to_string_pos by lia.
  change (":" +:+ to_dec p) with (String ":" (to_dec p)). split.
  - rewrite str_rfind_app, str_take_app, str_drop_app, strtol_port
      by (done || by apply str_rfind_to_dec).
    fold (port_rejected p ""). rewrite (proj2 (port_rejected_false p "")) by done.
    by rewrite port_u16.
  - intros Hh. rewrite str_find_app, str_take_app, str_drop_app, strtol_port by done.
    fold (port_rejected p ""). rewrite (proj2 (port_rejected_false p "")) by done.
    by rewrite port_u16.
Qed.

Lemma parse_print_witness :
  parseIPv6Port ("2001:db8::7334" +:+ ":" +:+ to_string 65535) "" 0 = (true, "2001:db8::7334", 65535) ∧
  parseIPPort ("192.168.1.1" +:+ ":" +:+ to_string 8080) "" 0 = (true, "192.168.1.1", 8080).
Proof.
  split; [apply (parse_print "2001:db8::7334" 65535)|apply (parse_print "192.168.1.1" 8080)];
    try reflexivity; lia.
Defined.

(** What the IPv4 parser accepts: the text is [ip:rest] with no colon in [ip],
    the port is in [1..65535] and is exactly what [strtol] reads off the whole of
    [rest]; when it rejects, the port is left as it was. *)
Lemma parseIPPort_sound input ip0 port0 ok ip port :
  parseIPPort input ip0 port0 = (ok, ip, port) →
  if ok : bool then
    1 ≤ port ≤ 65535 ∧ str_find ":" ip = None ∧
    ∃ rest, input = ip +:+ String ":" rest ∧ strtol (c_str rest) = (port, "")
  else port = port0.
Proof.
  unfold parseIPPort. destruct (str_find ":" input) as [n|] eqn:E; [|by intros [= <- <- <-]].
  apply str_find_Some in E as [E1 E2].
  destruct (strtol _) as [v rest] eqn:Es. fold (port_rejected v rest).
  destruct (port_rejected v rest) eqn:G; [by intros [= <- <- <-]|].
  apply port_rejected_false in G as [-> Hv]. intros [= <- <- <-].
  rewrite port_u16 by done. split; [done|]. split; [done|]. eauto.
Qed.

Lemma parseIPPort_sound_witness :
  parseIPPort "h: +80" "" 0 = (true, "h", 80) ∧ 1 ≤ 80 ≤ 65535.
Proof. split; [done|]. apply (parseIPPort_sound "h: +80" "" 0 true "h" 80 eq_refl). Defined.
