(* ===== verification/Sockets.v ===== *)
(** * Sockets: messages, ancillary data and socket options ([src/utils.cpp])

    A [msghdr] holds what its pointers point to: the sender's [sockaddr] as bytes,
    the ancillary data as the list of control messages that [CMSG_FIRSTHDR] and
    [CMSG_NXTHDR] walk.  The option and level numbers are Linux's.  [inet_ntop] and
    [setsockopt] belong to the C library and the kernel and are arguments. *)

From S2P Require Import Prelude Double Text Packets Timestamps.

(** ** Constants of the Linux headers *)

Definition IPPROTO_IP : Z := 0.
Definition IPPROTO_IPV6 : Z := 41.
Definition SOL_SOCKET : Z := 1.
Definition IP_TOS : Z := 1.
Definition IP_TTL : Z := 2.
Definition IP_RECVTTL : Z := 12.
Definition IP_RECVTOS : Z := 13.
Definition IPV6_HOPLIMIT : Z := 52.
Definition SO_RCVTIMEO : Z := 20.
Definition SO_TIMESTAMP : Z := 29.
Definition SO_TIMESTAMPNS : Z := 35.
Definition SO_TIMESTAMPING : Z := 37.
Definition MSG_TRUNC : Z := 32.
Definition AF_INET : Z := 2.
Definition AF_INET6 : Z := 10.

Definition HDR_TTL : Z := 255.
Definition IPV4 : Z := 4.
Definition IPV6 : Z := 6.
Definition DEFAULT_TTL : Z := 255.

(** ** Messages *)

Record cmsghdr := mkCmsg { cmsg_level : Z; cmsg_type : Z; cmsg_data : list Z }.

Record iovec := mkIovec { iov_base : list Z; iov_len : Z }.

Record msghdr := mkMsghdr {
  msg_name : list Z;
  msg_namelen : Z;
  msg_iov : list iovec;
  msg_control : list cmsghdr;
  msg_flags : Z;
}.

Definition make_msghdr (iov : list iovec) (addr : list Z) (addr_len : Z) (control : list cmsghdr)
    : msghdr :=
  mkMsghdr addr addr_len iov control 0.

(** The bytes [sendmsg] gathers; reading past the end of a buffer is undefined. *)
Fixpoint gather (iov : list iovec) : option (list Z) :=
  match iov with
  | [] => Some []
  | v :: t =>
      if Z.of_nat (length (iov_base v)) <? iov_len v then None
      else rest ← gather t; Some (take (Z.to_nat (iov_len v)) (iov_base v) ++ rest)
  end.

(** ** Receiving *)

(** What the kernel delivers to one [recvmsg]. *)
Inductive delivery :=
  | Failed (errno : Z) (strerror : string)
  | Datagram (payload : list Z) (from : list Z) (control : list cmsghdr).

(** Both programs receive into a buffer of the size of a packet structure. *)
Definition buffer_size : Z := TST_PKT_SIZE.

(** [message.msg_flags] after [recvmsg]: a longer datagram is cut. *)
Definition recv_flags (payload : list Z) : Z :=
  if buffer_size <? Z.of_nat (length payload) then MSG_TRUNC else 0.

(** The message [make_msghdr] prepared, as [recvmsg] fills it. *)
Definition recv_message (payload from : list Z) (control : list cmsghdr) : msghdr :=
  let message := make_msghdr [mkIovec (recv_buffer buffer_size payload) buffer_size]
                   (recv_buffer 28 from) (Z.of_nat (length from)) control in
  {| message with msg_flags := recv_flags payload |}.

Lemma land_trunc payload :
  negb (Z.land (recv_flags payload) MSG_TRUNC =? 0) = (TST_PKT_SIZE <? Z.of_nat (length payload)).
Proof. unfold recv_flags, buffer_size. by destruct (_ <? _). Qed.

(** Control messages as the kernel builds them: at least one byte of data each. *)
Definition good_control (cs : list cmsghdr) : Prop :=
  Forall (λ c, cmsg_data c ≠ [] ∧ bytes (cmsg_data c)) cs.

(** ** TTL and TOS of an incoming packet *)

Record IPHeader := mkIPHeader { ttl : Z; tos : Z }.

#[export] Instance IPHeader_eq_dec : EqDecision IPHeader.
Proof. solve_decision. Defined.

Definition unexpected_cmsg (c : cmsghdr) : string :=
  String (ascii_of_nat 9) "Warning, unexpected data of level " +:+ to_string (cmsg_level c) +:+
  " and type " +:+ to_string (cmsg_type c) +:+ nl.

(** The loop over the control messages; [err] collects what is written to [cerr]. *)
Fixpoint ip_header_loop (cs : list cmsghdr) (ttl tos : Z) (err : string) : option (Z * Z * string) :=
  match cs with
  | [] => Some (ttl, tos, err)
  | c :: cs =>
      if cmsg_level c =? IPPROTO_IP then
        if cmsg_type c =? IP_TTL then
          ttl ← head (cmsg_data c); ip_header_loop cs ttl tos err
        else if cmsg_type c =? IP_TOS then
          tos ← head (cmsg_data c); ip_header_loop cs ttl tos err
        else ip_header_loop cs ttl tos (err +:+ unexpected_cmsg c)
      else if cmsg_level c =? IPPROTO_IPV6 then
        if cmsg_type c =? IPV6_HOPLIMIT then
          ttl ← head (cmsg_data c); ip_header_loop cs ttl tos err
        else ip_header_loop cs ttl tos (err +:+ unexpected_cmsg c)
      else ip_header_loop cs ttl tos err
  end.

Definition get_ip_header (hdr : msghdr) : option (IPHeader * string) :=
  '(ttl, tos, err) ← ip_header_loop (msg_control hdr) DEFAULT_TTL 0 "";
  Some (mkIPHeader ttl tos, err).

(** ** Kernel timestamps *)

(** [memcpy] of [n] bytes out of the data of a control message. *)
Definition cmsg_read (c : cmsghdr) (n : nat) : option (list Z) :=
  if (length (cmsg_data c) <? n)%nat then None else Some (take n (cmsg_data c)).

Definition timespec_of_bytes (bs : list Z) : timespec :=
  mkTimespec (i64 (le_int (field 0 8 bs))) (i64 (le_int (field 8 8 bs))).

Definition timespec_bytes (tv : timespec) : list Z :=
  le_bytes 8 (u64 (tv_sec tv)) ++ le_bytes 8 (u64 (tv_nsec tv)).

Fixpoint kernel_timestamp_loop (cs : list cmsghdr) (incoming_timestamp : timespec) : option timespec :=
  match cs with
  | [] => Some incoming_timestamp
  | cm :: cs =>
      if negb (cmsg_level cm =? SOL_SOCKET) then kernel_timestamp_loop cs incoming_timestamp
      else if (cmsg_type cm =? SO_TIMESTAMPNS) || (cmsg_type cm =? SO_TIMESTAMPING) then
        bs ← cmsg_read cm 16; kernel_timestamp_loop cs (timespec_of_bytes bs)
      else if cmsg_type cm =? SO_TIMESTAMP then
        bs ← cmsg_read cm 16;
        let tv := mkTimeval (i64 (le_int (field 0 8 bs))) (i64 (le_int (field 8 8 bs))) in
        nsec ← checked_i 64 (tv_usec tv * NANOSECONDS_IN_MICROSECOND);
        kernel_timestamp_loop cs (mkTimespec (tvl_sec tv) nsec)
      else kernel_timestamp_loop cs incoming_timestamp
  end.

Definition get_kernel_timestamp (incoming_msg : msghdr) (incoming_timestamp : timespec) : option timespec :=
  kernel_timestamp_loop (msg_control incoming_msg) incoming_timestamp.

(** ** The sender's address *)

Section ParseAddress.
(** [inet_ntop family address]: the text, or null. *)
Variable inet_ntop : Z → list Z → option string.

Definition parse_ip_address (sender_msg : msghdr) (port : Z) (host : string) (ip_version : Z)
    : Z * string :=
  if ip_version =? IPV4 then
    (ntohs (le_int (field 2 2 (msg_name sender_msg))),
     default host (inet_ntop AF_INET (field 4 4 (msg_name sender_msg))))
  else if ip_version =? IPV6 then
    (ntohs (le_int (field 2 2 (msg_name sender_msg))),
     default host (inet_ntop AF_INET6 (field 8 16 (msg_name sender_msg))))
  else (port, host).
End ParseAddress.

(** ** Socket options *)

Record sockopt := mkSockopt { so_level : Z; so_name : Z; so_value : list Z }.

Section SocketOptions.
(** The return code of [setsockopt]. *)
Variable setsockopt : sockopt → Z.

(** One call and the message its failure writes to [cerr]. *)
Definition try_option (failed : Z → bool) (o : sockopt) (message : string)
    : list sockopt * list string :=
  ([o], if failed (setsockopt o) then [message] else []).

Definition nonzero (r : Z) : bool := negb (r =? 0).

Definition set_socket_options (ip_ttl timeout_secs : Z) : list sockopt * list string :=
  let timeout := le_bytes 8 timeout_secs ++ le_bytes 8 0 in
  let flags := le_bytes 4 1 in
  let One := [1] in
  let r1 := try_option (λ r, r <? 0) (mkSockopt SOL_SOCKET SO_TIMESTAMPNS flags)
    "ERROR: setsockopt SO_TIMESTAMPNS" in
  let r2 := if negb (timeout_secs =? 0)
    then try_option nonzero (mkSockopt SOL_SOCKET SO_RCVTIMEO timeout)
      "[PROBLEM] Cannot set the timeout value for reception."
    else ([], []) in
  let r3 := try_option nonzero (mkSockopt IPPROTO_IP IP_TTL [ip_ttl])
    "[PROBLEM] Cannot set the TTL value for emission." in
  let r4 := try_option nonzero (mkSockopt IPPROTO_IP IP_RECVTTL One)
    "[PROBLEM] Cannot set the socket option for TTL reception." in
  let r5 := try_option nonzero (mkSockopt IPPROTO_IP IP_TOS One)
    "[PROBLEM] Cannot set the socket option for TOS." in
  let r6 := try_option nonzero (mkSockopt IPPROTO_IP IP_RECVTOS One)
    "[PROBLEM] Cannot set the socket option for TOS reception." in
  (r1.1 ++ r2.1 ++ r3.1 ++ r4.1 ++ r5.1 ++ r6.1,
   r1.2 ++ r2.2 ++ r3.2 ++ r4.2 ++ r5.2 ++ r6.2).

Definition set_socket_tos (ip_tos : Z) : list sockopt * list string :=
  try_option nonzero (mkSockopt IPPROTO_IP IP_TOS [ip_tos])
    "[PROBLEM] Cannot set the TOS value for emission.".

(** The options a socket has after a sequence of calls: the last successful call
    for an option decides its value. *)
Definition socket_state (calls : list sockopt) : gmap (Z * Z) (list Z) :=
  foldl (λ m o, if setsockopt o =? 0 then <[(so_level o, so_name o) := so_value o]> m else m)
    ∅ calls.
End SocketOptions.

(** ** Lemmas: the ancillary data *)

(** The TTL (hop limit) and TOS a control message carries. *)
Definition ttl_of (c : cmsghdr) : option Z :=
  if ((cmsg_level c =? IPPROTO_IP) && (cmsg_type c =? IP_TTL)) ||
     ((cmsg_level c =? IPPROTO_IPV6) && (cmsg_type c =? IPV6_HOPLIMIT))
  then head (cmsg_data c) else None.

Definition tos_of (c : cmsghdr) : option Z :=
  if (cmsg_level c =? IPPROTO_IP) && (cmsg_type c =? IP_TOS) then head (cmsg_data c) else None.

Lemma default_last_cons {A} (d x : A) l : default d (last (x :: l)) = default x (last l).
Proof.
  revert d x. induction l as [|y l IH]; intros d x; [done|].
  change (last (x :: y :: l)) with (last (y :: l)). by rewrite !IH.
Qed.

Lemma default_last_omap {A} (f : A → option Z) c cs d :
  default d (last (omap f (c :: cs))) = default (default d (f c)) (last (omap f cs)).
Proof. cbn [omap list_omap]. destruct (f c) as [x|]; [apply default_last_cons|done]. Qed.

(** Split on the level and type tests of the loops. *)
Ltac cmsg_cases :=
  repeat match goal with
  | |- context [?a =? ?b] => destruct (Z.eqb_spec a b)
  end; simpl;
  try (exfalso; unfold IPPROTO_IP, IPPROTO_IPV6, SOL_SOCKET, IP_TTL, IP_TOS, SO_TIMESTAMP,
         SO_TIMESTAMPNS, SO_TIMESTAMPING in *; congruence).

Lemma ip_header_loop_spec cs t o err :
  Forall (λ c, cmsg_data c ≠ []) cs →
  ∃ err', ip_header_loop cs t o err =
    Some (default t (last (omap ttl_of cs)), default o (last (omap tos_of cs)), err').
Proof.
  intros H. revert t o err. induction H as [|c cs Hc _ IH]; intros t o err; [by exists err|].
  rewrite !default_last_omap. cbn [ip_header_loop]. unfold ttl_of at 1, tos_of at 1.
  destruct (cmsg_data c) as [|x data]; [done|]. cbn [head].
  cmsg_cases; apply IH.
Qed.

Lemma kernel_timestamp_cons c cs ts :
  kernel_timestamp_loop (c :: cs) ts = kernel_timestamp_loop [c] ts ≫= kernel_timestamp_loop cs.
Proof.
  cbn [kernel_timestamp_loop]. cmsg_cases; try done; destruct (cmsg_read c 16); try done.
  simpl. by destruct (checked_i 64 _).
Qed.

(** Whether a control message can be read does not depend on the earlier ones. *)
Lemma kernel_timestamp_readable c ts ts' :
  is_Some (kernel_timestamp_loop [c] ts) → is_Some (kernel_timestamp_loop [c] ts').
Proof. cbn [kernel_timestamp_loop]. cmsg_cases; naive_solver eauto. Qed.

Lemma kernel_timestamp_app pre rest ts :
  Forall (λ c, is_Some (kernel_timestamp_loop [c] (mkTimespec 0 0))) pre →
  ∃ ts', kernel_timestamp_loop (pre ++ rest) ts = kernel_timestamp_loop rest ts'.
Proof.
  intros H. revert ts. induction H as [|c pre Hc _ IH]; intros ts; [by exists ts|].
  cbn [app]. rewrite kernel_timestamp_cons.
  apply (kernel_timestamp_readable _ _ ts) in Hc as [ts1 ->]. apply IH.
Qed.

(** A control message that [get_kernel_timestamp] ignores. *)
Definition no_timestamp (c : cmsghdr) : bool :=
  negb (cmsg_level c =? SOL_SOCKET) ||
  negb ((cmsg_type c =? SO_TIMESTAMPNS) || (cmsg_type c =? SO_TIMESTAMPING) ||
        (cmsg_type c =? SO_TIMESTAMP)).

Lemma kernel_timestamp_ignored cs ts :
  Forall (λ c, no_timestamp c = true) cs → kernel_timestamp_loop cs ts = Some ts.
Proof.
  induction 1 as [|c cs Hc _ IH]; [done|]. rewrite kernel_timestamp_cons. unfold no_timestamp in Hc.
  replace (kernel_timestamp_loop [c] ts) with (Some ts); [exact IH|].
  revert Hc. cbn [kernel_timestamp_loop]. cmsg_cases; done.
Qed.

Lemma i64_le_bytes z : z ∈i 64 → i64 (le_int (le_bytes 8 (u64 z))) = z.
Proof.
  intros Hz. rewrite le_int_bytes_id by (apply (wrap_range 64); lia).
  rewrite swrap_wrap. by apply swrap_small.
Qed.

Lemma timespec_of_bytes_bytes tv : tv_sec tv ∈i 64 → tv_nsec tv ∈i 64 →
  timespec_of_bytes (timespec_bytes tv) = tv.
Proof.
  intros Hs Hn. unfold timespec_of_bytes.
  change (field 0 8 (timespec_bytes tv)) with (le_bytes 8 (u64 (tv_sec tv))).
  change (field 8 8 (timespec_bytes tv)) with (le_bytes 8 (u64 (tv_nsec tv))).
  rewrite !i64_le_bytes by done. by destruct tv.
Qed.

(** ** Properties *)

(** [get_ip_header] takes the TTL of the last control message that carries one
    (IPv4 TTL or IPv6 hop limit) and the last TOS, and without any falls back on
    the TTL 255 that RFC 5357 prescribes and TOS 0. *)
Lemma get_ip_header_last hdr :
  Forall (λ c, cmsg_data c ≠ []) (msg_control hdr) →
  fst <$> get_ip_header hdr = Some (mkIPHeader
    (default 255 (last (omap ttl_of (msg_control hdr))))
    (default 0 (last (omap tos_of (msg_control hdr))))).
Proof.
  intros H. unfold get_ip_header.
  by destruct (ip_header_loop_spec (msg_control hdr) DEFAULT_TTL 0 "" H) as [err ->].
Qed.

Definition example_hdr : msghdr :=
  mkMsghdr [] 0 [] [mkCmsg IPPROTO_IP IP_TTL [64; 0; 0; 0]; mkCmsg SOL_SOCKET SO_TIMESTAMPNS [1];
                    mkCmsg IPPROTO_IP IP_TOS [184]] 0.

Lemma get_ip_header_last_witness : fst <$> get_ip_header example_hdr = Some (mkIPHeader 64 184).
Proof. rewrite get_ip_header_last by repeat (constructor; try done). reflexivity. Defined.

(** The kernel's nanosecond timestamp reaches the program intact: when the last
    control message of [SOL_SOCKET] level with a timestamp is a [SO_TIMESTAMPNS] (or
    [SO_TIMESTAMPING]) one that starts with a [timespec], that timespec is what
    [get_kernel_timestamp] stores, whatever came before. *)
Lemma get_kernel_timestamp_last msg pre c post ts0 tv rest :
  msg_control msg = pre ++ c :: post →
  Forall (λ c, is_Some (kernel_timestamp_loop [c] (mkTimespec 0 0))) pre →
  Forall (λ c, no_timestamp c = true) post →
  cmsg_level c = SOL_SOCKET → cmsg_type c = SO_TIMESTAMPNS ∨ cmsg_type c = SO_TIMESTAMPING →
  cmsg_data c = timespec_bytes tv ++ rest → tv_sec tv ∈i 64 → tv_nsec tv ∈i 64 →
  get_kernel_timestamp msg ts0 = Some tv.
Proof.
  intros E Hpre Hpost Hl Ht Hd Hs Hn. unfold get_kernel_timestamp. rewrite E.
  destruct (kernel_timestamp_app pre (c :: post) ts0 Hpre) as [ts' ->].
  rewrite kernel_timestamp_cons.
  replace (kernel_timestamp_loop [c] ts') with (Some tv);
    [by apply kernel_timestamp_ignored|].
  cbn [kernel_timestamp_loop]. rewrite Hl. cbn [negb Z.eqb SOL_SOCKET].
  replace ((cmsg_type c =? SO_TIMESTAMPNS) || (cmsg_type c =? SO_TIMESTAMPING)) with true
    by (destruct Ht as [-> | ->]; done).
  unfold cmsg_read. rewrite Hd.
  change (take 16 (timespec_bytes tv ++ rest)) with (timespec_bytes tv).
  change (length (timespec_bytes tv ++ rest) <? 16)%nat with false. simpl.
  by rewrite timespec_of_bytes_bytes.
Qed.

Lemma get_kernel_timestamp_last_witness :
  get_kernel_timestamp
    (mkMsghdr [] 0 [] [mkCmsg IPPROTO_IP IP_TTL [64]; mkCmsg SOL_SOCKET SO_TIMESTAMPNS
       (timespec_bytes (mkTimespec 1700000000 5))] 0) (mkTimespec 0 0) = Some (mkTimespec 1700000000 5).
Proof.
  apply (get_kernel_timestamp_last _ [mkCmsg IPPROTO_IP IP_TTL [64]]
    (mkCmsg SOL_SOCKET SO_TIMESTAMPNS (timespec_bytes (mkTimespec 1700000000 5))) [] _ _ []);
    [done|constructor; [by eexists|constructor]|constructor|done|by left|done|done|done].
Defined.

(** The socket options after the constructor's two calls, when the kernel
    accepts them all: outgoing TTL 255, the requested TOS (the provisional value 1
    is overwritten), TTL, TOS and timestamp reception on, and a receive timeout of
    exactly [timeout] seconds unless it is 0, which leaves the socket blocking. *)
Lemma socket_options_final timeout tos :
  let ok := λ _, 0 in
  let st := socket_state ok ((set_socket_options ok HDR_TTL timeout).1 ++ (set_socket_tos ok tos).1) in
  st !! (IPPROTO_IP, IP_TOS) = Some [tos] ∧
  st !! (IPPROTO_IP, IP_TTL) = Some [255] ∧
  st !! (IPPROTO_IP, IP_RECVTTL) = Some [1] ∧
  st !! (IPPROTO_IP, IP_RECVTOS) = Some [1] ∧
  st !! (SOL_SOCKET, SO_TIMESTAMPNS) = Some (le_bytes 4 1) ∧
  st !! (SOL_SOCKET, SO_RCVTIMEO) =
    (if decide (timeout = 0) then None else Some (le_bytes 8 timeout ++ le_bytes 8 0)).
Proof.
  unfold socket_state, set_socket_options, set_socket_tos, try_option. cbn [fst snd].
  rewrite Z.eqb_refl. destruct (Z.eqb_spec timeout 0) as [->|Hne]; cbn [negb app foldl fst so_level so_name so_value].
  - rewrite decide_True by done. by repeat split.
  - rewrite decide_False by done. by repeat split.
Qed.
