(* ===== verification/Server.v ===== *)
(** * Server: the session reflector ([include/Server.h], [src/server/Server.cpp])

    [craftReflectorPacket] builds the reply, [handleTestPacket] prints a line and
    sends it, [listen] is the receive loop.  The environment of one iteration is a
    record: what [recvmsg] delivers, the two clock readings [get_timestamp] may
    take, the outcome of [sendmsg].  [listen] runs over the list of iterations the
    environment offers and ends as [Blocked] when it would wait for more. *)

From S2P Require Import Prelude Double Text Packets Timestamps Sockets.

Definition ERROR_ESTIMATE_DEFAULT_BITMAP : Z := 32769. (* 0x8001 *)
Definition MICROSECONDS_TO_SECONDS : double := dlit 1 1000000.

Record Args := mkArgs {
  local_host : string;
  local_port : string;
  num_samples : Z;
  timeout : Z;
  snd_tos : Z;
  ip_version : Z;
  sep : ascii;
}.

Definition Args_init : Args := mkArgs "" "443" 0 0 0 4 ",".

Record MetricData := mkMetricData {
  ip : string;
  sending_port : Z;
  receiving_port : Z;
  payload_length : Z;
  client_server_delay_nanoseconds : Z;
  internal_delay_nanoseconds : Z;
  initial_send_time : Z;
  packet : ReflectorPacket;
}.

(** ** The reply *)

(** The timestamp of reception: the kernel's, or the clock when there is none. *)
Definition receive_time (incoming_timestamp clock : timespec) : option Timestamp :=
  if (tv_sec incoming_timestamp =? 0) && (tv_nsec incoming_timestamp =? 0) then get_timestamp clock
  else ts ← timespec_to_timestamp (Some incoming_timestamp) (Some Timestamp_init); ts.

Definition craftReflectorPacket (clientPacket : ClientPacket) (sender_msg : msghdr)
    (incoming_timestamp clock1 clock2 : timespec) : option (ReflectorPacket * string) :=
  server_timestamp ← receive_time incoming_timestamp clock1;
  send_timestamp ← get_timestamp clock2;
  '(ipHeader, err) ← get_ip_header sender_msg;
  Some ({|
    r_seq_number := seq_number clientPacket;
    r_timestamp := htonts send_timestamp;
    r_timestamp_error_estimate := htons ERROR_ESTIMATE_DEFAULT_BITMAP;
    mbz1 := mbz1 ReflectorPacket_init;
    receive_timestamp := htonts server_timestamp;
    sender_seq_number := seq_number clientPacket;
    sender_timestamp := timestamp clientPacket;
    sender_error_estimate := timestamp_error_estimate clientPacket;
    mbz2 := mbz2 ReflectorPacket_init;
    sender_ttl := ttl ipHeader;
    sender_tos := tos ipHeader;
    r_padding := r_padding ReflectorPacket_init;
  |}, err).

(** ** The line printed for a packet *)

Definition header_fields : list string :=
  ["Time"; "IP"; "Snd#"; "Rcv#"; "SndPort"; "RscPort"; "FW_TTL"; "SndTOS"; "FW_TOS"; "IntD"; "FWD"; "PLEN"].

(** The header line ends with a separator. *)
Definition header_line (sep : ascii) : string := join sep header_fields +:+ String sep nl.

Definition metric_fields (data : MetricData) : list string :=
  let snd_nb := ntohl (sender_seq_number (packet data)) in
  let rcv_nb := ntohl (r_seq_number (packet data)) in
  let fw_tos := 0 in
  let snd_tos := u8 (sender_tos (packet data) + Z.land fw_tos 3 -
                     Z.land (Z.shiftr (Z.land fw_tos 2) 1) (Z.land fw_tos 1)) in
  [to_string (initial_send_time data); ip data; to_string snd_nb; to_string rcv_nb;
   to_string (sending_port data); to_string (receiving_port data);
   to_string (sender_ttl (packet data)); to_string snd_tos; to_string fw_tos;
   print_fixed6 (dmul (of_int (internal_delay_nanoseconds data)) MICROSECONDS_TO_SECONDS);
   print_fixed6 (dmul (of_int (client_server_delay_nanoseconds data)) MICROSECONDS_TO_SECONDS);
   to_string (payload_length data)].

(** [printMetrics]: the text written and the new value of [header_printed]. *)
Definition printMetrics (args : Args) (header_printed : bool) (data : MetricData) : string * bool :=
  ((if header_printed then "" else header_line (sep args)) +:+ join (sep args) (metric_fields data) +:+ nl,
   true).

(** ** Handling a packet *)

Record state := mkState {
  header_printed : bool;
  out : string;  (** standard output *)
  err : string;  (** standard error *)
  sent : list msghdr;  (** the messages passed to [sendmsg], oldest first *)
}.

Definition init : state := mkState false "" "" [].

Record iteration := mkIteration {
  recv : delivery;
  clock1 : timespec;
  clock2 : timespec;
  send_error : option string;  (** [strerror(errno)] when [sendmsg] fails *)
}.

Section Server.
Variable inet_ntop : Z → list Z → option string.
Variable args : Args.

(** The metrics of a request and its reply. *)
Definition metrics (packet : ClientPacket) (reflector_packet : ReflectorPacket)
    (sender_msg : msghdr) (payload_len local_port : Z) : option MetricData :=
  let '(port, host) := parse_ip_address inet_ntop sender_msg 0 "" (ip_version args) in
  let client_timestamp := ntohts (timestamp packet) in
  let server_timestamp := ntohts (receive_timestamp reflector_packet) in
  let send_timestamp := ntohts (r_timestamp reflector_packet) in
  server_receive_time ← timestamp_to_nsec (Some server_timestamp);
  initial_send_time ← timestamp_to_nsec (Some client_timestamp);
  server_send_time ← timestamp_to_nsec (Some send_timestamp);
  let client_server_delay := i64 (server_receive_time - initial_send_time) in
  let internal_delay := i64 (server_send_time - server_receive_time) in
  Some {|
    ip := host;
    sending_port := port;
    receiving_port := u16 local_port;
    payload_length := u16 payload_len;
    client_server_delay_nanoseconds := client_server_delay;
    internal_delay_nanoseconds := internal_delay;
    initial_send_time := initial_send_time;
    packet := reflector_packet;
  |}.

(** The sender's message reused for the reply. *)
Definition reply_message (reflector_packet : ReflectorPacket) (sender_msg : msghdr) (payload_len : Z)
    : msghdr :=
  mkMsghdr (msg_name sender_msg) (msg_namelen sender_msg)
    [mkIovec (reflector_bytes reflector_packet) payload_len] [] (msg_flags sender_msg).

(** [inl (e, st)]: [std::stoi] of the local port throws, before anything is printed. *)
Definition handleTestPacket (packet : ClientPacket) (sender_msg : msghdr) (payload_len : Z)
    (incoming_timestamp : timespec) (it : iteration) (st : state)
    : option (stoi_error * state + state) :=
  '(reflector_packet, warnings) ←
    craftReflectorPacket packet sender_msg incoming_timestamp (clock1 it) (clock2 it);
  match stoi (local_port args) with
  | inl e => Some (inl (e, mkState (header_printed st) (out st) (err st +:+ warnings) (sent st)))
  | inr local_port =>
      data ← metrics packet reflector_packet sender_msg payload_len local_port;
      let '(line, printed) := printMetrics args (header_printed st) data in
      let message := reply_message reflector_packet sender_msg payload_len in
      _ ← gather (msg_iov message);
      Some (inr {|
        header_printed := printed;
        out := out st +:+ line;
        err := err st +:+ warnings +:+ default "" ((λ e, e +:+ nl) <$> send_error it);
        sent := sent st ++ [message];
      |})
  end.

(** ** The receive loop *)

Inductive result := Exit (code : Z) | Throw (e : stoi_error) | Blocked.

Definition EAGAIN : Z := 11.

(** One iteration after the sample count: [inl r] leaves the loop. *)
Definition receive (it : iteration) (st : state) : option (result * state + state) :=
  match recv it with
  | Failed errno strerror =>
      if errno =? EAGAIN then
        Some (inl (Exit 11, mkState (header_printed st) (out st) (err st +:+ "Socket timed out." +:+ nl) (sent st)))
      else Some (inl (Exit 1, mkState (header_printed st) (out st) (err st +:+ strerror +:+ nl) (sent st)))
  | Datagram payload from control =>
      let message := recv_message payload from control in
      let payload_len := Z.min (Z.of_nat (length payload)) buffer_size in
      incoming_timestamp ← get_kernel_timestamp message (mkTimespec 0 0);
      if negb (Z.land (msg_flags message) MSG_TRUNC =? 0) then
        Some (inr (mkState (header_printed st)
          (out st +:+ "Datagram too large for buffer: truncated" +:+ nl) (err st) (sent st)))
      else
        let rec := client_of_bytes (recv_buffer buffer_size payload) in
        r ← handleTestPacket rec message payload_len incoming_timestamp it st;
        match r with
        | inl (e, st) => Some (inl (Throw e, st))
        | inr st => Some (inr st)
        end
  end.

(** The sample count at the head of the loop: whether to break, and the counter. *)
Definition count_sample (counter : Z) : bool * Z :=
  if negb (num_samples args =? 0) then
    let counter := u32 (counter + 1) in (counter >? num_samples args, counter)
  else (false, counter).

Fixpoint listen_loop (its : list iteration) (counter : Z) (st : state) : option (result * state) :=
  let '(stop, counter) := count_sample counter in
  if stop : bool then Some (Exit 0, st)
  else match its with
       | [] => Some (Blocked, st)
       | it :: its =>
           r ← receive it st;
           match r with
           | inl (res, st) => Some (res, st)
           | inr st => listen_loop its counter st
           end
       end.

Definition listen (its : list iteration) : option (result * state) := listen_loop its 0 init.
End Server.

(** ** Lemmas: the reply *)

(** A clock or kernel reading with its nanoseconds in range. *)
Definition good_time (tv : timespec) : Prop := 0 ≤ tv_nsec tv < 10 ^ 9.

(** The time the reply gives as the time of reception. *)
Definition effective_time (incoming clock : timespec) : timespec :=
  if (tv_sec incoming =? 0) && (tv_nsec incoming =? 0) then clock else incoming.

Definition header_ttl (cs : list cmsghdr) : Z := default 255 (last (omap ttl_of cs)).
Definition header_tos (cs : list cmsghdr) : Z := default 0 (last (omap tos_of cs)).

Definition reflected (p : ClientPacket) (received sent_at : timespec) (cs : list cmsghdr)
    : ReflectorPacket := {|
  r_seq_number := seq_number p;
  r_timestamp := htonts (ntp_of_timespec sent_at);
  r_timestamp_error_estimate := htons ERROR_ESTIMATE_DEFAULT_BITMAP;
  mbz1 := [0; 0];
  receive_timestamp := htonts (ntp_of_timespec received);
  sender_seq_number := seq_number p;
  sender_timestamp := timestamp p;
  sender_error_estimate := timestamp_error_estimate p;
  mbz2 := [0; 0];
  sender_ttl := header_ttl cs;
  sender_tos := header_tos cs;
  r_padding := replicate (Z.to_nat (TST_PKT_SIZE - REFLECTOR_HEADER_SIZE)) 0;
|}.

Lemma receive_time_exact incoming clock : good_time incoming → good_time clock →
  receive_time incoming clock = Some (ntp_of_timespec (effective_time incoming clock)).
Proof.
  intros Hi Hc. unfold receive_time, effective_time. destruct (_ && _).
  - by apply get_timestamp_exact.
  - by rewrite timespec_to_timestamp_exact.
Qed.

Lemma craft_exact p msg incoming c1 c2 :
  good_time incoming → good_time c1 → good_time c2 → good_control (msg_control msg) →
  ∃ w, craftReflectorPacket p msg incoming c1 c2 =
    Some (reflected p (effective_time incoming c1) c2 (msg_control msg), w).
Proof.
  intros Hi H1 H2 Hc. unfold craftReflectorPacket, get_ip_header.
  rewrite receive_time_exact, get_timestamp_exact by done. cbn [mbind option_bind].
  destruct (ip_header_loop_spec (msg_control msg) DEFAULT_TTL 0 "") as [w ->].
  - eapply Forall_impl; [exact Hc|]. by intros c [? _].
  - cbn [mbind option_bind]. by exists w.
Qed.

Lemma header_byte (f : cmsghdr → option Z) cs d :
  d ∈u 8 → good_control cs → (∀ c x, f c = Some x → head (cmsg_data c) = Some x) →
  default d (last (omap f cs)) ∈u 8.
Proof.
  intros Hd Hc Hf. revert d Hd. induction Hc as [|c cs [_ Hb] _ IH]; intros d Hd; [done|].
  rewrite default_last_omap. apply IH. destruct (f c) as [x|] eqn:E; [|done].
  apply Hf in E. cbn. destruct Hb as [|y l Hy _]; [done|]. by simplify_eq/=.
Qed.

Lemma ttl_of_head c x : ttl_of c = Some x → head (cmsg_data c) = Some x.
Proof. unfold ttl_of. by destruct (_ || _). Qed.
Lemma tos_of_head c x : tos_of c = Some x → head (cmsg_data c) = Some x.
Proof. unfold tos_of. by destruct (_ && _). Qed.

Lemma wf_reflected p received sent_at cs :
  wf_client p → good_control cs → wf_reflector (reflected p received sent_at cs).
Proof.
  intros W Hc. split; cbn [reflected r_seq_number r_timestamp r_timestamp_error_estimate mbz1
    receive_timestamp sender_seq_number sender_timestamp sender_error_estimate mbz2 sender_ttl
    sender_tos r_padding]; auto with twamp; try (split; [by repeat constructor|done]).
  - apply header_byte; [done|done|apply ttl_of_head].
  - apply header_byte; [done|done|apply tos_of_head].
  - by apply Forall_replicate.
Qed.

(** The reply's bytes, field by field: what the fields of [reflected] look like on
    the wire. *)
Lemma reflected_fields p received sent_at cs :
  let bs := reflector_bytes (reflected p received sent_at cs) in
  field 0 4 bs = le_bytes 4 (seq_number p) ∧
  field 4 8 bs = timestamp_bytes (htonts (ntp_of_timespec sent_at)) ∧
  field 12 2 bs = [128; 1] ∧
  field 14 2 bs = [0; 0] ∧
  field 16 8 bs = timestamp_bytes (htonts (ntp_of_timespec received)) ∧
  field 24 4 bs = le_bytes 4 (seq_number p) ∧
  field 28 8 bs = timestamp_bytes (timestamp p) ∧
  field 36 2 bs = le_bytes 2 (timestamp_error_estimate p) ∧
  field 38 2 bs = [0; 0] ∧
  field 40 2 bs = le_bytes 1 (header_ttl cs) ++ le_bytes 1 (header_tos cs) ∧
  drop 42 bs = replicate 1430 0.
Proof. repeat split. Qed.

(** A timestamp in network order is its two words, most significant byte first. *)
Lemma timestamp_bytes_htonts ts :
  timestamp_bytes (htonts ts) = be_bytes 4 (integer ts) ++ be_bytes 4 (fractional ts).
Proof. unfold timestamp_bytes, htonts. cbn [integer fractional]. by rewrite !le_bytes_bswap. Qed.

(** ** Lemmas: one iteration *)

Definition good_iteration (it : iteration) : Prop :=
  good_time (clock1 it) ∧ good_time (clock2 it) ∧
  match recv it with
  | Failed _ _ => False
  | Datagram payload from control =>
      bytes payload ∧ good_control control ∧
      ∃ ts, kernel_timestamp_loop control (mkTimespec 0 0) = Some ts ∧ good_time ts
  end.

(** The datagram fits the receive buffer. *)
Definition fits (it : iteration) : bool :=
  match recv it with
  | Failed _ _ => false
  | Datagram payload _ _ => Z.of_nat (length payload) <=? TST_PKT_SIZE
  end.

Section Iteration.
Context (inet_ntop : Z → list Z → option string) (args : Args) (lp : Z).
Hypothesis Hport : stoi (local_port args) = inr lp.

(** The metrics in exact arithmetic. *)
Definition metrics_of (p : ClientPacket) (received sent_at : timespec) (msg : msghdr) (plen : Z)
    : MetricData := {|
  ip := (parse_ip_address inet_ntop msg 0 "" (ip_version args)).2;
  sending_port := (parse_ip_address inet_ntop msg 0 "" (ip_version args)).1;
  receiving_port := u16 lp;
  payload_length := u16 plen;
  client_server_delay_nanoseconds :=
    ntp_nsec (ntp_of_timespec received) - ntp_nsec (ntohts (timestamp p));
  internal_delay_nanoseconds :=
    ntp_nsec (ntp_of_timespec sent_at) - ntp_nsec (ntp_of_timespec received);
  initial_send_time := ntp_nsec (ntohts (timestamp p));
  packet := reflected p received sent_at (msg_control msg);
|}.

Lemma ntp_nsec_diff a b : wf_timestamp a → wf_timestamp b →
  i64 (ntp_nsec a - ntp_nsec b) = ntp_nsec a - ntp_nsec b.
Proof.
  intros [_ Ha] [_ Hb]. pose proof (ntp_nsec_range a Ha). pose proof (ntp_nsec_range b Hb).
  apply swrap_small; wsolve.
Qed.

Lemma metrics_exact p received sent_at msg plen : good_time received → good_time sent_at →
  metrics inet_ntop args p (reflected p received sent_at (msg_control msg)) msg plen lp =
  Some (metrics_of p received sent_at msg plen).
Proof.
  intros Hr Hs. unfold metrics, metrics_of. cbn [reflected receive_timestamp r_timestamp].
  destruct (parse_ip_address inet_ntop msg 0 "" (ip_version args)) as [port host].
  rewrite !ntohts_htonts by by apply wf_ntp_of_timespec.
  rewrite !timestamp_to_nsec_exact by (apply wf_ntohts || by apply wf_ntp_of_timespec).
  cbn [mbind option_bind]. rewrite !ntp_nsec_diff by (apply wf_ntohts || by apply wf_ntp_of_timespec).
  done.
Qed.

Lemma gather_reply p received sent_at cs msg plen :
  wf_client p → good_control cs → plen ≤ TST_PKT_SIZE →
  gather (msg_iov (reply_message (reflected p received sent_at cs) msg plen)) =
  Some (take (Z.to_nat plen) (reflector_bytes (reflected p received sent_at cs))).
Proof.
  intros W Hc Hl. cbn [reply_message msg_iov gather iov_base iov_len mbind option_bind].
  rewrite length_reflector_bytes by by apply wf_reflected.
  destruct (Z.ltb_spec TST_PKT_SIZE plen); [lia|]. by rewrite app_nil_r.
Qed.

Lemma handle_exact p msg plen incoming it st :
  wf_client p → good_control (msg_control msg) → plen ≤ TST_PKT_SIZE →
  good_time incoming → good_time (clock1 it) → good_time (clock2 it) →
  let received := effective_time incoming (clock1 it) in
  ∃ e, handleTestPacket inet_ntop args p msg plen incoming it st = Some (inr {|
    header_printed := true;
    out := out st +:+ (printMetrics args (header_printed st)
             (metrics_of p received (clock2 it) msg plen)).1;
    err := err st +:+ e;
    sent := sent st ++ [reply_message (reflected p received (clock2 it) (msg_control msg)) msg plen];
  |}).
Proof.
  intros W Hc Hl Hi H1 H2 received. unfold handleTestPacket.
  destruct (craft_exact p msg incoming (clock1 it) (clock2 it)) as [w ->]; [done..|].
  cbn [mbind option_bind]. rewrite Hport. fold received.
  rewrite metrics_exact
    by (done || (unfold received, effective_time; by destruct (_ && _))).
  cbn [mbind option_bind printMetrics fst]. rewrite gather_reply by done.
  cbn [mbind option_bind]. eauto.
Qed.

(** A well-behaved iteration never leaves the loop; it answers a datagram that
    fits and only reports one that does not. *)
Lemma receive_good it st : good_iteration it →
  ∃ st', receive inet_ntop args it st = Some (inr st') ∧
    match recv it with
    | Failed _ _ => False
    | Datagram payload from control =>
        let buffer := recv_buffer TST_PKT_SIZE payload in
        if fits it then
          ∃ incoming, kernel_timestamp_loop control (mkTimespec 0 0) = Some incoming ∧
            sent st' = sent st ++
              [reply_message (reflected (client_of_bytes buffer) (effective_time incoming (clock1 it))
                 (clock2 it) control) (recv_message payload from control) (Z.of_nat (length payload))]
        else sent st' = sent st
    end.
Proof.
  intros (H1 & H2 & H). unfold receive, fits.
  destruct (recv it) as [errno text|payload from control]; [done|].
  destruct H as (Hb & Hc & ts & Ets & Hts).
  unfold get_kernel_timestamp. cbn [recv_message make_msghdr msg_control msg_flags]. rewrite Ets.
  cbn [mbind option_bind]. rewrite land_trunc, Z.ltb_antisym.
  destruct (Z.leb_spec (Z.of_nat (length payload)) TST_PKT_SIZE); cbn [negb]; [|by eexists].
  destruct (recv_buffer_wf TST_PKT_SIZE payload) as [Hbb Hbl]; [done|done|].
  destruct (handle_exact (client_of_bytes (recv_buffer buffer_size payload))
    (recv_message payload from control) (Z.min (Z.of_nat (length payload)) buffer_size) ts it st)
    as [e ->]; try done.
  - by apply client_of_bytes_wf.
  - unfold buffer_size. lia.
  - cbn [mbind option_bind recv_message make_msghdr msg_control]. eexists. split; [done|].
    exists ts. split; [done|]. cbn [sent]. by rewrite Z.min_l by (unfold buffer_size; lia).
Qed.
End Iteration.

(** ** Lemmas: the receive loop *)

(** The datagrams answered among a list of iterations. *)
Definition answered (its : list iteration) : nat := length (List.filter fits its).

(** The sample counts the loop can reach: the 32-bit counter must exceed them. *)
Definition countable (n : Z) : Prop := 0 < n < 2 ^ 32 - 1.

#[export] Instance countable_dec n : Decision (countable n).
Proof. unfold countable. apply _. Defined.

Section Loop.
Context (inet_ntop : Z → list Z → option string) (args : Args) (lp : Z).
Hypothesis Hport : stoi (local_port args) = inr lp.
Hypothesis Hrange : num_samples args ∈u 32.

Lemma receive_answers it st : good_iteration it →
  ∃ st', receive inet_ntop args it st = Some (inr st') ∧
    length (sent st') = (length (sent st) + answered [it])%nat.
Proof.
  intros Hg. destruct (receive_good inet_ntop args lp Hport it st Hg) as (st' & E & H).
  exists st'. split; [done|]. unfold answered. cbn [List.filter].
  destruct (recv it) eqn:Er; [done|]. destruct (fits it).
  - destruct H as (ts & _ & ->). by rewrite length_app.
  - rewrite H. simpl. lia.
Qed.

Lemma answered_cons it its : answered (it :: its) = (answered [it] + answered its)%nat.
Proof. unfold answered. cbn [List.filter]. by destruct (fits it). Qed.

Lemma listen_loop_unbounded its c st :
  ¬ countable (num_samples args) → c ∈u 32 → Forall good_iteration its →
  ∃ st', listen_loop inet_ntop args its c st = Some (Blocked, st') ∧
    length (sent st') = (length (sent st) + answered its)%nat.
Proof.
  intros Hn Hc Hg. revert c st Hc. induction Hg as [|it its Hit _ IH]; intros c st Hc.
  all: assert (∃ c', count_sample args c = (false, c') ∧ c' ∈u 32) as (c' & Ec & Hc') by
    (unfold count_sample, countable in *; destruct (Z.eqb_spec (num_samples args) 0); cbn [negb];
     [eauto|]; eexists; pose proof (wrap_range 32 (c + 1) ltac:(lia)); split; [|done];
     f_equal; rewrite Z.gtb_ltb; apply Z.ltb_ge; wsolve).
  all: cbn [listen_loop]; rewrite Ec.
  - exists st. split; [done|]. unfold answered. simpl. lia.
  - destruct (receive_answers it st Hit) as (st1 & -> & Hs). cbn [mbind option_bind].
    destruct (IH c' st1 Hc') as (st' & E & Hs'). exists st'. split; [done|].
    rewrite answered_cons. lia.
Qed.

Lemma listen_loop_bounded its c st :
  countable (num_samples args) → 0 ≤ c ≤ num_samples args → Forall good_iteration its →
  let k := Z.to_nat (num_samples args - c) in
  ∃ st', listen_loop inet_ntop args its c st =
      Some (if decide (k ≤ length its)%nat then Exit 0 else Blocked, st') ∧
    length (sent st') = (length (sent st) + answered (take k its))%nat.
Proof.
  intros Hn Hc Hg. revert c st Hc. induction Hg as [|it its Hit _ IH]; intros c st Hc; cbn zeta.
  all: assert (count_sample args c = (bool_decide (c = num_samples args), c + 1)) as Ec by
    (unfold count_sample, countable in *; destruct (Z.eqb_spec (num_samples args) 0); [lia|];
     cbn [negb]; rewrite wrap_small by wsolve; f_equal; rewrite Z.gtb_ltb;
     destruct (Z.ltb_spec (num_samples args) (c + 1)); symmetry;
     [apply bool_decide_eq_true|apply bool_decide_eq_false]; lia).
  all: cbn [listen_loop]; rewrite Ec; case_bool_decide as Ecn.
  1, 3: rewrite Ecn, Z.sub_diag; exists st; split;
    [by rewrite decide_True by (simpl; lia)|unfold answered; simpl; lia].
  - exists st. rewrite decide_False by (simpl; lia). split; [done|].
    unfold answered. rewrite take_nil. simpl. lia.
  - destruct (receive_answers it st Hit) as (st1 & -> & Hs). cbn [mbind option_bind].
    destruct (IH (c + 1) st1) as (st' & E & Hs'); [lia|]. exists st'.
    replace (Z.to_nat (num_samples args - c)) with (S (Z.to_nat (num_samples args - (c + 1)))) by lia.
    rewrite E. cbn [take length]. rewrite answered_cons. split; [|lia].
    do 2 f_equal. repeat case_decide; done || lia.
Qed.
End Loop.

(** ** Properties *)

(** The 1472 bytes of a reply on the wire, from the zero-padded request. *)
Definition reply_wire (request : list Z) (received sent_at : Timestamp) (ttl tos : Z) : list Z :=
  field 0 4 request ++
  be_bytes 4 (integer sent_at) ++ be_bytes 4 (fractional sent_at) ++ [128; 1] ++ [0; 0] ++
  be_bytes 4 (integer received) ++ be_bytes 4 (fractional received) ++
  field 0 4 request ++ field 4 8 request ++ field 12 2 request ++ [0; 0] ++
  [ttl; tos] ++ replicate 1430 0.

Lemma reflector_bytes_wire buf received sent_at cs :
  bytes buf → Z.of_nat (length buf) = TST_PKT_SIZE → good_control cs →
  reflector_bytes (reflected (client_of_bytes buf) received sent_at cs) =
  reply_wire buf (ntp_of_timespec received) (ntp_of_timespec sent_at) (header_ttl cs) (header_tos cs).
Proof.
  unfold TST_PKT_SIZE. intros Hb Hl Hc. unfold reflector_bytes, reply_wire.
  cbn -[le_bytes be_bytes field htonts ntp_of_timespec header_ttl header_tos replicate].
  rewrite !timestamp_bytes_htonts, !le_bytes_field, timestamp_bytes_of_bytes by (done || lia).
  rewrite <- !app_assoc.
  assert (∀ b, b ∈u 8 → le_bytes 1 b = [b]) as H1.
  { intros b Hb'. simpl. by rewrite Z.mod_small. }
  rewrite !H1; [done|apply header_byte; [done|done|apply tos_of_head]|
    apply header_byte; [done|done|apply ttl_of_head]].
Qed.

(** C2: every datagram that fits the buffer is answered, to its sender, with
    exactly as many bytes as it had; the answer is a prefix of the TWAMP-Test reply
    of RFC 5357 in network byte order: the request's sequence number, the sending
    time, the error estimate 0x8001, the time of reception, the request's sequence
    number, timestamp and error estimate verbatim, the received TTL and TOS, and
    zeros, so that nothing of the request's padding or the server's memory leaks. *)
Theorem receive_reply_wire inet_ntop args lp it st payload from control incoming :
  stoi (local_port args) = inr lp → good_iteration it →
  recv it = Datagram payload from control → Z.of_nat (length payload) ≤ TST_PKT_SIZE →
  kernel_timestamp_loop control (mkTimespec 0 0) = Some incoming →
  let reply := take (length payload)
    (reply_wire (recv_buffer TST_PKT_SIZE payload)
       (ntp_of_timespec (effective_time incoming (clock1 it))) (ntp_of_timespec (clock2 it))
       (header_ttl control) (header_tos control)) in
  length reply = length payload ∧
  ∃ st' m, receive inet_ntop args it st = Some (inr st') ∧ sent st' = sent st ++ [m] ∧
    msg_name m = recv_buffer 28 from ∧ gather (msg_iov m) = Some reply.
Proof.
  cbn zeta. intros Hport Hg Er Hl Ek. destruct (receive_good inet_ntop args lp Hport it st Hg) as (st' & E & H).
  unfold fits in H. rewrite Er in H. rewrite (proj2 (Z.leb_le _ _) Hl) in H.
  destruct H as (ts & Ek' & Hs). assert (ts = incoming) as -> by congruence.
  destruct Hg as (_ & _ & Hg). rewrite Er in Hg. destruct Hg as (Hb & Hc & _).
  destruct (recv_buffer_wf TST_PKT_SIZE payload) as [Hbb Hbl]; [done|done|].
  assert (wf_client (client_of_bytes (recv_buffer TST_PKT_SIZE payload))) as W
    by by apply client_of_bytes_wf.
  rewrite <- reflector_bytes_wire by done. split.
  { rewrite length_take, Nat.min_l; [done|].
    pose proof (length_reflector_bytes _ (wf_reflected _ (effective_time incoming (clock1 it))
      (clock2 it) _ W Hc)). lia. }
  exists st'. eexists. split; [exact E|]. split; [exact Hs|]. split; [done|].
  rewrite gather_reply by done. by rewrite Nat2Z.id.
Qed.

(** A concrete exchange: a 16-byte request with a kernel timestamp and a TTL. *)
Definition no_ntop : Z → list Z → option string := λ _ _, Some "192.0.2.1".
Definition example_request : list Z := [0; 0; 0; 7; 232; 254; 111; 128; 64; 0; 0; 0; 128; 1; 99; 99].
Definition example_control : list cmsghdr :=
  [mkCmsg SOL_SOCKET SO_TIMESTAMPNS (timespec_bytes (mkTimespec 1700000000 500000000));
   mkCmsg IPPROTO_IP IP_TTL [64; 0; 0; 0]].
Definition example_iteration : iteration :=
  mkIteration (Datagram example_request (replicate 16 1) example_control)
    (mkTimespec 1700000000 600000000) (mkTimespec 1700000000 700000000) None.

Lemma example_iteration_good : good_iteration example_iteration.
Proof.
  unfold good_iteration, good_time. cbn [example_iteration clock1 clock2 recv tv_nsec].
  split; [lia|]. split; [lia|]. split; [by repeat constructor|].
  split; [by repeat (constructor; [split; [done|by repeat constructor]|])|].
  exists (mkTimespec 1700000000 500000000). split; [by vm_compute|]. cbn [tv_nsec]. lia.
Qed.

Lemma receive_reply_wire_witness :
  ∃ st' m, receive no_ntop Args_init example_iteration init = Some (inr st') ∧ sent st' = [m] ∧
    gather (msg_iov m) = Some (take 16 (reply_wire (recv_buffer TST_PKT_SIZE example_request)
      (ntp_of_timespec (mkTimespec 1700000000 500000000))
      (ntp_of_timespec (mkTimespec 1700000000 700000000)) 64 0)).
Proof.
  destruct (receive_reply_wire no_ntop Args_init 443 example_iteration init example_request
    (replicate 16 1) example_control (mkTimespec 1700000000 500000000)
    eq_refl example_iteration_good eq_refl (proj1 (Z.leb_le 16 1472) eq_refl) eq_refl)
    as (_ & st' & m & H1 & H2 & _ & H3).
  exists st', m. split; [exact H1|]. split; [exact H2|exact H3].
Defined.

(** C20: the sample count.  When no call fails, a server with [-n k] ends with exit
    code 0 once [k] datagrams have come in, having answered those among the first
    [k] that fit the buffer, and waits for more before that; [k = 0] never ends.
    Nor does [k = 2^32 - 1]: the 32-bit counter cannot exceed it. *)
Theorem listen_num_samples inet_ntop args lp its :
  stoi (local_port args) = inr lp → num_samples args ∈u 32 → Forall good_iteration its →
  let k := num_samples args in
  ∃ st, listen inet_ntop args its =
      Some (if decide (countable k ∧ k ≤ Z.of_nat (length its)) then Exit 0 else Blocked, st) ∧
    length (sent st) =
      answered (if decide (countable k) then take (Z.to_nat k) its else its).
Proof.
  intros Hp Hr Hg k. unfold listen. destruct (decide (countable k)) as [Hk|Hk].
  - destruct (listen_loop_bounded inet_ntop args lp Hp Hr its 0 init) as (st & E & Hs);
      [done|unfold countable in *; fold k; lia|done|].
    exists st. rewrite E, Z.sub_0_r in *. fold k in Hs |- *. split; [|exact Hs].
    do 2 f_equal. unfold countable in *. repeat case_decide; done || lia.
  - destruct (listen_loop_unbounded inet_ntop args lp Hp Hr its 0 init) as (st & E & Hs); [done..|].
    exists st. rewrite E, decide_False by tauto. by split.
Qed.

Definition example_args (n : Z) : Args := mkArgs "" "862" n 0 0 4 ",".

Lemma listen_num_samples_witness :
  (∃ st, listen no_ntop (example_args 2) [example_iteration; example_iteration; example_iteration] =
     Some (Exit 0, st) ∧ length (sent st) = 2%nat) ∧
  (∃ st, listen no_ntop (example_args (2 ^ 32 - 1)) [example_iteration; example_iteration] =
     Some (Blocked, st) ∧ length (sent st) = 2%nat).
Proof.
  split.
  - apply (listen_num_samples no_ntop (example_args 2) 862 [example_iteration; example_iteration;
      example_iteration] eq_refl); [done|]. repeat (constructor; [apply example_iteration_good|]). done.
  - apply (listen_num_samples no_ntop (example_args (2 ^ 32 - 1)) 862 [example_iteration;
      example_iteration] eq_refl); [done|]. repeat (constructor; [apply example_iteration_good|]). done.
Defined.

(** An error of [recvmsg] ends the loop, keeping the answers sent so far: with
    exit code 11 and a message on a timeout ([EAGAIN]), with exit code 1 and the
    system's message otherwise. *)
Lemma listen_recv_error inet_ntop args lp pre it post errno text :
  stoi (local_port args) = inr lp → num_samples args = 0 → Forall good_iteration pre →
  recv it = Failed errno text →
  ∃ st e, listen inet_ntop args (pre ++ it :: post) =
      Some (Exit (if errno =? EAGAIN then 11 else 1), st) ∧
    length (sent st) = answered pre ∧
    err st = e +:+ (if errno =? EAGAIN then "Socket timed out." else text) +:+ nl.
Proof.
  intros Hp Hn Hg Er. unfold listen.
  cut (∀ c st, ∃ st' e, listen_loop inet_ntop args (pre ++ it :: post) c st =
      Some (Exit (if errno =? EAGAIN then 11 else 1), st') ∧
    length (sent st') = (length (sent st) + answered pre)%nat ∧
    err st' = e +:+ (if errno =? EAGAIN then "Socket timed out." else text) +:+ nl).
  { intros H. exact (H 0 init). }
  induction Hg as [|i pre Hi _ IH]; intros c st; cbn [app listen_loop];
    unfold count_sample; rewrite Hn; cbn [negb Z.eqb].
  - unfold receive. rewrite Er. unfold answered. simpl. rewrite Nat.add_0_r.
    destruct (errno =? EAGAIN); cbn [mbind option_bind]; do 2 eexists; split; done.
  - destruct (receive_answers inet_ntop args lp Hp i st Hi) as (st1 & -> & Hs).
    cbn [mbind option_bind]. destruct (IH c st1) as (st' & e & E & Hs' & He).
    exists st', e. split; [exact E|]. split; [|exact He]. rewrite answered_cons. lia.
Qed.

Lemma listen_recv_error_witness :
  ∃ st e, listen no_ntop (example_args 0) ([example_iteration] ++
      mkIteration (Failed 11 "Resource temporarily unavailable") (mkTimespec 0 0) (mkTimespec 0 0) None :: []) =
    Some (Exit 11, st) ∧ length (sent st) = 1%nat ∧ err st = e +:+ "Socket timed out." +:+ nl.
Proof.
  apply (listen_recv_error no_ntop (example_args 0) 862 [example_iteration]
    (mkIteration (Failed 11 "Resource temporarily unavailable") (mkTimespec 0 0) (mkTimespec 0 0) None)
    [] 11 "Resource temporarily unavailable"); try done.
  constructor; [apply example_iteration_good|done].
Defined.

(** A local port given as a service name, which the resolver accepts, but not
    [std::stoi]: the first datagram that fits the buffer ends the loop with the
    exception, after the clocks are read but before anything is printed or sent. *)
Lemma listen_service_name inet_ntop args e it its :
  stoi (local_port args) = inl e → num_samples args = 0 → good_iteration it → fits it = true →
  ∃ st, listen inet_ntop args (it :: its) = Some (Throw e, st) ∧ sent st = [] ∧ out st = "".
Proof.
  intros Hp Hn (H1 & H2 & Hg) Hf. unfold listen. cbn [listen_loop]. unfold count_sample. rewrite Hn.
  cbn [Z.eqb negb]. unfold receive. unfold fits in Hf.
  destruct (recv it) as [|payload from control]; [done|]. destruct Hg as (Hb & Hc & ts & Ets & Hts).
  unfold get_kernel_timestamp. cbn [recv_message make_msghdr msg_control msg_flags]. rewrite Ets.
  cbn [mbind option_bind]. rewrite land_trunc, Z.ltb_antisym, Hf. cbn [negb]. unfold handleTestPacket.
  destruct (craft_exact (client_of_bytes (recv_buffer buffer_size payload))
    (recv_message payload from control) ts (clock1 it) (clock2 it)) as [w E]; [done..|].
  rewrite E. cbn [mbind option_bind]. rewrite Hp. cbn [mbind option_bind]. by eexists.
Qed.

Lemma listen_service_name_witness :
  ∃ st, listen no_ntop (mkArgs "" "http" 0 0 0 4 ",") [example_iteration] = Some (Throw invalid_argument, st) ∧
    sent st = [].
Proof.
  destruct (listen_service_name no_ntop (mkArgs "" "http" 0 0 0 4 ",") invalid_argument example_iteration []
    eq_refl eq_refl example_iteration_good eq_refl) as (st & E & Es & _).
  exists st. split; [exact E|exact Es].
Defined.

(** The row of a reflected packet, its delays in milliseconds as exact decimals. *)
Definition row_fields (host : string) (port lp plen : Z) (p : ClientPacket)
    (received sent_at : timespec) (cs : list cmsghdr) : list string :=
  let fwd := ntp_nsec (ntp_of_timespec received) - ntp_nsec (ntohts (timestamp p)) in
  let internal := ntp_nsec (ntp_of_timespec sent_at) - ntp_nsec (ntp_of_timespec received) in
  [to_string (ntp_nsec (ntohts (timestamp p))); host;
   to_string (ntohl (seq_number p)); to_string (ntohl (seq_number p));
   to_string port; to_string (u16 lp);
   to_string (header_ttl cs); to_string (header_tos cs); "0";
   micro_decimal internal; micro_decimal fwd; to_string (u16 plen)].

Lemma metric_fields_row inet_ntop args lp p received sent_at msg plen :
  good_control (msg_control msg) →
  Z.abs (ntp_nsec (ntp_of_timespec received) - ntp_nsec (ntohts (timestamp p))) < 2 ^ 51 →
  Z.abs (ntp_nsec (ntp_of_timespec sent_at) - ntp_nsec (ntp_of_timespec received)) < 2 ^ 51 →
  metric_fields (metrics_of inet_ntop args lp p received sent_at msg plen) =
  let '(port, host) := parse_ip_address inet_ntop msg 0 "" (ip_version args) in
  row_fields host port lp plen p received sent_at (msg_control msg).
Proof.
  intros Hc Hf Hi. unfold metric_fields, metrics_of, row_fields, MICROSECONDS_TO_SECONDS.
  destruct (parse_ip_address _ _ _ _ _) as [port host].
  cbn [ip sending_port receiving_port payload_length client_server_delay_nanoseconds
    internal_delay_nanoseconds initial_send_time packet reflected r_seq_number sender_seq_number
    sender_ttl sender_tos fst snd].
  rewrite !print_fixed6_micro by lia.
  change (Z.land 0 3) with 0. change (Z.land (Z.shiftr (Z.land 0 2) 1) (Z.land 0 1)) with 0.
  rewrite Z.add_0_r, Z.sub_0_r, (wrap_small 8); [done|]. apply header_byte; [done|done|apply tos_of_head].
Qed.

(** C34: what a reflected packet prints, for delays below [2^51] ns (26 days): the
    request's time and sequence number, the TTL and TOS received, and the internal
    and forward delays, which double arithmetic renders as the exact nanosecond
    counts in milliseconds; the header line comes first, once. *)
Theorem handleTestPacket_line inet_ntop args lp p msg plen incoming it st :
  stoi (local_port args) = inr lp →
  wf_client p → good_control (msg_control msg) → plen ≤ TST_PKT_SIZE →
  good_time incoming → good_time (clock1 it) → good_time (clock2 it) →
  let received := effective_time incoming (clock1 it) in
  Z.abs (ntp_nsec (ntp_of_timespec received) - ntp_nsec (ntohts (timestamp p))) < 2 ^ 51 →
  Z.abs (ntp_nsec (ntp_of_timespec (clock2 it)) - ntp_nsec (ntp_of_timespec received)) < 2 ^ 51 →
  ∃ st', handleTestPacket inet_ntop args p msg plen incoming it st = Some (inr st') ∧
    header_printed st' = true ∧
    out st' = out st +:+ (if header_printed st then "" else header_line (sep args)) +:+
      join (sep args)
        (let '(port, host) := parse_ip_address inet_ntop msg 0 "" (ip_version args) in
         row_fields host port lp plen p received (clock2 it) (msg_control msg)) +:+ nl.
Proof.
  intros Hp W Hc Hl Hi H1 H2 received Hf Hd.
  destruct (handle_exact inet_ntop args lp Hp p msg plen incoming it st) as [e ->]; [done..|].
  eexists. split; [done|]. split; [done|]. cbn [out printMetrics fst]. fold received.
  by rewrite metric_fields_row.
Qed.

Lemma handleTestPacket_line_witness :
  ∃ st', handleTestPacket no_ntop Args_init (client_of_bytes (recv_buffer 1472 example_request))
      (recv_message example_request (replicate 16 1) example_control) 16
      (mkTimespec 1700000000 500000000) example_iteration init = Some (inr st') ∧
    out st' = header_line "," +:+
      "1700000000250000000,192.0.2.1,7,7,257,443,64,0,0,199.999999,250.000000,16" +:+ nl.
Proof.
  destruct (handleTestPacket_line no_ntop Args_init 443
    (client_of_bytes (recv_buffer 1472 example_request))
    (recv_message example_request (replicate 16 1) example_control) 16
    (mkTimespec 1700000000 500000000) example_iteration init) as (st' & H & _ & Ho).
  - reflexivity.
  - apply client_of_bytes_wf; [|done].
    apply recv_buffer_wf; [done|]. by repeat constructor.
  - apply example_iteration_good.
  - by vm_compute.
  - by vm_compute.
  - apply example_iteration_good.
  - apply example_iteration_good.
  - by vm_compute.
  - by vm_compute.
  - exists st'. split; [exact H|]. rewrite Ho. vm_compute. reflexivity.
Defined.

(** The header line has one column more than the rows: for a separator that
    occurs in no column name, number or address, 12 separators against 11. *)
Lemma header_row_columns sep host port lp plen p received sent_at cs :
  number_sep sep = true → Forall (λ f, str_count sep f = 0%nat) header_fields →
  str_count sep host = 0%nat → str_count sep nl = 0%nat →
  str_count sep (header_line sep) =
  S (str_count sep (join sep (row_fields host port lp plen p received sent_at cs) +:+ nl)).
Proof.
  intros Hs Hh Hhost Hn. unfold header_line.
  rewrite !str_count_app, !str_count_join by
    (done || (repeat constructor; auto with twamp; by apply (str_count_to_string sep 0))).
  change (length (row_fields host port lp plen p received sent_at cs)) with 12%nat.
  change (length header_fields) with 12%nat.
  cbn [str_count] in *. rewrite Ascii.eqb_refl. lia.
Qed.

Lemma header_row_columns_witness :
  str_count "," (header_line ",") = 12%nat ∧
  str_count "," (join "," (row_fields "192.0.2.1" 5 443 16 ClientPacket_init (mkTimespec 0 0)
    (mkTimespec 0 0) []) +:+ nl) = 11%nat.
Proof.
  pose proof (header_row_columns "," "192.0.2.1" 5 443 16 ClientPacket_init (mkTimespec 0 0)
    (mkTimespec 0 0) [] eq_refl (ltac:(repeat constructor)) eq_refl eq_refl) as H.
  split; [reflexivity|]. apply (f_equal pred) in H. symmetry. exact H.
Defined.
