(* ===== verification/Observations.v ===== *)
(** * Observations: [include/packetlist.h] and the raw data of [include/Client.h]

    A [QEDObservation] is immutable, so the observation queue holds values.  A
    [RawData] is shared and mutated through [shared_ptr]s: the raw data live in a
    heap and a [RawDataList] holds pointers into it.  Both queues are mutex-guarded
    deques; each operation below is one critical section. *)

From S2P Require Import Prelude.

Inductive ObservationPoints :=
  | CLIENT_SEND | SERVER_RECEIVE | SERVER_SEND | CLIENT_RECEIVE | NUM_OBSERVATION_POINTS.

#[export] Instance ObservationPoints_eq_dec : EqDecision ObservationPoints.
Proof. solve_decision. Defined.

Record QEDObservation := mkQED {
  observation_point : ObservationPoints;
  epoch_nanoseconds : Z;
  o_packet_id : Z;
  o_payload_len : Z;
}.

#[export] Instance QEDObservation_eq_dec : EqDecision QEDObservation.
Proof. solve_decision. Defined.

(** The constructor's parameter types narrow their arguments. *)
Definition make_QEDObservation (point : ObservationPoints) (epoch id len : Z) : QEDObservation :=
  mkQED point (u64 epoch) (u32 id) (u16 len).

Record RawData := mkRawData {
  added_at_epoch_nanoseconds : Z;
  packet_id : Z;
  payload_len : Z;
  client_send_epoch_nanoseconds : Z;
  server_receive_epoch_nanoseconds : Z;
  server_send_epoch_nanoseconds : Z;
  client_receive_epoch_nanoseconds : Z;
}.

#[export] Instance RawData_eq_dec : EqDecision RawData.
Proof. solve_decision. Defined.

(** [RawData(added_at, packet_id)]: the other members keep their initialisers. *)
Definition new_RawData (added_at id : Z) : RawData := mkRawData added_at id 0 0 0 0 0.

Definition setPayloadLen (len : Z) (r : RawData) : RawData := {| r with payload_len := len |}.
Definition setClientSendEpochNanoseconds (t : Z) (r : RawData) : RawData :=
  {| r with client_send_epoch_nanoseconds := t |}.
Definition setServerReceiveEpochNanoseconds (t : Z) (r : RawData) : RawData :=
  {| r with server_receive_epoch_nanoseconds := t |}.
Definition setServerSendEpochNanoseconds (t : Z) (r : RawData) : RawData :=
  {| r with server_send_epoch_nanoseconds := t |}.
Definition setClientReceiveEpochNanoseconds (t : Z) (r : RawData) : RawData :=
  {| r with client_receive_epoch_nanoseconds := t |}.

(** ** The queue interface

    What the sender, receiver and collator rely on: a first-in first-out queue.
    [fifo_pop] is [None] where the source calls [front()] on an empty deque, which
    is undefined. *)
Class Fifo (Q A : Type) := {
  fifo_empty : Q;
  fifo_add : A → Q → Q;
  fifo_pop : Q → option (A * Q);
  fifo_oldest : Q → option A;
  fifo_items : Q → list A;
}.

Class FifoLaws (Q A : Type) `{Fifo Q A} : Prop := {
  items_empty : fifo_items (fifo_empty (Q:=Q)) = [];
  items_add a q : fifo_items (fifo_add a q) = fifo_items q ++ [a];
  pop_nil q : fifo_items q = [] → fifo_pop q = None;
  pop_cons q a l : fifo_items q = a :: l → ∃ q', fifo_pop q = Some (a, q') ∧ fifo_items q' = l;
  oldest_items q : fifo_oldest q = head (fifo_items q);
}.

Module ObservationList.
Record t := mk { observations : list QEDObservation }.

Definition create : t := mk [].
Definition isEmpty (l : t) : bool := match observations l with [] => true | _ => false end.
Definition addObservation (o : QEDObservation) (l : t) : t := mk (observations l ++ [o]).
Definition popObservation (l : t) : option (QEDObservation * t) :=
  match observations l with [] => None | o :: rest => Some (o, mk rest) end.
Definition getOldestEntry (l : t) : option QEDObservation :=
  match observations l with [] => None | o :: _ => Some o end.
Definition getSize (l : t) : nat := length (observations l).
End ObservationList.

(** A [shared_ptr<RawData>]. *)
Abbreviation ptr := nat (only parsing).

Module RawDataList.
Record t := mk { observations : list ptr }.

Definition create : t := mk [].
Definition addObservation (p : ptr) (l : t) : t := mk (observations l ++ [p]).
Definition popObservation (l : t) : option (ptr * t) :=
  match observations l with [] => None | p :: rest => Some (p, mk rest) end.
Definition getOldestEntry (l : t) : option ptr :=
  match observations l with [] => None | p :: _ => Some p end.
End RawDataList.

#[export] Instance ObservationList_fifo : Fifo ObservationList.t QEDObservation := {
  fifo_empty := ObservationList.create;
  fifo_add := ObservationList.addObservation;
  fifo_pop := ObservationList.popObservation;
  fifo_oldest := ObservationList.getOldestEntry;
  fifo_items := ObservationList.observations;
}.

#[export] Instance RawDataList_fifo : Fifo RawDataList.t ptr := {
  fifo_empty := RawDataList.create;
  fifo_add := RawDataList.addObservation;
  fifo_pop := RawDataList.popObservation;
  fifo_oldest := RawDataList.getOldestEntry;
  fifo_items := RawDataList.observations;
}.

#[export] Instance ObservationList_laws : FifoLaws ObservationList.t QEDObservation.
Proof.
  split; [done|done|..].
  - by intros [[|? l]].
  - intros [l] a l' E. simpl in *. subst. by eexists.
  - by intros [[|? l]].
Qed.

#[export] Instance RawDataList_laws : FifoLaws RawDataList.t ptr.
Proof.
  split; [done|done|..].
  - by intros [[|? l]].
  - intros [l] a l' E. simpl in *. subst. by eexists.
  - by intros [[|? l]].
Qed.

(** ** Histories of a queue *)

Inductive queue_op (A : Type) := Add (a : A) | Pop.
Arguments Add {A} a.
Arguments Pop {A}.

Section Histories.
Context {Q A : Type} `{FifoLaws Q A}.

(** Run a history of critical sections in the order the mutex admits them: the
    values popped and the final queue, or [None] at a pop of an empty queue. *)
Fixpoint run_ops (ops : list (queue_op A)) (q : Q) : option (list A * Q) :=
  match ops with
  | [] => Some ([], q)
  | Add a :: ops => run_ops ops (fifo_add a q)
  | Pop :: ops => '(a, q) ← fifo_pop q; '(out, q) ← run_ops ops q; Some (a :: out, q)
  end.

Definition added (ops : list (queue_op A)) : list A :=
  omap (λ op, match op with Add a => Some a | Pop => None end) ops.

(** No prefix of the history pops more than it added to the [n] initial items. *)
Fixpoint balanced (n : nat) (ops : list (queue_op A)) : bool :=
  match ops with
  | [] => true
  | Add _ :: ops => balanced (S n) ops
  | Pop :: ops => match n with O => false | S n => balanced n ops end
  end.

Lemma run_ops_fifo ops q out q' : run_ops ops q = Some (out, q') →
  out ++ fifo_items q' = fifo_items q ++ added ops.
Proof.
  revert q out q'. induction ops as [|[a|] ops IH]; intros q out q'.
  - intros [= <- <-]. unfold added. simpl. by rewrite app_nil_r.
  - cbn [run_ops]. intros E%IH. rewrite E, items_add, <- app_assoc. done.
  - cbn [run_ops]. destruct (fifo_items q) as [|a l] eqn:El; [by rewrite pop_nil|].
    destruct (pop_cons q a l El) as (q1 & -> & E1). cbn [mbind option_bind].
    destruct (run_ops ops q1) as [[out1 q2]|] eqn:E2; [|done].
    intros [= <- <-]. apply IH in E2. cbn [app]. by rewrite E2, E1.
Qed.

Lemma run_ops_defined ops q : is_Some (run_ops ops q) ↔ balanced (length (fifo_items q)) ops = true.
Proof.
  revert q. induction ops as [|[a|] ops IH]; intros q; cbn [run_ops balanced].
  - split; eauto.
  - rewrite IH, items_add, length_app, Nat.add_comm. done.
  - destruct (fifo_items q) as [|a l] eqn:El; cbn [length].
    + rewrite pop_nil by done. split; [by intros [? ?]|done].
    + destruct (pop_cons q a l El) as (q1 & -> & <-). rewrite <- IH. cbn [mbind option_bind].
      destruct (run_ops ops q1) as [[out1 q2]|]; [split; by eexists|].
      split; by intros [? ?].
Qed.
End Histories.

(** ** Properties *)

(** In any history of critical sections on a queue that keeps the queue
    interface, nothing is lost, duplicated or reordered: what was popped followed
    by what is left is what was there followed by what was added, in order; and a
    history is defined exactly when it never pops the queue while it is empty. *)
Lemma queue_history {Q A} `{FifoLaws Q A} (ops : list (queue_op A)) (q : Q) :
  (balanced (length (fifo_items q)) ops = true ↔ is_Some (run_ops ops q)) ∧
  (∀ out q', run_ops ops q = Some (out, q') → out ++ fifo_items q' = fifo_items q ++ added ops).
Proof. split; [symmetry; apply run_ops_defined|apply run_ops_fifo]. Qed.

Lemma queue_history_witness :
  run_ops [Add 1%nat; Add 2%nat; Pop; Add 3%nat; Pop] (RawDataList.mk [0%nat]) =
    Some ([0%nat; 1%nat], RawDataList.mk [2%nat; 3%nat]) ∧
  [0; 1]%nat ++ [2; 3]%nat = [0]%nat ++ [1; 2; 3]%nat.
Proof.
  split; [done|].
  destruct (queue_history [Add 1%nat; Add 2%nat; Pop; Add 3%nat; Pop] (RawDataList.mk [0%nat]))
    as [_ H].
  exact (H [0%nat; 1%nat] (RawDataList.mk [2%nat; 3%nat]) eq_refl).
Defined.
