(* ===== verification/ClientState.v ===== *)
(** * ClientState: the arguments and the state of the client ([include/Client.h])

    The delay statistics come from the [qoo-c] library (a submodule, not part of
    this source): the class [SqaStats] is its interface, and [SqaLog] the instance
    that records the calls made, through which statements about the calls are
    phrased.  [Client] has the members of the C++ class that the threads use; the
    heap holds the [RawData] objects its [raw_data_list] points to. *)

From S2P Require Import Prelude Double Text Packets Timestamps Observations.

(** ** Arguments *)

Definition DEFAULT_MEAN_INTER_PACKET_DELAY : Z := 200.

Record Args := mkArgs {
  remote_hosts : list string;
  remote_ports : list Z;
  local_host : string;
  local_port : string;
  ip_version : Z;
  payload_lens : list Z;
  snd_tos : Z;
  num_samples : Z;
  mean_inter_packet_delay_ms : Z;
  timeout : Z;
  seed : Z;
  runtime : Z;
  sep : ascii;
  print_digest : bool;
  print_RTT_only : bool;
  print_lost_packets : bool;
  constant_inter_packet_delay : bool;
  print_format : string;
  json_output_file : string;
}.

Definition Args_init : Args :=
  mkArgs [] [] "" "0" 4 [50; 250; 450; 650; 850; 1050; 1250; 1400] 0 10
    DEFAULT_MEAN_INTER_PACKET_DELAY 10 0 0 "," false false false false "legacy" "".

(** ** Statistics *)

(** The [qoo-c] operations the client calls on a [struct sqa_stats]. *)
Class SqaStats (S : Type) := {
  sqa_stats_create : S;
  sqa_stats_add_sample : timespec → S → S;
  sqa_stats_count_loss : S → S;
  number_of_samples : S → Z;
  number_of_lost_packets : S → Z;
}.

(** What a [struct sqa_stats] is told. *)
Inductive sqa_call := AddSample (tv : timespec) | CountLoss.

#[export] Instance sqa_call_eq_dec : EqDecision sqa_call.
Proof. solve_decision. Defined.

Definition replay_call {S} `{SqaStats S} (s : S) (c : sqa_call) : S :=
  match c with AddSample tv => sqa_stats_add_sample tv s | CountLoss => sqa_stats_count_loss s end.

(** The state an implementation reaches from [s] by a sequence of calls. *)
Definition replay {S} `{SqaStats S} (calls : list sqa_call) (s : S) : S := foldl replay_call s calls.

Definition is_sample (c : sqa_call) : bool := match c with AddSample _ => true | CountLoss => false end.

Definition samples (calls : list sqa_call) : list timespec :=
  omap (λ c, match c with AddSample tv => Some tv | CountLoss => None end) calls.

Definition losses (calls : list sqa_call) : nat := length (List.filter (λ c, negb (is_sample c)) calls).

(** The recording instance. *)
Definition SqaLog : Type := list sqa_call.

#[export] Instance SqaLog_stats : SqaStats SqaLog := {
  sqa_stats_create := [];
  sqa_stats_add_sample tv l := l ++ [AddSample tv];
  sqa_stats_count_loss l := l ++ [CountLoss];
  number_of_samples l := Z.of_nat (length (samples l));
  number_of_lost_packets l := Z.of_nat (losses l);
}.

Record Stats (S : Type) := mkStats {
  stats_RTT : S;
  stats_internal : S;
  stats_client_server : S;
  stats_server_client : S;
}.
Arguments mkStats {S} _ _ _ _.
Arguments stats_RTT {S} _.
Arguments stats_internal {S} _.
Arguments stats_client_server {S} _.
Arguments stats_server_client {S} _.

Definition Stats_create {S} `{SqaStats S} : Stats S :=
  mkStats sqa_stats_create sqa_stats_create sqa_stats_create sqa_stats_create.

(** Replaying four logs on four statistics. *)
Definition replay_stats {S} `{SqaStats S} (logs : Stats SqaLog) (st : Stats S) : Stats S :=
  mkStats (replay (stats_RTT logs) (stats_RTT st)) (replay (stats_internal logs) (stats_internal st))
    (replay (stats_client_server logs) (stats_client_server st))
    (replay (stats_server_client logs) (stats_server_client st)).

Lemma replay_log l l' : replay l l' = l' ++ l.
Proof.
  unfold replay. revert l'. induction l as [|[tv|] l IH]; intros l'; simpl.
  - by rewrite app_nil_r.
  - rewrite IH, <- app_assoc. done.
  - rewrite IH, <- app_assoc. done.
Qed.

(** ** The client object *)

Record Client (S : Type) := mkClient {
  sent_packets : Z;
  received_packets : Z;
  last_received_packet_id : Z;
  sending_completed : Z;
  start_time : Z;
  collator_started : Z;
  collator_finished : Z;
  observation_list : ObservationList.t;
  stats : Stats S;
  heap : gmap ptr RawData;
  next : ptr;
  raw_data_list : RawDataList.t;
  first_packet_sent_epoch_nanoseconds : Z;
  last_packet_sent_epoch_nanoseconds : Z;
  last_packet_received_epoch_nanoseconds : Z;
  out : string;  (** standard output *)
  err : string;  (** standard error *)
}.
Arguments mkClient {S} _ _ _ _ _ _ _ _ _ _ _ _ _ _ _ _ _.
Arguments sent_packets {S} _.
Arguments received_packets {S} _.
Arguments last_received_packet_id {S} _.
Arguments sending_completed {S} _.
Arguments start_time {S} _.
Arguments collator_started {S} _.
Arguments collator_finished {S} _.
Arguments observation_list {S} _.
Arguments stats {S} _.
Arguments heap {S} _.
Arguments next {S} _.
Arguments raw_data_list {S} _.
Arguments first_packet_sent_epoch_nanoseconds {S} _.
Arguments last_packet_sent_epoch_nanoseconds {S} _.
Arguments last_packet_received_epoch_nanoseconds {S} _.
Arguments out {S} _.
Arguments err {S} _.

(** The object after its constructor: [now] is [time(nullptr)]. *)
Definition Client_init {S} `{SqaStats S} (now : Z) : Client S :=
  mkClient 0 0 (-1) 0 (u64 now) 0 0 ObservationList.create Stats_create ∅ O RawDataList.create 0 0 0 "" "".

Definition put {S} (text : string) (c : Client S) : Client S := {| c with out := out c +:+ text |}.
Definition put_err {S} (text : string) (c : Client S) : Client S := {| c with err := err c +:+ text |}.
