(* ===== verification/Collator.v ===== *)
(** * Collator: matching observations and aggregating delays ([src/client/Client.cpp])

    [process_observation] files an observation under its packet's [RawData],
    [check_if_oldest_packet_should_be_processed] retires the oldest entry when it
    is complete or has timed out, [aggregateRawData] turns it into delay samples or
    losses, and the collator loop alternates between them.  [now] is the clock
    reading of [get_timestamp]. *)

From S2P Require Import Prelude Double Text Packets Timestamps Observations ClientState.

Definition NANOSECONDS_IN_SECOND : Z := 1000000000.

Section Collator.
Context {S : Type} `{SqaStats S}.
Variable args : Args.

(** ** Filing an observation *)

(** The search through [raw_data_list]; dereferencing a dangling pointer is
    undefined. *)
Fixpoint find_entry (h : gmap ptr RawData) (id : Z) (l : list ptr) : option (option ptr) :=
  match l with
  | [] => Some None
  | it :: l =>
      entry ← h !! it;
      if packet_id entry =? id then Some (Some it) else find_entry h id l
  end.

(** The member the observation point selects. *)
Definition record_point (obs : QEDObservation) (entry : RawData) : RawData :=
  match observation_point obs with
  | CLIENT_SEND => setClientSendEpochNanoseconds (epoch_nanoseconds obs) entry
  | SERVER_RECEIVE => setServerReceiveEpochNanoseconds (epoch_nanoseconds obs) entry
  | SERVER_SEND => setServerSendEpochNanoseconds (epoch_nanoseconds obs) entry
  | CLIENT_RECEIVE => setClientReceiveEpochNanoseconds (epoch_nanoseconds obs) entry
  | NUM_OBSERVATION_POINTS => entry
  end.

Definition update_entry (obs : QEDObservation) (entry : RawData) : RawData :=
  record_point obs (setPayloadLen (o_payload_len obs) entry).

(** Under an entry that exists. *)
Definition update_at (obs : QEDObservation) (entry : ptr) (c : Client S) : option (Client S) :=
  r ← heap c !! entry;
  Some {| c with heap := <[entry := update_entry obs r]> (heap c) |}.

(** Under a new entry, added to the list last. *)
Definition add_entry (now : timespec) (obs : QEDObservation) (c : Client S) : option (Client S) :=
  now_ts ← get_timestamp now;
  added ← timestamp_to_nsec (Some now_ts);
  let entry := next c in
  Some {| c with heap := <[entry := update_entry obs (new_RawData added (o_packet_id obs))]> (heap c);
                 next := Datatypes.S entry;
                 raw_data_list := RawDataList.addObservation entry (raw_data_list c) |}.

Definition process_observation (now : timespec) (obs : QEDObservation) (c : Client S)
    : option (Client S) :=
  found ← find_entry (heap c) (o_packet_id obs) (RawDataList.observations (raw_data_list c));
  match found with
  | Some entry => update_at obs entry c
  | None => add_entry now obs c
  end.

(** ** Delays *)

Definition aggregateRawData (st : Stats S) (r : RawData) : option (Stats S) :=
  let '(st, client_server_delay) :=
    if (client_send_epoch_nanoseconds r >? 0) && (server_receive_epoch_nanoseconds r >? 0) then
      let d := nanosecondsToTimespec
        (u64 (server_receive_epoch_nanoseconds r - client_send_epoch_nanoseconds r)) in
      ({| st with stats_client_server := sqa_stats_add_sample d (stats_client_server st) |}, d)
    else (st, mkTimespec 0 0) in
  let '(st, server_client_delay) :=
    if (server_send_epoch_nanoseconds r >? 0) && (client_receive_epoch_nanoseconds r >? 0) &&
       (server_receive_epoch_nanoseconds r >? 0) && (client_send_epoch_nanoseconds r >? 0) then
      let d := nanosecondsToTimespec
        (u64 (client_receive_epoch_nanoseconds r - server_send_epoch_nanoseconds r)) in
      let i := nanosecondsToTimespec
        (u64 (server_send_epoch_nanoseconds r - server_receive_epoch_nanoseconds r)) in
      ({| st with stats_server_client := sqa_stats_add_sample d (stats_server_client st);
                  stats_internal := sqa_stats_add_sample i (stats_internal st) |}, d)
    else
      ({| stats_client_server := sqa_stats_count_loss (stats_client_server st);
                  stats_internal := sqa_stats_count_loss (stats_internal st);
                  stats_server_client := sqa_stats_count_loss (stats_server_client st);
                  stats_RTT := sqa_stats_count_loss (stats_RTT st) |}, mkTimespec 0 0) in
  rtt_delay ← safe_tspecplus client_server_delay server_client_delay;
  Some (if (tv_sec rtt_delay >? 0) || (tv_nsec rtt_delay >? 0)
        then {| st with stats_RTT := sqa_stats_add_sample rtt_delay (stats_RTT st) |}
        else st).

(** ** Retiring the oldest entry *)

Definition is_complete (r : RawData) : bool :=
  (client_send_epoch_nanoseconds r >? 0) && (server_receive_epoch_nanoseconds r >? 0) &&
  (server_send_epoch_nanoseconds r >? 0) && (client_receive_epoch_nanoseconds r >? 0).

(** [now - added > timeout * 10^9]: the unsigned difference wraps. *)
Definition timed_out (now_nanoseconds : Z) (r : RawData) : bool :=
  u64 (now_nanoseconds - added_at_epoch_nanoseconds r) >? timeout args * NANOSECONDS_IN_SECOND.

Definition raw_fields (r : RawData) : list string :=
  [to_string (packet_id r); to_string (payload_len r);
   to_string (client_send_epoch_nanoseconds r); to_string (server_receive_epoch_nanoseconds r);
   to_string (server_send_epoch_nanoseconds r); to_string (client_receive_epoch_nanoseconds r)].

Definition raw_line (r : RawData) : string :=
  if String.eqb (print_format args) "raw" then join (sep args) (raw_fields r) +:+ nl else "".

(** What follows the look at the oldest entry: [oldest] is the pointer read, while
    the list is read again by [popObservation]. *)
Definition check_oldest (now : timespec) (oldest : option ptr) (c : Client S) : option (Client S) :=
  now_ts ← get_timestamp now;
  now_nanoseconds ← timestamp_to_nsec (Some now_ts);
  match oldest with
  | Some p =>
      r ← heap c !! p;
      if is_complete r || timed_out now_nanoseconds r then
        st ← aggregateRawData (stats c) r;
        '(_, l) ← RawDataList.popObservation (raw_data_list c);
        Some (put (raw_line r) {| c with stats := st; raw_data_list := l |})
      else Some c
  | None =>
      Some (if sending_completed c >? 0 then {| c with collator_finished := 1 |} else c)
  end.

Definition check_if_oldest_packet_should_be_processed (now : timespec) (c : Client S)
    : option (Client S) :=
  check_oldest now (RawDataList.getOldestEntry (raw_data_list c)) c.

(** ** The collator loop *)

(** One iteration of [runCollatorThread] (the loop condition is in [collate]). *)
Definition collator_iteration (now : timespec) (c : Client S) : option (Client S) :=
  if negb (ObservationList.isEmpty (observation_list c)) then
    '(obs, q) ← ObservationList.popObservation (observation_list c);
    process_observation now obs {| c with observation_list := q |}
  else check_if_oldest_packet_should_be_processed now c.

(** The loop from the clock readings of its iterations: the client when the loop
    ends or the readings run out, and whether it has ended. *)
Fixpoint collate (nows : list timespec) (c : Client S) : option (bool * Client S) :=
  if negb (collator_finished c =? 0) then Some (true, c)
  else match nows with
       | [] => Some (false, c)
       | now :: nows => c ← collator_iteration now c; collate nows c
       end.

Definition runCollatorThread (nows : list timespec) (c : Client S) : option (bool * Client S) :=
  collate nows {| c with collator_started := 1 |}.
End Collator.

(** ** The abstract collator: an ordered list of entries *)

(** Filing an observation: update the first entry of its packet, or append a new
    entry added at time [added]. *)
Fixpoint file (added : Z) (obs : QEDObservation) (es : list RawData) : list RawData :=
  match es with
  | [] => [update_entry obs (new_RawData added (o_packet_id obs))]
  | r :: es => if packet_id r =? o_packet_id obs then update_entry obs r :: es
               else r :: file added obs es
  end.

(** [es] is what the list of pointers points to: distinct live objects. *)
Record repr {S} (c : Client S) (es : list RawData) : Prop := {
  repr_lookup : Forall2 (λ p r, heap c !! p = Some r) (RawDataList.observations (raw_data_list c)) es;
  repr_nodup : NoDup (RawDataList.observations (raw_data_list c));
  repr_fresh : ∀ p, is_Some (heap c !! p) → (p < next c)%nat;
}.

Lemma repr_ext {S} (c c' : Client S) es :
  heap c' = heap c → next c' = next c → raw_data_list c' = raw_data_list c → repr c es → repr c' es.
Proof. intros Eh En El []. by split; rewrite ?Eh, ?En, ?El. Qed.

(** The nanoseconds [get_timestamp] and [timestamp_to_nsec] make of a reading. *)
Definition now_nsec (now : timespec) : Z := ntp_nsec (ntp_of_timespec now).

Definition good_time (tv : timespec) : Prop := 0 ≤ tv_nsec tv < 10 ^ 9.

(** ** Lemmas: filing *)

Lemma find_entry_spec h id ptrs es :
  Forall2 (λ p r, h !! p = Some r) ptrs es →
  (find_entry h id ptrs = Some None ∧ Forall (λ r, packet_id r ≠ id) es) ∨
  (∃ l1 p l2 e1 r e2, ptrs = l1 ++ p :: l2 ∧ es = e1 ++ r :: e2 ∧ length l1 = length e1 ∧
    find_entry h id ptrs = Some (Some p) ∧ packet_id r = id ∧ Forall (λ r, packet_id r ≠ id) e1).
Proof.
  induction 1 as [|p r ptrs es Hp Hrest IH]; [by left|].
  cbn [find_entry]. rewrite Hp. cbn [mbind option_bind].
  destruct (Z.eqb_spec (packet_id r) id) as [E|Hne].
  - right. by exists [], p, ptrs, [], r, es.
  - destruct IH as [[-> HF]|(l1 & q & l2 & e1 & r' & e2 & -> & -> & Hl & -> & E & HF)].
    + left. split; [done|by constructor].
    + right. exists (p :: l1), q, l2, (r :: e1), r', e2.
      repeat split; simpl; [by rewrite Hl|done|by constructor].
Qed.

Lemma file_absent added obs es :
  Forall (λ r, packet_id r ≠ o_packet_id obs) es →
  file added obs es = es ++ [update_entry obs (new_RawData added (o_packet_id obs))].
Proof.
  induction 1 as [|r es Hr _ IH]; [done|]. cbn [file app].
  destruct (Z.eqb_spec (packet_id r) (o_packet_id obs)); [done|by rewrite IH].
Qed.

Lemma file_present added obs e1 r e2 :
  Forall (λ r, packet_id r ≠ o_packet_id obs) e1 → packet_id r = o_packet_id obs →
  file added obs (e1 ++ r :: e2) = e1 ++ update_entry obs r :: e2.
Proof.
  intros H Hr. induction H as [|r' e1 Hr' _ IH]; cbn [file app].
  - by rewrite Hr, Z.eqb_refl.
  - destruct (Z.eqb_spec (packet_id r') (o_packet_id obs)); [done|by rewrite IH].
Qed.

(** Updating an object outside a list of pointers leaves the list's view alone. *)
Lemma Forall2_heap_ne (h : gmap ptr RawData) p r ptrs es :
  p ∉ ptrs → Forall2 (λ q e, h !! q = Some e) ptrs es →
  Forall2 (λ q e, <[p := r]> h !! q = Some e) ptrs es.
Proof.
  intros Hp H. induction H as [|q e ptrs es Hq _ IH]; [done|].
  apply not_elem_of_cons in Hp as [Hne Hp]. constructor; [|by apply IH].
  by rewrite lookup_insert_ne.
Qed.

Lemma add_entry_file {S} (now : timespec) obs (c : Client S) es :
  good_time now → repr c es → Forall (λ r, packet_id r ≠ o_packet_id obs) es →
  ∃ h l, add_entry now obs c =
      Some {| c with heap := h; next := Datatypes.S (next c); raw_data_list := l |} ∧
    repr {| c with heap := h; next := Datatypes.S (next c); raw_data_list := l |} (file (now_nsec now) obs es) ∧
    RawDataList.observations l = RawDataList.observations (raw_data_list c) ++ [next c].
Proof.
  intros Hn [HL HN HF] Habs. unfold add_entry. rewrite get_timestamp_exact by done. cbn [mbind option_bind].
  rewrite timestamp_to_nsec_exact by (apply wf_ntp_of_timespec; done). cbn [mbind option_bind].
  rewrite file_absent by done. do 2 eexists. split; [done|].
  assert (next c ∉ RawDataList.observations (raw_data_list c)) as Hfresh.
  { intros Hin. apply list_elem_of_lookup in Hin as [i Hi].
    destruct (Forall2_lookup_l _ _ _ _ _ HL Hi) as (e & _ & He).
    assert (next c < next c)%nat by (apply HF; eauto). lia. }
  split; [|done]. split; cbn [heap next raw_data_list RawDataList.addObservation RawDataList.observations].
  - apply Forall2_app.
    + by apply (Forall2_heap_ne (heap c)).
    + constructor; [by rewrite lookup_insert_eq|done].
  - apply NoDup_app. split; [done|]. split; [|by apply NoDup_singleton].
    intros q Hq Hq'%list_elem_of_singleton. by subst.
  - intros q. rewrite lookup_insert. case_decide; [lia|]. intros Hq%HF. lia.
Qed.

Lemma update_at_file {S} added obs (c : Client S) l1 p l2 e1 r e2 :
  repr c (e1 ++ r :: e2) → RawDataList.observations (raw_data_list c) = l1 ++ p :: l2 → length l1 = length e1 →
  packet_id r = o_packet_id obs → Forall (λ r, packet_id r ≠ o_packet_id obs) e1 →
  ∃ h, update_at obs p c = Some {| c with heap := h |} ∧
    repr {| c with heap := h |} (file added obs (e1 ++ r :: e2)).
Proof.
  intros [HL HN HF] El Hlen Er Hne. rewrite El in HL, HN. apply Forall2_app_inv in HL as [HL1 HL2]; [|done].
  inversion HL2 as [|? ? ? ? Hp HL2']; subst.
  apply NoDup_app in HN as HN'. destruct HN' as (HN1 & Hdisj & HN2).
  apply NoDup_cons in HN2 as [Hp2 HN2]. unfold update_at. rewrite Hp. cbn [mbind option_bind].
  rewrite file_present by done. eexists. split; [done|]. split; cbn [heap next raw_data_list].
  - rewrite El. apply Forall2_app.
    + apply (Forall2_heap_ne (heap c)); [|done]. intros Hin. by apply (Hdisj p); [|left].
    + constructor; [by rewrite lookup_insert_eq|by apply (Forall2_heap_ne (heap c))].
  - by rewrite El.
  - intros q. rewrite lookup_insert. case_decide as E; [|apply HF]. intros _. rewrite <- E. eauto.
Qed.

Lemma process_observation_file {S} (now : timespec) obs (c : Client S) es :
  good_time now → repr c es →
  ∃ h n l, process_observation now obs c =
      Some {| c with heap := h; next := n; raw_data_list := l |} ∧
    repr {| c with heap := h; next := n; raw_data_list := l |} (file (now_nsec now) obs es) ∧
    n = (next c + (length (file (now_nsec now) obs es) - length es))%nat ∧
    RawDataList.observations (raw_data_list c) `prefix_of` RawDataList.observations l.
Proof.
  intros Hn R. unfold process_observation.
  destruct (find_entry_spec (heap c) (o_packet_id obs) _ es (repr_lookup _ _ R))
    as [[-> Habs]|(l1 & p & l2 & e1 & r & e2 & El & -> & Hlen & -> & Er & Hne)]; cbn [mbind option_bind].
  - destruct (add_entry_file now obs c es Hn R Habs) as (h & l & -> & R' & El). do 3 eexists. split; [done|].
    split; [exact R'|]. rewrite file_absent, length_app, El by done. split; [simpl; lia|by apply prefix_app_r].
  - destruct (update_at_file (now_nsec now) obs c l1 p l2 e1 r e2 R El Hlen Er Hne) as (h & -> & R').
    exists h, (next c), (raw_data_list c). split; [by destruct c|]. split; [by destruct c|].
    rewrite file_present, !length_app by done. split; [simpl; lia|done].
Qed.

(** ** Lemmas: aggregation in exact arithmetic *)

Definition timespec_of_nsec (d : Z) : timespec := mkTimespec (d / 10 ^ 9) (d mod 10 ^ 9).

(** The forward delay counted, and the backward delay of a complete entry: unsigned
    64-bit differences. *)
Definition fwd_delay (r : RawData) : Z :=
  u64 (server_receive_epoch_nanoseconds r - client_send_epoch_nanoseconds r).
Definition bwd_delay (r : RawData) : Z :=
  u64 (client_receive_epoch_nanoseconds r - server_send_epoch_nanoseconds r).
Definition internal_delay (r : RawData) : Z :=
  u64 (server_send_epoch_nanoseconds r - server_receive_epoch_nanoseconds r).

Definition has_fwd (r : RawData) : bool :=
  (client_send_epoch_nanoseconds r >? 0) && (server_receive_epoch_nanoseconds r >? 0).

(** What an entry tells the four statistics. *)
Definition rtt_total (r : RawData) : Z :=
  (if has_fwd r then fwd_delay r else 0) + (if is_complete r then bwd_delay r else 0).

Definition aggregate_calls (r : RawData) : Stats SqaLog :=
  let loss := if is_complete r then [] else [CountLoss] in {|
  stats_RTT := loss ++ (if 0 <? rtt_total r then [AddSample (timespec_of_nsec (rtt_total r))] else []);
  stats_internal := if is_complete r then [AddSample (timespec_of_nsec (internal_delay r))] else loss;
  stats_client_server := (if has_fwd r then [AddSample (timespec_of_nsec (fwd_delay r))] else []) ++ loss;
  stats_server_client := if is_complete r then [AddSample (timespec_of_nsec (bwd_delay r))] else loss;
|}.

Lemma delay_range a b : 0 ≤ u64 (a - b) < 2 ^ 64.
Proof. exact (wrap_range 64 (a - b) ltac:(lia)). Qed.

Lemma nsec_timespec_of_nsec d : timespec_nsec (timespec_of_nsec d) = d.
Proof. unfold timespec_nsec, timespec_of_nsec. cbn [tv_sec tv_nsec]. pose proof (Z.div_mod d (10 ^ 9)). lia. Qed.

Lemma timespec_plus_exact a b : a ∈u 64 → b ∈u 64 →
  safe_tspecplus (timespec_of_nsec a) (timespec_of_nsec b) = Some (timespec_of_nsec (a + b)).
Proof.
  intros Ha Hb. unfold timespec_of_nsec at 1 2.
  pose proof (Z.mod_pos_bound a (10 ^ 9)). pose proof (Z.mod_pos_bound b (10 ^ 9)).
  assert (∀ d, d ∈u 64 → 0 ≤ d / 10 ^ 9 < 18446744074) as Hd.
  { intros d Hd. widths. split; [apply Z.div_pos; lia|apply Z.div_lt_upper_bound; lia]. }
  pose proof (Hd a Ha). pose proof (Hd b Hb).
  assert (0 ≤ (a mod 10 ^ 9 + b mod 10 ^ 9) / 10 ^ 9 < 2)
    by (split; [apply Z.div_pos; lia|apply Z.div_lt_upper_bound; lia]).
  rewrite safe_tspecplus_exact; cbn [tv_sec tv_nsec]; try (widths; lia).
  fold (timespec_of_nsec a) (timespec_of_nsec b). by rewrite !nsec_timespec_of_nsec.
Qed.

Lemma timespec_of_nsec_positive d : 0 ≤ d →
  (tv_sec (timespec_of_nsec d) >? 0) || (tv_nsec (timespec_of_nsec d) >? 0) = (0 <? d).
Proof.
  intros Hd. unfold timespec_of_nsec. cbn [tv_sec tv_nsec].
  pose proof (Z.div_mod d (10 ^ 9) ltac:(lia)) as E. pose proof (Z.mod_pos_bound d (10 ^ 9) ltac:(lia)).
  pose proof (Z.div_pos d (10 ^ 9) Hd ltac:(lia)).
  rewrite !Z.gtb_ltb. destruct (Z.ltb_spec 0 (d / 10 ^ 9)), (Z.ltb_spec 0 (d mod 10 ^ 9)),
    (Z.ltb_spec 0 d); simpl; lia || done.
Qed.

Lemma is_complete_alt r :
  (server_send_epoch_nanoseconds r >? 0) && (client_receive_epoch_nanoseconds r >? 0) &&
  (server_receive_epoch_nanoseconds r >? 0) && (client_send_epoch_nanoseconds r >? 0) = is_complete r.
Proof.
  unfold is_complete. repeat match goal with |- context [?a >? 0] => destruct (a >? 0) end; done.
Qed.

Lemma has_fwd_complete r : is_complete r = true → has_fwd r = true.
Proof. unfold is_complete, has_fwd. repeat match goal with |- context [?a >? 0] => destruct (a >? 0) end; done. Qed.

Lemma rtt_total_range r : 0 ≤ rtt_total r < 2 ^ 65.
Proof.
  pose proof (delay_range (server_receive_epoch_nanoseconds r) (client_send_epoch_nanoseconds r)).
  pose proof (delay_range (client_receive_epoch_nanoseconds r) (server_send_epoch_nanoseconds r)).
  unfold rtt_total, fwd_delay, bwd_delay. destruct (has_fwd r), (is_complete r); lia.
Qed.

(** Any implementation of the statistics sees exactly [aggregate_calls]. *)
Lemma aggregate_exact {S} `{SqaStats S} (st : Stats S) r :
  aggregateRawData st r = Some (replay_stats (aggregate_calls r) st).
Proof.
  unfold aggregateRawData. fold (has_fwd r) (fwd_delay r) (bwd_delay r) (internal_delay r).
  rewrite is_complete_alt.
  pose proof (delay_range (server_receive_epoch_nanoseconds r) (client_send_epoch_nanoseconds r)) as H1.
  pose proof (delay_range (client_receive_epoch_nanoseconds r) (server_send_epoch_nanoseconds r)) as H2.
  pose proof (delay_range (server_send_epoch_nanoseconds r) (server_receive_epoch_nanoseconds r)) as H3.
  fold (fwd_delay r) in H1. fold (bwd_delay r) in H2. fold (internal_delay r) in H3.
  rewrite !nanosecondsToTimespec_exact by done.
  fold (timespec_of_nsec (fwd_delay r)) (timespec_of_nsec (bwd_delay r)) (timespec_of_nsec (internal_delay r)).
  change (mkTimespec 0 0) with (timespec_of_nsec 0).
  pose proof (rtt_total_range r) as Ht. pose proof (has_fwd_complete r) as Hfc.
  unfold aggregate_calls. unfold rtt_total in *.
  destruct (is_complete r); [rewrite Hfc in * by done|destruct (has_fwd r)];
    rewrite timespec_plus_exact by (done || wsolve); cbn [mbind option_bind];
    rewrite timespec_of_nsec_positive by lia; destruct (0 <? _); by destruct st.
Qed.

(** ** Lemmas: retiring *)

Lemma check_spec {S} `{SqaStats S} args now (c : Client S) es :
  good_time now → repr c es →
  ∃ c', check_if_oldest_packet_should_be_processed args now c = Some c' ∧
    match es with
    | [] => c' = (if sending_completed c >? 0 then {| c with collator_finished := 1 |} else c) ∧ repr c' []
    | r :: es' =>
        if is_complete r || timed_out args (now_nsec now) r then
          c' = put (raw_line args r) {| c with
                 stats := replay_stats (aggregate_calls r) (stats c);
                 raw_data_list := RawDataList.mk (tail (RawDataList.observations (raw_data_list c))) |} ∧
          repr c' es'
        else c' = c
    end.
Proof.
  intros Hn R. pose proof R as [HL HN HF].
  unfold check_if_oldest_packet_should_be_processed, check_oldest.
  rewrite get_timestamp_exact by done. cbn [mbind option_bind].
  rewrite timestamp_to_nsec_exact by (apply wf_ntp_of_timespec; done). fold (now_nsec now).
  cbn [mbind option_bind]. unfold RawDataList.getOldestEntry, RawDataList.popObservation.
  destruct (RawDataList.observations (raw_data_list c)) as [|p ptrs] eqn:El;
    inversion HL as [|? r ? es' Hp HL']; subst.
  - eexists. split; [done|]. split; [done|]. destruct (sending_completed c >? 0); split; cbn; by rewrite ?El.
  - rewrite Hp. cbn [mbind option_bind]. destruct (_ || _); [|by eexists].
    rewrite aggregate_exact. cbn [mbind option_bind]. eexists. split; [done|]. split; [done|].
    split; [done| |done]. by apply NoDup_cons in HN as [_ HN].
Qed.

Lemma packet_id_update obs r : packet_id (update_entry obs r) = packet_id r.
Proof. unfold update_entry, record_point. by destruct (observation_point obs). Qed.

Lemma file_ids added obs es : NoDup (packet_id <$> es) → NoDup (packet_id <$> file added obs es).
Proof.
  assert (∀ added es, packet_id <$> file added obs es = packet_id <$> es ∨
    (packet_id <$> file added obs es = (packet_id <$> es) ++ [o_packet_id obs] ∧
     o_packet_id obs ∉ packet_id <$> es)) as Hf.
  { clear. intros added es. induction es as [|r es IH].
    - right. cbn [file fmap list_fmap app]. rewrite packet_id_update. split; [done|apply not_elem_of_nil].
    - cbn [file]. destruct (Z.eqb_spec (packet_id r) (o_packet_id obs)); cbn [fmap list_fmap].
      + left. by rewrite packet_id_update.
      + destruct IH as [IH|[IH Hni]].
        * left. by f_equal.
        * right. split; [simpl; by f_equal|]. by apply not_elem_of_cons. }
  intros HN. destruct (Hf added es) as [-> |[-> Hni]]; [done|].
  apply NoDup_app. split; [done|]. split; [|by apply NoDup_singleton].
  intros x Hx ->%list_elem_of_singleton. done.
Qed.

Lemma file_length added obs es : (length es ≤ length (file added obs es))%nat.
Proof.
  induction es as [|r es IH]; [simpl; lia|]. cbn [file].
  destruct (packet_id r =? o_packet_id obs); simpl; lia.
Qed.

(** ** The collator among the other threads *)

(** One iteration of the collator, one observation enqueued by another thread, a
    check of the oldest entry by the receiver, or the sender's completion. *)
Inductive cstep {S} `{SqaStats S} (args : Args) : Client S → Client S → Prop :=
  | cs_iterate now c c' : good_time now → collator_iteration args now c = Some c' → cstep args c c'
  | cs_enqueue obs c : cstep args c
      {| c with observation_list := ObservationList.addObservation obs (observation_list c) |}
  | cs_check now c c' : good_time now →
      check_if_oldest_packet_should_be_processed args now c = Some c' → cstep args c c'
  | cs_completed t c : cstep args c {| c with sending_completed := t |}.

(** The accounting invariant, over the recording statistics: every entry ever
    created is either still listed or was counted exactly once. *)
Definition accounted (c : Client SqaLog) : Prop :=
  ∃ es, repr c es ∧ NoDup (packet_id <$> es) ∧
    next c = (length (stats_server_client (stats c)) + length es)%nat.

Lemma aggregate_calls_once r : length (stats_server_client (aggregate_calls r)) = 1%nat.
Proof. unfold aggregate_calls. cbn. by destruct (is_complete r). Qed.

Lemma check_accounted args now c : good_time now → accounted c →
  ∃ c', check_if_oldest_packet_should_be_processed args now c = Some c' ∧ accounted c'.
Proof.
  intros Hn (es & R & HN & Hnext).
  destruct (check_spec args now c es Hn R) as (c' & -> & Hc). exists c'. split; [done|].
  destruct es as [|r es].
  - destruct Hc as [-> R']. exists []. split; [done|]. split; [done|].
    by destruct (sending_completed c >? 0).
  - destruct (is_complete r || timed_out args (now_nsec now) r).
    + destruct Hc as [-> R']. exists es. split; [done|]. apply NoDup_cons in HN as [_ HN].
      split; [done|]. cbn [next stats put stats_server_client replay_stats].
      rewrite replay_log, length_app, aggregate_calls_once. simpl in Hnext. lia.
    + subst c'. by exists (r :: es).
Qed.

Lemma collator_iteration_accounted args now c :
  good_time now → accounted c → ∃ c', collator_iteration args now c = Some c' ∧ accounted c'.
Proof.
  intros Hn Ha. unfold collator_iteration.
  destruct (observation_list c) as [[|obs q]] eqn:Eq; cbn [ObservationList.isEmpty negb
    ObservationList.observations ObservationList.popObservation mbind option_bind];
    [by apply check_accounted|].
  destruct Ha as (es & R & HN & Hnext).
  set (c1 := {| c with observation_list := _ |}).
  destruct (process_observation_file now obs c1 es Hn) as (h & n & l & -> & R' & Hn' & _);
    [by destruct R|].
  eexists. split; [done|]. exists (file (now_nsec now) obs es). split; [done|].
  split; [by apply file_ids|]. cbn. rewrite Hn'. cbn [next c1].
  pose proof (file_length (now_nsec now) obs es). lia.
Qed.

Lemma accounted_init now : accounted (Client_init now).
Proof.
  exists []. split; [|split; [by apply NoDup_nil_2|done]].
  split; [constructor|by apply NoDup_nil_2|].
  intros p [x Hx]. cbn [heap Client_init] in Hx. by rewrite lookup_empty in Hx.
Qed.

Lemma cstep_accounted args c c' : accounted c → cstep args c c' → accounted c'.
Proof.
  intros Ha Hs. destruct Hs as [now c c' Hn E|obs c|now c c' Hn E|t c].
  - destruct (collator_iteration_accounted args now c Hn Ha) as (c2 & E2 & Ha'). congruence.
  - destruct Ha as (es & [] & HN & Hnext). by exists es.
  - destruct (check_accounted args now c Hn Ha) as (c2 & E2 & Ha'). congruence.
  - destruct Ha as (es & [] & HN & Hnext). by exists es.
Qed.

Lemma reachable_accounted args c c' : accounted c → rtc (cstep args) c c' → accounted c'.
Proof. intros Ha Hr. induction Hr; eauto using cstep_accounted. Qed.

(** ** Lemmas: completing an entry, draining the list *)

(** Filing a sequence of observations, each at its own time. *)
Definition file_all (obss : list (Z * QEDObservation)) (es : list RawData) : list RawData :=
  foldl (λ es '(added, obs), file added obs es) es obss.

Fixpoint process_all {S} (obss : list (timespec * QEDObservation)) (c : Client S) : option (Client S) :=
  match obss with
  | [] => Some c
  | (now, obs) :: obss => c ← process_observation now obs c; process_all obss c
  end.

Lemma process_all_file {S} (obss : list (timespec * QEDObservation)) (c : Client S) es :
  Forall (λ p, good_time p.1) obss → repr c es →
  ∃ c', process_all obss c = Some c' ∧
    repr c' (file_all ((λ p, (now_nsec p.1, p.2)) <$> obss) es) ∧ stats c' = stats c.
Proof.
  intros Hg. revert c es. induction Hg as [|[now obs] obss Hn _ IH]; intros c es R; [by exists c|].
  destruct (process_observation_file now obs c es Hn R) as (h & n & l & E & R' & _).
  cbn [process_all]. rewrite E. cbn [mbind option_bind].
  destruct (IH _ _ R') as (c' & E' & R2 & Hs). exists c'. split; [exact E'|]. split; [exact R2|]. done.
Qed.

(** The four observations of a packet. *)
Definition packet_observations (id len t1 t2 t3 t4 : Z) : list QEDObservation :=
  [mkQED CLIENT_SEND t1 id len; mkQED SERVER_RECEIVE t2 id len;
   mkQED SERVER_SEND t3 id len; mkQED CLIENT_RECEIVE t4 id len].

Lemma file_all_present obss es r :
  Forall (λ p, o_packet_id p.2 = packet_id r) obss → Forall (λ r', packet_id r' ≠ packet_id r) es →
  file_all obss (es ++ [r]) = es ++ [foldl (λ r p, update_entry p.2 r) r obss].
Proof.
  intros Ho. revert r Ho. induction obss as [|[added obs] obss IH]; intros r Ho He; [done|].
  apply Forall_cons in Ho as [Hobs Ho]. cbn [file_all foldl snd] in *.
  rewrite file_present by (rewrite ?Hobs; done).
  apply (IH (update_entry obs r)); by rewrite packet_id_update.
Qed.

Lemma foldl_map_snd {A B} (f : RawData → B → RawData) (l : list (A * B)) r :
  foldl (λ r p, f r p.2) r l = foldl f r (snd <$> l).
Proof. revert r. induction l as [|[a b] l IH]; intros r; simpl; auto. Qed.

(** The order in which a packet's observations arrive does not matter. *)
Lemma updates_permutation added id len t1 t2 t3 t4 obss :
  obss ≡ₚ packet_observations id len t1 t2 t3 t4 →
  foldl (λ r o, update_entry o r) (new_RawData added id) obss = mkRawData added id len t1 t2 t3 t4.
Proof.
  intros Hp. symmetry in Hp. change (mkRawData added id len t1 t2 t3 t4) with
    (foldl (λ r o, update_entry o r) (new_RawData added id) (packet_observations id len t1 t2 t3 t4)).
  symmetry. remember (packet_observations id len t1 t2 t3 t4) as l eqn:El.
  assert (∀ o o' r, o ∈ l → o' ∈ l → o ≠ o' →
    update_entry o' (update_entry o r) = update_entry o (update_entry o' r)) as Hcomm.
  { subst l. intros o o' r Ho Ho' Hne. unfold packet_observations in *.
    rewrite !elem_of_cons in Ho, Ho'. destruct r.
    destruct Ho as [->|[->|[->|[->|[]%not_elem_of_nil]]]];
      destruct Ho' as [->|[->|[->|[->|[]%not_elem_of_nil]]]]; done. }
  assert (NoDup l) as HN.
  { subst l. repeat (apply NoDup_cons; split; [rewrite ?not_elem_of_cons; repeat split;
      (discriminate || apply not_elem_of_nil)|]). apply NoDup_nil_2. }
  clear El. revert Hcomm HN. generalize (new_RawData added id).
  induction Hp as [|o l l' Hp IH|o o' l|l l' l'' Hp1 IH1 Hp2 IH2]; intros r Hcomm HN; [done|..].
  - cbn [foldl]. apply NoDup_cons in HN as [_ HN]. apply IH; [|done]. intros. apply Hcomm; set_solver.
  - cbn [foldl]. f_equal. apply NoDup_cons in HN as [HN _].
    apply Hcomm; [set_solver..|]. intros ->. apply HN. set_solver.
  - rewrite IH1, IH2; [done| | |done|done].
    + intros o o' r' Ho Ho'. apply Hcomm; by rewrite Hp1.
    + by rewrite <- Hp1.
Qed.

(** Draining: with nothing queued and sending completed, iterations that may retire
    every entry retire them in order and then finish. *)
Lemma collate_drain {S} `{SqaStats S} args es nows (c : Client S) :
  repr c es → ObservationList.observations (observation_list c) = [] →
  collator_finished c = 0 → sending_completed c > 0 →
  Forall good_time nows → (length es < length nows)%nat →
  Forall (λ now, Forall (λ r, is_complete r || timed_out args (now_nsec now) r = true) es) nows →
  ∃ c', collate args nows c = Some (true, c') ∧ repr c' [] ∧
    stats c' = foldl (λ st r, replay_stats (aggregate_calls r) st) (stats c) es ∧
    out c' = out c +:+ foldr (λ r s, raw_line args r +:+ s) "" es.
Proof.
  revert nows c. induction es as [|r es IH]; intros nows c R Hq Hf Hs Hg Hlen Hok;
    (destruct nows as [|now nows]; [simpl in Hlen; lia|]);
    apply Forall_cons in Hg as [Hn Hg]; cbn [collate]; rewrite Hf; cbn [negb Z.eqb];
    unfold collator_iteration, ObservationList.isEmpty; rewrite Hq; cbn [negb].
  - destruct (check_spec args now c [] Hn R) as (c' & -> & -> & R'). cbn [mbind option_bind].
    rewrite Z.gtb_ltb, (proj2 (Z.ltb_lt 0 (sending_completed c))) in * by lia.
    exists {| c with collator_finished := 1 |}. split; [by destruct nows|].
    split; [exact R'|]. split; [done|]. cbn [foldr out]. by rewrite sapp_nil_r.
  - apply Forall_cons in Hok as [Hok1 Hok]. apply Forall_cons in Hok1 as [Hr _].
    destruct (check_spec args now c (r :: es) Hn R) as (c' & -> & Hc). rewrite Hr in Hc.
    destruct Hc as [Ec R']. cbn [mbind option_bind].
    destruct (IH nows c') as (c2 & E & R2 & Hst & Ho); try (subst c'; done).
    + simpl in Hlen. lia.
    + eapply Forall_impl; [exact Hok|]. by intros ? [_ ?]%Forall_cons.
    + exists c2. split; [exact E|]. split; [exact R2|]. split; [by rewrite Hst, Ec|].
      rewrite Ho, Ec. cbn [put out foldr]. by rewrite sapp_assoc.
Qed.

(** ** Properties *)

(** C7: [process_observation] refines the abstract filing: on a list of distinct live
    entries it is defined, updates the entry of the observation's packet in place or
    appends a new one dated by the clock, keeps packet ids distinct, and touches
    neither the statistics, the queue nor the output. *)
Theorem process_observation_refines {S} (now : timespec) obs (c : Client S) es :
  good_time now → repr c es → NoDup (packet_id <$> es) →
  ∃ c', process_observation now obs c = Some c' ∧
    repr c' (file (now_nsec now) obs es) ∧ NoDup (packet_id <$> file (now_nsec now) obs es) ∧
    stats c' = stats c ∧ observation_list c' = observation_list c ∧ out c' = out c.
Proof.
  intros Hn R HN. destruct (process_observation_file now obs c es Hn R) as (h & n & l & E & R' & _).
  eexists. split; [exact E|]. split; [exact R'|]. split; [by apply file_ids|done].
Qed.

Definition example_client : Client SqaLog := Client_init 1700000000.

Lemma repr_init {S} `{SqaStats S} now : repr (Client_init now) [].
Proof.
  split; [constructor|by apply NoDup_nil_2|].
  intros p [x Hx]. cbn [heap Client_init] in Hx. by rewrite lookup_empty in Hx.
Qed.

Lemma process_observation_refines_witness :
  ∃ c', process_observation (mkTimespec 1700000001 0) (mkQED CLIENT_SEND 5 7 50) example_client = Some c' ∧
    repr c' [mkRawData 1700000001000000000 7 50 5 0 0 0].
Proof.
  destruct (process_observation_refines (mkTimespec 1700000001 0) (mkQED CLIENT_SEND 5 7 50)
    example_client [] ltac:(unfold good_time; simpl; lia) (repr_init 1700000000) (NoDup_nil_2))
    as (c' & E & R & _).
  exists c'. split; [exact E|exact R].
Defined.

(** C12: the four observations of a packet, in any order of arrival and at any times,
    yield one entry with all four of their times, dated by the first to arrive. *)
Theorem packet_completed_any_order {S} (now : timespec) obs obss (c : Client S) es id len t1 t2 t3 t4 :
  obs :: (snd <$> obss) ≡ₚ packet_observations id len t1 t2 t3 t4 →
  good_time now → Forall (λ p, good_time p.1) obss →
  repr c es → Forall (λ r, packet_id r ≠ id) es →
  ∃ c', process_all ((now, obs) :: obss) c = Some c' ∧
    repr c' (es ++ [mkRawData (now_nsec now) id len t1 t2 t3 t4]).
Proof.
  intros Hp Hn Hg R Hid.
  destruct (process_all_file ((now, obs) :: obss) c es) as (c' & E & R' & _); [by constructor|done|].
  exists c'. split; [exact E|]. revert R'. cbn [fmap list_fmap file_all foldl fst snd].
  assert (Forall (λ o, o_packet_id o = id) (obs :: (snd <$> obss))) as Hall.
  { rewrite Hp. by repeat constructor. }
  apply Forall_cons in Hall as [Hobs Hall]. rewrite file_absent by by rewrite Hobs.
  set (r0 := new_RawData (now_nsec now) (o_packet_id obs)).
  change (foldl _ _ ((λ p, (now_nsec p.1, p.2)) <$> obss))
    with (file_all ((λ p, (now_nsec p.1, p.2)) <$> obss) (es ++ [update_entry obs r0])).
  assert (packet_id (update_entry obs r0) = id) as Er by by rewrite packet_id_update.
  rewrite file_all_present.
  - rewrite (foldl_map_snd (λ r o, update_entry o r)). rewrite <- list_fmap_compose.
    change (snd ∘ (λ p : timespec * QEDObservation, (now_nsec p.1, p.2))) with (@snd timespec QEDObservation).
    change (foldl (λ r o, update_entry o r) (update_entry obs r0) (snd <$> obss))
      with (foldl (λ r o, update_entry o r) r0 (obs :: (snd <$> obss))).
    unfold r0. rewrite Hobs. by rewrite (updates_permutation _ _ _ _ _ _ _ _ Hp).
  - rewrite Er. apply Forall_fmap. rewrite Forall_fmap in Hall. exact Hall.
  - by rewrite Er.
Qed.

Lemma packet_completed_any_order_witness :
  ∃ c', process_all [(mkTimespec 1700000001 0, mkQED SERVER_SEND 30 7 50);
      (mkTimespec 1700000002 0, mkQED CLIENT_SEND 10 7 50);
      (mkTimespec 1700000002 0, mkQED CLIENT_RECEIVE 40 7 50);
      (mkTimespec 1700000003 0, mkQED SERVER_RECEIVE 20 7 50)] example_client = Some c' ∧
    repr c' [mkRawData 1700000001000000000 7 50 10 20 30 40].
Proof.
  apply (packet_completed_any_order (mkTimespec 1700000001 0) (mkQED SERVER_SEND 30 7 50)
    [(mkTimespec 1700000002 0, mkQED CLIENT_SEND 10 7 50);
     (mkTimespec 1700000002 0, mkQED CLIENT_RECEIVE 40 7 50);
     (mkTimespec 1700000003 0, mkQED SERVER_RECEIVE 20 7 50)] example_client [] 7 50 10 20 30 40).
  - apply (bool_decide_unpack _). vm_compute. exact I.
  - unfold good_time. simpl. lia.
  - repeat (constructor; [unfold good_time; simpl; lia|]). constructor.
  - apply repr_init.
  - constructor.
Defined.

(** C11: whatever implements the statistics, an entry is reported to them as the
    specification [aggregate_calls] says: a complete entry is one forward, one
    backward and one internal delay sample and no loss; an incomplete one is one
    loss in each of the four statistics; no step overflows.  The round-trip sample of
    a complete entry is the sum of its one-way delays, unless it is zero; an
    incomplete entry, although it is a loss, is a round-trip sample too when its
    forward delay is known, of that delay alone. *)
Theorem aggregateRawData_calls {S} `{SqaStats S} (st : Stats S) r :
  aggregateRawData st r = Some (replay_stats (aggregate_calls r) st) ∧
  losses (stats_RTT (aggregate_calls r)) = (if is_complete r then 0 else 1)%nat ∧
  losses (stats_internal (aggregate_calls r)) = (if is_complete r then 0 else 1)%nat ∧
  losses (stats_client_server (aggregate_calls r)) = (if is_complete r then 0 else 1)%nat ∧
  losses (stats_server_client (aggregate_calls r)) = (if is_complete r then 0 else 1)%nat ∧
  samples (stats_server_client (aggregate_calls r)) =
    (if is_complete r then [timespec_of_nsec (bwd_delay r)] else []) ∧
  samples (stats_internal (aggregate_calls r)) =
    (if is_complete r then [timespec_of_nsec (internal_delay r)] else []) ∧
  samples (stats_RTT (aggregate_calls r)) =
    (let rtt := if is_complete r then fwd_delay r + bwd_delay r else if has_fwd r then fwd_delay r else 0 in
     if 0 <? rtt then [timespec_of_nsec rtt] else []).
Proof.
  split; [apply aggregate_exact|]. unfold aggregate_calls, rtt_total. cbn.
  destruct (is_complete r) eqn:Ec; [rewrite (has_fwd_complete r Ec)|rewrite Z.add_0_r];
    destruct (has_fwd r); by case_match.
Qed.

(** C28: the round-trip sample of a complete entry.  When each one-way difference is
    non-negative it is the round-trip time less the server's internal delay; each
    negative one-way difference, as unsynchronised clocks produce, adds [2^64] ns
    (584 years) although the sum of the two differences is unaffected by the skew. *)
Theorem rtt_sample {S} `{SqaStats S} (st : Stats S) r :
  is_complete r = true →
  client_send_epoch_nanoseconds r < 2 ^ 64 → server_receive_epoch_nanoseconds r < 2 ^ 64 →
  server_send_epoch_nanoseconds r < 2 ^ 64 → client_receive_epoch_nanoseconds r < 2 ^ 64 →
  let fwd := server_receive_epoch_nanoseconds r - client_send_epoch_nanoseconds r in
  let bwd := client_receive_epoch_nanoseconds r - server_send_epoch_nanoseconds r in
  let total := fwd + bwd + (if decide (fwd < 0) then 2 ^ 64 else 0) +
                           (if decide (bwd < 0) then 2 ^ 64 else 0) in
  ∃ st', aggregateRawData st r = Some st' ∧
    stats_RTT st' = (if decide (total = 0) then stats_RTT st
                     else sqa_stats_add_sample (timespec_of_nsec total) (stats_RTT st)).
Proof.
  intros Hc H1 H2 H3 H4 fwd bwd total.
  assert (0 < client_send_epoch_nanoseconds r ∧ 0 < server_receive_epoch_nanoseconds r ∧
          0 < server_send_epoch_nanoseconds r ∧ 0 < client_receive_epoch_nanoseconds r) as (P1 & P2 & P3 & P4).
  { unfold is_complete in Hc. rewrite !Z.gtb_ltb in Hc.
    apply andb_prop in Hc as [Hc ?%Z.ltb_lt]. apply andb_prop in Hc as [Hc ?%Z.ltb_lt].
    apply andb_prop in Hc as [?%Z.ltb_lt ?%Z.ltb_lt]. done. }
  assert (∀ a b, 0 < a < 2 ^ 64 → 0 < b < 2 ^ 64 →
    u64 (a - b) = a - b + if decide (a - b < 0) then 2 ^ 64 else 0) as Hw.
  { intros a b Ha Hb. case_decide; [|rewrite wrap_small by wsolve; lia].
    unfold wrap. symmetry. apply Z.mod_unique with (-1); lia. }
  assert (rtt_total r = total) as Et.
  { unfold rtt_total. rewrite has_fwd_complete, Hc by done.
    unfold fwd_delay, bwd_delay. rewrite !Hw by lia. unfold total, fwd, bwd. lia. }
  eexists. split; [apply aggregate_exact|].
  cbn [replay_stats stats_RTT aggregate_calls]. rewrite Hc, Et. cbn [app].
  pose proof (rtt_total_range r). rewrite Et in *.
  destruct (Z.ltb_spec 0 total); case_decide; done || lia.
Qed.

Definition skewed_entry : RawData := mkRawData 0 1 50 2000000000 1000000000 1000000500 2100000000.

Lemma rtt_sample_witness :
  ∃ st', aggregateRawData (Stats_create (S:=SqaLog)) skewed_entry = Some st' ∧
    stats_RTT st' = [AddSample (mkTimespec 18446744073 809551116)].
Proof.
  destruct (rtt_sample (Stats_create (S:=SqaLog)) skewed_entry eq_refl eq_refl eq_refl eq_refl eq_refl)
    as (st' & E & Hs).
  exists st'. split; [exact E|]. rewrite Hs. vm_compute. reflexivity.
Defined.
