(* ===== verification/CollatorRuns.v ===== *)
(** * CollatorRuns: whole runs of the collator

    Theorems about the loop of [runCollatorThread]: what each iteration may retire,
    what a run has told the statistics when it ends and that it ends, the accounting
    invariant among concurrent senders and receivers, and what becomes of packets
    of which observations are missing. *)

From S2P Require Import Prelude Double Text Packets Timestamps Observations ClientState Collator.

(** An entry may be retired at the time [now]. *)
Definition expired (args : Args) (now : timespec) (r : RawData) : bool :=
  is_complete r || timed_out args (now_nsec now) r.

(** What retiring entries does to the statistics and the output. *)
Definition retire_stats {S} `{SqaStats S} (es : list RawData) (st : Stats S) : Stats S :=
  foldl (λ st r, replay_stats (aggregate_calls r) st) st es.
Definition retire_lines (args : Args) (es : list RawData) : string :=
  foldr (λ r s, raw_line args r +:+ s) "" es.

(** The client after retiring its [k] oldest entries. *)
Definition retired {S} `{SqaStats S} (args : Args) (es : list RawData) (k : nat) (c c' : Client S) : Prop :=
  repr c' (drop k es) ∧ stats c' = retire_stats (take k es) (stats c) ∧
  out c' = out c +:+ retire_lines args (take k es).

Lemma retired_0 {S} `{SqaStats S} args es (c c' : Client S) :
  repr c' es → stats c' = stats c → out c' = out c → retired args es 0 c c'.
Proof.
  intros R Hs Ho. split; [by rewrite drop_0|]. rewrite take_0. split; [done|].
  cbn. by rewrite sapp_nil_r.
Qed.

Lemma retired_S {S} `{SqaStats S} args r es k (c c1 c' : Client S) :
  stats c1 = replay_stats (aggregate_calls r) (stats c) → out c1 = out c +:+ raw_line args r →
  retired args es k c1 c' → retired args (r :: es) (Datatypes.S k) c c'.
Proof.
  intros Es Eo (R & Hs & Ho). split; [exact R|]. split.
  - by rewrite Hs, Es.
  - rewrite Ho, Eo. cbn [take retire_lines foldr]. by rewrite sapp_assoc.
Qed.

(** With nothing queued and sending completed, a run retires entries in order, and
    it has ended once enough of its readings allowed every entry to be retired. *)
Lemma collate_empty_queue {S} `{SqaStats S} args nows : ∀ es (c : Client S),
  repr c es → ObservationList.observations (observation_list c) = [] →
  collator_finished c = 0 → sending_completed c > 0 → Forall good_time nows →
  ∃ b c' k, collate args nows c = Some (b, c') ∧ retired args es k c c' ∧
    (k ≤ length es)%nat ∧ (b = true → k = length es) ∧
    ((length es < length (List.filter (λ now, forallb (expired args now) es) nows))%nat → b = true).
Proof.
  induction nows as [|now nows IH]; intros es c R Hq Hf Hs Hg; cbn [collate]; rewrite Hf; cbn [negb Z.eqb].
  { exists false, c, 0%nat. split; [done|]. split; [by apply retired_0|].
    split; [lia|]. split; [done|]. simpl. lia. }
  apply Forall_cons in Hg as [Hn Hg]. unfold collator_iteration, ObservationList.isEmpty. rewrite Hq.
  cbn [negb]. destruct (check_spec args now c es Hn R) as (c1 & -> & Hc). cbn [mbind option_bind].
  destruct es as [|r es].
  - destruct Hc as [-> R']. rewrite Z.gtb_ltb, (proj2 (Z.ltb_lt 0 (sending_completed c))) in * by lia.
    exists true, {| c with collator_finished := 1 |}, 0%nat. split; [by destruct nows|].
    split; [by apply retired_0|]. done.
  - fold (expired args now r) in Hc. cbn [List.filter forallb]. destruct (expired args now r) eqn:Er.
    + destruct Hc as [Ec R'].
      destruct (IH es c1) as (b & c' & k & E & Hr & Hk & Hb & Hl); try (subst c1; done).
      exists b, c', (Datatypes.S k). split; [exact E|].
      split; [apply (retired_S args r es k c c1); [by subst c1..|done]|].
      split; [simpl; lia|]. split; [simpl; auto|]. intros Hlen. apply Hl.
      assert (∀ l, length (List.filter (λ now, expired args now r && forallb (expired args now) es) l) ≤
                   length (List.filter (λ now, forallb (expired args now) es) l))%nat as Hmono.
      { clear. induction l as [|x l IHl]; [done|]. cbn [List.filter].
        destruct (expired args x r), (forallb (expired args x) es); cbn [andb length]; lia. }
      specialize (Hmono nows). cbn [andb] in Hlen.
      destruct (forallb (expired args now) es); cbn [length] in Hlen; lia.
    + subst c1. cbn [andb]. apply (IH (r :: es)); done.
Qed.

(** While observations are queued, a run files them. *)
Lemma collate_queue {S} `{SqaStats S} args q : ∀ nows1 nows2 es (c : Client S),
  repr c es → ObservationList.observations (observation_list c) = q →
  collator_finished c = 0 → length nows1 = length q → Forall good_time nows1 →
  ∃ c', collate args (nows1 ++ nows2) c = collate args nows2 c' ∧
    repr c' (file_all (zip (now_nsec <$> nows1) q) es) ∧
    ObservationList.observations (observation_list c') = [] ∧ collator_finished c' = 0 ∧
    sending_completed c' = sending_completed c ∧ stats c' = stats c ∧ out c' = out c.
Proof.
  induction q as [|obs q IH]; intros [|now nows1] nows2 es c R Hq Hf Hl Hg; try done; [by exists c|].
  apply Forall_cons in Hg as [Hn Hg]. cbn [app collate]. rewrite Hf. cbn [negb Z.eqb].
  unfold collator_iteration, ObservationList.isEmpty, ObservationList.popObservation. rewrite Hq.
  cbn [negb mbind option_bind].
  destruct (process_observation_file now obs {| c with observation_list := ObservationList.mk q |} es Hn)
    as (h & n & l & -> & R' & _); [by destruct R|]. cbn [mbind option_bind].
  match goal with |- ∃ _, collate _ _ ?c1 = _ ∧ _ => destruct (IH nows1 nows2 _ c1 R') as (c' & E & H') end;
    [done|done|simpl in Hl; lia|done|].
  exists c'. split; [exact E|]. exact H'.
Qed.

(** ** Properties *)

(** C13: [check_if_oldest_packet_should_be_processed] retires at most one entry, and
    only the oldest: an entry behind an oldest one that is neither complete nor too
    old has to wait.  Too old means more than [timeout] seconds after it was added,
    or, since the difference is unsigned, that the clock reads less than when it was
    added. *)
Theorem oldest_first {S} `{SqaStats S} args now (c : Client S) r es :
  good_time now → repr c (r :: es) → timeout args ∈u 8 →
  0 ≤ added_at_epoch_nanoseconds r < 2 ^ 32 * 10 ^ 9 →
  let old := now_nsec now - added_at_epoch_nanoseconds r in
  ∃ c', check_if_oldest_packet_should_be_processed args now c = Some c' ∧
    collator_finished c' = collator_finished c ∧
    if decide (is_complete r = true ∨ timeout args * 10 ^ 9 < old ∨ old < 0)
    then repr c' es ∧ stats c' = replay_stats (aggregate_calls r) (stats c) ∧
         out c' = out c +:+ raw_line args r
    else c' = c.
Proof.
  intros Hn R Ht Ha old. destruct (check_spec args now c (r :: es) Hn R) as (c' & -> & Hc).
  exists c'. split; [done|].
  assert (0 ≤ now_nsec now < 2 ^ 32 * 10 ^ 9) as Hr
    by (apply ntp_nsec_range, wf_ntp_of_timespec; done).
  assert (timed_out args (now_nsec now) r = bool_decide (timeout args * 10 ^ 9 < old ∨ old < 0)) as E.
  { unfold timed_out, NANOSECONDS_IN_SECOND. fold old. rewrite Z.gtb_ltb.
    assert (u64 old = if decide (old < 0) then old + 2 ^ 64 else old) as ->.
    { case_decide; [|apply wrap_small; wsolve].
      unfold wrap. symmetry. apply Z.mod_unique with (-1); lia. }
    repeat case_decide; case_bool_decide; first [apply Z.ltb_lt|apply Z.ltb_ge]; widths; lia. }
  rewrite E in Hc. destruct (is_complete r); cbn [orb] in Hc.
  - rewrite decide_True by auto. destruct Hc as [-> R']. done.
  - case_bool_decide.
    + rewrite decide_True by auto. destruct Hc as [-> R']. done.
    + rewrite decide_False by (intros [?|?]; [done|tauto]). by rewrite Hc.
Qed.

Definition example_entry : RawData := mkRawData 1700000001000000000 7 50 5 0 0 0.
Definition example_listed : Client SqaLog :=
  {| example_client with heap := {[ 0%nat := example_entry ]}; next := 1%nat;
                         raw_data_list := RawDataList.mk [0%nat] |}.

Lemma repr_example_listed : repr example_listed [example_entry].
Proof.
  split; cbn [example_listed heap next raw_data_list RawDataList.observations].
  - by repeat constructor.
  - apply NoDup_singleton.
  - intros p [x Hx]. apply lookup_singleton_Some in Hx as [<- _]. lia.
Qed.

Lemma oldest_first_witness :
  check_if_oldest_packet_should_be_processed Args_init (mkTimespec 1700000005 0) example_listed =
    Some example_listed ∧
  ∃ c', check_if_oldest_packet_should_be_processed Args_init (mkTimespec 1700000000 0) example_listed =
    Some c' ∧ repr c' [].
Proof.
  split.
  - destruct (oldest_first Args_init (mkTimespec 1700000005 0) example_listed example_entry [])
      as (c' & E & _ & H); [by vm_compute|apply repr_example_listed|by vm_compute|by vm_compute|].
    rewrite E. f_equal. exact H.
  - destruct (oldest_first Args_init (mkTimespec 1700000000 0) example_listed example_entry [])
      as (c' & E & _ & H); [by vm_compute|apply repr_example_listed|by vm_compute|by vm_compute|].
    exists c'. split; [exact E|]. exact (proj1 H).
Defined.

(** C6: a run of [runCollatorThread] once sending is completed.  It first files what
    is queued, in order; then, whatever the clock does, it has retired a prefix of
    the entries in list order, each reported once as [aggregate_calls] says and
    printed once; it ends only when every entry is retired, and it does end: one
    reading that allows every entry to be retired per entry, and one more, suffice. *)
Theorem collator_drains {S} `{SqaStats S} args (c : Client S) es nows1 nows2 :
  repr c es → collator_finished c = 0 → sending_completed c > 0 →
  length nows1 = length (ObservationList.observations (observation_list c)) →
  Forall good_time (nows1 ++ nows2) →
  let es' := file_all (zip (now_nsec <$> nows1) (ObservationList.observations (observation_list c))) es in
  ∃ finished c' k, runCollatorThread args (nows1 ++ nows2) c = Some (finished, c') ∧
    repr c' (drop k es') ∧ stats c' = retire_stats (take k es') (stats c) ∧
    out c' = out c +:+ retire_lines args (take k es') ∧
    (finished = true → k = length es') ∧
    ((length es' < length (List.filter (λ now, forallb (expired args now) es') nows2))%nat →
     finished = true).
Proof.
  intros R Hf Hs Hl [Hg1 Hg2]%Forall_app es'. unfold runCollatorThread.
  destruct (collate_queue args _ nows1 nows2 es {| c with collator_started := 1 |} ltac:(by destruct R)
    eq_refl Hf Hl Hg1) as (c1 & -> & R1 & Hq1 & Hf1 & Hs1 & Hst1 & Ho1).
  destruct (collate_empty_queue args nows2 es' c1 R1 Hq1 Hf1 ltac:(by rewrite Hs1) Hg2)
    as (b & c' & k & E & (R' & Hst & Ho) & _ & Hb & Hlive).
  exists b, c', k. rewrite E, Hst, Ho, Hst1, Ho1. done.
Qed.

Definition example_done : Client SqaLog :=
  {| example_listed with sending_completed := 1700000001;
       observation_list := ObservationList.mk [mkQED SERVER_SEND 30 7 50; mkQED SERVER_RECEIVE 20 7 50;
                                               mkQED CLIENT_RECEIVE 40 7 50] |}.

Lemma collator_drains_witness :
  ∃ c', runCollatorThread Args_init (replicate 5 (mkTimespec 1700000002 0)) example_done = Some (true, c') ∧
    stats_RTT (stats c') = [AddSample (mkTimespec 0 25)] ∧ repr c' [].
Proof.
  destruct (collator_drains Args_init example_done [example_entry] (replicate 3 (mkTimespec 1700000002 0))
    (replicate 2 (mkTimespec 1700000002 0))) as (b & c' & k & E & R & Hs & _ & Hk & Hl).
  - destruct repr_example_listed. by split.
  - reflexivity.
  - reflexivity.
  - reflexivity.
  - repeat (constructor; [by vm_compute|]). constructor.
  - specialize (Hl ltac:(vm_compute; lia)). subst b. specialize (Hk eq_refl). subst k.
    exists c'. split; [exact E|]. split; [rewrite Hs; vm_compute; reflexivity|exact R].
Defined.

(** Accounting.  From the constructed client, whatever the senders and receivers
    enqueue, however iterations of the collator interleave with them and whenever the
    receiver checks the oldest entry between two iterations, the next iteration is
    defined (no dangling pointer, no pop of an empty list), the listed
    entries are distinct objects of distinct packets, and every entry ever created
    is either still listed or was reported to the statistics exactly once. *)
Lemma collator_accounting args start now (c : Client SqaLog) :
  rtc (cstep args) (Client_init start) c → good_time now →
  is_Some (collator_iteration args now c) ∧
  ∃ es, repr c es ∧ NoDup (packet_id <$> es) ∧
    next c = (length (stats_server_client (stats c)) + length es)%nat.
Proof.
  intros Hr Hn. assert (accounted c) as Ha
    by (eapply reachable_accounted; [|exact Hr]; apply accounted_init).
  split; [|exact Ha].
  destruct (collator_iteration_accounted args now c Hn Ha) as (c' & -> & _). by eexists.
Qed.

Lemma collator_accounting_witness :
  is_Some (collator_iteration Args_init (mkTimespec 1700000001 0)
    {| example_client with observation_list := ObservationList.mk [mkQED CLIENT_SEND 5 7 50] |}).
Proof.
  apply (collator_accounting Args_init 1700000000 (mkTimespec 1700000001 0)
    {| example_client with observation_list := ObservationList.mk [mkQED CLIENT_SEND 5 7 50] |}).
  - apply rtc_once. exact (cs_enqueue Args_init (mkQED CLIENT_SEND 5 7 50) example_client).
  - by vm_compute.
Defined.

Lemma missing_point_entry (point : ObservationPoints) added id (obss : list QEDObservation) :
  Forall (λ o, observation_point o ≠ point) obss →
  let r := foldl (λ r o, update_entry o r) (new_RawData added id) obss in
  packet_id r = id ∧
  match point with
  | CLIENT_SEND => client_send_epoch_nanoseconds r = 0
  | SERVER_RECEIVE => server_receive_epoch_nanoseconds r = 0
  | SERVER_SEND => server_send_epoch_nanoseconds r = 0
  | CLIENT_RECEIVE => client_receive_epoch_nanoseconds r = 0
  | NUM_OBSERVATION_POINTS => True
  end.
Proof.
  intros Ho. pattern (foldl (λ r o, update_entry o r) (new_RawData added id) obss).
  match goal with |- ?P _ => cut (∀ r, P r → P (foldl (λ r o, update_entry o r) r obss)) end.
  { intros H. apply H. by destruct point. }
  induction Ho as [|o obss Hne _ IH]; intros r Hr; [done|]. cbn [foldl]. apply IH.
  destruct Hr as [Hid Hr]. split; [by rewrite packet_id_update|]. unfold update_entry, record_point.
  destruct point; destruct (observation_point o); try done; exact Hr.
Qed.

(** A packet of which an observation never arrives (lost on the way to the
    server or back, or its sending not recorded) becomes an entry that is not
    complete, whichever other observations arrive and in whatever order: reporting
    it is one loss in each of the four statistics and no backward, internal or, if
    the server's time of reception or the sending time is missing, forward sample. *)
Lemma missing_observation_is_loss (point : ObservationPoints) added id (obss : list QEDObservation) :
  point ≠ NUM_OBSERVATION_POINTS → Forall (λ o, observation_point o ≠ point) obss →
  let r := foldl (λ r o, update_entry o r) (new_RawData added id) obss in
  ∃ st, aggregateRawData (Stats_create (S:=SqaLog)) r = Some st ∧
    losses (stats_RTT st) = 1%nat ∧ losses (stats_client_server st) = 1%nat ∧
    stats_internal st = [CountLoss] ∧ stats_server_client st = [CountLoss] ∧
    (point = SERVER_RECEIVE ∨ point = CLIENT_SEND → stats_client_server st = [CountLoss]).
Proof.
  intros Hp Ho r. destruct (missing_point_entry point added id obss Ho) as [_ Hm]. fold r in Hm.
  assert (is_complete r = false) as Hc.
  { unfold is_complete. destruct point; try done; rewrite Hm; change (0 >? 0) with false;
      by rewrite ?andb_false_r. }
  eexists. split; [apply aggregate_exact|].
  unfold replay_stats. cbn [stats_RTT stats_internal stats_client_server stats_server_client].
  rewrite !replay_log. unfold aggregate_calls. rewrite Hc.
  cbn [stats_RTT stats_internal stats_client_server stats_server_client Stats_create sqa_stats_create
    SqaLog_stats app].
  split; [by destruct (0 <? rtt_total r)|]. split; [by destruct (has_fwd r)|]. split; [done|]. split; [done|].
  intros Hf. replace (has_fwd r) with false; [done|]. unfold has_fwd.
  destruct Hf as [-> | ->]; rewrite Hm; change (0 >? 0) with false; by rewrite ?andb_false_r.
Qed.

Lemma missing_observation_is_loss_witness :
  (∃ st, aggregateRawData (Stats_create (S:=SqaLog)) (mkRawData 9 7 50 5 0 0 0) = Some st ∧
     losses (stats_RTT st) = 1%nat) ∧
  (∃ st, aggregateRawData (Stats_create (S:=SqaLog)) (mkRawData 9 7 50 0 20 30 40) = Some st ∧
     stats_client_server st = [CountLoss]).
Proof.
  split.
  - destruct (missing_observation_is_loss CLIENT_RECEIVE 9 7 [mkQED CLIENT_SEND 5 7 50])
      as (st & E & El & _); [discriminate|by repeat constructor|].
    exists st. split; [exact E|exact El].
  - destruct (missing_observation_is_loss CLIENT_SEND 9 7 [mkQED SERVER_SEND 30 7 50;
      mkQED SERVER_RECEIVE 20 7 50; mkQED CLIENT_RECEIVE 40 7 50])
      as (st & E & _ & _ & _ & _ & Ef); [discriminate|by repeat constructor|].
    exists st. split; [exact E|]. apply Ef. by right.
Defined.
