(* ===== verification/Sender.v ===== *)
(** * Sender: the packet generator ([src/client/Client.cpp])

    [craftSenderPacket], [sendPacket] and the loop of [runSenderThread].  What one
    iteration reads of its environment is a record: the two clocks, the draws of the
    random generators of [<random>] and the outcome of each [sendmsg].  The loop
    runs over the iterations the environment offers. *)

From S2P Require Import Prelude Double Text Packets Timestamps Sockets Observations ClientState.

Definition MICROSECONDS_IN_MILLISECOND : Z := 1000.
Definition MAX_DELAY_MICROSECONDS : double := of_int 10000000.
Definition ERROR_ESTIMATE_DEFAULT_BITMAP : Z := 32769. (* 0x8001 *)

Record send_iteration := mkSend {
  clock : timespec;                      (** [clock_gettime], in [get_timestamp] *)
  now : Z;                               (** [time(nullptr)] *)
  pick : Z;                              (** the uniform draw between 0 and the last index *)
  gap : double → double;                 (** the exponential draw of the given rate *)
  sendmsg_error : nat → option string;   (** [strerror(errno)] when [sendmsg] to a host fails *)
}.

(** The client and what its sender has done to the outside. *)
Record Sender (S : Type) := mkSender {
  client : Client S;
  wire : list msghdr;  (** the messages [sendmsg] accepted, oldest first *)
  slept : list Z;      (** the arguments of [usleep] *)
}.
Arguments mkSender {S} _ _ _.
Arguments client {S} _.
Arguments wire {S} _.
Arguments slept {S} _.

Definition set_sent_packets {S} (n : Z) (c : Client S) : Client S := {| c with sent_packets := n |}.
Definition set_sending_completed {S} (t : Z) (c : Client S) : Client S :=
  {| c with sending_completed := t |}.

Definition craftSenderPacket (clock : timespec) (idx : Z) : option ClientPacket :=
  ts ← get_timestamp clock;
  Some {|
    seq_number := htonl idx;
    timestamp := htonts ts;
    timestamp_error_estimate := htons ERROR_ESTIMATE_DEFAULT_BITMAP;
    padding := padding ClientPacket_init;
  |}.

(** [*select_randomly(begin, end, seed)]: on an empty range the distribution's
    bounds are invalid, which is undefined; [pick] stands for a valid draw. *)
Definition select_randomly (l : list Z) (pick : Z) : option Z :=
  if (0 <=? pick) && (pick <=? Z.of_nat (length l) - 1) then l !! Z.to_nat pick else None.

Section Sender.
Context {S : Type} `{SqaStats S}.
Variable args : Args.
(** The [sockaddr]s [getaddrinfo] returned for the remote hosts. *)
Variable remote_address_info : list (list Z).

(** The message to one host. *)
Definition sender_message (packet : ClientPacket) (payload_len : Z) (ai_addr : list Z) : msghdr :=
  mkMsghdr ai_addr (Z.of_nat (length ai_addr)) [mkIovec (client_bytes packet) payload_len] [] 0.

(** The loop of [sendPacket] over the hosts, from the [i]-th: false when it throws. *)
Fixpoint send_to_hosts (errors : nat → option string) (packet : ClientPacket) (payload_len : Z)
    (i : nat) (hosts : list (list Z)) (s : Sender S) : option (bool * Sender S) :=
  match hosts with
  | [] => Some (true, s)
  | rai :: hosts =>
      let message := sender_message packet payload_len rai in
      _ ← gather (msg_iov message);
      match errors i with
      | Some text => Some (false, {| s with client := put_err (text +:+ nl) (client s) |})
      | None =>
          n ← checked_i 32 (sent_packets (client s) + 1);
          send_to_hosts errors packet payload_len (Datatypes.S i) hosts
            {| s with client := set_sent_packets n (client s); wire := wire s ++ [message] |}
      end
  end.

(** [None] for the timestamp when it throws [std::runtime_error]. *)
Definition sendPacket (it : send_iteration) (idx payload_len : Z) (s : Sender S)
    : option (option Timestamp * Sender S) :=
  senderPacket ← craftSenderPacket (clock it) idx;
  '(sent, s) ← send_to_hosts (sendmsg_error it) senderPacket payload_len O remote_address_info s;
  Some (if sent : bool then Some (ntohts (timestamp senderPacket)) else None, s).

Definition sending_failed : string := "Sending UDP message failed with error.".

Definition enqueue_observation (obs : QEDObservation) (c : Client S) : Client S :=
  {| c with observation_list := ObservationList.addObservation obs (observation_list c) |}.

(** What follows a successful [sendPacket]. *)
Definition record_sent (sent_nsec index payload_len : Z) (c : Client S) : Client S :=
  let c := if first_packet_sent_epoch_nanoseconds c =? 0
           then {| c with first_packet_sent_epoch_nanoseconds := sent_nsec |} else c in
  let c := {| c with last_packet_sent_epoch_nanoseconds := sent_nsec |} in
  if negb (collator_started c =? 0)
  then enqueue_observation (make_QEDObservation CLIENT_SEND sent_nsec index payload_len) c
  else c.

(** The rate of the exponential distribution: one over the mean in microseconds. *)
Definition exponential_rate : double :=
  ddiv (of_int 1) (dmul (of_int (mean_inter_packet_delay_ms args)) (of_int MICROSECONDS_IN_MILLISECOND)).

Definition inter_packet_delay (gap : double → double) : option Z :=
  if constant_inter_packet_delay args
  then Some (u32 (mean_inter_packet_delay_ms args * MICROSECONDS_IN_MILLISECOND))
  else delay ← to_uint 32 (dmin (gap exponential_rate) MAX_DELAY_MICROSECONDS); Some (Z.max delay 0).

(** The body of the loop after the test of the runtime, up to the end of
    [sendPacket]: the time sent and the payload length, or [None] when the exception
    of a failed [sendmsg] was caught. *)
Definition send_phase (it : send_iteration) (index : Z) (s : Sender S)
    : option (option (Z * Z) * Sender S) :=
  len ← select_randomly (payload_lens args) (pick it);
  let payload_len := u64 len in
  delay ← inter_packet_delay (gap it);
  let s := {| s with slept := slept s ++ [delay] |} in
  '(sent_time, s) ← sendPacket it index payload_len s;
  match sent_time with
  | Some ts => sent_nsec ← timestamp_to_nsec (Some ts); Some (Some (sent_nsec, payload_len), s)
  | None => Some (None, {| s with client := put_err (sending_failed +:+ nl) (client s) |})
  end.

Definition send_iteration_body (it : send_iteration) (index : Z) (s : Sender S) : option (Sender S) :=
  '(sent, s) ← send_phase it index s;
  Some (match sent with
        | Some (sent_nsec, payload_len) =>
            {| s with client := record_sent sent_nsec index payload_len (client s) |}
        | None => s
        end).

Definition keep_sending (index : Z) : bool :=
  (num_samples args =? 0) || (index <? num_samples args) || negb (runtime args =? 0).

Definition runtime_over (it : send_iteration) (c : Client S) : bool :=
  negb (runtime args =? 0) && (u64 (u64 (now it) - start_time c) >=? runtime args).

(** The loop: whether it has ended, or waits for another iteration. *)
Fixpoint sender_loop (its : list send_iteration) (index : Z) (s : Sender S)
    : option (bool * Z * Sender S) :=
  if negb (keep_sending index) then Some (true, index, s)
  else match its with
       | [] => Some (false, index, s)
       | it :: its =>
           if runtime_over it (client s) then Some (true, index, s)
           else s ← send_iteration_body it index s; sender_loop its (u32 (index + 1)) s
       end.

(** [end_time] is [time(nullptr)] after the loop. *)
Definition runSenderThread (its : list send_iteration) (end_time : Z) (s : Sender S)
    : option (bool * Sender S) :=
  '(ended, _, s) ← sender_loop its 0 s;
  Some (ended, if ended : bool
               then {| s with client := set_sending_completed (u64 end_time) (client s) |}
               else s).
End Sender.

(** ** Lemmas: the packet *)

(** The bytes of a request with sequence number [idx] stamped [ts]. *)
Definition request_wire (idx : Z) (ts : Timestamp) : list Z :=
  be_bytes 4 idx ++ be_bytes 4 (integer ts) ++ be_bytes 4 (fractional ts) ++ [128; 1] ++ replicate 1458 0.

Definition crafted (clock : timespec) (idx : Z) : ClientPacket :=
  mkClientPacket (htonl idx) (htonts (ntp_of_timespec clock)) (htons ERROR_ESTIMATE_DEFAULT_BITMAP)
    (padding ClientPacket_init).

Lemma craftSenderPacket_exact tv idx : 0 ≤ tv_nsec tv < 10 ^ 9 →
  craftSenderPacket tv idx = Some (crafted tv idx).
Proof. intros Hn. unfold craftSenderPacket. by rewrite get_timestamp_exact. Qed.

Lemma wf_crafted tv idx : wf_client (crafted tv idx).
Proof.
  split; cbn [crafted seq_number timestamp timestamp_error_estimate padding]; auto with twamp.
Qed.

Lemma crafted_bytes tv idx : client_bytes (crafted tv idx) = request_wire idx (ntp_of_timespec tv).
Proof.
  unfold client_bytes, crafted, request_wire.
  cbn [seq_number timestamp timestamp_error_estimate padding].
  unfold timestamp_bytes, htonts. cbn [integer fractional].
  by rewrite !le_bytes_bswap, <- !app_assoc.
Qed.

Lemma length_request_wire idx ts : length (request_wire idx ts) = 1472%nat.
Proof. unfold request_wire, be_bytes. by rewrite !length_app, !length_rev, !length_le_bytes. Qed.

(** ** Lemmas: one iteration *)

Lemma imap_offset {A B} (f : nat → A → B) k l :
  imap ((λ i x, f (k + i)%nat x) ∘ Datatypes.S) l = imap (λ i x, f (Datatypes.S k + i)%nat x) l.
Proof. apply imap_ext. intros i x _. cbn. f_equal. lia. Qed.

Section Iteration.
Context {S : Type} `{SqaStats S} (args : Args) (hosts : list (list Z)).

(** An iteration in which nothing fails: a payload that fits the packet is picked,
    the delay is representable and every message is accepted. *)
Definition good_send (it : send_iteration) : Prop :=
  0 ≤ tv_nsec (clock it) < 10 ^ 9 ∧
  (∃ len, select_randomly (payload_lens args) (pick it) = Some len ∧ 0 ≤ len ≤ TST_PKT_SIZE) ∧
  is_Some (inter_packet_delay args (gap it)) ∧
  (∀ i, (i < length hosts)%nat → sendmsg_error it i = None).

Definition picked_len (it : send_iteration) : Z := default 0 (select_randomly (payload_lens args) (pick it)).

(** What iteration [it] with sequence number [k] sends, and the observation of it. *)
Definition sent_messages (k : nat) (it : send_iteration) : list msghdr :=
  sender_message (crafted (clock it) (Z.of_nat k)) (picked_len it) <$> hosts.
Definition sent_observation (k : nat) (it : send_iteration) : QEDObservation :=
  make_QEDObservation CLIENT_SEND (ntp_nsec (ntp_of_timespec (clock it))) (Z.of_nat k) (picked_len it).

Lemma gather_sender_message tv idx len a : 0 ≤ len ≤ TST_PKT_SIZE →
  gather (msg_iov (sender_message (crafted tv idx) len a)) =
  Some (take (Z.to_nat len) (request_wire idx (ntp_of_timespec tv))).
Proof.
  intros Hl. cbn [sender_message msg_iov gather iov_base iov_len].
  rewrite length_client_bytes by apply wf_crafted. rewrite (proj2 (Z.ltb_ge _ _)) by lia.
  cbn [mbind option_bind]. by rewrite app_nil_r, crafted_bytes.
Qed.

Lemma send_to_hosts_ok errors tv idx len rest : ∀ i (s : Sender S),
  0 ≤ len ≤ TST_PKT_SIZE → (∀ j, (j < i + length rest)%nat → errors j = None) →
  0 ≤ sent_packets (client s) → sent_packets (client s) + Z.of_nat (length rest) < 2 ^ 31 →
  send_to_hosts errors (crafted tv idx) len i rest s =
    Some (true, mkSender (set_sent_packets (sent_packets (client s) + Z.of_nat (length rest)) (client s))
                  (wire s ++ (sender_message (crafted tv idx) len <$> rest)) (slept s)).
Proof.
  induction rest as [|a rest IH]; intros i s Hl He H0 Hn; cbn [send_to_hosts].
  - destruct s as [c w sl]. cbn. rewrite Z.add_0_r, app_nil_r. by destruct c.
  - rewrite gather_sender_message by done. cbn [mbind option_bind]. cbn [length] in *.
    rewrite He by lia. rewrite checked_i_Some by wsolve. cbn [mbind option_bind].
    rewrite IH; [|done|intros; apply He; lia|cbn; lia..].
    cbn [client wire slept set_sent_packets sent_packets]. do 2 f_equal.
    rewrite <- app_assoc. f_equal. unfold set_sent_packets. cbn. f_equal. lia.
Qed.

(** The members the receiver and the collator write. *)
Definition receiving_part (c : Client S) :=
  (heap c, next c, raw_data_list c, stats c, received_packets c, collator_finished c).

(** What an iteration, or a run of them, leaves of the sender's state. *)
Record progress (msgs : list msghdr) (obss : list QEDObservation) (s s' : Sender S) : Prop := {
  p_wire : wire s' = wire s ++ msgs;
  p_obs : ObservationList.observations (observation_list (client s')) =
            ObservationList.observations (observation_list (client s)) ++
            (if collator_started (client s) =? 0 then [] else obss);
  p_sent : sent_packets (client s') = sent_packets (client s) + Z.of_nat (length msgs);
  p_start : start_time (client s') = start_time (client s);
  p_started : collator_started (client s') = collator_started (client s);
  p_completed : sending_completed (client s') = sending_completed (client s);
  p_err : err (client s') = err (client s);
  p_rest : receiving_part (client s') = receiving_part (client s);
}.

Lemma progress_refl s : progress [] [] s s.
Proof. split; rewrite ?app_nil_r; try done; [by destruct (_ =? _); rewrite ?app_nil_r|simpl; lia]. Qed.

Lemma progress_trans m1 o1 m2 o2 s1 s2 s3 :
  progress m1 o1 s1 s2 → progress m2 o2 s2 s3 → progress (m1 ++ m2) (o1 ++ o2) s1 s3.
Proof.
  intros [] []. split; try congruence.
  - rewrite app_assoc. congruence.
  - rewrite p_obs1, p_obs0, p_started0, <- app_assoc. by destruct (collator_started (client s1) =? 0).
  - rewrite length_app. lia.
Qed.

Lemma record_sent_fields sent_nsec index len (c : Client S) :
  let c' := record_sent sent_nsec index len c in
  ObservationList.observations (observation_list c') =
    ObservationList.observations (observation_list c) ++
    (if collator_started c =? 0 then [] else [make_QEDObservation CLIENT_SEND sent_nsec index len]) ∧
  sent_packets c' = sent_packets c ∧ start_time c' = start_time c ∧
  collator_started c' = collator_started c ∧ sending_completed c' = sending_completed c ∧
  err c' = err c ∧ receiving_part c' = receiving_part c.
Proof.
  cbn zeta. unfold record_sent. destruct (first_packet_sent_epoch_nanoseconds c =? 0);
    cbn [collator_started]; destruct (collator_started c =? 0); cbn [negb]; by rewrite ?app_nil_r.
Qed.

Lemma send_iteration_ok it (k : nat) (s : Sender S) :
  good_send it → 0 ≤ sent_packets (client s) →
  sent_packets (client s) + Z.of_nat (length hosts) < 2 ^ 31 →
  ∃ s', send_iteration_body args hosts it (Z.of_nat k) s = Some s' ∧
    progress (sent_messages k it) [sent_observation k it] s s'.
Proof.
  intros (Hn & (len & Hp & Hl) & [d Hd] & He) H0 Hs. unfold send_iteration_body, send_phase.
  assert (picked_len it = len) as El by (unfold picked_len; by rewrite Hp).
  rewrite Hp, Hd. cbn [mbind option_bind]. unfold sendPacket.
  rewrite craftSenderPacket_exact by done. cbn [mbind option_bind].
  rewrite (wrap_small 64 len) by (unfold TST_PKT_SIZE in Hl; wsolve).
  rewrite (send_to_hosts_ok _ (clock it)) by (try done; intros; apply He; lia).
  cbn [mbind option_bind crafted timestamp].
  rewrite ntohts_htonts by by apply wf_ntp_of_timespec.
  rewrite timestamp_to_nsec_exact by by apply wf_ntp_of_timespec. cbn [mbind option_bind].
  eexists. split; [done|]. unfold sent_messages, sent_observation. rewrite El.
  cbn [client wire slept].
  match goal with |- context [record_sent ?n ?i ?l ?c] =>
    destruct (record_sent_fields n i l c) as (Eo & E1 & E2 & E3 & E4 & E5 & E6) end.
  split; cbn [client wire]; rewrite ?Eo, ?E1, ?length_fmap; done.
Qed.

Lemma sender_loop_ends its index (s : Sender S) : keep_sending args index = false →
  sender_loop args hosts its index s = Some (true, index, s).
Proof. intros E. destruct its; cbn [sender_loop]; by rewrite E. Qed.

Lemma sender_loop_waits index (s : Sender S) : keep_sending args index = true →
  sender_loop args hosts [] index s = Some (false, index, s).
Proof. intros E. cbn [sender_loop]. by rewrite E. Qed.

Lemma sender_loop_ok pre rest : ∀ (k : nat) (s : Sender S),
  Forall good_send pre →
  (∀ i, (i < length pre)%nat → keep_sending args (Z.of_nat (k + i)) = true) →
  Forall (λ it, runtime_over args it (client s) = false) pre →
  Z.of_nat (k + length pre) < 2 ^ 32 → 0 ≤ sent_packets (client s) →
  sent_packets (client s) + Z.of_nat (length pre * length hosts) < 2 ^ 31 →
  ∃ s', sender_loop args hosts (pre ++ rest) (Z.of_nat k) s =
      sender_loop args hosts rest (Z.of_nat (k + length pre)) s' ∧
    progress (concat (imap (λ i it, sent_messages (k + i) it) pre))
      (imap (λ i it, sent_observation (k + i) it) pre) s s'.
Proof.
  induction pre as [|it pre IH]; intros k s Hg Hk Ho Hi H0 Hn.
  - exists s. rewrite Nat.add_0_r. split; [done|apply progress_refl].
  - apply Forall_cons in Hg as [Hit Hg]. apply Forall_cons in Ho as [Hoit Ho]. cbn [length] in *.
    pose proof (Hk 0%nat ltac:(lia)) as Hk0. rewrite Nat.add_0_r in Hk0.
    cbn [app sender_loop]. rewrite Hk0. cbn [negb].
    rewrite Hoit.
    destruct (send_iteration_ok it k s Hit H0) as (s1 & -> & P1); [lia|]. cbn [mbind option_bind].
    rewrite wrap_small by wsolve. replace (Z.of_nat k + 1) with (Z.of_nat (Datatypes.S k)) by lia.
    destruct (IH (Datatypes.S k) s1) as (s' & E & P2); try done.
    + intros i Hi'. replace (Datatypes.S k + i)%nat with (k + Datatypes.S i)%nat by lia. apply Hk. lia.
    + eapply Forall_impl; [exact Ho|]. intros it'. unfold runtime_over. by rewrite (p_start _ _ _ _ P1).
    + lia.
    + rewrite (p_sent _ _ _ _ P1). lia.
    + rewrite (p_sent _ _ _ _ P1). unfold sent_messages. rewrite length_fmap. lia.
    + exists s'. rewrite E. split; [by rewrite Nat.add_succ_r|].
      rewrite !imap_cons, Nat.add_0_r. cbn [concat].
      change (sent_observation k it :: ?l) with ([sent_observation k it] ++ l).
      eapply progress_trans; [exact P1|].
      rewrite (imap_offset (λ i it, sent_messages i it)), (imap_offset (λ i it, sent_observation i it)).
      exact P2.
Qed.
End Iteration.

(** ** Properties *)

(** C17: what one iteration puts on the wire: to every remote host, in order, the
    same request with the sequence number, the sending time and the error estimate
    in network byte order and zero padding, cut to the payload length picked. *)
Theorem request_on_the_wire {S} `{SqaStats S} args hosts it (k : nat) (s : Sender S) :
  good_send args hosts it → 0 ≤ sent_packets (client s) →
  sent_packets (client s) + Z.of_nat (length hosts) < 2 ^ 31 →
  let request := take (Z.to_nat (picked_len args it))
    (request_wire (Z.of_nat k) (ntp_of_timespec (clock it))) in
  ∃ s' msgs, send_iteration_body args hosts it (Z.of_nat k) s = Some s' ∧
    wire s' = wire s ++ msgs ∧ msg_name <$> msgs = hosts ∧
    Forall (λ m, gather (msg_iov m) = Some request) msgs ∧
    Z.of_nat (length request) = picked_len args it.
Proof.
  intros Hg H0 Hn request. destruct (send_iteration_ok args hosts it k s Hg H0 Hn) as (s' & E & P).
  destruct Hg as (_ & (len & Hp & Hl) & _).
  assert (picked_len args it = len) as El by (unfold picked_len; by rewrite Hp).
  exists s', (sent_messages args hosts k it). split; [exact E|]. split; [apply P|]. split; [|split].
  - unfold sent_messages. rewrite <- list_fmap_compose. apply list_fmap_id.
  - apply Forall_fmap, Forall_forall. intros a _. cbn [compose]. unfold request. rewrite El.
    by apply gather_sender_message.
  - unfold request. rewrite El, length_take, length_request_wire. unfold TST_PKT_SIZE in Hl. lia.
Qed.

Definition example_args (n rt : Z) : Args :=
  mkArgs [] [] "" "0" 4 [50; 14] 0 n 200 10 0 rt "," false false false true "raw" "".
Definition example_send (t : Z) : send_iteration :=
  mkSend (mkTimespec t 500000000) t 1 (λ _, of_int 0) (λ _, None).
Definition example_hosts : list (list Z) := [replicate 16 1; replicate 16 2].
Definition example_sender : Sender SqaLog :=
  mkSender {| (Client_init 1700000000 : Client SqaLog) with collator_started := 1 |} [] [].

Lemma example_send_good n rt t : good_send (example_args n rt) example_hosts (example_send t).
Proof.
  split; [cbn; lia|]. split; [|by split; [eexists|]].
  exists 14. split; [done|]. unfold TST_PKT_SIZE. lia.
Qed.

Lemma request_on_the_wire_witness :
  ∃ s' msgs, send_iteration_body (example_args 3 0) example_hosts (example_send 1700000000) 258 example_sender =
      Some s' ∧ wire s' = msgs ∧
    Forall (λ m, gather (msg_iov m) = Some [0; 0; 1; 2; 232; 254; 111; 128; 128; 0; 0; 0; 128; 1]) msgs.
Proof.
  destruct (request_on_the_wire (example_args 3 0) example_hosts (example_send 1700000000) 258 example_sender
    (example_send_good 3 0 1700000000) (proj1 (Z.leb_le 0 0) eq_refl) eq_refl)
    as (s' & msgs & E & Ew & _ & Hm & _).
  exists s', msgs. split; [exact E|]. split; [exact Ew|]. exact Hm.
Defined.

(** C15: the number of packets.  Without [--runtime] and when nothing fails, the
    sender ends once it has sent [num_samples] requests, numbered from 0 without a
    gap, to every host, and never for [num_samples = 0]; it counts one sent packet
    per host and request, hands the collator one observation per request, in order,
    and only when it ends sets [sending_completed]. *)
Theorem runSenderThread_num_samples {S} `{SqaStats S} args hosts its end_time (s : Sender S) :
  runtime args = 0 → num_samples args ∈u 32 → Forall (good_send args hosts) its →
  let sent := if decide (num_samples args = 0) then its else take (Z.to_nat (num_samples args)) its in
  let ended := bool_decide (num_samples args ≠ 0 ∧ num_samples args ≤ Z.of_nat (length its)) in
  Z.of_nat (length sent) < 2 ^ 32 → 0 ≤ sent_packets (client s) →
  sent_packets (client s) + Z.of_nat (length sent * length hosts) < 2 ^ 31 →
  ∃ s', runSenderThread args hosts its end_time s = Some (ended, s') ∧
    wire s' = wire s ++ concat (imap (sent_messages args hosts) sent) ∧
    ObservationList.observations (observation_list (client s')) =
      ObservationList.observations (observation_list (client s)) ++
      (if collator_started (client s) =? 0 then [] else imap (sent_observation args) sent) ∧
    sent_packets (client s') =
      sent_packets (client s) + Z.of_nat (length (concat (imap (sent_messages args hosts) sent))) ∧
    sending_completed (client s') = (if ended then u64 end_time else sending_completed (client s)).
Proof.
  intros Hr Hn Hg sent ended Hl H0 Hs.
  assert (∃ rest, its = sent ++ rest ∧ (num_samples args = 0 → rest = []) ∧
    (num_samples args ≠ 0 → Z.of_nat (length sent) < num_samples args → rest = []) ∧
    (num_samples args ≠ 0 → Z.of_nat (length sent) ≤ num_samples args)) as (rest & E & R0 & R1 & R2).
  { unfold sent. case_decide as E0; [exists []; by rewrite app_nil_r|].
    exists (drop (Z.to_nat (num_samples args)) its). split; [by rewrite take_drop|].
    split; [done|]. rewrite length_take. split; [|widths; lia]. intros _ H'. apply drop_ge. lia. }
  clearbody sent.
  assert (∀ it, runtime_over args it (client s) = false) as Hro by (intros; unfold runtime_over; by rewrite Hr).
  rewrite E in Hg. apply Forall_app in Hg as [Hg _].
  destruct (sender_loop_ok args hosts sent rest 0 s Hg) as (s1 & E1 & P); try done.
  - intros i Hi. unfold keep_sending. destruct (Z.eqb_spec (num_samples args) 0); [done|].
    apply orb_true_iff. left. apply Z.ltb_lt. specialize (R2 ltac:(done)). lia.
  - by apply Forall_true.
  - unfold runSenderThread. rewrite E. change 0 with (Z.of_nat 0). rewrite E1. cbn [Nat.add].
    assert (sender_loop args hosts rest (Z.of_nat (length sent)) s1 = Some (ended, Z.of_nat (length sent), s1)) as ->.
    { unfold ended. rewrite E, length_app.
      destruct (decide (num_samples args = 0 ∨ Z.of_nat (length sent) < num_samples args)) as [Hk|Hk].
      - assert (rest = []) as ->.
        { destruct (decide (num_samples args = 0)); [by apply R0|apply R1; [done|lia]]. }
        rewrite sender_loop_waits; [rewrite bool_decide_false; [done|simpl; lia]|].
        unfold keep_sending. destruct Hk as [->|Hk]; [done|].
        by rewrite (proj2 (Z.ltb_lt _ _) Hk), orb_true_r.
      - rewrite sender_loop_ends; [rewrite bool_decide_true; [done|lia]|]. unfold keep_sending.
        rewrite Hr, (proj2 (Z.eqb_neq (num_samples args) 0)) by lia.
        by rewrite (proj2 (Z.ltb_ge _ _)) by lia. }
    cbn [mbind option_bind]. eexists. split; [done|].
    destruct P as [P1 P2 P3 _ _ P6 _ _]. destruct ended; cbn [client wire set_sending_completed
      observation_list sent_packets sending_completed]; done.
Qed.

Lemma runSenderThread_num_samples_witness :
  ∃ s', runSenderThread (example_args 2 0) example_hosts
      [example_send 1700000000; example_send 1700000001; example_send 1700000002] 1700000003 example_sender =
      Some (true, s') ∧
    sent_packets (client s') = 4 ∧ sending_completed (client s') = 1700000003 ∧
    o_packet_id <$> ObservationList.observations (observation_list (client s')) = [0; 1].
Proof.
  destruct (runSenderThread_num_samples (example_args 2 0) example_hosts
    [example_send 1700000000; example_send 1700000001; example_send 1700000002] 1700000003 example_sender)
    as (s' & E & _ & Eo & Es & Ec).
  - reflexivity.
  - by vm_compute.
  - repeat (constructor; [apply example_send_good|]). constructor.
  - by vm_compute.
  - by vm_compute.
  - by vm_compute.
  - exists s'. split; [exact E|]. split; [exact Es|]. split; [exact Ec|]. by rewrite Eo.
Defined.

(** C16: sending for a time.  With [--runtime] the sender, whatever [num_samples]
    says, sends a packet to every host at every iteration that starts less than
    [runtime] seconds after the start, numbered one after the other, counts it and
    queues its sending time, and ends at the first iteration that does not, noting the
    time. *)
Theorem runSenderThread_runtime {S} `{SqaStats S} args hosts pre it post end_time (s : Sender S) :
  0 < runtime args → Forall (good_send args hosts) pre →
  let start := start_time (client s) in
  0 ≤ start → Forall (λ i, start ≤ now i < start + runtime args) pre →
  start + runtime args ≤ now it < 2 ^ 63 →
  Z.of_nat (length pre) < 2 ^ 32 → 0 ≤ sent_packets (client s) →
  sent_packets (client s) + Z.of_nat (length pre * length hosts) < 2 ^ 31 →
  ∃ s', runSenderThread args hosts (pre ++ it :: post) end_time s = Some (true, s') ∧
    wire s' = wire s ++ concat (imap (sent_messages args hosts) pre) ∧
    ObservationList.observations (observation_list (client s')) =
      ObservationList.observations (observation_list (client s)) ++
      (if collator_started (client s) =? 0 then [] else imap (sent_observation args) pre) ∧
    sent_packets (client s') =
      sent_packets (client s) + Z.of_nat (length (concat (imap (sent_messages args hosts) pre))) ∧
    sending_completed (client s') = u64 end_time.
Proof.
  intros Hr Hg start Hst Hpre Hit Hl H0 Hs.
  assert (∀ i (c : Client S), start_time c = start → start ≤ now i < 2 ^ 63 →
    runtime_over args i c = bool_decide (start + runtime args ≤ now i)) as Hover.
  { intros i c Ec Hi. unfold runtime_over. rewrite Ec, (proj2 (Z.eqb_neq _ _)) by lia. cbn [negb andb].
    rewrite (wrap_small 64 (now i)), wrap_small by wsolve. rewrite Z.geb_leb.
    destruct (Z.leb_spec (runtime args) (now i - start)); symmetry;
      [apply bool_decide_eq_true|apply bool_decide_eq_false]; lia. }
  destruct (sender_loop_ok args hosts pre (it :: post) 0 s Hg) as (s1 & E & P); try done.
  - intros i _. unfold keep_sending. rewrite (proj2 (Z.eqb_neq (runtime args) 0)) by lia. apply orb_true_r.
  - eapply Forall_impl; [exact Hpre|]. cbn beta. intros i Hi. rewrite Hover; [|done|lia].
    apply bool_decide_eq_false. lia.
  - unfold runSenderThread. change 0 with (Z.of_nat 0). rewrite E. cbn [sender_loop].
    unfold keep_sending. rewrite (proj2 (Z.eqb_neq (runtime args) 0)) by lia. rewrite orb_true_r. cbn [negb].
    rewrite Hover by (apply P || (fold start; lia)). rewrite bool_decide_true by lia.
    cbn [mbind option_bind]. eexists. split; [done|]. by destruct P.
Qed.

Lemma runSenderThread_runtime_witness :
  ∃ s', runSenderThread (example_args 1 2) example_hosts
      ([example_send 1700000000; example_send 1700000001] ++ example_send 1700000002 :: []) 1700000002
      example_sender = Some (true, s') ∧ length (wire s') = 4%nat.
Proof.
  destruct (runSenderThread_runtime (example_args 1 2) example_hosts
    [example_send 1700000000; example_send 1700000001] (example_send 1700000002) [] 1700000002
    example_sender) as (s' & E & Ew & _).
  - by vm_compute.
  - repeat (constructor; [apply example_send_good|]). constructor.
  - by vm_compute.
  - repeat (constructor; [by vm_compute|]). constructor.
  - by vm_compute.
  - by vm_compute.
  - by vm_compute.
  - by vm_compute.
  - exists s'. split; [exact E|]. by rewrite Ew.
Defined.

(** A run of [sendPacket]'s loop up to a host whose [sendmsg] fails. *)
Lemma send_to_hosts_fail {S} errors tv idx len text a post pre : ∀ i (s : Sender S),
  0 ≤ len ≤ TST_PKT_SIZE → (∀ j, (j < i + length pre)%nat → errors j = None) →
  errors (i + length pre)%nat = Some text →
  0 ≤ sent_packets (client s) → sent_packets (client s) + Z.of_nat (length pre) < 2 ^ 31 →
  send_to_hosts errors (crafted tv idx) len i (pre ++ a :: post) s =
    Some (false, mkSender (put_err (text +:+ nl)
                   (set_sent_packets (sent_packets (client s) + Z.of_nat (length pre)) (client s)))
                  (wire s ++ (sender_message (crafted tv idx) len <$> pre)) (slept s)).
Proof.
  induction pre as [|b pre IH]; intros i s Hl He Hf H0 Hn; cbn [send_to_hosts app];
    rewrite gather_sender_message by done; cbn [mbind option_bind]; cbn [length] in *.
  - rewrite Nat.add_0_r in Hf. rewrite Hf. destruct s as [c w sl]. cbn. rewrite Z.add_0_r, app_nil_r.
    by destruct c.
  - rewrite He by lia. rewrite checked_i_Some by wsolve. cbn [mbind option_bind].
    rewrite IH; [|done|intros; apply He; lia|by rewrite Nat.add_succ_comm|cbn; lia..].
    cbn [client wire slept set_sent_packets sent_packets]. do 2 f_equal.
    rewrite <- app_assoc. f_equal. unfold set_sent_packets. cbn. do 2 f_equal. lia.
Qed.



(** A double that an exponential distribution may draw: not negative, not a NaN. *)
Definition nonnegative (x : double) : Prop :=
  match x with
  | S754_zero _ | S754_infinity false => True
  | S754_finite false m e => Zpos m < 2 ^ 53
  | _ => False
  end.

Lemma max_delay_repr : MAX_DELAY_MICROSECONDS = S754_finite false 5368709120000000 (-29).
Proof. by vm_compute. Qed.

Lemma compare_not_Lt p q :
  match Some (Pos.compare_cont Eq p q) with Some Lt => true | _ => false end = false → Zpos q ≤ Zpos p.
Proof. change (Pos.compare_cont Eq p q) with (Pos.compare p q). destruct (Pos.compare_spec p q); done || lia. Qed.

Lemma clamped_delay x : nonnegative x →
  ∃ d, to_uint 32 (dmin x MAX_DELAY_MICROSECONDS) = Some d ∧ 0 ≤ d ≤ 10 ^ 7 ∧
    (∀ t, trunc x = Some t → t ≤ 10 ^ 7 → SFltb MAX_DELAY_MICROSECONDS x = false → d = t).
Proof.
  intros Hx. unfold dmin. rewrite max_delay_repr.
  destruct (SFltb (S754_finite false 5368709120000000 (-29)) x) eqn:Ec.
  { exists (10 ^ 7). split; [by vm_compute|]. split; [lia|done]. }
  destruct x as [b|[]| |[] m e]; try done.
  { exists 0. split; [done|]. split; [lia|]. by intros t [= <-]. }
  cbn in Hx. unfold to_uint. cbn [trunc cond_Zopp mbind option_bind].
  assert (e < -29 ∨ e = -29 ∧ Zpos m ≤ 5368709120000000) as Hcmp.
  { unfold SFltb, SFcompare in Ec. destruct (Z.compare_spec (-29) e); [right|done|by left].
    split; [done|]. by apply compare_not_Lt. }
  assert (0 ≤ Z.shiftl (Zpos m) e ≤ 10 ^ 7) as Hb.
  { rewrite <- (Z.opp_involutive e), Z.shiftl_opp_r, Z.shiftr_div_pow2 by lia.
    split; [apply Z.div_pos; lia|]. destruct Hcmp as [He|[-> Hm]].
    - apply Z.div_le_upper_bound; [lia|].
      pose proof (Z.pow_le_mono_r 2 30 (- e) ltac:(lia) ltac:(lia)). lia.
    - apply Z.div_le_upper_bound; [lia|]. simpl (2 ^ _). lia. }
  rewrite decide_True by wsolve. exists (Z.shiftl (Zpos m) e). split; [done|]. split; [done|].
  by intros t [= <-].
Qed.


