(* ===== verification/ClientOutput.v ===== *)
(** * ClientOutput: delays and lines of the client ([src/client/Client.cpp])

    [computeTimeData] and [populateMetricData] derive the delays of a reflected
    packet, [printMetrics] and [printReflectorPacket] print its row, [printHeader]
    the line of column names, [printStats] the summary. *)

From S2P Require Import Prelude Double Text Packets Timestamps Sockets Observations ClientState.

Definition NANOSECONDS_TO_MILLISECONDS : double := dlit 1 1000000.
Definition SYNC_DELAY_EPSILON_THRESHOLD : double := dlit 1 100.
Definition MAXINT64 : Z := 2 ^ 63 - 1.
Definition NANOSECONDS_IN_SECOND : Z := 1000000000.

(** ** The delays of a reflected packet *)

Record TimeData := mkTimeData {
  t_internal_delay : Z;
  t_server_client_delay : Z;
  t_client_server_delay : Z;
  rtt : Z;
  client_send_time : Z;
  server_receive_time : Z;
  server_send_time : Z;
}.

(** The warning about a time beyond the range of [int64_t]. *)
Definition time_warning (who : string) (t : Z) : string :=
  if t >? MAXINT64
  then who +:+ " time is too large. Clock must be wrong or it's the year 2262." +:+ to_string t +:+ nl
  else "".

(** The data and what is written to the standard error; a signed difference may overflow. *)
Definition computeTimeData (client_receive_time : Z) (reflectorPacket : ReflectorPacket)
    : option (TimeData * string) :=
  let client_timestamp := ntohts (sender_timestamp reflectorPacket) in
  let server_receive_timestamp := ntohts (receive_timestamp reflectorPacket) in
  let server_sender_timestamp := ntohts (r_timestamp reflectorPacket) in
  client_send_time ← timestamp_to_nsec (Some client_timestamp);
  server_receive_time ← timestamp_to_nsec (Some server_receive_timestamp);
  server_send_time ← timestamp_to_nsec (Some server_sender_timestamp);
  internal_delay ← checked_i 64 (i64 server_send_time - i64 server_receive_time);
  client_server_delay ← checked_i 64 (i64 server_receive_time - i64 client_send_time);
  server_client_delay ← checked_i 64 (i64 client_receive_time - i64 server_send_time);
  Some (mkTimeData internal_delay server_client_delay client_server_delay
          (u64 (client_receive_time - client_send_time))
          client_send_time server_receive_time server_send_time,
        time_warning "Client receive" client_receive_time +:+
        time_warning "Server send" server_send_time +:+
        time_warning "Client send" client_send_time +:+
        time_warning "Server receive" server_receive_time).

Record MetricData := mkMetricData {
  ip : string;
  sending_port : Z;
  receiving_port : Z;
  payload_length : Z;
  client_server_delay_nanoseconds : Z;
  server_client_delay_nanoseconds : Z;
  internal_delay_nanoseconds : Z;
  rtt_delay_nanoseconds : Z;
  initial_send_time : Z;
  packets_sent : Z;
  packets_lost : Z;
  packet : ReflectorPacket;
  ipHeader : IPHeader;
}.

Definition populateMetricData {S} `{SqaStats S} (reflectorPacket : ReflectorPacket) (header : IPHeader)
    (host : string) (local_port port payload_len : Z) (timeData : TimeData) (stats : S) : MetricData := {|
  ip := host;
  sending_port := local_port;
  receiving_port := port;
  packet := reflectorPacket;
  ipHeader := header;
  initial_send_time := client_send_time timeData;
  payload_length := u16 payload_len;
  internal_delay_nanoseconds := t_internal_delay timeData;
  server_client_delay_nanoseconds := t_server_client_delay timeData;
  client_server_delay_nanoseconds := t_client_server_delay timeData;
  rtt_delay_nanoseconds := rtt timeData;
  packets_sent := u64 (number_of_samples stats);
  packets_lost := u64 (number_of_lost_packets stats);
|}.

(** ** Header lines *)

Definition legacy_columns (args : Args) : list string :=
  ["Time"; "IP"; "Snd#"; "Rcv#"; "SndPort"; "RscPort"; "Sync"; "FW_TTL"; "SW_TTL"; "SndTOS"; "FW_TOS";
   "SW_TOS"; "RTT"; "IntD"; "FWD"; "BWD"; "PLEN"] ++
  (if print_lost_packets args then ["SENT"; "LOST"] else []).

Definition raw_columns : list string :=
  ["packet_id"; "payload_len"; "client_send_epoch_nanoseconds"; "server_receive_epoch_nanoseconds";
   "server_send_epoch_nanoseconds"; "client_receive_epoch_nanoseconds"].

Definition clockcorrected_columns : list string :=
  ["packet_id"; "payload_len"; "packet_generated_timestamp"; "delay_to_server";
   "delay_to_server_response"; "delay_round_trip"].

Definition printHeader (args : Args) : string :=
  if String.eqb (print_format args) "legacy" then join (sep args) (legacy_columns args) +:+ nl
  else if String.eqb (print_format args) "raw" then join (sep args) raw_columns +:+ nl
  else if String.eqb (print_format args) "clockcorrected"
  then join (sep args) clockcorrected_columns +:+ nl
  else "".

Definition printRawDataHeader (args : Args) : string := join (sep args) raw_columns +:+ nl.

(** ** Rows *)

Definition milliseconds (nanoseconds : Z) : double :=
  dmul (of_int nanoseconds) NANOSECONDS_TO_MILLISECONDS.

(** The synchronisation column; the estimate's sums are signed. *)
Definition sync_column (data : MetricData) : option string :=
  sum ← checked_i 64 (client_server_delay_nanoseconds data + server_client_delay_nanoseconds data);
  sum ← checked_i 64 (sum + internal_delay_nanoseconds data);
  let estimated_rtt_nanoseconds := u64 sum in
  let sync :=
    if isWithinEpsilon (milliseconds (rtt_delay_nanoseconds data))
         (milliseconds estimated_rtt_nanoseconds) SYNC_DELAY_EPSILON_THRESHOLD
    then "Y" else "N" in
  Some (if (client_server_delay_nanoseconds data <? 0) || (server_client_delay_nanoseconds data <? 0)
        then "N" else sync).

Definition metric_columns (args : Args) (data : MetricData) (sync : string) : list string :=
  let rcv_sn := ntohl (r_seq_number (packet data)) in
  let snd_sn := ntohl (sender_seq_number (packet data)) in
  [to_string (initial_send_time data); ip data; to_string snd_sn; to_string rcv_sn;
   to_string (sending_port data); to_string (receiving_port data); sync;
   to_string (sender_ttl (packet data)); to_string (ttl (ipHeader data)); to_string (snd_tos args);
   to_string (sender_tos (packet data)); to_string (tos (ipHeader data));
   print_fixed6 (milliseconds (rtt_delay_nanoseconds data));
   print_fixed6 (milliseconds (internal_delay_nanoseconds data));
   print_fixed6 (milliseconds (client_server_delay_nanoseconds data));
   print_fixed6 (milliseconds (server_client_delay_nanoseconds data));
   to_string (payload_length data)] ++
  (if print_lost_packets args
   then [to_string (packets_sent data); to_string (packets_lost data)] else []).

Definition printMetrics (args : Args) (data : MetricData) : option string :=
  sync ← sync_column data;
  Some (join (sep args) (metric_columns args data sync) +:+ nl).

(** The row of a lost packet (no caller): its empty columns are the commented ones. *)
Definition print_lost_packet (args : Args) (packet_id initial_send_time payload_len : Z) : string :=
  join (sep args)
    [to_string initial_send_time; ""; to_string packet_id; ""; ""; ""; ""; ""; ""; ""; "-"; "";
     ""; ""; ""; ""; to_string payload_len; ""] +:+ nl.

(** [printReflectorPacket]: what goes to the two streams, or the exit code when the
    local port does not parse. *)
Section ReflectorPacket.
Variable inet_ntop : Z → list Z → option string.
Variable args : Args.

Definition stoi_message (e : stoi_error) : string :=
  match e with
  | invalid_argument => "Invalid local port: "
  | out_of_range => "Local port out of range: "
  end +:+ local_port args +:+ nl.

Definition EXIT_FAILURE : Z := 1.

Record printed := mkPrinted { p_out : string; p_err : string; p_exit : option Z }.

Definition printReflectorPacket {S} `{SqaStats S} (reflectorPacket : ReflectorPacket) (msg : msghdr)
    (payload_len incoming_timestamp_nanoseconds : Z) (stats : S) : option printed :=
  '(header, warnings) ← get_ip_header msg;
  let '(port, host) := parse_ip_address inet_ntop msg 0 "" (ip_version args) in
  match stoi (local_port args) with
  | inl e => Some (mkPrinted "" (warnings +:+ stoi_message e) (Some EXIT_FAILURE))
  | inr local_port =>
      '(timeData, time_warnings) ← computeTimeData incoming_timestamp_nanoseconds reflectorPacket;
      let data := populateMetricData reflectorPacket header host (u16 local_port) port payload_len
                    timeData stats in
      line ← (if print_RTT_only args
              then Some (print_fixed6 (ddiv (of_int (rtt timeData)) NANOSECONDS_TO_MILLISECONDS) +:+ nl)
              else printMetrics args data);
      Some (mkPrinted line (warnings +:+ time_warnings) None)
  end.
End ReflectorPacket.

(** ** The summary *)

(** The queries [qoo-c] answers about a [struct sqa_stats]. *)
Class SqaSummary (S : Type) := {
  sqa_stats_get_mean : S → double;
  sqa_stats_get_median : S → double;
  sqa_stats_get_min_as_seconds : S → double;
  sqa_stats_get_max_as_seconds : S → double;
  sqa_stats_get_standard_deviation : S → double;
  sqa_stats_get_variance : S → double;
  sqa_stats_get_percentile : S → double → double;
  sqa_stats_get_loss_percentage : S → double;
  sqa_stats_get_number_of_lost_packets : S → Z;
}.

(** [std::left << std::setw(n)]. *)
Fixpoint spaces (n : nat) : string := match n with O => "" | Datatypes.S n => String " " (spaces n) end.
Definition setw_left (n : nat) (s : string) : string := s +:+ spaces (n - String.length s).

Definition summary_line {S} (label : string) (func : S → double) (st : Stats S) : string :=
  " " +:+ setw_left 10 label +:+
  print_fixed6 (func (stats_RTT st)) +:+ " s      " +:+
  print_fixed6 (func (stats_client_server st)) +:+ " s      " +:+
  print_fixed6 (func (stats_server_client st)) +:+ " s      " +:+
  print_fixed6 (func (stats_internal st)) +:+ " s" +:+ nl.

Definition seconds (nanoseconds : Z) : double := ddiv (of_int nanoseconds) (of_int NANOSECONDS_IN_SECOND).

(** [clock] is the reading of the [get_timestamp] in it. *)
Definition printStats {S} `{SqaSummary S} (clock : timespec) (packets_sent : Z) (c : Client S) : option string :=
  now_ts ← get_timestamp clock;
  now ← timestamp_to_nsec (Some now_ts);
  let first := first_packet_sent_epoch_nanoseconds c in
  let percentile p := summary_line (S:=S) ("p" +:+ p.1 +:+ ":") (λ s, sqa_stats_get_percentile s p.2) (stats c) in
  Some (
    "Time spent generating packets: " +:+
      print_fixed6 (seconds (u64 (last_packet_sent_epoch_nanoseconds c - first))) +:+ " s" +:+ nl +:+
    "Total time elapsed: " +:+ print_fixed6 (seconds (u64 (now - first))) +:+ " s" +:+ nl +:+
    "Packets sent: " +:+ to_string packets_sent +:+ nl +:+
    "Packets lost: " +:+ to_string (sqa_stats_get_number_of_lost_packets (stats_RTT (stats c))) +:+ nl +:+
    "Packet loss: " +:+ print_fixed6 (sqa_stats_get_loss_percentage (stats_RTT (stats c))) +:+ "%" +:+ nl +:+
    "           RTT             FWD             BWD             Internal" +:+ nl +:+
    summary_line "mean:" sqa_stats_get_mean (stats c) +:+
    summary_line "median:" sqa_stats_get_median (stats c) +:+
    summary_line "min:" sqa_stats_get_min_as_seconds (stats c) +:+
    summary_line "max:" sqa_stats_get_max_as_seconds (stats c) +:+
    summary_line "std:" sqa_stats_get_standard_deviation (stats c) +:+
    summary_line "variance:" sqa_stats_get_variance (stats c) +:+
    percentile ("95", of_int 95) +:+ percentile ("99", of_int 99) +:+ percentile ("99.9", dlit 999 10)).

Definition map_tos_to_traffic_class (tos : Z) : string :=
  if tos =? 0x00 then "BE" else if tos =? 0x20 then "BK" else if tos =? 0x80 then "VI"
  else if tos =? 0xA0 then "VO" else "Unknown".

(** ** Lemmas *)

Section Delays.
Context (p : ReflectorPacket) (received : Z).

(** The times a reflected packet carries, in nanoseconds. *)
Definition sent_time : Z := ntp_nsec (ntohts (sender_timestamp p)).
Definition reflector_receive_time : Z := ntp_nsec (ntohts (receive_timestamp p)).
Definition reflector_send_time : Z := ntp_nsec (ntohts (r_timestamp p)).

Definition exact_times : TimeData :=
  mkTimeData (reflector_send_time - reflector_receive_time) (received - reflector_send_time)
    (reflector_receive_time - sent_time) (u64 (received - sent_time))
    sent_time reflector_receive_time reflector_send_time.

Lemma reflected_times_range :
  0 ≤ sent_time < 2 ^ 62 ∧ 0 ≤ reflector_receive_time < 2 ^ 62 ∧ 0 ≤ reflector_send_time < 2 ^ 62.
Proof.
  unfold sent_time, reflector_receive_time, reflector_send_time.
  assert (∀ ts, 0 ≤ ntp_nsec (ntohts ts) < 2 ^ 62) as H; [|split; [apply H|split; apply H]].
  intros ts. pose proof (ntp_nsec_range (ntohts ts) (proj2 (wf_ntohts ts))). lia.
Qed.

Lemma time_warning_none who t : t < 2 ^ 63 → time_warning who t = "".
Proof.
  intros Ht. unfold time_warning, MAXINT64. rewrite Z.gtb_ltb.
  destruct (Z.ltb_spec (2 ^ 63 - 1) t); [lia|done].
Qed.

Lemma computeTimeData_exact : 0 ≤ received < 2 ^ 63 →
  computeTimeData received p = Some (exact_times, "").
Proof.
  intros Hr. destruct reflected_times_range as (H1 & H2 & H3). unfold computeTimeData, exact_times.
  rewrite !timestamp_to_nsec_exact by apply wf_ntohts. cbn [mbind option_bind].
  fold sent_time reflector_receive_time reflector_send_time.
  rewrite !swrap_small by wsolve. rewrite !checked_i_Some by wsolve. cbn [mbind option_bind].
  rewrite !time_warning_none by lia. done.
Qed.

(** The synchronisation column of a row of exact delays: the tolerance test
    always passes, because the estimate is the round-trip time itself. *)
Lemma milliseconds_within x : x ∈u 64 →
  isWithinEpsilon (milliseconds x) (milliseconds x) SYNC_DELAY_EPSILON_THRESHOLD = true.
Proof.
  intros Hx. assert (∃ m e, SYNC_DELAY_EPSILON_THRESHOLD = S754_finite false m e) as (m & e & ->)
    by (do 2 eexists; vm_compute; reflexivity).
  unfold milliseconds, NANOSECONDS_TO_MILLISECONDS. rewrite dlit_micro.
  destruct (decide (x = 0)) as [->|Hne].
  - change (of_int 0) with (S754_zero false). apply isWithinEpsilon_zero.
  - destruct (dmul_normal_finite (of_int x) (S754_finite false 4722366482869645 (-72))) as (m' & e' & ->).
    + apply of_int_normal. wsolve.
    + split; [split; vm_compute; congruence|lia].
    + apply isWithinEpsilon_diag.
Qed.

Lemma sync_column_exact data :
  client_server_delay_nanoseconds data = reflector_receive_time - sent_time →
  server_client_delay_nanoseconds data = received - reflector_send_time →
  internal_delay_nanoseconds data = reflector_send_time - reflector_receive_time →
  rtt_delay_nanoseconds data = u64 (received - sent_time) → 0 ≤ received < 2 ^ 62 →
  sync_column data = Some (if decide (sent_time ≤ reflector_receive_time ∧ reflector_send_time ≤ received)
                           then "Y" else "N").
Proof.
  intros E1 E2 E3 E4 Hr. destruct reflected_times_range as (H1 & H2 & H3).
  unfold sync_column. rewrite E1, E2, E3, E4.
  rewrite !checked_i_Some by wsolve. cbn [mbind option_bind]. rewrite checked_i_Some by wsolve.
  cbn [mbind option_bind].
  replace (reflector_receive_time - sent_time + (received - reflector_send_time) +
           (reflector_send_time - reflector_receive_time)) with (received - sent_time) by lia.
  rewrite milliseconds_within by (apply wrap_range; lia).
  destruct (Z.ltb_spec (reflector_receive_time - sent_time) 0);
    destruct (Z.ltb_spec (received - reflector_send_time) 0); case_decide; done || lia.
Qed.
End Delays.

(** ** Properties *)

(** The delays of a reflected packet.  For a reception before 2262 they are the
    exact differences of the times it carries, whose forward, internal and backward
    parts add up to the round trip, which is unsigned; for the readings just above
    [2^63], which a clock before 1970 gives, the backward delay overflows. *)
Lemma computeTimeData_sum p received : received ∈u 64 →
  (received < 2 ^ 63 → ∃ t, computeTimeData received p = Some (t, "") ∧
     t_client_server_delay t = reflector_receive_time p - sent_time p ∧
     t_internal_delay t = reflector_send_time p - reflector_receive_time p ∧
     t_server_client_delay t = received - reflector_send_time p ∧
     rtt t = u64 (t_client_server_delay t + t_internal_delay t + t_server_client_delay t)) ∧
  (2 ^ 63 ≤ received < 2 ^ 63 + reflector_send_time p → computeTimeData received p = None).
Proof.
  intros Hr. split; intros Hr'.
  - exists (exact_times p received). split; [apply computeTimeData_exact; wsolve|].
    repeat (split; [done|]). cbn [exact_times rtt t_client_server_delay t_internal_delay t_server_client_delay].
    f_equal. lia.
  - destruct (reflected_times_range p) as (H1 & H2 & H3). unfold computeTimeData.
    rewrite !timestamp_to_nsec_exact by apply wf_ntohts. cbn [mbind option_bind].
    fold (sent_time p) (reflector_receive_time p) (reflector_send_time p).
    rewrite !(swrap_small 64 (sent_time p)), !(swrap_small 64 (reflector_receive_time p)),
      !(swrap_small 64 (reflector_send_time p)) by wsolve.
    rewrite (checked_i_Some 64 (reflector_send_time p - reflector_receive_time p)),
      (checked_i_Some 64 (reflector_receive_time p - sent_time p)) by wsolve. cbn [mbind option_bind].
    assert (i64 received = received - 2 ^ 64) as ->.
    { unfold swrap. rewrite (wrap_small 64) by done. cbn zeta.
      destruct (Z.ltb_spec received (2 ^ (64 - 1))); [widths; lia|done]. }
    unfold checked_i. rewrite decide_False; [done|]. widths. lia.
Qed.

Definition example_reply : ReflectorPacket :=
  mkReflectorPacket (htonl 7) (htonts (mkTimestamp 3908988801 0)) 0 [0; 0]
    (htonts (mkTimestamp 3908988800 2147483648)) (htonl 7) (htonts (mkTimestamp 3908988800 1073741824)) 0
    [0; 0] 64 0 (replicate 1430 0).

Lemma computeTimeData_sum_witness :
  (∃ t, computeTimeData 1700000001500000000 example_reply = Some (t, "") ∧
     t_client_server_delay t = 250000000 ∧ rtt t = 1250000000) ∧
  computeTimeData (2 ^ 63 + 1) example_reply = None.
Proof.
  split.
  - destruct (computeTimeData_sum example_reply 1700000001500000000) as [H _]; [by vm_compute|].
    destruct H as (t & E & E1 & E2 & E3 & E4); [by vm_compute|]. exists t.
    split; [exact E|]. split; [rewrite E1; vm_compute; reflexivity|].
    rewrite E4, E1, E2, E3. vm_compute. reflexivity.
  - apply (computeTimeData_sum example_reply (2 ^ 63 + 1)); [by vm_compute|]. by vm_compute.
Defined.

(** The columns of a row, its delays as exact decimals in milliseconds. *)
Definition row_columns {S} `{SqaStats S} (args : Args) (host : string) (port local_port payload_len : Z)
    (header : IPHeader) (p : ReflectorPacket) (received : Z) (stats : S) : list string :=
  [to_string (sent_time p); host; to_string (ntohl (sender_seq_number p)); to_string (ntohl (r_seq_number p));
   to_string (u16 local_port); to_string port;
   if decide (sent_time p ≤ reflector_receive_time p ∧ reflector_send_time p ≤ received) then "Y" else "N";
   to_string (sender_ttl p); to_string (ttl header); to_string (snd_tos args);
   to_string (sender_tos p); to_string (tos header);
   micro_decimal (received - sent_time p); micro_decimal (reflector_send_time p - reflector_receive_time p);
   micro_decimal (reflector_receive_time p - sent_time p); micro_decimal (received - reflector_send_time p);
   to_string (u16 payload_len)] ++
  (if print_lost_packets args
   then [to_string (u64 (number_of_samples stats)); to_string (u64 (number_of_lost_packets stats))] else []).

(** C33: the row of a reflected packet.  When the round trip and the differences are
    below [2^51] ns (26 days), the row has the round-trip, internal, forward and
    backward delays as the exact nanosecond counts in milliseconds, in spite of the
    double arithmetic; the synchronisation column says [Y] exactly when neither
    one-way delay is negative, the 1% tolerance on the round trip never mattering. *)
Theorem printReflectorPacket_row {S} `{SqaStats S} inet_ntop args p msg payload_len received (stats : S)
    header warnings lp :
  get_ip_header msg = Some (header, warnings) → stoi (local_port args) = inr lp →
  print_RTT_only args = false → 0 ≤ received < 2 ^ 62 → 0 ≤ received - sent_time p < 2 ^ 51 →
  Z.abs (reflector_send_time p - reflector_receive_time p) < 2 ^ 51 →
  Z.abs (reflector_receive_time p - sent_time p) < 2 ^ 51 →
  Z.abs (received - reflector_send_time p) < 2 ^ 51 →
  printReflectorPacket inet_ntop args p msg payload_len received stats =
    let '(port, host) := parse_ip_address inet_ntop msg 0 "" (ip_version args) in
    Some (mkPrinted
      (join (sep args) (row_columns args host port lp payload_len header p received stats) +:+ nl)
      warnings None).
Proof.
  intros Hh Hp Ho Hr Hrtt Hi Hf Hb. unfold printReflectorPacket. rewrite Hh. cbn [mbind option_bind].
  destruct (parse_ip_address _ _ _ _ _) as [port host].
  rewrite Hp, computeTimeData_exact by lia. cbn [mbind option_bind]. rewrite Ho. unfold printMetrics.
  rewrite (sync_column_exact p received) by done.
  cbn [mbind option_bind]. rewrite sapp_nil_r. do 2 f_equal. unfold metric_columns, row_columns, milliseconds.
  cbn [populateMetricData exact_times packet ipHeader ip sending_port receiving_port initial_send_time
    payload_length rtt_delay_nanoseconds internal_delay_nanoseconds client_server_delay_nanoseconds
    server_client_delay_nanoseconds packets_sent packets_lost t_internal_delay t_server_client_delay
    t_client_server_delay rtt client_send_time].
  unfold NANOSECONDS_TO_MILLISECONDS. rewrite (wrap_small 64 (received - sent_time p)) by wsolve.
  by rewrite !print_fixed6_micro by lia.
Qed.

Definition no_ntop : Z → list Z → option string := λ _ _, Some "192.0.2.1".

Lemma printReflectorPacket_row_witness :
  ∃ port, printReflectorPacket no_ntop Args_init example_reply (mkMsghdr (replicate 16 1) 16 [] [] 0) 50
      1700000001500000000 (sqa_stats_create : SqaLog) =
    Some (mkPrinted ("1700000000250000000,192.0.2.1,7,7,0," +:+ to_string port +:+
      ",Y,64,255,0,0,0,1250.000000,500.000000,250.000000,500.000000,50" +:+ nl) "" None).
Proof.
  exists 257. rewrite (printReflectorPacket_row no_ntop Args_init example_reply
    (mkMsghdr (replicate 16 1) 16 [] [] 0) 50 1700000001500000000 _ (mkIPHeader 255 0) "" 0);
    vm_compute; intuition discriminate.
Defined.

(** the row has as many columns as the header line, with and without
    [--print-lost-packets]: for a separator that no column name, address or number
    contains, the same number of separators. *)
Lemma legacy_columns_match {S} `{SqaStats S} args host port lp plen header p received (stats : S) :
  number_sep (sep args) = true → print_format args = "legacy" →
  Forall (λ f, str_count (sep args) f = 0%nat) ("Y" :: "N" :: legacy_columns args) →
  str_count (sep args) host = 0%nat → str_count (sep args) nl = 0%nat →
  str_count (sep args) (printHeader args) =
    (if print_lost_packets args then 18 else 16)%nat ∧
  str_count (sep args) (join (sep args) (row_columns args host port lp plen header p received stats) +:+ nl) =
    (if print_lost_packets args then 18 else 16)%nat.
Proof.
  intros Hs Hp Hh Hhost Hn. apply Forall_cons in Hh as [HY Hh]. apply Forall_cons in Hh as [HN Hh].
  unfold printHeader. rewrite Hp, String.eqb_refl, !str_count_app, Hn, !Nat.add_0_r.
  rewrite !str_count_join; [|..|done].
  - unfold legacy_columns, row_columns. by destruct (print_lost_packets args).
  - unfold row_columns. repeat (constructor; [auto with twamp; try (by case_decide)|]).
    destruct (print_lost_packets args); repeat constructor; auto with twamp.
Qed.

Lemma legacy_columns_match_witness :
  str_count "," (printHeader Args_init) = 16%nat ∧
  str_count "," (join "," (row_columns Args_init "192.0.2.1" 862 0 50 (mkIPHeader 255 0) example_reply
    1700000001500000000 (sqa_stats_create : SqaLog)) +:+ nl) = 16%nat.
Proof.
  apply (legacy_columns_match Args_init "192.0.2.1" 862 0 50 (mkIPHeader 255 0) example_reply
    1700000001500000000 (sqa_stats_create : SqaLog)); try reflexivity; repeat constructor.
Defined.

(** What [--print-RTT-only] prints for a round trip of 10 ms: the nanoseconds are
    divided by [1e-6] where the other columns multiply. *)
Example rtt_only_example :
  printReflectorPacket no_ntop {| Args_init with print_RTT_only := true |} example_reply
    (mkMsghdr (replicate 16 1) 16 [] [] 0) 50 1700000000260000000 (sqa_stats_create : SqaLog) =
  Some (mkPrinted ("10000000000000.000000" +:+ nl) "" None).
Proof. vm_compute. reflexivity. Qed.
