(* ===== verification/JsonReport.v ===== *)
(** * JsonReport: the JSON report of the client ([Client::JsonLog], [td_to_json])

    The document the client builds, as a tree: the assignments and initialiser lists
    of the source in their order; how the nlohmann library prints it is an argument,
    and so is whether the output file can be opened.  The date of the first packet is
    computed with the C library's [gmtime] and [strftime], modelled by the proleptic
    Gregorian calendar. *)

From S2P Require Import Prelude Double Text Packets Timestamps Observations ClientState ClientOutput.

Definition NANOSECONDS_IN_MICROSECOND : Z := 1000.
Definition MILLISECONDS_IN_SECOND : Z := 1000.
Definition DATE_BUFFER_SIZE : nat := 80.
Definition FIRST_PACKET_SENT_DATE_WITH_MICROSECONDS_SIZE : nat := 91.

(** ** The calendar *)

Record tm := mkTm { tm_year : Z; tm_mon : Z; tm_mday : Z; tm_hour : Z; tm_min : Z; tm_sec : Z }.

(** Year, month and day of a number of days since 1970-01-01; the computation runs
    in years that begin in March. *)
Definition civil_of_days (days : Z) : Z * Z * Z :=
  let z := days + 719468 in
  let era := z / 146097 in
  let doe := z mod 146097 in
  let yoe := (doe - doe / 1460 + doe / 36524 - doe / 146096) / 365 in
  let doy := doe - (365 * yoe + yoe / 4 - yoe / 100) in
  let mp := (5 * doy + 2) / 153 in
  let d := doy - (153 * mp + 2) / 5 + 1 in
  let m := if mp <? 10 then mp + 3 else mp - 9 in
  (yoe + era * 400 + (if m <=? 2 then 1 else 0), m, d).

Definition gmtime (seconds : Z) : tm :=
  let '(y, m, d) := civil_of_days (seconds / 86400) in
  let s := seconds mod 86400 in
  mkTm y m d (s / 3600) (s / 60 mod 60) (s mod 60).

(** [strftime] with the format ["%Y-%m-%dT%H:%M:%S"]. *)
Definition strftime (t : tm) : string :=
  to_string (tm_year t) +:+ "-" +:+ dec_pad 2 (tm_mon t) +:+ "-" +:+ dec_pad 2 (tm_mday t) +:+ "T" +:+
  dec_pad 2 (tm_hour t) +:+ ":" +:+ dec_pad 2 (tm_min t) +:+ ":" +:+ dec_pad 2 (tm_sec t).

(** The reference calendar: leap years and lengths of months. *)
Definition leap (y : Z) : bool := (y mod 4 =? 0) && (negb (y mod 100 =? 0) || (y mod 400 =? 0)).

Definition month_length (y m : Z) : Z :=
  if m =? 2 then if leap y then 29 else 28
  else if (m =? 4) || (m =? 6) || (m =? 9) || (m =? 11) then 30 else 31.

Fixpoint days_before_month (y : Z) (months : nat) : Z :=
  match months with
  | O => 0
  | S k => days_before_month y k + month_length y (Z.of_nat (S k))
  end.

(** Days from 1970-01-01 to a date, by counting years, months and days. *)
Definition days_of_civil (y m d : Z) : Z :=
  365 * (y - 1970) + ((y - 1) / 4 - (y - 1) / 100 + (y - 1) / 400 - 477) +
  days_before_month y (Z.to_nat (m - 1)) + (d - 1).

Definition valid_date (y m d : Z) : bool :=
  (1 <=? m) && (m <=? 12) && (1 <=? d) && (d <=? month_length y m).

(** ** The document *)

Inductive json :=
  | JNumber (z : Z)
  | JDouble (x : double)
  | JString (s : string)
  | JArray (l : list json)
  | JObject (members : list (string * json)).

Definition lookup_member (key : string) (j : json) : option json :=
  match j with
  | JObject members => snd <$> List.find (λ p, String.eqb p.1 key) members
  | _ => None
  end.

(** What is read of a [td_histogram_t] (t-digest) and, for the report, of a
    [struct sqa_stats]; numbers as the library converts them to JSON. *)
Class TdHistogram (H : Type) := {
  td_compress : H → H;
  td_compression : H → json;
  td_merged_nodes : H → nat;
  td_node_mean : H → nat → json;
  td_node_weight : H → nat → json;
}.

Class SqaReport (S H : Type) := {
  sqa_stats_get_number_of_samples : S → Z;
  empirical_distribution : S → H;
}.

Definition td_to_json {H} `{TdHistogram H} (histogram : H) : json :=
  let h := td_compress histogram in
  JObject [("compression", td_compression h);
           ("digest-centroid", JArray ((λ i, JObject [("m", td_node_mean h i); ("c", td_node_weight h i)])
                                         <$> seq 0 (td_merged_nodes h)))].

(** The date of the first packet, or what is thrown: [to_time_t] truncates, [strftime]
    gives 0 when the date and its terminator exceed the buffer, the fraction is padded
    to six digits. *)
Definition first_packet_date (first_packet_sent : Z) : string + string :=
  let first_sent_seconds := Z.quot (i64 first_packet_sent) NANOSECONDS_IN_SECOND in
  let microseconds := u64 (first_packet_sent mod NANOSECONDS_IN_MICROSECOND) in
  let first_packet_sent_date := strftime (gmtime first_sent_seconds) in
  if (DATE_BUFFER_SIZE <? String.length first_packet_sent_date + 1)%nat then inl "Error formatting date"
  else
    let formatted_date := first_packet_sent_date +:+ "." +:+ dec_pad 6 microseconds +:+ "Z" in
    if (FIRST_PACKET_SENT_DATE_WITH_MICROSECONDS_SIZE <=? String.length formatted_date)%nat
    then inl "Error formatting date with microseconds"
    else inr formatted_date.

Definition host_node (host : string) (port : Z) (label : string) : json :=
  JObject [("ip", JString host); ("port", JNumber port); ("label", JString label)].

(** The nodes of the remote hosts, two for each; the ports are indexed unchecked. *)
Fixpoint intermediate_nodes (hosts : list string) (ports : list Z) : option (list json) :=
  match hosts, ports with
  | [], _ => Some []
  | host :: hosts, port :: ports =>
      rest ← intermediate_nodes hosts ports;
      Some (host_node host port "1" :: host_node host port "2" :: rest)
  | _, [] => None
  end.

(** The exceptions of [JsonLog]: [std::runtime_error], or nlohmann's [type_error]. *)
Inductive log_error := DateError (what : string) | TypeError (what : string).

Section JsonLog.
Context {S H : Type} `{SqaSummary S} `{TdHistogram H} `{SqaReport S H}.

Definition sampling_pattern (args : Args) : json :=
  JObject [("type", JString "Erlang-k");
           ("mean", JDouble (ddiv (of_int (mean_inter_packet_delay_ms args)) (of_int MILLISECONDS_IN_SECOND)));
           ("min", JNumber 0); ("max", JDouble (of_int 10))].

(** The duration from the first packet sent to the last received, in seconds. *)
Definition duration (c : Client S) : double :=
  ddiv (of_int (u64 (last_packet_received_epoch_nanoseconds c - first_packet_sent_epoch_nanoseconds c)))
    (of_int NANOSECONDS_IN_SECOND).

(** [logData], with the date [t0]. *)
Definition log_data (args : Args) (t0 : string) (c : Client S) : option json :=
  nodes ← intermediate_nodes (remote_hosts args) (remote_ports args);
  let local := JObject [("ip", JString "localhost"); ("port", JString (local_port args))] in
  let rtt := stats_RTT (stats c) in
  Some (JObject [
    ("sampling_pattern", sampling_pattern args);
    ("packet_sizes", JArray (JNumber <$> payload_lens args));
    ("traffic_class", JString (map_tos_to_traffic_class (snd_tos args)));
    ("intermediate_nodes", JArray nodes);
    ("start_node", local);
    ("end_node", local);
    ("version", JString "0.1");
    ("qualityattenuationaggregate", JObject [
      ("t0", JString t0);
      ("duration", JDouble (duration c));
      ("num_samples", JNumber (sqa_stats_get_number_of_samples rtt));
      ("num_lost_samples", JNumber (sqa_stats_get_number_of_lost_packets rtt));
      ("max", JDouble (sqa_stats_get_max_as_seconds rtt));
      ("min", JDouble (sqa_stats_get_min_as_seconds rtt));
      ("mean", JDouble (sqa_stats_get_mean rtt));
      ("variance", JDouble (sqa_stats_get_variance rtt));
      ("empirical_distribution", td_to_json (empirical_distribution rtt))])]).

(** Whether an [ofstream] on a file can be opened, and what printing a document with
    an indentation writes until it is done or throws [type_error], as it does on a
    string that is not UTF-8. *)
Variables (can_open : string → bool) (dump : nat → json → string * option string).

(** The contents of the file, if it could be opened, and the exception. *)
Definition JsonLog (json_output_file : string) (args : Args) (c : Client S)
    : option (option string * option log_error) :=
  match first_packet_date (first_packet_sent_epoch_nanoseconds c) with
  | inl what => Some (None, Some (DateError what))
  | inr date =>
      logData ← log_data args date c;
      let '(text, error) := dump 4 logData in
      let file := match error with None => text +:+ nl | Some _ => text end in
      Some (if can_open json_output_file then Some file else None, TypeError <$> error)
  end.
End JsonLog.

(** ** Lemmas: the calendar *)

(** One era of 400 years, day by day. *)
Definition era_day_ok (n : Z) : bool :=
  let '(y, m, d) := civil_of_days (n - 719468) in
  valid_date y m d && (days_of_civil y m d =? n - 719468).

Fixpoint all_from (n : nat) (z : Z) (f : Z → bool) : bool :=
  match n with O => true | S n => f z && all_from n (z + 1) f end.

Lemma all_from_spec n z f x : all_from n z f = true → z ≤ x < z + Z.of_nat n → f x = true.
Proof.
  revert z. induction n as [|n IH]; intros z; [simpl; lia|]. cbn [all_from].
  intros [H1 H2]%andb_prop Hx. destruct (decide (x = z)) as [->|]; [done|]. apply (IH (z + 1) H2). lia.
Qed.

Lemma era_ok : all_from 366 0 (λ k, all_from 400 (400 * k) era_day_ok) = true.
Proof. vm_compute. reflexivity. Qed.

Lemma era_day n : 0 ≤ n < 146097 → era_day_ok n = true.
Proof.
  intros Hn. pose proof (all_from_spec 366 0 _ (n / 400) era_ok) as H. cbn beta in H.
  assert (0 ≤ n / 400 < 366) by (split; [apply Z.div_pos; lia|apply Z.div_lt_upper_bound; lia]).
  pose proof (Z.div_mod n 400 ltac:(lia)). pose proof (Z.mod_pos_bound n 400 ltac:(lia)).
  apply (all_from_spec 400 (400 * (n / 400))); [apply H; lia|lia].
Qed.

Lemma civil_of_days_era days k : 
  civil_of_days (days + 146097 * k) = let '(y, m, d) := civil_of_days days in (y + 400 * k, m, d).
Proof.
  unfold civil_of_days. replace (days + 146097 * k + 719468) with (days + 719468 + k * 146097) by lia.
  rewrite Z.div_add, Z_mod_plus_full by lia. cbn zeta. f_equal. f_equal. lia.
Qed.

Lemma leap_era y k : leap (y + 400 * k) = leap y.
Proof.
  unfold leap. replace (y + 400 * k) with (y + (100 * k) * 4) at 1 by lia.
  replace (y + 400 * k) with (y + (4 * k) * 100) at 1 by lia.
  replace (y + 400 * k) with (y + k * 400) by lia. by rewrite !Z_mod_plus_full.
Qed.

Lemma month_length_era y k m : month_length (y + 400 * k) m = month_length y m.
Proof. unfold month_length. by rewrite leap_era. Qed.

Lemma days_before_month_era y k n : days_before_month (y + 400 * k) n = days_before_month y n.
Proof. induction n as [|n IH]; [done|]. cbn [days_before_month]. by rewrite IH, month_length_era. Qed.

Lemma days_of_civil_era y m d k : days_of_civil (y + 400 * k) m d = days_of_civil y m d + 146097 * k.
Proof.
  unfold days_of_civil. rewrite days_before_month_era.
  replace (y + 400 * k - 1) with (y - 1 + (100 * k) * 4) at 1 by lia.
  replace (y + 400 * k - 1) with (y - 1 + (4 * k) * 100) at 1 by lia.
  replace (y + 400 * k - 1) with (y - 1 + k * 400) by lia.
  rewrite !Z.div_add by lia. lia.
Qed.

(** Every day has the date that counts back to it. *)
Lemma civil_of_days_spec days :
  let '(y, m, d) := civil_of_days days in valid_date y m d = true ∧ days_of_civil y m d = days.
Proof.
  set (n := (days + 719468) mod 146097). set (k := (days + 719468) / 146097).
  pose proof (Z.mod_pos_bound (days + 719468) 146097 ltac:(lia)) as Hn. fold n in Hn.
  pose proof (Z.div_mod (days + 719468) 146097 ltac:(lia)) as E. fold n k in E.
  pose proof (era_day n ltac:(lia)) as Hd. unfold era_day_ok in Hd.
  replace days with (n - 719468 + 146097 * k) by lia. rewrite civil_of_days_era.
  destruct (civil_of_days (n - 719468)) as [[y m] d].
  apply andb_prop in Hd as [Hv Hc%Z.eqb_eq]. unfold valid_date in *.
  rewrite month_length_era, days_of_civil_era, Hc. split; [done|lia].
Qed.

(** ** Lemmas: the nodes *)

Lemma intermediate_nodes_None hosts ports :
  intermediate_nodes hosts ports = None ↔ (length ports < length hosts)%nat.
Proof.
  revert ports. induction hosts as [|h hosts IH]; intros [|p ports]; cbn; [split; [done|lia]..|split; [lia|done]|].
  rewrite <- Nat.succ_lt_mono, <- IH. by destruct (intermediate_nodes hosts ports).
Qed.

Lemma intermediate_nodes_spec hosts ports nodes : intermediate_nodes hosts ports = Some nodes →
  length nodes = (2 * length hosts)%nat ∧
  ∀ i host port, hosts !! i = Some host → ports !! i = Some port →
    nodes !! (2 * i)%nat = Some (host_node host port "1") ∧ nodes !! (2 * i + 1)%nat = Some (host_node host port "2").
Proof.
  revert ports nodes. induction hosts as [|h hosts IH]; intros [|p ports] nodes; cbn [intermediate_nodes].
  1,2: intros [= <-]; split; [done|intros ???; by rewrite lookup_nil].
  { done. }
  destruct (intermediate_nodes hosts ports) as [rest|] eqn:E; [|done]. intros [= <-].
  destruct (IH _ _ E) as [Hlen Hnth]. split; [cbn [length]; lia|].
  intros [|i] host port; cbn [lookup list_lookup]; [by intros [= ->] [= ->]|].
  intros Hh Hp. destruct (Hnth i host port Hh Hp) as [H1 H2].
  replace (2 * S i)%nat with (S (S (2 * i))) by lia.
  replace (S (S (2 * i)) + 1)%nat with (S (S (2 * i + 1))) by lia. done.
Qed.

(** ** Lemmas: the date fits its buffers *)

Lemma length_dec_pad k n : String.length (dec_pad k n) = k.
Proof. revert n. induction k as [|k IH]; intros n; [done|]. cbn [dec_pad]. rewrite sapp_length, IH. cbn. lia. Qed.

Lemma length_dec_go fuel : ∀ n acc, (String.length (dec_go fuel n acc) ≤ fuel + String.length acc)%nat.
Proof.
  induction fuel as [|fuel IH]; intros n acc; [done|]. cbn [dec_go].
  destruct (n <? 10); [cbn; lia|]. etrans; [apply IH|]. cbn. lia.
Qed.

Lemma civil_year days : -200000 ≤ days ≤ 200000 → 1200 ≤ (civil_of_days days).1.1 ≤ 2801.
Proof.
  intros Hd. unfold civil_of_days. cbv zeta. cbn [fst].
  set (doe := (days + 719468) mod 146097).
  assert (0 ≤ doe < 146097) as Hdoe by (apply Z.mod_pos_bound; lia).
  assert (3 ≤ (days + 719468) / 146097 ≤ 6) as He by (Z.to_euclidean_division_equations; lia).
  assert (0 ≤ (doe - doe / 1460 + doe / 36524 - doe / 146096) / 365 ≤ 400) as Hy
    by (clearbody doe; clear He; Z.to_euclidean_division_equations; lia).
  clearbody doe. destruct (_ <=? 2); lia.
Qed.

Lemma length_year t : 0 ≤ tm_year t < 2 ^ 12 → (String.length (strftime t) ≤ 27)%nat.
Proof.
  intros Hy. unfold strftime. rewrite !sapp_length, !length_dec_pad. cbn [String.length].
  unfold to_string. rewrite (proj2 (Z.ltb_ge _ _)) by lia. unfold to_dec.
  pose proof (length_dec_go (S (Z.to_nat (Z.log2 (tm_year t)))) (tm_year t) "") as Hl. cbn [String.length] in Hl.
  assert (Z.log2 (tm_year t) < 12).
  { destruct (Z.eq_dec (tm_year t) 0) as [-> |]; [done|]. apply Z.log2_lt_pow2; lia. }
  lia.
Qed.

(** So neither exception of the date is thrown. *)
Lemma first_packet_date_inr first :
  first_packet_date first = inr (strftime (gmtime (Z.quot (i64 first) NANOSECONDS_IN_SECOND)) +:+ "." +:+
    dec_pad 6 (u64 (first mod NANOSECONDS_IN_MICROSECOND)) +:+ "Z").
Proof.
  unfold first_packet_date. set (t := gmtime _).
  assert (String.length (strftime t) ≤ 27)%nat as Hl.
  { apply length_year. unfold t, gmtime.
    set (s := Z.quot (i64 first) NANOSECONDS_IN_SECOND).
    assert (-(2 ^ 63) ≤ i64 first < 2 ^ 63) as Hi by (exact (swrap_range 64 first ltac:(lia))).
    assert (- 10 ^ 10 ≤ s ≤ 10 ^ 10) as Hs.
    { unfold s, NANOSECONDS_IN_SECOND. clear s t. generalize dependent (i64 first). intros z Hz.
      Z.to_euclidean_division_equations; lia. }
    assert (-200000 ≤ s / 86400 ≤ 200000) as Hd by (clearbody s; Z.to_euclidean_division_equations; lia).
    pose proof (civil_year (s / 86400) Hd) as Hy. destruct (civil_of_days (s / 86400)) as [[y m] d]. cbn in *. lia. }
  unfold DATE_BUFFER_SIZE, FIRST_PACKET_SENT_DATE_WITH_MICROSECONDS_SIZE.
  rewrite (proj2 (Nat.ltb_ge _ _)) by lia. rewrite !sapp_length, length_dec_pad. cbn [String.length].
  by rewrite (proj2 (Nat.leb_gt _ _)) by lia.
Qed.

(** ** Properties *)

(** C40: the report is defined unless there are fewer ports than hosts, where the
    source reads past the end of the vector.  The file, if it can be opened, is the
    printed document, or what was printed before the exception; the only exception
    comes from printing, never from the date.  The document lists the remote hosts in
    order, two nodes for each with its address, its port and the labels 1 and 2; and
    the duration is the time from the first packet sent to the last received, in
    seconds, but [2^64] nanoseconds more when the first is the later one, as it is
    when nothing was received. *)
Theorem report_document {S H} `{SqaSummary S} `{TdHistogram H} `{SqaReport S H} can_open dump file args (c : Client S) :
  let first := first_packet_sent_epoch_nanoseconds c in
  let last := last_packet_received_epoch_nanoseconds c in
  first ∈u 64 → last ∈u 64 →
  (JsonLog can_open dump file args c = None ↔ (length (remote_ports args) < length (remote_hosts args))%nat) ∧
  ∀ report error, JsonLog can_open dump file args c = Some (report, error) →
  ∃ date doc, first_packet_date first = inr date ∧ log_data args date c = Some doc ∧
    error = TypeError <$> (dump 4%nat doc).2 ∧
    report = (if can_open file
              then Some (if (dump 4%nat doc).2 then (dump 4%nat doc).1 else (dump 4%nat doc).1 +:+ nl) else None) ∧
    (∃ nodes, lookup_member "intermediate_nodes" doc = Some (JArray nodes) ∧
      length nodes = (2 * length (remote_hosts args))%nat ∧
      ∀ i host port, remote_hosts args !! i = Some host → remote_ports args !! i = Some port →
        nodes !! (2 * i)%nat = Some (host_node host port "1") ∧
        nodes !! (2 * i + 1)%nat = Some (host_node host port "2")) ∧
    ∃ aggregate, lookup_member "qualityattenuationaggregate" doc = Some aggregate ∧
      lookup_member "t0" aggregate = Some (JString date) ∧
      lookup_member "duration" aggregate =
        Some (JDouble (ddiv (of_int (if first <=? last then last - first else 2 ^ 64 - (first - last)))
                         (of_int (10 ^ 9)))).
Proof.
  intros first last Hf Hl. unfold JsonLog. fold first. rewrite first_packet_date_inr. set (date := _ +:+ _).
  unfold log_data.
  destruct (intermediate_nodes (remote_hosts args) (remote_ports args)) as [nodes|] eqn:E; cbn [mbind option_bind]; cycle 1.
  { split; [by rewrite <- intermediate_nodes_None, E|done]. }
  match goal with |- context [dump 4%nat ?d] => set (doc := d) end.
  destruct (dump 4%nat doc) as [text e] eqn:Ed.
  split; [rewrite <- intermediate_nodes_None, E; done|]. intros report error [= <- <-].
  exists date, doc. rewrite Ed. do 4 (split; [by try destruct e|]).
  split; [exists nodes; split; [reflexivity|by eapply intermediate_nodes_spec]|].
  eexists. split; [reflexivity|]. split; [reflexivity|]. cbn -[wrap first last duration date].
  unfold duration, NANOSECONDS_IN_SECOND. fold first last. do 4 f_equal.
  destruct (Z.leb_spec first last); [rewrite wrap_small by wsolve; lia|].
  unfold wrap. rewrite <- (Z_mod_plus_full _ 1), Z.mod_small by wsolve. lia.
Qed.

(** C39: the date of the report.  Formatting it never fails; for a first packet before
    2262, the year, month and day are a date of the Gregorian calendar and, with the
    hour, minute and second, count back to the whole seconds of the sending time; but
    the six digits after the point are the nanoseconds within the microsecond, so they
    are the microseconds of the time only when the two happen to be equal. *)
Theorem report_date first : 0 ≤ first < 2 ^ 63 →
  ∃ t, first_packet_date first = inr (strftime t +:+ "." +:+ dec_pad 6 (first mod 1000) +:+ "Z") ∧
    valid_date (tm_year t) (tm_mon t) (tm_mday t) = true ∧
    0 ≤ tm_hour t < 24 ∧ 0 ≤ tm_min t < 60 ∧ 0 ≤ tm_sec t < 60 ∧
    first / 10 ^ 9 = days_of_civil (tm_year t) (tm_mon t) (tm_mday t) * 86400 +
                     tm_hour t * 3600 + tm_min t * 60 + tm_sec t.
Proof.
  intros Hf. exists (gmtime (first / 10 ^ 9)). split.
  { rewrite first_packet_date_inr. unfold NANOSECONDS_IN_SECOND, NANOSECONDS_IN_MICROSECOND.
    rewrite swrap_small by wsolve. rewrite Z.quot_div_nonneg by lia.
    pose proof (Z.mod_pos_bound first 1000 ltac:(lia)). by rewrite wrap_small by wsolve. }
  set (s := first / 10 ^ 9). unfold gmtime.
  pose proof (civil_of_days_spec (s / 86400)) as Hc. destruct (civil_of_days (s / 86400)) as [[y m] d].
  destruct Hc as [Hv Hd]. cbn [tm_year tm_mon tm_mday tm_hour tm_min tm_sec]. rewrite Hd.
  pose proof (Z.mod_pos_bound s 86400 ltac:(lia)) as Hm. pose proof (Z.div_mod s 86400 ltac:(lia)) as Es.
  set (r := s mod 86400) in *.
  pose proof (Z.mod_pos_bound (r / 60) 60 ltac:(lia)). pose proof (Z.mod_pos_bound r 60 ltac:(lia)).
  pose proof (Z.div_mod (r / 60) 60 ltac:(lia)) as E1. pose proof (Z.div_mod r 60 ltac:(lia)) as E2.
  rewrite Z.div_div in E1 by lia. change (60 * 60) with 3600 in E1.
  assert (0 ≤ r / 3600 < 24) by (split; [apply Z.div_pos; lia|apply Z.div_lt_upper_bound; lia]).
  split; [done|]. split; [done|]. split; [done|]. split; [done|]. lia.
Qed.

Lemma report_date_witness :
  first_packet_date 1709210096123456789 = inr "2024-02-29T12:34:56.000789Z" ∧
  valid_date 2024 2 29 = true ∧ 1709210096 = days_of_civil 2024 2 29 * 86400 + 12 * 3600 + 34 * 60 + 56.
Proof.
  split; [vm_compute; reflexivity|].
  destruct (report_date 1709210096123456789) as (t & E & Hv & _ & _ & _ & Hs); [by vm_compute|].
  split; vm_compute; reflexivity.
Defined.

(** A client of two hosts that sent and received nothing more: the duration is that
    of [2^64] nanoseconds less the time of the first packet. *)
#[local] Instance unit_summary : SqaSummary unit := {
  sqa_stats_get_mean _ := of_int 0; sqa_stats_get_median _ := of_int 0;
  sqa_stats_get_min_as_seconds _ := of_int 0; sqa_stats_get_max_as_seconds _ := of_int 0;
  sqa_stats_get_standard_deviation _ := of_int 0; sqa_stats_get_variance _ := of_int 0;
  sqa_stats_get_percentile _ _ := of_int 0; sqa_stats_get_loss_percentage _ := of_int 0;
  sqa_stats_get_number_of_lost_packets _ := 0 }.

#[local] Instance unit_histogram : TdHistogram unit := {
  td_compress h := h; td_compression _ := JNumber 100; td_merged_nodes _ := 0%nat;
  td_node_mean _ _ := JNumber 0; td_node_weight _ _ := JNumber 0 }.

#[local] Instance unit_report : SqaReport unit unit := {
  sqa_stats_get_number_of_samples _ := 0; empirical_distribution h := h }.

Definition example_client : Client unit :=
  mkClient 2 0 (-1) 1 0 0 0 ObservationList.create (mkStats tt tt tt tt) ∅ O RawDataList.create
    1709210096123456789 1709210096123456789 0 "" "".

Definition example_args : Args :=
  {| Args_init with remote_hosts := ["192.0.2.1"; "192.0.2.2"]; remote_ports := [862; 8620] |}.

Definition example_dump (indent : nat) (j : json) : string * option string := ("{}", None).

Lemma report_document_witness :
  ∃ doc aggregate nodes, JsonLog (λ _, true) example_dump "report.json" example_args example_client =
      Some (Some ("{}" +:+ nl), None) ∧
    lookup_member "intermediate_nodes" doc = Some (JArray nodes) ∧
    nodes !! 3%nat = Some (host_node "192.0.2.2" 8620 "2") ∧
    lookup_member "qualityattenuationaggregate" doc = Some aggregate ∧
    lookup_member "duration" aggregate = Some (JDouble (ddiv (of_int 16737533977586094827) (of_int 1000000000))).
Proof.
  destruct (report_document (λ _, true) example_dump "report.json" example_args example_client) as [_ Hd];
    [split; vm_compute; done..|].
  assert (JsonLog (λ _, true) example_dump "report.json" example_args example_client = Some (Some ("{}" +:+ nl), None))
    as E by (vm_compute; reflexivity).
  destruct (Hd _ _ E) as (date & doc & _ & _ & _ & _ & (nodes & Hnodes & _ & Hnth) & aggregate & Ha & _ & Hdur).
  exists doc, aggregate, nodes. split; [exact E|]. split; [exact Hnodes|].
  split; [apply (Hnth 1%nat "192.0.2.2" 8620); reflexivity|]. split; [exact Ha|exact Hdur].
Defined.
