(* ===== verification/Receiver.v ===== *)
(** * Receiver: reflected packets ([src/client/Client.cpp])

    [awaitAndHandleResponse] and [handleReflectorPacket], which turn a reflected
    packet into three observations and, in the legacy format, a row, and the loop of
    [runReceiverThread].  What an iteration reads of its environment is a record. *)

From S2P Require Import Prelude Double Text Packets Timestamps Sockets Observations ClientState Collator Sender ClientOutput.

Record recv_iteration := mkRecv {
  response : delivery;      (** what [recvmsg] delivers *)
  recv_clock : timespec;    (** [clock_gettime], when there is no kernel timestamp *)
  check_clock : timespec;   (** [clock_gettime], when the oldest entry is checked *)
  loop_time : Z;            (** [time(nullptr)] in the condition of the loop *)
}.

(** The nanoseconds at which the datagram came in. *)
Definition incoming_nsec (incoming clock : timespec) : option Z :=
  if (tv_sec incoming =? 0) && (tv_nsec incoming =? 0) then
    client_receive_time ← get_timestamp clock; timestamp_to_nsec (Some client_receive_time)
  else Some (u64 (u64 (u64 (tv_sec incoming) * 1000000000) + u64 (tv_nsec incoming))).

Section Receiver.
Context {S : Type} `{SqaStats S}.
Variable inet_ntop : Z → list Z → option string.
Variable args : Args.

(** The three observations of a reflected packet, queued in this order. *)
Definition reply_observations (reflectorPacket : ReflectorPacket) (payload_len incoming : Z)
    : option (list QEDObservation) :=
  let packet_id := ntohl (r_seq_number reflectorPacket) in
  server_receive_time ← timestamp_to_nsec (Some (ntohts (receive_timestamp reflectorPacket)));
  server_send_time ← timestamp_to_nsec (Some (ntohts (r_timestamp reflectorPacket)));
  let obs1 := make_QEDObservation CLIENT_RECEIVE incoming packet_id payload_len in
  let obs2 := make_QEDObservation SERVER_RECEIVE server_receive_time packet_id payload_len in
  let obs3 := make_QEDObservation SERVER_SEND server_send_time packet_id payload_len in
  Some [obs3; obs2; obs1].

(** The members set when a packet has come in. *)
Definition count_response (reflectorPacket : ReflectorPacket) (incoming : Z) (c : Client S) : option (Client S) :=
  n ← checked_i 32 (received_packets c + 1);
  Some {| c with last_packet_received_epoch_nanoseconds := incoming;
                 last_received_packet_id := i32 (ntohl (r_seq_number reflectorPacket));
                 received_packets := n |}.

(** The observations to queue: none before the collator has started. *)
Definition response_observations (reflectorPacket : ReflectorPacket) (payload_len incoming : Z) (c : Client S)
    : option (list QEDObservation) :=
  if negb (collator_started c =? 0) then reply_observations reflectorPacket payload_len incoming
  else Some [].

(** The row of the legacy format; [inl]: the process exits with a code. *)
Definition print_response (reflectorPacket : ReflectorPacket) (msg : msghdr) (payload_len incoming : Z)
    (c : Client S) : option (Z * Client S + Client S) :=
  if String.eqb (print_format args) "legacy" then
    p ← printReflectorPacket inet_ntop args reflectorPacket msg payload_len incoming
          (stats_client_server (stats c));
    let c := put_err (p_err p) (put (p_out p) c) in
    Some (match p_exit p with Some code => inl (code, c) | None => inr c end)
  else Some (inr c).

Definition handleReflectorPacket (reflectorPacket : ReflectorPacket) (msg : msghdr) (payload_len : Z)
    (incoming_timestamp clock : timespec) (c : Client S) : option (Z * Client S + Client S) :=
  incoming ← incoming_nsec incoming_timestamp clock;
  c ← count_response reflectorPacket incoming c;
  obss ← response_observations reflectorPacket payload_len incoming c;
  print_response reflectorPacket msg payload_len incoming
    (foldl (λ c obs, enqueue_observation obs c) c obss).

(** What [recvmsg] and [get_kernel_timestamp] make of a delivery: the packet, its
    message and length and the kernel's time; [None] inside when there is no
    response to handle. *)
Definition await (d : delivery) : option (option (ReflectorPacket * msghdr * Z * timespec)) :=
  match d with
  | Failed _ _ => Some None
  | Datagram payload from control =>
      let incoming_msg := recv_message payload from control in
      incoming_timestamp ← get_kernel_timestamp incoming_msg (mkTimespec 0 0);
      if negb (Z.land (msg_flags incoming_msg) MSG_TRUNC =? 0) then Some None
      else
        let count := Z.min (Z.of_nat (length payload)) buffer_size in
        let rec := reflector_of_bytes (recv_buffer buffer_size payload) in
        Some (Some (rec, incoming_msg, count, incoming_timestamp))
  end.

(** Whether a response was handled. *)
Definition awaitAndHandleResponse (it : recv_iteration) (c : Client S)
    : option (Z * Client S + bool * Client S) :=
  r ← await (response it);
  match r with
  | None => Some (inr (false, c))
  | Some (rec, incoming_msg, count, incoming_timestamp) =>
      r ← handleReflectorPacket rec incoming_msg count incoming_timestamp (recv_clock it) c;
      Some (match r with inl e => inl e | inr c => inr (true, c) end)
  end.

Definition receiver_iteration (it : recv_iteration) (c : Client S)
    : option (Z * Client S + Client S) :=
  r ← awaitAndHandleResponse it c;
  match r with
  | inl e => Some (inl e)
  | inr (true, c) => Some (inr c)
  | inr (false, c) => c ← check_if_oldest_packet_should_be_processed args (check_clock it) c; Some (inr c)
  end.

(** The condition of the loop at time [now]. *)
Definition keep_receiving (now : Z) (c : Client S) : bool :=
  (sending_completed c =? 0) ||
  ((received_packets c <? sent_packets c) && (u64 (u64 now - sending_completed c) <? timeout args)).

Inductive recv_result := Ended | Exited (code : Z) | Waiting.

(** The loop over the iterations the environment offers. *)
Fixpoint runReceiverThread (its : list recv_iteration) (c : Client S) : option (recv_result * Client S) :=
  match its with
  | [] => Some (Waiting, c)
  | it :: its =>
      if negb (keep_receiving (loop_time it) c) then Some (Ended, c)
      else r ← receiver_iteration it c;
           match r with
           | inl (code, c) => Some (Exited code, c)
           | inr c => runReceiverThread its c
           end
  end.
End Receiver.

(** ** Lemmas: one response *)

(** The time recorded for a datagram: the kernel's, or the clock's. *)
Definition recv_nsec (incoming clock : timespec) : Z :=
  if (tv_sec incoming =? 0) && (tv_nsec incoming =? 0) then now_nsec clock else timespec_nsec incoming.

(** A datagram from the kernel, stamped before 2106, and clock readings in range. *)
Definition good_recv (it : recv_iteration) : Prop :=
  good_time (recv_clock it) ∧ good_time (check_clock it) ∧
  match response it with
  | Failed _ _ => True
  | Datagram payload from control =>
      good_control control ∧
      ∃ ts, kernel_timestamp_loop control (mkTimespec 0 0) = Some ts ∧ good_time ts ∧ 0 ≤ tv_sec ts < 2 ^ 32
  end.

(** A response that is handled: a datagram that fits the buffer. *)
Definition replied (it : recv_iteration) : bool :=
  match response it with
  | Failed _ _ => false
  | Datagram payload _ _ => Z.of_nat (length payload) <=? TST_PKT_SIZE
  end.

Lemma incoming_nsec_exact ts clock : good_time clock → good_time ts → 0 ≤ tv_sec ts < 2 ^ 32 →
  incoming_nsec ts clock = Some (recv_nsec ts clock) ∧ 0 ≤ recv_nsec ts clock < 2 ^ 62.
Proof.
  intros Hc Ht Hs. unfold incoming_nsec, recv_nsec. destruct (_ && _).
  - rewrite get_timestamp_exact by done. cbn [mbind option_bind].
    rewrite timestamp_to_nsec_exact by (apply wf_ntp_of_timespec; done). split; [done|].
    pose proof (ntp_nsec_range (ntp_of_timespec clock) (proj2 (wf_ntp_of_timespec clock Hc))).
    unfold now_nsec. lia.
  - unfold good_time, timespec_nsec in *.
    rewrite (wrap_small 64 (tv_sec ts)), (wrap_small 64 (tv_nsec ts)) by wsolve.
    rewrite (wrap_small 64 (tv_sec ts * _)), wrap_small by wsolve. split; [done|lia].
Qed.

(** The observations of a reflected packet. *)
Definition replied_observations (p : ReflectorPacket) (payload_len incoming : Z) : list QEDObservation :=
  let id := ntohl (r_seq_number p) in
  [make_QEDObservation SERVER_SEND (reflector_send_time p) id payload_len;
   make_QEDObservation SERVER_RECEIVE (reflector_receive_time p) id payload_len;
   make_QEDObservation CLIENT_RECEIVE incoming id payload_len].

Lemma reply_observations_exact p len incoming :
  reply_observations p len incoming = Some (replied_observations p len incoming).
Proof. unfold reply_observations. by rewrite !timestamp_to_nsec_exact by apply wf_ntohts. Qed.

Lemma enqueue_all {S} obss : ∀ c : Client S,
  foldl (λ c obs, enqueue_observation obs c) c obss =
  {| c with observation_list :=
       ObservationList.mk (ObservationList.observations (observation_list c) ++ obss) |}.
Proof.
  induction obss as [|obs obss IH]; intros c; cbn [foldl].
  - rewrite app_nil_r. by destruct c as [? ? ? ? ? ? ? [] ? ? ? ? ? ? ? ? ?].
  - rewrite IH. unfold enqueue_observation. cbn. by rewrite <- app_assoc.
Qed.

(** The client after a response of [payload_len] bytes received at [incoming],
    before anything is printed. *)
Definition after_response {S} (p : ReflectorPacket) (payload_len incoming : Z) (c : Client S) : Client S :=
  {| c with last_packet_received_epoch_nanoseconds := incoming;
            last_received_packet_id := i32 (ntohl (r_seq_number p));
            received_packets := received_packets c + 1;
            observation_list := ObservationList.mk (ObservationList.observations (observation_list c) ++
              if collator_started c =? 0 then [] else replied_observations p payload_len incoming) |}.

Section Handling.
Context {S : Type} `{SqaStats S} (inet_ntop : Z → list Z → option string) (args : Args) (lp : Z).
Hypothesis Hport : stoi (local_port args) = inr lp.

Lemma printReflectorPacket_defined p msg len received (st : S) :
  good_control (msg_control msg) → 0 ≤ received < 2 ^ 62 →
  ∃ pr, printReflectorPacket inet_ntop args p msg len received st = Some pr ∧ p_exit pr = None.
Proof.
  intros Hc Hr. unfold printReflectorPacket, get_ip_header.
  destruct (ip_header_loop_spec (msg_control msg) DEFAULT_TTL 0 "") as [w ->].
  { eapply Forall_impl; [exact Hc|]. by intros c [? _]. }
  cbn [mbind option_bind]. destruct (parse_ip_address _ _ _ _ _) as [port host].
  rewrite Hport, computeTimeData_exact by lia. cbn [mbind option_bind].
  destruct (print_RTT_only args); [by eexists|]. unfold printMetrics.
  rewrite (sync_column_exact p received) by done. cbn [mbind option_bind]. by eexists.
Qed.

Lemma handle_response_exact p msg len ts clock (c : Client S) :
  good_time clock → good_time ts → 0 ≤ tv_sec ts < 2 ^ 32 → good_control (msg_control msg) →
  0 ≤ received_packets c < 2 ^ 31 - 1 →
  ∃ o e, handleReflectorPacket inet_ntop args p msg len ts clock c =
      Some (inr (put_err e (put o (after_response p len (recv_nsec ts clock) c)))) ∧
    (print_format args ≠ "legacy" → o = "" ∧ e = "").
Proof.
  intros Hc Ht Hs Hm Hn. unfold handleReflectorPacket, count_response, response_observations, print_response.
  destruct (incoming_nsec_exact ts clock Hc Ht Hs) as [-> Hr]. cbn [mbind option_bind].
  rewrite checked_i_Some by wsolve. cbn [mbind option_bind collator_started].
  rewrite reply_observations_exact.
  match goal with |- context [mbind ?f (if negb _ then ?a else ?b)] =>
    replace (mbind f (if negb (collator_started c =? 0) then a else b))
      with (print_response inet_ntop args p msg len (recv_nsec ts clock)
              (after_response p len (recv_nsec ts clock) c)) end.
  - unfold print_response. destruct (String.eqb_spec (print_format args) "legacy") as [E|E].
    + destruct (printReflectorPacket_defined p msg len (recv_nsec ts clock)
        (stats_client_server (stats c)) Hm Hr) as (pr & Ep & Ex).
      cbn [after_response stats]. rewrite Ep. cbn [mbind option_bind]. rewrite Ex. by do 2 eexists.
    + exists "", "". split; [|done]. do 2 f_equal. unfold put, put_err, after_response. cbn.
      by rewrite !sapp_nil_r.
  - unfold after_response. destruct (collator_started c =? 0); cbn [negb mbind option_bind foldl];
      [|by rewrite enqueue_all].
    rewrite app_nil_r. by destruct c as [? ? ? ? ? ? ? [] ? ? ? ? ? ? ? ? ?].
Qed.
End Handling.

(** ** Lemmas: the loop *)

Section Loop.
Context {S : Type} `{SqaStats S} (inet_ntop : Z → list Z → option string) (args : Args) (lp : Z).
Hypothesis Hport : stoi (local_port args) = inr lp.

(** A response that fits is handled, its observations queued; any other changes nothing. *)
Lemma await_exact it (c : Client S) : good_recv it → 0 ≤ received_packets c < 2 ^ 31 - 1 →
  if replied it then
    ∃ payload from control ts o e, response it = Datagram payload from control ∧
      kernel_timestamp_loop control (mkTimespec 0 0) = Some ts ∧
      awaitAndHandleResponse inet_ntop args it c = Some (inr (true, put_err e (put o
        (after_response (reflector_of_bytes (recv_buffer TST_PKT_SIZE payload))
           (Z.of_nat (length payload)) (recv_nsec ts (recv_clock it)) c)))) ∧
      (print_format args ≠ "legacy" → o = "" ∧ e = "")
  else awaitAndHandleResponse inet_ntop args it c = Some (inr (false, c)).
Proof.
  intros (H1 & H2 & H3) Hn. unfold replied, awaitAndHandleResponse, await.
  destruct (response it) as [|payload from control]; [done|].
  destruct H3 as (Hc & ts & Ets & Hts & Hs).
  unfold get_kernel_timestamp. cbn [recv_message make_msghdr msg_control msg_flags]. rewrite Ets.
  cbn [mbind option_bind]. rewrite land_trunc, Z.ltb_antisym.
  destruct (Z.leb_spec (Z.of_nat (length payload)) TST_PKT_SIZE); cbn [negb mbind option_bind]; [|done].
  destruct (handle_response_exact inet_ntop args lp Hport (reflector_of_bytes (recv_buffer buffer_size payload))
    (recv_message payload from control) (Z.min (Z.of_nat (length payload)) buffer_size)
    ts (recv_clock it) c) as (o & e & -> & Ho); [done..|].
  exists payload, from, control, ts, o, e. split; [done|]. split; [done|]. split; [|done].
  cbn [mbind option_bind]. by rewrite Z.min_l by done.
Qed.

(** What an iteration preserves: the entries stay well-formed, the sender's
    members stay put, and the count grows by the responses handled. *)
Record received (n : nat) (c c' : Client S) : Prop := {
  v_repr : ∃ es, repr c' es;
  v_completed : sending_completed c' = sending_completed c;
  v_sent : sent_packets c' = sent_packets c;
  v_received : received_packets c' = received_packets c + Z.of_nat n;
}.

Lemma receiver_iteration_ok it (c : Client S) es : good_recv it → repr c es →
  0 ≤ received_packets c < 2 ^ 31 - 1 →
  ∃ c', receiver_iteration inet_ntop args it c = Some (inr c') ∧
    received (if replied it then 1 else 0) c c'.
Proof.
  intros Hg R Hn. pose proof (await_exact it c Hg Hn) as Hw. unfold receiver_iteration.
  destruct (replied it).
  - destruct Hw as (payload & from & control & ts & o & e & _ & _ & -> & _). cbn [mbind option_bind].
    eexists. split; [done|]. split; [|done..]. exists es. by apply (repr_ext c).
  - rewrite Hw. cbn [mbind option_bind]. destruct Hg as (_ & Hck & _).
    destruct (check_spec args (check_clock it) c es Hck R) as (c' & -> & Hc). cbn [mbind option_bind].
    exists c'. split; [done|]. destruct es as [|r es].
    + destruct Hc as [-> R']. destruct (sending_completed c >? 0); (split; [by eexists|..]; cbn; lia || done).
    + destruct (_ || _).
      * destruct Hc as [-> R']. split; [by eexists|..]; cbn; lia || done.
      * subst c'. split; [by eexists|..]; lia || done.
Qed.

Definition replies (its : list recv_iteration) : nat := length (List.filter replied its).

(** Receiving is over for the client that started with [c], before iteration [it] and
    after [pre]: sending is completed, and every packet sent is answered or the
    timeout after the completion has passed. *)
Definition receiving_over {S} (args : Args) (c : Client S) (pre : list recv_iteration) (it : recv_iteration) : Prop :=
  sending_completed c ≠ 0 ∧
  (sent_packets c ≤ received_packets c + Z.of_nat (replies pre) ∨
   timeout args ≤ u64 (u64 (loop_time it) - sending_completed c)).

Lemma replies_cons it its : replies (it :: its) = ((if replied it then 1 else 0) + replies its)%nat.
Proof. unfold replies. cbn [List.filter]. by destruct (replied it). Qed.

(** A run over good iterations is defined, never exits the process, and as long as
    it waits has handled every response offered. *)
(** The condition of the loop, negated. *)
Lemma keep_receiving_spec it (c : Client S) : keep_receiving args (loop_time it) c = false ↔ receiving_over args c [] it.
Proof.
  unfold keep_receiving, receiving_over, replies. cbn [List.filter length Z.of_nat]. rewrite Z.add_0_r.
  destruct (Z.eqb_spec (sending_completed c) 0); cbn [orb]; [split; [done|by intros [? _]]|].
  rewrite andb_false_iff, !Z.ltb_ge. tauto.
Qed.

Lemma runReceiverThread_ok its : ∀ (c : Client S) es, Forall good_recv its → repr c es →
  0 ≤ received_packets c → received_packets c + Z.of_nat (length its) < 2 ^ 31 →
  ∃ r c' n, runReceiverThread inet_ntop args its c = Some (r, c') ∧ received n c c' ∧
    ((r = Waiting ∧ n = replies its ∧ ∀ pre it post, its = pre ++ it :: post → ¬ receiving_over args c pre it) ∨
     ∃ pre it post, its = pre ++ it :: post ∧ r = Ended ∧ n = replies pre ∧ receiving_over args c pre it ∧
       ∀ pre' it' post', pre = pre' ++ it' :: post' → ¬ receiving_over args c pre' it').
Proof.
  induction its as [|it its IH]; intros c es Hg R H0 Hn.
  - exists Waiting, c, 0%nat. split; [done|]. split; [split; [by eexists|done|done|lia]|].
    left. split; [done|]. split; [done|]. intros [] ? ? ?; done.
  - apply Forall_cons in Hg as [Hit Hg]. cbn [length] in Hn. cbn [runReceiverThread].
    pose proof (keep_receiving_spec it c) as Hk.
    destruct (keep_receiving args (loop_time it) c) eqn:Ek; cbn [negb]; cycle 1.
    { exists Ended, c, 0%nat. split; [done|]. split; [split; [by eexists|done|done|lia]|].
      right. exists [], it, its. do 3 (split; [done|]). split; [by apply Hk|by intros []]. }
    destruct (receiver_iteration_ok it c es Hit R) as (c1 & -> & [[es1 R1] Hc1 Hs1 Hr1]); [lia|].
    cbn [mbind option_bind].
    destruct (IH c1 es1 Hg R1) as (r & c' & n & E & [Hes Hc2 Hs2 Hr2] & Hcase); [rewrite Hr1; by destruct (replied it); lia..|].
    assert (∀ pre it', receiving_over args c1 pre it' ↔ receiving_over args c (it :: pre) it') as Hshift.
    { intros pre it'. unfold receiving_over. rewrite Hc1, Hs1, Hr1, replies_cons.
      replace (received_packets c + Z.of_nat ((if replied it then 1 else 0) + replies pre))
        with (received_packets c + Z.of_nat (if replied it then 1 else 0) + Z.of_nat (replies pre)) by lia. done. }
    assert (¬ receiving_over args c [] it) as Hhead by (intros Ho; by pose proof (proj2 Hk Ho)).
    exists r, c', ((if replied it then 1 else 0) + n)%nat. split; [exact E|].
    split; [split; [done|congruence|congruence|lia]|].
    destruct Hcase as [(-> & -> & Hall)|(pre & it1 & post & -> & -> & -> & Ho & Hall)]; [left|right].
    + split; [done|]. split; [by rewrite replies_cons|]. intros [|i pre] it' post [= -> ->]; [done|].
      rewrite <- Hshift. by eapply Hall.
    + exists (it :: pre), it1, post. split; [done|]. split; [done|]. split; [by rewrite replies_cons|].
      split; [by apply Hshift|]. intros [|i pre'] it' post' [= -> ->]; [done|].
      rewrite <- Hshift. by eapply Hall.
Qed.
End Loop.

(** ** Properties *)

(** C19: a reflected packet that fits the buffer counts as received and, when the
    collator runs, queues exactly three observations under the packet's sequence
    number: the server's sending and receiving times it carries and the time of
    reception (the kernel's stamp when there is one).  Besides the queue, the count,
    the number of the last packet received and its time, no member changes; and only
    in the legacy format is anything printed. *)
Theorem reply_queued {S} `{SqaStats S} inet_ntop args lp it (c : Client S) payload from control ts :
  stoi (local_port args) = inr lp → good_recv it → 0 ≤ received_packets c < 2 ^ 31 - 1 →
  response it = Datagram payload from control → Z.of_nat (length payload) ≤ TST_PKT_SIZE →
  kernel_timestamp_loop control (mkTimespec 0 0) = Some ts →
  let p := reflector_of_bytes (recv_buffer TST_PKT_SIZE payload) in
  let received := if decide (ts = mkTimespec 0 0) then now_nsec (recv_clock it) else timespec_nsec ts in
  ∃ o e, awaitAndHandleResponse inet_ntop args it c = Some (inr (true,
      {| c with received_packets := received_packets c + 1;
                last_packet_received_epoch_nanoseconds := received;
                last_received_packet_id := i32 (ntohl (r_seq_number p));
                observation_list := ObservationList.mk (ObservationList.observations (observation_list c) ++
                  (if collator_started c =? 0 then []
                   else replied_observations p (Z.of_nat (length payload)) received));
                out := out c +:+ o;
                err := err c +:+ e |})) ∧
    (print_format args ≠ "legacy" → o = "" ∧ e = "").
Proof.
  intros Hp Hg Hn Er Hl Et p received'.
  pose proof (await_exact inet_ntop args lp Hp it c Hg Hn) as Hw. unfold replied in Hw.
  rewrite Er, (proj2 (Z.leb_le _ _) Hl) in Hw.
  destruct Hw as (pl & fr & ct & ts' & o & e & [= <- <- <-] & Et' & E & Hpr).
  assert (ts' = ts) as -> by congruence. exists o, e. split; [|exact Hpr]. rewrite E.
  assert (recv_nsec ts (recv_clock it) = received') as Ercv.
  { unfold recv_nsec, received'. destruct ts as [s n]. cbn [tv_sec tv_nsec].
    destruct (Z.eqb_spec s 0), (Z.eqb_spec n 0); cbn [andb]; case_decide; congruence. }
  by rewrite <- Ercv.
Qed.

Definition example_recv (t : Z) : recv_iteration :=
  mkRecv (Datagram (take 50 (reflector_bytes example_reply)) (replicate 16 1)
            [mkCmsg SOL_SOCKET SO_TIMESTAMPNS (timespec_bytes (mkTimespec 1700000001 500000000))])
    (mkTimespec 1700000001 600000000) (mkTimespec 1700000001 700000000) t.

Lemma example_recv_good t : good_recv (example_recv t).
Proof.
  unfold good_recv, good_time. cbn [example_recv recv_clock check_clock response tv_nsec].
  split; [lia|]. split; [lia|]. split.
  { constructor; [|done]. cbn [cmsg_data]. split; [done|by repeat constructor]. }
  exists (mkTimespec 1700000001 500000000). split; [by vm_compute|]. cbn. lia.
Qed.

Definition example_collating : Client SqaLog := client example_sender.

Lemma reply_queued_witness :
  ∃ c', awaitAndHandleResponse no_ntop Args_init (example_recv 0) example_collating = Some (inr (true, c')) ∧
    ObservationList.observations (observation_list c') =
      [mkQED SERVER_SEND 1700000001000000000 7 50; mkQED SERVER_RECEIVE 1700000000500000000 7 50;
       mkQED CLIENT_RECEIVE 1700000001500000000 7 50].
Proof.
  destruct (reply_queued no_ntop Args_init 0 (example_recv 0) example_collating
    (take 50 (reflector_bytes example_reply)) (replicate 16 1)
    [mkCmsg SOL_SOCKET SO_TIMESTAMPNS (timespec_bytes (mkTimespec 1700000001 500000000))]
    (mkTimespec 1700000001 500000000) eq_refl (example_recv_good 0)) as (o & e & E & _).
  - by vm_compute.
  - reflexivity.
  - by vm_compute.
  - reflexivity.
  - eexists. split; [exact E|]. vm_compute. reflexivity.
Defined.

(** C14: when the receiver stops.  It ends at the first iteration before which
    receiving is over: sending is completed and it has counted as many responses as
    packets were sent, or its clock reads [timeout] seconds after the completion; it
    has then counted the responses of exactly the iterations before.  While there is
    no such iteration (as long as sending goes on, in particular) it goes on waiting
    and counts every response offered.  No iteration is undefined, whatever entries it
    retires meanwhile, and none ends the process. *)
Theorem runReceiverThread_stops {S} `{SqaStats S} inet_ntop args lp its (c : Client S) es :
  stoi (local_port args) = inr lp → Forall good_recv its → repr c es →
  0 ≤ received_packets c → received_packets c + Z.of_nat (length its) < 2 ^ 31 →
  ∃ r c', runReceiverThread inet_ntop args its c = Some (r, c') ∧ (∃ es', repr c' es') ∧
    ((r = Waiting ∧ received_packets c' = received_packets c + Z.of_nat (replies its) ∧
      ∀ pre it post, its = pre ++ it :: post → ¬ receiving_over args c pre it) ∨
     ∃ pre it post, its = pre ++ it :: post ∧ r = Ended ∧
       received_packets c' = received_packets c + Z.of_nat (replies pre) ∧ receiving_over args c pre it ∧
       ∀ pre' it' post', pre = pre' ++ it' :: post' → ¬ receiving_over args c pre' it').
Proof.
  intros Hp Hg R H0 Hn.
  destruct (runReceiverThread_ok inet_ntop args lp Hp its c es Hg R H0 Hn)
    as (r & c' & n & E & [Hes _ _ Hr] & Hcase).
  exists r, c'. split; [exact E|]. split; [done|].
  destruct Hcase as [(-> & -> & Hall)|(pre & it & post & -> & -> & -> & Hcase)]; [by left|].
  right. by exists pre, it, post.
Qed.

Lemma example_over : receiving_over Args_init
  {| example_collating with sending_completed := 1700000004; sent_packets := 1 |}
  [example_recv 1700000005] (example_recv 1700000006).
Proof. split; [by vm_compute|left; by vm_compute]. Qed.

Lemma runReceiverThread_stops_witness :
  ∃ c', runReceiverThread no_ntop Args_init [example_recv 1700000005; example_recv 1700000006]
      {| example_collating with sending_completed := 1700000004; sent_packets := 1 |} = Some (Ended, c').
Proof.
  destruct (runReceiverThread_stops no_ntop Args_init 0 [example_recv 1700000005; example_recv 1700000006]
    {| example_collating with sending_completed := 1700000004; sent_packets := 1 |} [] eq_refl)
    as (r & c' & E & _ & Hcase).
  - repeat (constructor; [apply example_recv_good|]). constructor.
  - apply (repr_ext (Client_init 0 : Client SqaLog)); [reflexivity..|apply repr_init].
  - by vm_compute.
  - by vm_compute.
  - exists c'. rewrite E. destruct Hcase as [(_ & _ & Hall)|(pre & it & post & _ & -> & _)]; [|reflexivity].
    destruct (Hall [example_recv 1700000005] (example_recv 1700000006) [] eq_refl example_over).
Defined.
