(* ===== verification/EndToEnd.v ===== *)
(** * EndToEnd: a probe from the client through the server to the statistics

    [exchange] composes the components the way a packet travels: the sender's
    iteration, the server's receive step on the bytes sent, the receiver's step on
    the bytes of the reply, and the collator's loop on the observations queued. *)

From S2P Require Import Prelude Double Text Packets Timestamps Sockets Server Observations ClientState Collator Sender ClientOutput Receiver CollatorRuns.

(** What the kernels, clocks and the network contribute: the ancillary data and
    addresses of the two datagrams and the clock readings. *)
Record environment := mkEnvironment {
  x_send : send_iteration;
  x_from : list Z;             (** the client's address, as the server sees it *)
  x_control : list cmsghdr;    (** the ancillary data of the request *)
  x_clock1 : timespec;
  x_clock2 : timespec;
  y_from : list Z;
  y_control : list cmsghdr;    (** the ancillary data of the reply *)
  y_clock : timespec;
  collator_clocks : list timespec;
}.

Section Exchange.
Context {S : Type} `{SqaStats S}.
Variables (ntop : Z → list Z → option string) (args : Args) (server_args : Server.Args).

Definition exchange (env : environment) (host : list Z) (index : Z) (s : Sender S) (st : Server.state)
    : option (Client S * Server.state) :=
  s ← send_iteration_body args [host] (x_send env) index s;
  message ← last (wire s);
  request ← gather (msg_iov message);
  r ← Server.receive ntop server_args
        (mkIteration (Datagram request (x_from env) (x_control env)) (x_clock1 env) (x_clock2 env) None) st;
  match r with
  | inl _ => None
  | inr st =>
      message ← last (Server.sent st);
      reply ← gather (msg_iov message);
      r ← awaitAndHandleResponse ntop args
            (mkRecv (Datagram reply (y_from env) (y_control env)) (y_clock env) (y_clock env) 0) (client s);
      match r with
      | inr (true, c) => '(_, c) ← collate args (collator_clocks env) c; Some (c, st)
      | _ => None
      end
  end.
End Exchange.

(** ** Lemmas: packets through buffers *)

(** A zero-padded packet cut behind its header arrives whole. *)
Lemma recv_buffer_zero_pad h n len :
  Z.of_nat (length h + n) = TST_PKT_SIZE → Z.of_nat (length h) ≤ len ≤ TST_PKT_SIZE →
  recv_buffer TST_PKT_SIZE (take (Z.to_nat len) (h ++ replicate n 0)) = h ++ replicate n 0.
Proof.
  intros Hn Hl. unfold recv_buffer. rewrite take_take.
  replace (Z.to_nat TST_PKT_SIZE `min` Z.to_nat len)%nat with (Z.to_nat len) by lia.
  rewrite take_app_ge, take_replicate by lia. rewrite length_app, length_replicate, <- app_assoc.
  f_equal. rewrite <- replicate_add. f_equal. lia.
Qed.

Lemma request_arrives tv idx len : 14 ≤ len ≤ TST_PKT_SIZE →
  client_of_bytes (recv_buffer TST_PKT_SIZE (take (Z.to_nat len) (request_wire idx (ntp_of_timespec tv)))) =
  crafted tv idx.
Proof.
  intros Hl. unfold request_wire. rewrite !app_assoc, recv_buffer_zero_pad.
  - rewrite <- !app_assoc. fold (request_wire idx (ntp_of_timespec tv)). rewrite <- crafted_bytes.
    apply client_of_bytes_bytes, wf_crafted.
  - rewrite !length_app. unfold be_bytes. by rewrite !length_rev, !length_le_bytes.
  - rewrite !length_app. unfold be_bytes. rewrite !length_rev, !length_le_bytes. simpl length. lia.
Qed.

Lemma reply_arrives p received sent_at cs len : wf_client p → good_control cs →
  42 ≤ len ≤ TST_PKT_SIZE →
  reflector_of_bytes (recv_buffer TST_PKT_SIZE
    (take (Z.to_nat len) (reflector_bytes (reflected p received sent_at cs)))) =
  reflected p received sent_at cs.
Proof.
  intros W Hc Hl. pose proof (wf_reflected p received sent_at cs W Hc) as Wr.
  rewrite <- (reflector_of_bytes_bytes (reflected p received sent_at cs)) at 2 by done. f_equal.
  unfold reflector_bytes. change (r_padding (reflected _ _ _ _)) with (replicate 1430 0).
  rewrite !app_assoc. destruct (wf_mbz1 _ Wr) as [_ H1], (wf_mbz2 _ Wr) as [_ H2].
  apply recv_buffer_zero_pad; rewrite !length_app, !length_timestamp_bytes, !length_le_bytes, H1, H2; [done|].
  exact Hl.
Qed.

(** The times the reply to [crafted] carries back. *)
Lemma reflected_times tv idx received sent_at cs :
  good_time tv → good_time received → good_time sent_at →
  let p := reflected (crafted tv idx) received sent_at cs in
  sent_time p = now_nsec tv ∧ reflector_receive_time p = now_nsec received ∧
  reflector_send_time p = now_nsec sent_at.
Proof.
  intros H1 H2 H3 p. unfold sent_time, reflector_receive_time, reflector_send_time, now_nsec.
  cbn [p reflected crafted sender_timestamp timestamp receive_timestamp r_timestamp].
  by rewrite !ntohts_htonts by by apply wf_ntp_of_timespec.
Qed.

(** ** Lemmas: the exchange *)

(** Nothing fails, both datagrams are delivered with readable ancillary data, and
    the collator iterates five times. *)
Record good_environment (args : Args) (host : list Z) (env : environment) (xts yts : timespec) : Prop := {
  g_send : good_send args [host] (x_send env);
  g_len : 42 ≤ picked_len args (x_send env) ≤ TST_PKT_SIZE;
  g_x_control : good_control (x_control env);
  g_xts : kernel_timestamp_loop (x_control env) (mkTimespec 0 0) = Some xts ∧ good_time xts;
  g_x_clocks : good_time (x_clock1 env) ∧ good_time (x_clock2 env);
  g_y_control : good_control (y_control env);
  g_yts : kernel_timestamp_loop (y_control env) (mkTimespec 0 0) = Some yts ∧ good_time yts ∧
          0 ≤ tv_sec yts < 2 ^ 32;
  g_y_clock : good_time (y_clock env);
  g_collator : Forall good_time (collator_clocks env) ∧ length (collator_clocks env) = 5%nat;
}.

Section Probe.
Context {S : Type} `{SqaStats S} (ntop : Z → list Z → option string) (args : Args) (server_args : Server.Args).
Context (lp slp : Z) (env : environment) (host : list Z) (xts yts : timespec) (k : nat).
Hypothesis Hport : stoi (local_port args) = inr lp.
Hypothesis Hsport : stoi (Server.local_port server_args) = inr slp.
Hypothesis Henv : good_environment args host env xts yts.
Hypothesis Hk : Z.of_nat k < 2 ^ 32.

Definition probe_len : Z := picked_len args (x_send env).
Definition time1 : Z := now_nsec (clock (x_send env)).
Definition time2 : Z := now_nsec (effective_time xts (x_clock1 env)).
Definition time3 : Z := now_nsec (x_clock2 env).
Definition time4 : Z := recv_nsec yts (y_clock env).

Definition the_reply : ReflectorPacket :=
  reflected (crafted (clock (x_send env)) (Z.of_nat k)) (effective_time xts (x_clock1 env)) (x_clock2 env) (x_control env).

Lemma effective_good : good_time (effective_time xts (x_clock1 env)).
Proof. destruct Henv. unfold effective_time. destruct (_ && _); tauto. Qed.

(** The server answers the request with the reply cut to the request's length. *)
Lemma server_answers st :
  ∃ st' m, Server.receive ntop server_args
      (mkIteration (Datagram (take (Z.to_nat probe_len) (request_wire (Z.of_nat k) (ntp_of_timespec (clock (x_send env)))))
                      (x_from env) (x_control env)) (x_clock1 env) (x_clock2 env) None) st = Some (inr st') ∧
    last (Server.sent st') = Some m ∧
    gather (msg_iov m) = Some (take (Z.to_nat probe_len) (reflector_bytes the_reply)).
Proof.
  destruct Henv as [_ Hl Hc [Hx Hxt] [Hc1 Hc2] _ _ _ _]. fold probe_len in Hl.
  set (request := take _ _).
  assert (Z.of_nat (length request) = probe_len) as El.
  { unfold request. rewrite length_take, length_request_wire. unfold TST_PKT_SIZE in Hl. lia. }
  destruct (receive_good ntop server_args slp Hsport
    (mkIteration (Datagram request (x_from env) (x_control env)) (x_clock1 env) (x_clock2 env) None) st)
    as (st' & E & Hs).
  { split; [done|]. split; [done|]. cbn [recv]. split; [|split; [done|by exists xts]].
    apply Forall_take. rewrite <- crafted_bytes. apply bytes_client_bytes, wf_crafted. }
  cbn [recv clock1 clock2] in Hs. unfold fits in Hs. cbn [recv] in Hs.
  rewrite El, (proj2 (Z.leb_le _ _)) in Hs by lia. destruct Hs as (ts & Ets & Hs).
  assert (ts = xts) as -> by congruence.
  assert (client_of_bytes (recv_buffer TST_PKT_SIZE request) = crafted (clock (x_send env)) (Z.of_nat k)) as Ereq
    by (apply request_arrives; lia).
  rewrite Ereq in Hs.
  exists st'. eexists. split; [exact E|]. rewrite Hs, last_snoc. split; [done|].
  apply gather_reply; [apply wf_crafted|done|lia].
Qed.

(** The receiver turns the reply into the three observations of the packet. *)
Lemma receiver_observes (c : Client S) : collator_started c ≠ 0 → 0 ≤ received_packets c < 2 ^ 31 - 1 →
  ∃ o e n, awaitAndHandleResponse ntop args
      (mkRecv (Datagram (take (Z.to_nat probe_len) (reflector_bytes the_reply)) (y_from env) (y_control env))
         (y_clock env) (y_clock env) 0) c = Some (inr (true, put_err e (put o
    {| c with last_packet_received_epoch_nanoseconds := time4; last_received_packet_id := i32 (Z.of_nat k);
              received_packets := n;
              observation_list := ObservationList.mk (ObservationList.observations (observation_list c) ++
                [mkQED SERVER_SEND time3 (Z.of_nat k) probe_len; mkQED SERVER_RECEIVE time2 (Z.of_nat k) probe_len;
                 mkQED CLIENT_RECEIVE time4 (Z.of_nat k) probe_len]) |}))).
Proof.
  intros Hcs Hn. destruct Henv as [[Hclk _] Hl Hc [Hx Hxt] [Hc1 Hc2] Hyc (Hy & Hyt & Hys) Hyk _].
  fold probe_len in Hl.
  set (reply := take _ _).
  assert (Z.of_nat (length reply) = probe_len) as El.
  { unfold reply. rewrite length_take.
    pose proof (length_reflector_bytes the_reply (wf_reflected _ _ _ _ (wf_crafted _ _) Hc)). lia. }
  pose proof (await_exact ntop args lp Hport
    (mkRecv (Datagram reply (y_from env) (y_control env)) (y_clock env) (y_clock env) 0) c) as Hw.
  unfold replied in Hw. cbn [response] in Hw. rewrite El, (proj2 (Z.leb_le _ _)) in Hw by lia.
  destruct Hw as (pl & fr & ct & ts & o & e & [= <- <- <-] & Ets & -> & _); [|done|].
  { split; [done|]. split; [done|]. cbn [response]. split; [done|]. by exists yts. }
  assert (ts = yts) as -> by congruence. exists o, e, (received_packets c + 1). do 5 f_equal.
  assert (reflector_of_bytes (recv_buffer TST_PKT_SIZE reply) = the_reply) as ->
    by (apply reply_arrives; [apply wf_crafted|done|lia]).
  unfold after_response. rewrite (proj2 (Z.eqb_neq _ _)) by done.
  change (r_seq_number the_reply) with (htonl (Z.of_nat k)).
  rewrite ntohl_htonl by wsolve. rewrite El. unfold replied_observations.
  change (r_seq_number the_reply) with (htonl (Z.of_nat k)). rewrite ntohl_htonl by wsolve.
  destruct (reflected_times (clock (x_send env)) (Z.of_nat k) _ _ (x_control env) Hclk effective_good Hc2) as (_ & E2 & E3).
  fold the_reply in E2, E3. unfold make_QEDObservation. rewrite E2, E3.
  fold time2 time3 time4. cbn [recv_clock]. fold time4.
  assert (∀ tv, good_time tv → u64 (now_nsec tv) = now_nsec tv) as Hu.
  { intros tv Ht. apply wrap_small, ntp_nsec_u64, wf_ntp_of_timespec, Ht. }
  unfold time2 at 1, time3 at 1. rewrite !Hu by (done || apply effective_good).
  destruct (incoming_nsec_exact yts (y_clock env) Hyk Hyt Hys) as [_ Hr4]. fold time4 in Hr4.
  rewrite (wrap_small 64 time4) by wsolve. rewrite (wrap_small 32 (Z.of_nat k)) by wsolve.
  rewrite (wrap_small 16 probe_len) by (unfold TST_PKT_SIZE in Hl; unfold in_u; lia). done.
Qed.
End Probe.

(** ** Properties *)

(** What a measured packet tells the statistics: for times that do not decrease from
    one point to the next, the differences. *)
Definition measured {S} `{SqaStats S} (t1 t2 t3 t4 : Z) (st : Stats S) : Stats S := {|
  stats_RTT := if decide (t2 - t1 + (t4 - t3) = 0) then stats_RTT st
               else sqa_stats_add_sample (timespec_of_nsec (t2 - t1 + (t4 - t3))) (stats_RTT st);
  stats_internal := sqa_stats_add_sample (timespec_of_nsec (t3 - t2)) (stats_internal st);
  stats_client_server := sqa_stats_add_sample (timespec_of_nsec (t2 - t1)) (stats_client_server st);
  stats_server_client := sqa_stats_add_sample (timespec_of_nsec (t4 - t3)) (stats_server_client st);
|}.

Lemma aggregate_measured {S} `{SqaStats S} (st : Stats S) added id len t1 t2 t3 t4 :
  0 < t1 → t1 ≤ t2 → t2 ≤ t3 → t3 ≤ t4 → t4 < 2 ^ 62 →
  let r := mkRawData added id len t1 t2 t3 t4 in
  is_complete r = true ∧ replay_stats (aggregate_calls r) st = measured t1 t2 t3 t4 st.
Proof.
  intros H1 H2 H3 H4 H5 r.
  assert (is_complete r = true) as Hc.
  { unfold is_complete, r. cbn. rewrite !Z.gtb_ltb.
    by rewrite !(proj2 (Z.ltb_lt 0 _)) by lia. }
  split; [done|]. unfold aggregate_calls, rtt_total. rewrite has_fwd_complete, Hc by done.
  unfold fwd_delay, bwd_delay, internal_delay. cbn [r client_send_epoch_nanoseconds
    server_receive_epoch_nanoseconds server_send_epoch_nanoseconds client_receive_epoch_nanoseconds].
  rewrite !wrap_small by wsolve. unfold replay_stats, measured. cbn.
  destruct (Z.ltb_spec 0 (t2 - t1 + (t4 - t3))); case_decide; (lia || done).
Qed.

(** The collator's five iterations: file the four observations, retire the entry. *)
Lemma collate_probe {S} `{SqaStats S} args nows id len t1 t2 t3 t4 (c : Client S) :
  Forall good_time nows → length nows = 5%nat → repr c [] → collator_finished c = 0 →
  0 < t1 → t1 ≤ t2 → t2 ≤ t3 → t3 ≤ t4 → t4 < 2 ^ 62 →
  ObservationList.observations (observation_list c) =
    [mkQED CLIENT_SEND t1 id len; mkQED SERVER_SEND t3 id len; mkQED SERVER_RECEIVE t2 id len;
     mkQED CLIENT_RECEIVE t4 id len] →
  ∃ c', collate args nows c = Some (false, c') ∧ repr c' [] ∧ stats c' = measured t1 t2 t3 t4 (stats c).
Proof.
  intros Hg Hl R Hf H1 H2 H3 H4 H5 Hq.
  destruct nows as [|n1 [|n2 [|n3 [|n4 [|n5 [|]]]]]]; try done. clear Hl.
  change [n1; n2; n3; n4; n5] with ([n1; n2; n3; n4] ++ [n5]) in *.
  apply Forall_app in Hg as [Hg1 Hg2]. apply Forall_cons in Hg2 as [Hn5 _].
  destruct (collate_queue args _ [n1; n2; n3; n4] [n5] [] c R Hq Hf eq_refl Hg1)
    as (c1 & -> & R1 & Hq1 & Hf1 & _ & Hs1 & _).
  cbn [zip zip_with fmap list_fmap file_all foldl] in R1.
  do 4 (cbn [file o_packet_id] in R1; rewrite ?packet_id_update in R1;
    cbn [packet_id new_RawData o_packet_id] in R1; rewrite ?Z.eqb_refl in R1).
  set (r := mkRawData (now_nsec n1) id len t1 t2 t3 t4). change (repr c1 [r]) in R1.
  cbn [collate]. rewrite Hf1. cbn [negb Z.eqb]. unfold collator_iteration, ObservationList.isEmpty.
  rewrite Hq1. cbn [negb].
  destruct (check_spec args n5 c1 [r] Hn5 R1) as (c' & -> & Hc).
  destruct (aggregate_measured (stats c1) (now_nsec n1) id len t1 t2 t3 t4) as [Hr Hm]; [done..|].
  fold r in Hr, Hm. rewrite Hr in Hc. cbn [orb] in Hc. destruct Hc as [Ec R']. cbn [mbind option_bind].
  assert (collator_finished c' = 0) as Hf' by (rewrite Ec; exact Hf1).
  exists c'. split; [by rewrite Hf'|]. split; [exact R'|]. rewrite Ec. cbn [put stats]. by rewrite Hm, Hs1.
Qed.

(** C1: the measurement.  A probe of at least 42 bytes that reaches the server and
    whose reply comes back, at clock times [t1 <= t2 <= t3 <= t4] as the client
    sends, the server receives and replies, and the client receives (each the
    kernel's stamp or the clock's reading as the programs convert them), adds
    exactly one sample to each statistic: [t2-t1] forward, [t4-t3] backward,
    [t3-t2] internal and the sum of the one-way delays for the round trip; nothing
    stays listed. *)
Theorem probe_measured {S} `{SqaStats S} ntop args server_args lp slp env host xts yts (k : nat)
    (s : Sender S) (st : Server.state) :
  stoi (local_port args) = inr lp → stoi (Server.local_port server_args) = inr slp →
  good_environment args host env xts yts → Z.of_nat k < 2 ^ 32 →
  collator_started (client s) ≠ 0 → collator_finished (client s) = 0 → repr (client s) [] →
  ObservationList.observations (observation_list (client s)) = [] →
  0 ≤ sent_packets (client s) < 2 ^ 31 - 1 → 0 ≤ received_packets (client s) < 2 ^ 31 - 1 →
  let t1 := time1 env in let t2 := time2 env xts in let t3 := time3 env in let t4 := time4 env yts in
  0 < t1 ≤ t2 → t2 ≤ t3 ≤ t4 →
  ∃ c' st', exchange ntop args server_args env host (Z.of_nat k) s st = Some (c', st') ∧
    stats c' = measured t1 t2 t3 t4 (stats (client s)) ∧ repr c' [].
Proof.
  intros Hp Hsp Henv Hk Hcs Hcf R Hq Hsn Hrn t1 t2 t3 t4 H12 H34.
  pose proof Henv as [Hgs Hl _ _ _ _ (_ & Hyt & Hys) Hyk [Hcg Hc5]]. unfold exchange.
  destruct (send_iteration_ok args [host] (x_send env) k s Hgs) as (s1 & -> & [Pw Po _ _ Pst _ _ Pr]);
    [lia|simpl; lia|]. cbn [mbind option_bind]. rewrite Pw. cbn [sent_messages fmap list_fmap].
  rewrite last_snoc. cbn [mbind option_bind]. rewrite gather_sender_message by lia. cbn [mbind option_bind].
  destruct (server_answers ntop args server_args slp env host xts yts k Hsp Henv st) as (st' & m & E & Em & Eg).
  unfold probe_len in E. rewrite E. cbn [mbind option_bind]. rewrite Em. cbn [mbind option_bind].
  rewrite Eg. cbn [mbind option_bind]. unfold receiving_part in Pr. injection Pr as P1 P2 P3 P4 P5 P6.
  destruct (receiver_observes ntop args lp env host xts yts k Hp Henv Hk (client s1))
    as (o & e & n & ->); [by rewrite Pst|by rewrite P5|]. cbn [mbind option_bind].
  match goal with |- context [collate args _ ?c] =>
    destruct (collate_probe args (collator_clocks env) (Z.of_nat k) (probe_len args env) t1 t2 t3 t4 c)
      as (c' & -> & R' & Hs') end; try done; try lia.
  - apply (repr_ext (client s)); done.
  - cbn. by rewrite P6.
  - unfold t4, time4. by apply incoming_nsec_exact.
  - cbn [put_err put observation_list ObservationList.observations]. rewrite Po, Hq.
    rewrite (proj2 (Z.eqb_neq _ _)) by done. cbn [app]. f_equal.
    unfold sent_observation, make_QEDObservation. rewrite !wrap_small; [done|..].
    + unfold TST_PKT_SIZE in Hl. unfold in_u. lia.
    + wsolve.
    + apply ntp_nsec_u64, wf_ntp_of_timespec. by destruct Hgs.
  - cbn [mbind option_bind]. exists c', st'. split; [done|]. split; [|done]. rewrite Hs'. cbn. by rewrite P4.
Qed.

Definition example_environment : environment := {|
  x_send := mkSend (mkTimespec 1700000000 0) 1700000000 0 (λ _, of_int 0) (λ _, None);
  x_from := replicate 16 1;
  x_control := [mkCmsg SOL_SOCKET SO_TIMESTAMPNS (timespec_bytes (mkTimespec 1700000000 125000000))];
  x_clock1 := mkTimespec 1700000000 0;
  x_clock2 := mkTimespec 1700000000 187500000;
  y_from := replicate 16 1;
  y_control := [mkCmsg SOL_SOCKET SO_TIMESTAMPNS (timespec_bytes (mkTimespec 1700000000 250000000))];
  y_clock := mkTimespec 1700000000 0;
  collator_clocks := replicate 5 (mkTimespec 1700000001 0);
|}.

Lemma example_environment_good : good_environment (Sender.example_args 1 0) (replicate 16 1) example_environment
  (mkTimespec 1700000000 125000000) (mkTimespec 1700000000 250000000).
Proof.
  split.
  - split; [by vm_compute|]. split; [exists 50; split; [done|by vm_compute]|]. by split; [eexists|].
  - by vm_compute.
  - constructor; [|done]. cbn [cmsg_data]. split; [done|by repeat constructor].
  - split; [vm_compute; reflexivity|by vm_compute].
  - split; by vm_compute.
  - constructor; [|done]. cbn [cmsg_data]. split; [done|by repeat constructor].
  - split; [vm_compute; reflexivity|]. split; by vm_compute.
  - by vm_compute.
  - split; [|done]. by repeat (constructor; [by vm_compute|]).
Qed.

Lemma probe_measured_witness :
  ∃ c' st', exchange no_ntop (Sender.example_args 1 0) Server.Args_init example_environment (replicate 16 1) 0
      example_sender Server.init = Some (c', st') ∧
    stats_RTT (stats c') = [AddSample (mkTimespec 0 187500000)] ∧
    stats_internal (stats c') = [AddSample (mkTimespec 0 62500000)].
Proof.
  destruct (probe_measured no_ntop (Sender.example_args 1 0) Server.Args_init 0 443 example_environment
    (replicate 16 1) (mkTimespec 1700000000 125000000) (mkTimespec 1700000000 250000000) 0
    example_sender Server.init eq_refl eq_refl example_environment_good) as (c' & st' & E & Es & _).
  - by vm_compute.
  - by vm_compute.
  - reflexivity.
  - apply (repr_ext (Client_init 0 : Client SqaLog)); [reflexivity..|apply repr_init].
  - reflexivity.
  - by vm_compute.
  - by vm_compute.
  - by vm_compute.
  - by vm_compute.
  - exists c', st'. split; [exact E|]. rewrite Es. vm_compute. split; reflexivity.
Defined.

(** C27: a second reply to a packet already measured (a duplicate, or the reply of a
    second remote host, whose requests carry the same sequence numbers).  Its three
    observations make a new entry without a sending time; once that is older than
    the timeout it is reported as one lost packet in each of the four statistics,
    although nothing was lost. *)
Theorem second_reply_is_loss {S} `{SqaStats S} args n1 n2 n3 now id len t2 t3 t4 (c : Client S) :
  Forall good_time [n1; n2; n3] → good_time now → timeout args ∈u 8 →
  repr c [] → collator_finished c = 0 →
  ObservationList.observations (observation_list c) =
    [mkQED SERVER_SEND t3 id len; mkQED SERVER_RECEIVE t2 id len; mkQED CLIENT_RECEIVE t4 id len] →
  now_nsec now - now_nsec n1 > timeout args * 10 ^ 9 →
  ∃ c', collate args [n1; n2; n3; now] c = Some (false, c') ∧ repr c' [] ∧
    stats c' = {| stats_RTT := sqa_stats_count_loss (stats_RTT (stats c));
                  stats_internal := sqa_stats_count_loss (stats_internal (stats c));
                  stats_client_server := sqa_stats_count_loss (stats_client_server (stats c));
                  stats_server_client := sqa_stats_count_loss (stats_server_client (stats c)) |}.
Proof.
  intros Hg Hn Ht R Hf Hq Hold.
  change [n1; n2; n3; now] with ([n1; n2; n3] ++ [now]).
  destruct (collate_queue args _ [n1; n2; n3] [now] [] c R Hq Hf eq_refl Hg)
    as (c1 & -> & R1 & Hq1 & Hf1 & _ & Hs1 & _).
  cbn [zip zip_with fmap list_fmap file_all foldl] in R1.
  do 3 (cbn [file o_packet_id] in R1; rewrite ?packet_id_update in R1;
    cbn [packet_id new_RawData o_packet_id] in R1; rewrite ?Z.eqb_refl in R1).
  set (r := mkRawData (now_nsec n1) id len 0 t2 t3 t4). change (repr c1 [r]) in R1.
  cbn [collate]. rewrite Hf1. cbn [negb Z.eqb]. unfold collator_iteration, ObservationList.isEmpty.
  rewrite Hq1. cbn [negb].
  destruct (check_spec args now c1 [r] Hn R1) as (c' & -> & Hc).
  assert (timed_out args (now_nsec now) r = true) as Hto.
  { unfold timed_out, Collator.NANOSECONDS_IN_SECOND. cbn [r added_at_epoch_nanoseconds].
    apply Forall_cons in Hg as [Hn1 _].
    pose proof (ntp_nsec_range _ (proj2 (wf_ntp_of_timespec now Hn))).
    pose proof (ntp_nsec_range _ (proj2 (wf_ntp_of_timespec n1 Hn1))).
    fold (now_nsec now) (now_nsec n1) in *. rewrite wrap_small by wsolve.
    rewrite Z.gtb_ltb. apply Z.ltb_lt. lia. }
  rewrite Hto, orb_true_r in Hc. destruct Hc as [Ec R']. cbn [mbind option_bind].
  assert (collator_finished c' = 0) as Hf' by (rewrite Ec; exact Hf1).
  exists c'. split; [by rewrite Hf'|]. split; [exact R'|]. rewrite Ec. cbn [put stats]. by rewrite Hs1.
Qed.

Lemma second_reply_is_loss_witness :
  ∃ c', collate Args_init [mkTimespec 1700000000 0; mkTimespec 1700000000 0; mkTimespec 1700000000 0;
      mkTimespec 1700000011 0] {| example_client with observation_list := ObservationList.mk
        [mkQED SERVER_SEND 30 7 50; mkQED SERVER_RECEIVE 20 7 50; mkQED CLIENT_RECEIVE 40 7 50] |} =
    Some (false, c') ∧ stats_RTT (stats c') = [CountLoss].
Proof.
  destruct (second_reply_is_loss Args_init (mkTimespec 1700000000 0) (mkTimespec 1700000000 0)
    (mkTimespec 1700000000 0) (mkTimespec 1700000011 0) 7 50 20 30 40
    {| example_client with observation_list := ObservationList.mk
        [mkQED SERVER_SEND 30 7 50; mkQED SERVER_RECEIVE 20 7 50; mkQED CLIENT_RECEIVE 40 7 50] |})
    as (c' & E & _ & Es).
  - by repeat (constructor; [by vm_compute|]).
  - by vm_compute.
  - by vm_compute.
  - apply (repr_ext example_client); [reflexivity..|apply repr_init].
  - reflexivity.
  - reflexivity.
  - by vm_compute.
  - exists c'. split; [exact E|]. by rewrite Es.
Defined.
