(* ===== verification/Setup.v ===== *)
(** * Setup: arguments and constructors of both programs

    What [parse_args] and [main] do to the parsed options ([src/client/main_client.cpp],
    [src/server/main_server.cpp]) and the constructors of [Client] and [Server].  The
    option parser itself is the CLI11 library; name resolution and sockets are the
    system's and are collected in the record [os]. *)

From S2P Require Import Prelude Double Text Packets Timestamps Address Sockets Server Observations ClientState Collator.

(** ** Options *)

(** [tos - (((tos & 0x2) >> 1) & (tos & 0x1))], on 8 bits. *)
Definition adjust_tos (tos : Z) : Z :=
  u8 (tos - Z.land (Z.shiftr (Z.land tos 2) 1) (Z.land tos 1)).

Definition address_error : string := "Address must be in the format IP:Port".

(** The check of one positional argument: an error message, or the host and port appended. *)
Definition check_address (str : string) (args : Args) : string * Args :=
  let '(ok, ip, port) :=
    if ip_version args =? IPV6 then parseIPv6Port str "" 0
    else if ip_version args =? IPV4 then parseIPPort str "" 0
    else (true, "", 0) in
  if ok : bool then
    ("", {| args with remote_hosts := remote_hosts args ++ [ip]; remote_ports := remote_ports args ++ [port] |})
  else (address_error, args).

(** The checks of all the positional arguments, until one fails. *)
Fixpoint check_addresses (strs : list string) (args : Args) : string + Args :=
  match strs with
  | [] => inr args
  | str :: strs =>
      let '(message, args) := check_address str args in
      if String.eqb message "" then check_addresses strs args else inl message
  end.

(** After the parser: nothing is done without an address. *)
Definition finish_args (tos : option Z) (addresses : list string) (args : Args) : string + Args :=
  match addresses with
  | [] => inl (address_error +:+ nl)
  | _ => inr (match tos with Some tos => {| args with snd_tos := adjust_tos tos |} | None => args end)
  end.

(** [--runtime] overrides [--num_samples]. *)
Definition effective_args (args : Args) : Args * string :=
  if (runtime args >? 0) && (num_samples args >? 0) then
    ({| args with num_samples := 0 |},
     "Both --runtime and --num_samples options are set. Ignoring --num_samples and using --runtime instead." +:+ nl)
  else (args, "").

(** Which parts of [main] run besides the sender and the receiver. *)
Definition runs_collator (args : Args) : bool :=
  negb (String.eqb (print_format args) "legacy") || print_lost_packets args.
Definition prints_stats (args : Args) : bool :=
  print_digest args && negb (String.eqb (print_format args) "legacy").
Definition writes_json (args : Args) : bool :=
  negb (String.eqb (json_output_file args) "") && negb (String.eqb (print_format args) "legacy").

(** ** The system *)

Record addrinfo := mkAddrinfo { ai_family : Z; ai_addr : list Z }.

Record os := mkOs {
  getaddrinfo : Z → option string → string → Z + addrinfo;  (** family, host, port: error or first result *)
  socket : Z → option string;               (** family: [strerror(errno)] on failure *)
  setsockopt : sockopt → Z;
  bind : list Z → option string;
  getsockname : option (list Z);            (** the bound address, as bytes *)
  allocated : nat → bool;                   (** whether the [k]-th [sqa_stats_create] is not null *)
  start_clock : Z;                          (** [time(nullptr)] *)
}.

(** How a constructor ends. *)
Inductive constructed (A : Type) :=
  | Built (a : A) (options : list sockopt) (err : string)
  | ExitFailure (err : string)
  | RuntimeError (what err : string).
Arguments Built {A} _ _ _.
Arguments ExitFailure {A} _.
Arguments RuntimeError {A} _ _.

Definition lines (messages : list string) : string := foldr (λ m s, m +:+ nl +:+ s) "" messages.

Definition family_of (ip_version : Z) : option Z :=
  if ip_version =? IPV4 then Some AF_INET else if ip_version =? IPV6 then Some AF_INET6 else None.

Definition node (host : string) : option string := if String.eqb host "" then None else Some host.

(** The calls both constructors make on a new socket. *)
Definition setup_socket (sys : os) (timeout tos : Z) : list sockopt * string :=
  let r1 := set_socket_options (setsockopt sys) HDR_TTL timeout in
  let r2 := set_socket_tos (setsockopt sys) tos in
  (r1.1 ++ r2.1, lines (r1.2 ++ r2.2)).

(** ** [Server::Server] *)

Definition Server_construct (sys : os) (args : Server.Args) : constructed unit :=
  match family_of (Server.ip_version args) with
  | None => ExitFailure ("Invalid IP version." +:+ nl)
  | Some family =>
      match getaddrinfo sys family (node (Server.local_host args)) (Server.local_port args) with
      | inl e => ExitFailure ("failed to resolve local socket address: " +:+ to_string e +:+ nl)
      | inr res =>
          match socket sys (ai_family res) with
          | Some text => ExitFailure (text +:+ nl)
          | None =>
              let '(options, warnings) := setup_socket sys (Server.timeout args) (Server.snd_tos args) in
              match bind sys (ai_addr res) with
              | Some text => ExitFailure (warnings +:+ text +:+ nl)
              | None => Built tt options warnings
              end
          end
      end
  end.

(** ** [Client::Client] *)

(** The loop over the remote hosts: the message it exits with, or the addresses. *)
Fixpoint resolve_hosts (sys : os) (family : Z) (hosts : list string) (ports : list Z) : string + list addrinfo :=
  match hosts with
  | [] => inr []
  | host :: hosts =>
      match ports with
      | [] => inl ("Not enough remote ports provided" +:+ nl)
      | port :: ports =>
          match getaddrinfo sys family (Some host) (to_string port) with
          | inl e => inl ("failed to resolve remote socket address: " +:+ to_string e)
          | inr ai =>
              match resolve_hosts sys family hosts ports with
              | inl e => inl e
              | inr ais => inr (ai :: ais)
              end
          end
      end
  end.

(** The actual port, in the third and fourth byte of either kind of address. *)
Definition bound_port (addr : list Z) : Z := ntohs (le_int (field 2 2 addr)).

Definition allocation_failed (member : string) : string := "Failed to allocate memory for " +:+ member.

(** The four statistics, or what is thrown when a pointer is null. *)
Definition create_stats {S} `{SqaStats S} (sys : os) : string + Stats S :=
  if negb (allocated sys 0) then inl (allocation_failed "stats_RTT")
  else if negb (allocated sys 1) then inl (allocation_failed "stats_internal")
  else if negb (allocated sys 2) then inl (allocation_failed "stats_client_server")
  else if negb (allocated sys 3) then inl (allocation_failed "stats_server_client")
  else inr Stats_create.

(** The client, its arguments and its remote addresses; [None] when there is no
    remote host, whose address the source dereferences. *)
Definition Client_construct {S} `{SqaStats S} (sys : os) (args : Args)
    : option (constructed (Args * list addrinfo * Client S)) :=
  match family_of (ip_version args) with
  | None => Some (ExitFailure ("Invalid IP version." +:+ nl))
  | Some family =>
      match resolve_hosts sys family (remote_hosts args) (remote_ports args) with
      | inl message => Some (ExitFailure message)
      | inr remote_address_info =>
          match getaddrinfo sys family (node (local_host args)) (local_port args) with
          | inl e => Some (ExitFailure ("failed to resolve local socket address: " +:+ to_string e))
          | inr local_address_info =>
              remote ← head remote_address_info;
              Some (match socket sys (ai_family remote) with
              | Some text => RuntimeError ("Failed to create socket: " +:+ text) (text +:+ nl)
              | None =>
                  let '(options, warnings) := setup_socket sys (timeout args) (snd_tos args) in
                  match bind sys (ai_addr local_address_info) with
                  | Some text => RuntimeError ("Failed to bind socket: " +:+ text) (warnings +:+ text +:+ nl)
                  | None =>
                      let args := match getsockname sys with
                                  | Some addr => {| args with local_port := to_string (bound_port addr) |}
                                  | None => args
                                  end in
                      match create_stats sys with
                      | inl what => RuntimeError what (warnings +:+ what +:+ nl)
                      | inr st =>
                          Built (args, remote_address_info, {| (Client_init (start_clock sys)) with stats := st |})
                            options warnings
                      end
                  end
              end)
          end
      end
  end.

(** ** Lemmas *)

Lemma parseIPPort_port str ip port ip0 port0 :
  parseIPPort str ip0 port0 = (true, ip, port) → 1 ≤ port ≤ 65535.
Proof.
  unfold parseIPPort. destruct (str_find ":" str); [|done]. destruct (strtol _) as [v rest].
  fold (port_rejected v rest). destruct (port_rejected v rest) eqn:G; [done|].
  apply port_rejected_false in G as [_ Hv]. intros [= _ <-]. by rewrite port_u16.
Qed.

Lemma parseIPv6Port_port str ip port ip0 port0 :
  parseIPv6Port str ip0 port0 = (true, ip, port) → 1 ≤ port ≤ 65535.
Proof.
  unfold parseIPv6Port. destruct (str_rfind ":" str); [|done]. destruct (strtol _) as [v rest].
  fold (port_rejected v rest). destruct (port_rejected v rest) eqn:G; [done|].
  apply port_rejected_false in G as [_ Hv]. intros [= _ <-]. by rewrite port_u16.
Qed.

Lemma check_address_ok str args args' : family_of (ip_version args) ≠ None →
  check_address str args = ("", args') →
  ip_version args' = ip_version args ∧
  ∃ ip port, 1 ≤ port ≤ 65535 ∧ remote_hosts args' = remote_hosts args ++ [ip] ∧
    remote_ports args' = remote_ports args ++ [port].
Proof.
  unfold family_of, check_address. intros Hf.
  destruct (Z.eqb_spec (ip_version args) IPV6) as [E6|N6].
  - destruct (parseIPv6Port str "" 0) as [[[] ip] port] eqn:Ep; [|done]. intros [= <-].
    split; [done|]. exists ip, port. split; [by eapply parseIPv6Port_port|done].
  - destruct (Z.eqb_spec (ip_version args) IPV4) as [E4|N4]; [|done].
    destruct (parseIPPort str "" 0) as [[[] ip] port] eqn:Ep; [|done]. intros [= <-].
    split; [done|]. exists ip, port. split; [by eapply parseIPPort_port|done].
Qed.

Lemma check_addresses_ok strs : ∀ args args', family_of (ip_version args) ≠ None →
  check_addresses strs args = inr args' →
  ∃ ips ports, length ips = length strs ∧ length ports = length strs ∧
    Forall (λ p, 1 ≤ p ≤ 65535) ports ∧
    remote_hosts args' = remote_hosts args ++ ips ∧ remote_ports args' = remote_ports args ++ ports.
Proof.
  induction strs as [|str strs IH]; intros args args' Hf; cbn [check_addresses].
  - intros [= <-]. exists [], []. rewrite !app_nil_r. by repeat split.
  - destruct (check_address str args) as [message args1] eqn:E.
    destruct (String.eqb_spec message "") as [->|]; [|done]. intros E'.
    apply check_address_ok in E as (Hv & ip & port & Hp & E1 & E2); [|done].
    destruct (IH args1 args') as (ips & ports & Hi & Hpo & Hall & E3 & E4); [by rewrite Hv|done|].
    exists (ip :: ips), (port :: ports). rewrite E3, E4, E1, E2, <- !app_assoc. simpl.
    repeat split; [by rewrite Hi|by rewrite Hpo|by constructor].
Qed.

Lemma resolve_hosts_ok sys family hosts : ∀ ports,
  (∀ f h p, ∃ ai, getaddrinfo sys f h p = inr ai) → length hosts = length ports →
  ∃ ais, resolve_hosts sys family hosts ports = inr ais ∧ length ais = length hosts.
Proof.
  intros ports Hg. revert ports. induction hosts as [|h hosts IH]; intros [|p ports] Hl; try done.
  - by exists [].
  - cbn [resolve_hosts]. destruct (Hg family (Some h) (to_string p)) as [ai ->].
    destruct (IH ports) as (ais & -> & Hais); [by injection Hl|]. exists (ai :: ais). simpl. by rewrite Hais.
Qed.

(** The addresses of the hosts, each with its own port, in order. *)
Definition resolved (sys : os) (family : Z) (hosts : list string) (ports : list Z) (ais : list addrinfo) : Prop :=
  length ais = length hosts ∧
  ∀ i host, hosts !! i = Some host → ∃ port ai,
    ports !! i = Some port ∧ getaddrinfo sys family (Some host) (to_string port) = inr ai ∧ ais !! i = Some ai.

Lemma resolve_hosts_resolved sys family hosts : ∀ ports ais,
  resolve_hosts sys family hosts ports = inr ais ↔ resolved sys family hosts ports ais.
Proof.
  induction hosts as [|host hosts IH]; intros ports ais; cbn [resolve_hosts].
  { split; [by intros [= <-]|]. intros [Hl _]. by destruct ais. }
  split.
  - destruct ports as [|port ports]; [done|]. destruct (getaddrinfo sys family (Some host) _) as [|ai] eqn:Eg; [done|].
    destruct (resolve_hosts sys family hosts ports) as [|ais'] eqn:Er; [done|]. intros [= <-].
    apply IH in Er as [Hl Hi]. split; [cbn; by rewrite Hl|]. intros [|i] h; cbn; [|apply Hi].
    intros [= <-]. by exists port, ai.
  - intros [Hl Hi]. destruct (Hi 0%nat host eq_refl) as (port & ai & Hp & Eg & Ha).
    destruct ports as [|port' ports]; [done|]. destruct ais as [|ai' ais]; [done|].
    cbn in Hp, Ha. injection Hp as ->. injection Ha as ->. rewrite Eg.
    rewrite (proj2 (IH ports ais)); [done|]. split; [by injection Hl|]. intros i. apply (Hi (S i)).
Qed.

(** What the options of the socket come to. *)
Definition configured (st : gmap (Z * Z) (list Z)) (timeout tos : Z) : Prop :=
  st !! (IPPROTO_IP, IP_TOS) = Some [tos] ∧ st !! (IPPROTO_IP, IP_TTL) = Some [255] ∧
  st !! (IPPROTO_IP, IP_RECVTTL) = Some [1] ∧ st !! (IPPROTO_IP, IP_RECVTOS) = Some [1] ∧
  st !! (SOL_SOCKET, SO_TIMESTAMPNS) = Some (le_bytes 4 1) ∧
  st !! (SOL_SOCKET, SO_RCVTIMEO) =
    (if decide (timeout = 0) then None else Some (le_bytes 8 timeout ++ le_bytes 8 0)).

Lemma setup_socket_ok sys timeout tos : (∀ o, setsockopt sys o = 0) →
  setup_socket sys timeout tos =
    ((set_socket_options (λ _, 0) HDR_TTL timeout).1 ++ (set_socket_tos (λ _, 0) tos).1, "").
Proof.
  intros Hok. unfold setup_socket, set_socket_options, set_socket_tos, try_option. rewrite !Hok.
  by destruct (negb (timeout =? 0)).
Qed.

Lemma configured_ok f timeout tos : (∀ o, f o = 0) →
  configured (socket_state f ((set_socket_options (λ _, 0) HDR_TTL timeout).1 ++ (set_socket_tos (λ _, 0) tos).1))
    timeout tos.
Proof.
  intros Hf. replace (socket_state f _) with (socket_state (λ _, 0)
    ((set_socket_options (λ _, 0) HDR_TTL timeout).1 ++ (set_socket_tos (λ _, 0) tos).1)).
  - apply socket_options_final.
  - unfold socket_state. generalize (∅ : gmap (Z * Z) (list Z)). generalize ((set_socket_options (λ _, 0) HDR_TTL timeout).1 ++
      (set_socket_tos (λ _, 0) tos).1). intros l. induction l as [|o l IH]; intros m; cbn [foldl]; [done|]. rewrite Hf. apply IH.
Qed.

Lemma create_stats_ok {S} `{SqaStats S} sys (st : Stats S) : create_stats sys = inr st →
  st = Stats_create ∧ ∀ k, (k < 4)%nat → allocated sys k = true.
Proof.
  unfold create_stats. destruct (allocated sys 0) eqn:E0, (allocated sys 1) eqn:E1, (allocated sys 2) eqn:E2,
    (allocated sys 3) eqn:E3; cbn [negb]; try done. intros [= <-]. split; [done|].
  intros [|[|[|[|k]]]] Hk; (done || lia).
Qed.

(** The three kinds of exceptions of the constructor. *)
Lemma Client_construct_throws {S} `{SqaStats S} sys args what text :
  Client_construct (S:=S) sys args = Some (RuntimeError what text) →
  (∃ family e, socket sys family = Some e ∧ what = "Failed to create socket: " +:+ e) ∨
  (∃ addr e, bind sys addr = Some e ∧ what = "Failed to bind socket: " +:+ e) ∨
  (∃ k member, allocated sys k = false ∧ what = allocation_failed member ∧
     ["stats_RTT"; "stats_internal"; "stats_client_server"; "stats_server_client"] !! k = Some member).
Proof.
  unfold Client_construct. destruct (family_of _) as [family|]; [|done].
  destruct (resolve_hosts _ _ _ _) as [|ais]; [done|]. destruct (getaddrinfo _ _ _ _) as [|local]; [done|].
  destruct (head ais) as [remote|]; [|done]. cbn [mbind option_bind].
  destruct (socket sys _) as [e|] eqn:Es; [intros [= <- _]; left; eauto|]. destruct (setup_socket _ _ _).
  destruct (bind sys _) as [e|] eqn:Eb; [intros [= <- _]; right; left; eauto|]. unfold create_stats.
  intros E. right; right.
  destruct (allocated sys 0) eqn:E0; cbn [negb] in E; [|injection E as <- _; by exists 0%nat, "stats_RTT"].
  destruct (allocated sys 1) eqn:E1; cbn [negb] in E; [|injection E as <- _; by exists 1%nat, "stats_internal"].
  destruct (allocated sys 2) eqn:E2; cbn [negb] in E; [|injection E as <- _; by exists 2%nat, "stats_client_server"].
  destruct (allocated sys 3) eqn:E3; cbn [negb] in E; [done|injection E as <- _; by exists 3%nat, "stats_server_client"].
Qed.

(** A client that was built. *)
Lemma Client_construct_built {S} `{SqaStats S} sys args (b : Args * list addrinfo * Client S) options err :
  Client_construct sys args = Some (Built b options err) →
  ∃ family ais local remote, family_of (ip_version args) = Some family ∧
    resolved sys family (remote_hosts args) (remote_ports args) ais ∧
    getaddrinfo sys family (node (local_host args)) (local_port args) = inr local ∧
    head ais = Some remote ∧ socket sys (ai_family remote) = None ∧ bind sys (ai_addr local) = None ∧
    (∀ k, (k < 4)%nat → allocated sys k = true) ∧
    setup_socket sys (timeout args) (snd_tos args) = (options, err) ∧
    b = (match getsockname sys with
         | Some addr => {| args with local_port := to_string (bound_port addr) |}
         | None => args
         end, ais, Client_init (start_clock sys)).
Proof.
  unfold Client_construct. destruct (family_of _) as [family|]; [|done].
  destruct (resolve_hosts _ _ _ _) as [|ais] eqn:Er; [done|]. apply resolve_hosts_resolved in Er.
  destruct (getaddrinfo _ _ _ _) as [|local] eqn:El; [done|].
  destruct (head ais) as [remote|] eqn:Eh; [|done]. cbn [mbind option_bind].
  destruct (socket sys _) as [e|] eqn:Es; [done|]. destruct (setup_socket _ _ _) as [o w] eqn:Eo.
  destruct (bind sys _) as [e|] eqn:Eb; [done|]. destruct (create_stats sys) as [|st] eqn:Ec; [done|].
  apply create_stats_ok in Ec as [-> Hal]. intros [= <- <- <-].
  exists family, ais, local, remote. by repeat (split; [done|]).
Qed.

(** ** Properties *)

(** The addresses.  When the checks accept every positional argument, there is
    one host and one port between 1 and 65535 per argument, in order, so that the
    constructor never runs out of ports and, when names resolve, gets one remote
    address per argument. *)
Lemma addresses_resolved sys strs args args' family :
  family_of (ip_version args) ≠ None → remote_hosts args = [] → remote_ports args = [] →
  check_addresses strs args = inr args' →
  (∀ f h p, ∃ ai, getaddrinfo sys f h p = inr ai) →
  length (remote_hosts args') = length strs ∧ length (remote_ports args') = length strs ∧
  Forall (λ p, 1 ≤ p ≤ 65535) (remote_ports args') ∧
  ∃ ais, resolve_hosts sys family (remote_hosts args') (remote_ports args') = inr ais ∧
    length ais = length strs.
Proof.
  intros Hf Hh Hp E Hg. destruct (check_addresses_ok strs args args' Hf E) as (ips & ports & Hi & Hpo & Hall & E1 & E2).
  rewrite E1, E2, Hh, Hp. cbn [app].
  destruct (resolve_hosts_ok sys family ips ports Hg) as (ais & E3 & E4); [congruence|].
  split; [done|]. split; [done|]. split; [done|]. exists ais. split; [exact E3|congruence].
Qed.

(** A system where everything works; the socket gets port 50000. *)
Definition example_os : os := {|
  getaddrinfo := λ f _ _, inr (mkAddrinfo f (replicate 16 1));
  socket := λ _, None;
  setsockopt := λ _, 0;
  bind := λ _, None;
  getsockname := Some ([2; 0; 195; 80] ++ replicate 12 0);
  allocated := λ _, true;
  start_clock := 1700000000;
|}.

Lemma addresses_resolved_witness :
  ∃ args', check_addresses ["192.0.2.1:862"; "192.0.2.2:863"] Args_init = inr args' ∧
    length (remote_ports args') = 2%nat.
Proof.
  eexists. split; [vm_compute; reflexivity|].
  apply (addresses_resolved example_os ["192.0.2.1:862"; "192.0.2.2:863"] Args_init _ AF_INET);
    [discriminate|reflexivity|reflexivity|vm_compute; reflexivity|by eexists].
Defined.

(** The TOS option never leaves both ECN bits set: such a value loses its lowest
    bit; every other value is used as it is, and the DSCP bits never change. *)
Lemma adjust_tos_ecn tos : tos ∈u 8 →
  Z.land (adjust_tos tos) 3 ≠ 3 ∧ Z.shiftr (adjust_tos tos) 2 = Z.shiftr tos 2 ∧
  adjust_tos tos = (if decide (Z.land tos 3 = 3) then tos - 1 else tos).
Proof.
  intros Ht.
  assert (forallb (λ n, let t := Z.of_nat n in
    negb (Z.land (adjust_tos t) 3 =? 3) && (Z.shiftr (adjust_tos t) 2 =? Z.shiftr t 2) &&
    (adjust_tos t =? if Z.land t 3 =? 3 then t - 1 else t)) (seq 0 256) = true) as Hall
    by (vm_compute; reflexivity).
  rewrite forallb_forall in Hall. specialize (Hall (Z.to_nat tos)).
  rewrite in_seq, Z2Nat.id in Hall by (widths; lia). specialize (Hall ltac:(widths; lia)).
  apply andb_prop in Hall as [Hall H3%Z.eqb_eq]. apply andb_prop in Hall as [H1 H2%Z.eqb_eq].
  split; [by apply Z.eqb_neq, negb_true_iff|]. split; [done|]. rewrite H3.
  destruct (Z.eqb_spec (Z.land tos 3) 3); by case_decide.
Qed.

Lemma adjust_tos_ecn_witness : adjust_tos 187 = 186 ∧ adjust_tos 186 = 186.
Proof.
  split; [apply (adjust_tos_ecn 187)|apply (adjust_tos_ecn 186)]; by vm_compute.
Defined.

(** C37: when a client can be built, and what it is.  It is built exactly when the IP
    version is 4 or 6, every remote host has a port and resolves with it, the local
    address resolves, the socket is made for the family of the first remote address
    and bound to the local one, and all four statistics are allocated.  Then its
    remote addresses are those of the hosts, each with its own port, in order; its
    arguments are those given but for the local port, which is the decimal text of the
    port the system bound, so that the later [std::stoi] of it succeeds whatever was
    given on the command line; nothing is queued, listed or reported; and when no
    [setsockopt] fails, the socket reports TTL, TOS and nanosecond stamps of what it
    receives, sends with TTL 255 and the TOS asked for, and gives up a reception after
    the timeout, unless that is 0. *)
Theorem constructed_client {S} `{SqaStats S} sys args addr :
  getsockname sys = Some addr → bytes addr → remote_hosts args ≠ [] →
  ((∃ (b : Args * list addrinfo * Client S) options err, Client_construct sys args = Some (Built b options err)) ↔
   ∃ family ais local remote, family_of (ip_version args) = Some family ∧
     resolved sys family (remote_hosts args) (remote_ports args) ais ∧
     getaddrinfo sys family (node (local_host args)) (local_port args) = inr local ∧
     head ais = Some remote ∧ socket sys (ai_family remote) = None ∧ bind sys (ai_addr local) = None ∧
     ∀ k, (k < 4)%nat → allocated sys k = true) ∧
  ∀ args' ais (c : Client S) options err,
    Client_construct sys args = Some (Built (args', ais, c) options err) →
    (∃ family, family_of (ip_version args) = Some family ∧
       resolved sys family (remote_hosts args) (remote_ports args) ais) ∧
    args' = {| args with local_port := to_string (bound_port addr) |} ∧
    stoi (local_port args') = inr (bound_port addr) ∧ 0 ≤ bound_port addr < 65536 ∧
    repr c [] ∧ ObservationList.observations (observation_list c) = [] ∧ stats c = Stats_create ∧
    (sent_packets c, received_packets c, sending_completed c, collator_started c, collator_finished c) = (0, 0, 0, 0, 0) ∧
    ((∀ o, setsockopt sys o = 0) → err = "" ∧ configured (socket_state (setsockopt sys) options) (timeout args) (snd_tos args)).
Proof.
  intros Ha Hb Hne. split; [split|].
  - intros (b & options & err & E). apply Client_construct_built in E
      as (family & ais & local & remote & H1 & H2 & H3 & H4 & H5 & H6 & H7 & _).
    exists family, ais, local, remote. by repeat (split; [done|]).
  - intros (family & ais & local & remote & Hf & Hr & Hl & Hh & Hs & Hbi & Hal). unfold Client_construct, create_stats.
    rewrite Hf, (proj2 (resolve_hosts_resolved sys family _ _ ais) Hr), Hl, Hh. cbn [mbind option_bind]. rewrite Hs.
    destruct (setup_socket _ _ _). rewrite Hbi, !Hal by lia. by do 3 eexists.
  - intros args' ais c options err E. apply Client_construct_built in E
      as (family & ais' & local & remote & Hf & Hr & _ & _ & _ & _ & _ & Eo & [= -> -> ->]).
    rewrite Ha. split; [by exists family|]. split; [done|].
    assert (0 ≤ bound_port addr < 65536) as Hrange by (unfold bound_port; apply (htons_range (le_int (field 2 2 addr)))).
    split; [cbn [local_port]; rewrite to_string_pos by lia; apply stoi_to_dec; lia|]. split; [done|].
    split; [apply repr_init|]. do 3 (split; [done|]). intros Hok. rewrite (setup_socket_ok sys _ _ Hok) in Eo.
    injection Eo as <- <-. split; [done|]. by apply configured_ok.
Qed.

Definition example_service_args : Args :=
  {| Args_init with remote_hosts := ["192.0.2.1"]; remote_ports := [862]; local_port := "http" |}.

Lemma constructed_client_witness :
  match Client_construct (S:=SqaLog) example_os example_service_args with
  | Some (Built (args', _, _) _ _) => stoi (local_port args') = inr 50000
  | _ => False
  end.
Proof.
  destruct (Client_construct (S:=SqaLog) example_os example_service_args)
    as [[[[args' ais] c] options err|err|what err]|] eqn:E; try (vm_compute in E; discriminate).
  destruct (constructed_client (S:=SqaLog) example_os example_service_args ([2; 0; 195; 80] ++ replicate 12 0)
    eq_refl (ltac:(by repeat constructor)) (ltac:(done))) as [_ Hb].
  exact (proj1 (proj2 (proj2 (Hb args' ais c options err E)))).
Defined.
