(* ===== verification/Resources.v ===== *)
(** * Resources: what the constructors acquire and the destructors release

    The addresses of [getaddrinfo], the socket and the statistics of both programs,
    as lists of the resources in the order of the calls.  A destructor runs only for
    an object whose constructor has returned: not after an exception of the
    constructor, nor after [std::exit], which ends the process as it is. *)

From S2P Require Import Prelude Double Text Sockets Server Observations ClientState Collator Setup.

Inductive resource := RemoteAddress (i : nat) | LocalAddress | Socket | Statistics (k : nat).

#[export] Instance resource_eq_dec : EqDecision resource.
Proof. solve_decision. Defined.

(** ** [Client::Client] and [Client::~Client] *)

(** The remote addresses the loop over the hosts gets before it ends. *)
Fixpoint resolve_acquires (sys : os) (family : Z) (hosts : list string) (ports : list Z) (i : nat) : list resource :=
  match hosts, ports with
  | host :: hosts, port :: ports =>
      match getaddrinfo sys family (Some host) (to_string port) with
      | inl _ => []
      | inr _ => RemoteAddress i :: resolve_acquires sys family hosts ports (S i)
      end
  | _, _ => []
  end.

Definition statistics : list resource := Statistics <$> seq 0 4.

(** The statistics allocated until one call fails. *)
Definition create_acquires (sys : os) : list resource :=
  if negb (allocated sys 0) then [] else Statistics 0 ::
  if negb (allocated sys 1) then [] else Statistics 1 ::
  if negb (allocated sys 2) then [] else Statistics 2 ::
  if negb (allocated sys 3) then [] else [Statistics 3].

(** What the constructor acquires, up to where it ends. *)
Definition Client_acquires (sys : os) (args : Args) : list resource :=
  match family_of (ip_version args) with
  | None => []
  | Some family =>
      let remotes := resolve_acquires sys family (remote_hosts args) (remote_ports args) 0 in
      match resolve_hosts sys family (remote_hosts args) (remote_ports args) with
      | inl _ => remotes
      | inr remote_address_info =>
          match getaddrinfo sys family (node (local_host args)) (local_port args) with
          | inl _ => remotes
          | inr local_address_info =>
              remotes ++ LocalAddress ::
              match remote_address_info with
              | [] => []
              | remote :: _ =>
                  match socket sys (ai_family remote) with
                  | Some _ => []
                  | None => Socket :: match bind sys (ai_addr local_address_info) with
                                      | Some _ => []
                                      | None => create_acquires sys
                                      end
                  end
              end
          end
      end
  end.

(** The members that hold them: whether each pointer is not null, and the file
    descriptor is not -1. *)
Record handles := mkHandles { remote_address_info : list bool; local_address_info : bool; fd : bool }.

Definition Client_handles (sys : os) (args : Args) : handles :=
  let acquired := Client_acquires sys args in
  mkHandles ((λ i, bool_decide (RemoteAddress i ∈ acquired)) <$> seq 0 (length (remote_hosts args)))
    (bool_decide (LocalAddress ∈ acquired)) (bool_decide (Socket ∈ acquired)).

(** The loop of the destructor over the remote addresses. *)
Fixpoint free_remotes (addresses : list bool) (i : nat) : list resource :=
  match addresses with
  | [] => []
  | address :: addresses => (if address : bool then [RemoteAddress i] else []) ++ free_remotes addresses (S i)
  end.

Definition Client_destroy (h : handles) : list resource :=
  statistics ++ free_remotes (remote_address_info h) 0 ++
  (if local_address_info h then [LocalAddress] else []) ++ (if fd h then [Socket] else []).

(** ** [Server::Server] and [Server::~Server] *)

Definition Server_acquires (sys : os) (args : Server.Args) : list resource :=
  match family_of (Server.ip_version args) with
  | None => []
  | Some family =>
      match getaddrinfo sys family (node (Server.local_host args)) (Server.local_port args) with
      | inl _ => []
      | inr res =>
          LocalAddress :: match socket sys (ai_family res) with Some _ => [] | None => [Socket] end
      end
  end.

(** The [freeaddrinfo] at the end of the constructor. *)
Definition Server_frees : list resource := [LocalAddress].

Definition Server_destroy (fd : bool) : list resource := if fd then [Socket] else [].

(** ** Lemmas *)

Lemma resolve_acquires_ok sys family hosts : ∀ ports i ais, resolve_hosts sys family hosts ports = inr ais →
  resolve_acquires sys family hosts ports i = RemoteAddress <$> seq i (length hosts).
Proof.
  induction hosts as [|host hosts IH]; intros [|port ports] i ais; cbn [resolve_hosts resolve_acquires]; try done.
  destruct (getaddrinfo sys family (Some host) _); [done|].
  destruct (resolve_hosts sys family hosts ports) as [|ais'] eqn:E; [done|]. intros _.
  by rewrite (IH ports (S i) ais' E).
Qed.

Lemma free_remotes_all n : ∀ i, free_remotes (replicate n true) i = RemoteAddress <$> seq i n.
Proof. induction n as [|n IH]; intros i; [done|]. cbn [replicate free_remotes]. by rewrite IH. Qed.

Lemma remotes_NoDup i n : NoDup (RemoteAddress <$> seq i n).
Proof. assert (Inj (=) (=) RemoteAddress) by (by intros ?? [=]). apply (NoDup_fmap_2 _), NoDup_seq. Qed.

Lemma Client_acquires_built {S} `{SqaStats S} sys args (b : Args * list addrinfo * Client S) options err :
  Client_construct sys args = Some (Built b options err) →
  Client_acquires sys args = (RemoteAddress <$> seq 0 (length (remote_hosts args))) ++ LocalAddress :: Socket :: statistics.
Proof.
  intros (family & ais & local & remote & Hf & Hr%resolve_hosts_resolved & Hl & Hh & Hs & Hb & Hal & _)%Client_construct_built.
  unfold Client_acquires, create_acquires. rewrite Hf, Hr, (resolve_acquires_ok _ _ _ _ 0 ais Hr), Hl.
  destruct ais as [|? ais]; [done|]. injection Hh as ->. by rewrite Hs, Hb, !Hal by lia.
Qed.

Lemma Client_handles_built {S} `{SqaStats S} sys args (b : Args * list addrinfo * Client S) options err :
  Client_construct sys args = Some (Built b options err) →
  Client_handles sys args = mkHandles (replicate (length (remote_hosts args)) true) true true.
Proof.
  intros E%Client_acquires_built. unfold Client_handles. rewrite E. f_equal.
  - apply list_eq. intros i. rewrite list_lookup_fmap.
    destruct (decide (i < length (remote_hosts args))%nat).
    + rewrite lookup_seq_lt, lookup_replicate_2 by done. cbn. f_equal. apply bool_decide_eq_true.
      apply elem_of_app. left. apply list_elem_of_fmap. exists i. split; [done|]. apply elem_of_seq. lia.
    + by rewrite lookup_seq_ge, lookup_ge_None_2 by (rewrite ?length_replicate; lia).
  - apply bool_decide_eq_true. set_solver.
  - apply bool_decide_eq_true. set_solver.
Qed.

(** ** Acquired and released *)

(** Resources.  A client that was built holds one address for each remote host, a
    local address, the socket and the four statistics, and its destructor releases
    each of them exactly once; a server that was built frees its address itself and
    closes its socket once.  A client whose constructor throws, be it for
    the socket or for a statistics, is not destroyed: then what was acquired is left,
    the addresses among it. *)
Lemma resources_released {S} `{SqaStats S} sys :
  (∀ args (b : Args * list addrinfo * Client S) options err,
     Client_construct sys args = Some (Built b options err) →
     Client_destroy (Client_handles sys args) ≡ₚ Client_acquires sys args ∧ NoDup (Client_acquires sys args)) ∧
  (∀ args options err, Server_construct sys args = Built () options err →
     Server_frees ++ Server_destroy (bool_decide (Socket ∈ Server_acquires sys args)) = Server_acquires sys args) ∧
  (∀ args what err, Client_construct (S:=S) sys args = Some (RuntimeError what err) →
     LocalAddress ∈ Client_acquires sys args ∧ RemoteAddress 0 ∈ Client_acquires sys args).
Proof.
  split; [|split].
  - intros args b options err E. rewrite (Client_handles_built sys args b options err E).
    rewrite (Client_acquires_built sys args b options err E). unfold Client_destroy.
    cbn [remote_address_info local_address_info fd]. rewrite free_remotes_all. split.
    + change (LocalAddress :: Socket :: statistics) with ([LocalAddress; Socket] ++ statistics).
      rewrite Permutation_app_comm, <- app_assoc. by apply Permutation_app_head.
    + apply NoDup_app. split; [apply remotes_NoDup|]. split.
      * intros r (i & -> & _)%list_elem_of_fmap. unfold statistics. simpl. set_solver.
      * apply (bool_decide_unpack _). vm_compute. exact I.
  - intros args options err. unfold Server_construct, Server_acquires. destruct (family_of _); [|done].
    destruct (getaddrinfo _ _ _ _) as [|res]; [done|]. by destruct (socket _ _).
  - intros args what err. unfold Client_construct, Client_acquires. destruct (family_of _) as [family|]; [|done].
    destruct (resolve_hosts _ _ _ _) as [|ais] eqn:Er; [done|]. rewrite (resolve_acquires_ok _ _ _ _ 0 ais Er).
    destruct (getaddrinfo sys family (node _) _) as [|local]; [done|].
    destruct (remote_hosts args) as [|host hosts].
    { destruct (remote_ports args); by injection Er as <-. }
    intros _. cbn [length seq fmap list_fmap app]. set_solver.
Qed.

Lemma resources_released_witness :
  Client_destroy (Client_handles example_os example_service_args) ≡ₚ
    [RemoteAddress 0; LocalAddress; Socket; Statistics 0; Statistics 1; Statistics 2; Statistics 3].
Proof.
  destruct (Client_construct (S:=SqaLog) example_os example_service_args)
    as [[b options err|err|what err]|] eqn:E; try (vm_compute in E; discriminate).
  exact (proj1 (proj1 (resources_released (S:=SqaLog) example_os) example_service_args b options err E)).
Defined.
