(* ===== verification/Program.v ===== *)
(** * Program: the three threads of the client ([main] of [src/client/main_client.cpp])

    [main] starts the receiver and the sender in threads of their own, prints the
    header, runs the collator itself unless the format is legacy without
    [--print-lost-packets], and joins the others.  A [program] is the client with
    the place each thread is at; a step of a thread is one critical section or one
    access to a member the threads share, with what the thread reads of its
    environment.  [process_observation], which takes no lock while it walks over the
    raw data, is a step for each entry it looks at and one to file the observation.
    A schedule is a list of steps. *)

From S2P Require Import Prelude Double Text Packets Timestamps Sockets Observations ClientState Collator CollatorRuns Sender ClientOutput Receiver Setup.

(** ** The places of the threads *)

Inductive sender_pc :=
  | SHead (index : Z)                            (** before the condition of the loop *)
  | SSent (sent_nsec index payload_len : Z)      (** [sendPacket] has returned *)
  | SLeft                                        (** out of the loop *)
  | SDone.

Inductive receiver_pc :=
  | RHead                                        (** before the condition of the loop *)
  | RAwait                                       (** in [recvmsg] *)
  | RQueue (obss : list QEDObservation) (rec : ReflectorPacket) (msg : msghdr) (payload_len incoming : Z)
                                                 (** observations still to enqueue, then the row *)
  | RMissed                                      (** before the check of the oldest entry *)
  | RLooked (oldest : option ptr)                (** after [getOldestEntry] *)
  | RDone.

Inductive main_pc :=
  | MHeader                                      (** before [printHeader] *)
  | MEnter                                       (** at the start of [runCollatorThread] *)
  | CHead                                        (** before the condition of its loop *)
  | CBody                                        (** before [isEmpty] *)
  | CPop                                         (** the queue was not empty *)
  | CFile (obs : QEDObservation)                 (** before [process_observation] *)
  | CSearch (obs : QEDObservation) (it : list ptr)
                                                 (** in its loop: the entries from the iterator on *)
  | CFound (obs : QEDObservation) (entry : ptr)  (** out of the loop with an entry *)
  | CCheck                                       (** the queue was empty *)
  | CLooked (oldest : option ptr)                (** after [getOldestEntry] *)
  | MJoin                                        (** waiting for the other threads *)
  | MDone.

Record program (S : Type) := mkProgram {
  state : Sender S;           (** the client, and what its sender has done to the outside *)
  sender_at : sender_pc;
  receiver_at : receiver_pc;
  main_at : main_pc;
  exited : option Z;          (** the code [std::exit] was called with *)
}.
Arguments mkProgram {S} _ _ _ _ _.
Arguments state {S} _.
Arguments sender_at {S} _.
Arguments receiver_at {S} _.
Arguments main_at {S} _.
Arguments exited {S} _.

Definition the_client {S} (m : program S) : Client S := client (state m).
Definition set_client {S} (c : Client S) (m : program S) : program S :=
  {| m with state := {| (state m) with client := c |} |}.

Inductive event :=
  | SenderStep (it : send_iteration)
  | ReceiverStep (it : recv_iteration)
  | MainStep (now : timespec).

Section Program.
Context {S : Type} `{SqaStats S}.
Variables (inet_ntop : Z → list Z → option string) (args : Args) (hosts : list (list Z)).

(** [Client::runSenderThread] *)
Definition sender_step (it : send_iteration) (m : program S) : option (program S) :=
  match sender_at m with
  | SHead index =>
      if negb (keep_sending args index) || runtime_over args it (the_client m)
      then Some {| m with sender_at := SLeft |}
      else '(sent, s) ← send_phase args hosts it index (state m);
           Some {| m with state := s;
                          sender_at := match sent with
                                       | Some (sent_nsec, payload_len) => SSent sent_nsec index payload_len
                                       | None => SHead (u32 (index + 1))
                                       end |}
  | SSent sent_nsec index payload_len =>
      Some {| (set_client (record_sent sent_nsec index payload_len (the_client m)) m) with sender_at := SHead (u32 (index + 1)) |}
  | SLeft => Some {| (set_client (set_sending_completed (u64 (now it)) (the_client m)) m) with sender_at := SDone |}
  | SDone => Some m
  end.

(** [Client::runReceiverThread] *)
Definition receiver_step (it : recv_iteration) (m : program S) : option (program S) :=
  match receiver_at m with
  | RHead =>
      Some {| m with receiver_at := if keep_receiving args (loop_time it) (the_client m) then RAwait else RDone |}
  | RAwait =>
      r ← await (response it);
      match r with
      | None => Some {| m with receiver_at := RMissed |}
      | Some (rec, msg, payload_len, incoming_timestamp) =>
          incoming ← incoming_nsec incoming_timestamp (recv_clock it);
          c ← count_response rec incoming (the_client m);
          obss ← response_observations rec payload_len incoming c;
          Some {| (set_client c m) with receiver_at := RQueue obss rec msg payload_len incoming |}
      end
  | RQueue (obs :: obss) rec msg payload_len incoming =>
      Some {| (set_client (enqueue_observation obs (the_client m)) m) with receiver_at := RQueue obss rec msg payload_len incoming |}
  | RQueue [] rec msg payload_len incoming =>
      r ← print_response inet_ntop args rec msg payload_len incoming (the_client m);
      Some match r with
           | inl (code, c) => {| (set_client c m) with exited := Some code |}
           | inr c => {| (set_client c m) with receiver_at := RHead |}
           end
  | RMissed =>
      Some {| m with receiver_at := RLooked (RawDataList.getOldestEntry (raw_data_list (the_client m))) |}
  | RLooked oldest =>
      c ← check_oldest args (check_clock it) oldest (the_client m);
      Some {| (set_client c m) with receiver_at := RHead |}
  | RDone => Some m
  end.

(** An iterator of the deque, [it] from its [end()]: valid until [pop_front] has
    removed the entry it is at.  ([push_back] would invalidate it too, but only the
    collator adds entries; [end()] itself is taken to stay valid.) *)
Definition valid_iterator (it : list ptr) (c : Client S) : bool :=
  (length it <=? length (RawDataList.observations (raw_data_list c)))%nat.

(** [main] between the constructor and the reports, with [Client::runCollatorThread] *)
Definition main_step (now : timespec) (m : program S) : option (program S) :=
  match main_at m with
  | MHeader =>
      Some {| (set_client (put (printHeader args) (the_client m)) m) with main_at := if runs_collator args then MEnter else MJoin |}
  | MEnter =>
      Some {| (set_client {| (the_client m) with collator_started := 1 |} m) with main_at := CHead |}
  | CHead =>
      Some {| m with main_at := if collator_finished (the_client m) =? 0 then CBody else MJoin |}
  | CBody =>
      Some {| m with main_at :=
                if negb (ObservationList.isEmpty (observation_list (the_client m))) then CPop else CCheck |}
  | CPop =>
      '(obs, q) ← ObservationList.popObservation (observation_list (the_client m));
      Some {| (set_client {| (the_client m) with observation_list := q |} m) with main_at := CFile obs |}
  | CFile obs =>
      Some {| m with main_at := CSearch obs (RawDataList.observations (raw_data_list (the_client m))) |}
  | CSearch obs [] =>
      c ← add_entry now obs (the_client m);
      Some {| (set_client c m) with main_at := CHead |}
  | CSearch obs (entry :: it) =>
      if valid_iterator (entry :: it) (the_client m) then
        r ← heap (the_client m) !! entry;
        Some {| m with main_at := if packet_id r =? o_packet_id obs then CFound obs entry else CSearch obs it |}
      else None
  | CFound obs entry =>
      c ← update_at obs entry (the_client m);
      Some {| (set_client c m) with main_at := CHead |}
  | CCheck =>
      Some {| m with main_at := CLooked (RawDataList.getOldestEntry (raw_data_list (the_client m))) |}
  | CLooked oldest =>
      c ← check_oldest args now oldest (the_client m);
      Some {| (set_client c m) with main_at := CHead |}
  | MJoin =>
      Some match sender_at m, receiver_at m with
           | SDone, RDone => {| m with main_at := MDone |}
           | _, _ => m
           end
  | MDone => Some m
  end.

(** One step; nothing happens after [std::exit], and [None] is undefined behaviour. *)
Definition step (e : event) (m : program S) : option (program S) :=
  match exited m with
  | Some _ => Some m
  | None =>
      match e with
      | SenderStep it => sender_step it m
      | ReceiverStep it => receiver_step it m
      | MainStep now => main_step now m
      end
  end.

Fixpoint run (schedule : list event) (m : program S) : option (program S) :=
  match schedule with
  | [] => Some m
  | e :: schedule => m ← step e m; run schedule m
  end.

(** The program after the constructor. *)
Definition start (c : Client S) : program S := mkProgram (mkSender c [] []) (SHead 0) RHead MHeader None.

(** ** Schedules *)

Lemma run_cons e es m m' : step e m = Some m' → run (e :: es) m = run es m'.
Proof. cbn [run]. by intros ->. Qed.

Lemma run_app es1 es2 m : run (es1 ++ es2) m = m ← run es1 m; run es2 m.
Proof. revert m. induction es1 as [|e es1 IH]; intros m; [done|]. cbn [app run]. destruct (step e m); [apply IH|done]. Qed.

Lemma run_snoc es e m : run (es ++ [e]) m = m ← run es m; step e m.
Proof. rewrite run_app. destruct (run es m) as [m'|]; [|done]. cbn. by destruct (step e m'). Qed.

Lemma step_sender it m : exited m = None → step (SenderStep it) m = sender_step it m.
Proof. unfold step. by intros ->. Qed.
Lemma step_receiver it m : exited m = None → step (ReceiverStep it) m = receiver_step it m.
Proof. unfold step. by intros ->. Qed.
Lemma step_main now m : exited m = None → step (MainStep now) m = main_step now m.
Proof. unfold step. by intros ->. Qed.

(** Acting on the oldest entry. *)
Lemma receiver_acts it oldest m : exited m = None → receiver_at m = RLooked oldest →
  step (ReceiverStep it) m =
    c ← check_oldest args (check_clock it) oldest (the_client m);
    Some {| (set_client c m) with receiver_at := RHead |}.
Proof. intros Hx Hp. rewrite step_receiver by done. unfold receiver_step. by rewrite Hp. Qed.
Lemma main_acts now oldest m : exited m = None → main_at m = CLooked oldest →
  step (MainStep now) m =
    c ← check_oldest args now oldest (the_client m);
    Some {| (set_client c m) with main_at := CHead |}.
Proof. intros Hx Hp. rewrite step_main by done. unfold main_step. by rewrite Hp. Qed.

(** ** A turn of a thread is an iteration of its loop *)

(** Undisturbed, the sender's steps from the head of its loop are [send_iteration_body]. *)
Lemma sender_turn it index m :
  exited m = None → sender_at m = SHead index →
  keep_sending args index = true → runtime_over args it (the_client m) = false →
  ∃ n, run (replicate n (SenderStep it)) m =
    s ← send_iteration_body args hosts it index (state m);
    Some {| m with state := s; sender_at := SHead (u32 (index + 1)) |}.
Proof.
  intros Hx Hp Hk Hr. destruct m as [s ? ? ? ?]. unfold the_client in *. cbn in *. subst.
  assert (step (SenderStep it) (mkProgram s (SHead index) receiver_at0 main_at0 None) =
    '(sent, s) ← send_phase args hosts it index s;
    Some (mkProgram s match sent with Some (n, len) => SSent n index len | None => SHead (u32 (index + 1)) end
            receiver_at0 main_at0 None)) as E.
  { unfold step, sender_step. cbn. unfold the_client. cbn. by rewrite Hk, Hr. }
  unfold send_iteration_body.
  destruct (send_phase args hosts it index s) as [[[[n len]|] s']|] eqn:Es.
  - exists 2%nat. cbn [replicate run]. rewrite E. reflexivity.
  - exists 1%nat. cbn [replicate run]. rewrite E. reflexivity.
  - exists 1%nat. cbn [replicate run]. by rewrite E.
Qed.

(** The enqueue steps of a response. *)
Lemma run_queue it obss rec msg len incoming : ∀ m,
  exited m = None → receiver_at m = RQueue obss rec msg len incoming →
  run (replicate (length obss) (ReceiverStep it)) m =
    Some {| (set_client (foldl (λ c obs, enqueue_observation obs c) (the_client m) obss) m)
              with receiver_at := RQueue [] rec msg len incoming |}.
Proof.
  induction obss as [|obs obss IH]; intros [s sp rp mp x] Hx Hp; cbn in Hx, Hp; subst.
  - unfold set_client, the_client. cbn. by destruct s.
  - cbn [length replicate run]. unfold step at 1, receiver_step. cbn [exited receiver_at mbind option_bind].
    rewrite IH by done. reflexivity.
Qed.

(** Undisturbed, the receiver's steps from [recvmsg] on are [receiver_iteration]. *)
Lemma receiver_turn it m :
  exited m = None → receiver_at m = RAwait →
  ∃ n, match receiver_iteration inet_ntop args it (the_client m) with
       | None => run (replicate n (ReceiverStep it)) m = None
       | Some (inr c) =>
           run (replicate n (ReceiverStep it)) m = Some {| (set_client c m) with receiver_at := RHead |}
       | Some (inl (code, c)) =>
           ∃ m', run (replicate n (ReceiverStep it)) m = Some m' ∧ exited m' = Some code ∧ the_client m' = c
       end.
Proof.
  intros Hx Hp. destruct m as [s sp rp mp x]. cbn in Hx, Hp. subst.
  unfold receiver_iteration, awaitAndHandleResponse, handleReflectorPacket, the_client. cbn [state].
  destruct (await (response it)) as [[[[[rec msg] len] ts]|]|] eqn:Ea; cbn [mbind option_bind].
  - destruct (incoming_nsec ts (recv_clock it)) as [incoming|] eqn:Ei; cbn [mbind option_bind]; cycle 1.
    { exists 1%nat. cbn [replicate run step exited]. unfold receiver_step. cbn. by rewrite Ea; cbn; rewrite Ei. }
    destruct (count_response rec incoming (client s)) as [c1|] eqn:Ec; cbn [mbind option_bind]; cycle 1.
    { exists 1%nat. cbn [replicate run step exited]. unfold receiver_step, the_client. cbn.
      by rewrite Ea; cbn; rewrite Ei; cbn; rewrite Ec. }
    destruct (response_observations rec len incoming c1) as [obss|] eqn:Eo; cbn [mbind option_bind]; cycle 1.
    { exists 1%nat. cbn [replicate run step exited]. unfold receiver_step, the_client. cbn.
      by rewrite Ea; cbn; rewrite Ei; cbn; rewrite Ec; cbn; rewrite Eo. }
    set (m1 := mkProgram (mkSender c1 (wire s) (slept s)) sp (RQueue obss rec msg len incoming) mp None).
    assert (step (ReceiverStep it) (mkProgram s sp RAwait mp None) = Some m1) as E1.
    { unfold step, receiver_step, the_client. cbn.
      by rewrite Ea; cbn; rewrite Ei; cbn; rewrite Ec; cbn; rewrite Eo. }
    set (c2 := foldl _ c1 obss). set (m2 := {| (set_client c2 m1) with receiver_at := RQueue [] rec msg len incoming |}).
    assert (run (replicate (length obss) (ReceiverStep it)) m1 = Some m2) as E2 by (by apply run_queue).
    assert (∀ n, run (replicate (1 + (length obss + n)) (ReceiverStep it)) (mkProgram s sp RAwait mp None) =
                 run (replicate n (ReceiverStep it)) m2) as E3.
    { intros n. cbn [Nat.add replicate run]. rewrite E1. cbn [mbind option_bind].
      by rewrite replicate_add, run_app, E2. }
    exists (1 + (length obss + 1))%nat. rewrite E3. cbn [replicate run].
    change (step (ReceiverStep it) m2) with (receiver_step it m2). unfold receiver_step.
    change (receiver_at m2) with (RQueue [] rec msg len incoming). change (the_client m2) with c2. cbn match.
    destruct (print_response _ _ _ _ _ _ c2) as [[[code c3]|c3]|]; cbn [mbind option_bind]; [by eexists|done|done].
  - unfold check_if_oldest_packet_should_be_processed.
    set (oldest := RawDataList.getOldestEntry (raw_data_list (client s))).
    assert (run (replicate 2 (ReceiverStep it)) (mkProgram s sp RAwait mp None) =
      Some (mkProgram s sp (RLooked oldest) mp None)) as E1.
    { cbn [replicate run]. rewrite step_receiver by done. unfold receiver_step at 1. cbn [receiver_at].
      rewrite Ea. cbn [mbind option_bind]. by rewrite step_receiver. }
    assert (run (replicate 3 (ReceiverStep it)) (mkProgram s sp RAwait mp None) =
      c ← check_oldest args (check_clock it) oldest (client s);
      Some (mkProgram (mkSender c (wire s) (slept s)) sp RHead mp None)) as E2.
    { change (replicate 3 (ReceiverStep it)) with (replicate 2 (ReceiverStep it) ++ [ReceiverStep it]).
      rewrite run_snoc, E1. cbn [mbind option_bind]. by rewrite step_receiver. }
    exists 3%nat. rewrite E2. by destruct (check_oldest _ _ _ _).
  - exists 1%nat. cbn [replicate run]. unfold step, receiver_step. cbn. by rewrite Ea.
Qed.

(** The steps of the search from an iterator on, and of what follows it. *)
Lemma search_turn now obs it m : exited m = None → main_at m = CSearch obs it →
  valid_iterator it (the_client m) = true →
  ∃ n, run (replicate n (MainStep now)) m =
    found ← find_entry (heap (the_client m)) (o_packet_id obs) it;
    c ← match found with Some entry => update_at obs entry (the_client m) | None => add_entry now obs (the_client m) end;
    Some {| (set_client c m) with main_at := CHead |}.
Proof.
  revert m. induction it as [|entry it IH]; intros [s sp rp mp x] Hx Hp Hv; cbn in Hx, Hp; subst;
    unfold the_client in *; cbn [state] in *.
  - exists 1%nat. cbn [replicate run find_entry mbind option_bind]. rewrite step_main by done. unfold main_step.
    cbn [main_at]. unfold the_client. cbn [state]. by destruct (add_entry _ _ _).
  - assert (step (MainStep now) (mkProgram s sp rp (CSearch obs (entry :: it)) None) =
      r ← heap (client s) !! entry;
      Some (mkProgram s sp rp (if packet_id r =? o_packet_id obs then CFound obs entry else CSearch obs it) None)) as E.
    { rewrite step_main by done. unfold main_step. cbn [main_at]. unfold the_client. cbn [state]. by rewrite Hv. }
    cbn [find_entry]. destruct (heap (client s) !! entry) as [r|]; cbn [mbind option_bind] in E |- *; cycle 1.
    { exists 1%nat. cbn [replicate run]. by rewrite E. }
    destruct (packet_id r =? o_packet_id obs).
    + exists 2%nat. cbn [replicate run]. rewrite E. cbn [mbind option_bind]. rewrite step_main by done.
      unfold main_step. cbn [main_at]. unfold the_client. cbn [state]. by destruct (update_at _ _ _).
    + destruct (IH (mkProgram s sp rp (CSearch obs it) None)) as [n En]; [done..|unfold valid_iterator in *|].
      { apply Nat.leb_le in Hv. apply Nat.leb_le. cbn [length state the_client] in *. unfold the_client. cbn. lia. }
      exists (Datatypes.S n). cbn [replicate run]. rewrite E. cbn [mbind option_bind]. exact En.
Qed.

(** Undisturbed, the collator's steps after the condition of its loop are
    [collator_iteration]. *)
Lemma collator_turn now m :
  exited m = None → main_at m = CBody →
  ∃ n, run (replicate n (MainStep now)) m =
    c ← collator_iteration args now (the_client m); Some {| (set_client c m) with main_at := CHead |}.
Proof.
  intros Hx Hp. destruct m as [s sp rp mp x]. cbn in Hx, Hp. subst.
  unfold collator_iteration, the_client. cbn [state].
  destruct (negb (ObservationList.isEmpty (observation_list (client s)))) eqn:Ee.
  - destruct (ObservationList.popObservation (observation_list (client s))) as [[obs q]|] eqn:Eq; cbn [mbind option_bind];
      cycle 1.
    { exists 2%nat. cbn [replicate run]. rewrite step_main by done. unfold main_step at 1. cbn [main_at].
      unfold the_client. cbn [state]. rewrite Ee. cbn [mbind option_bind]. rewrite step_main by done.
      unfold main_step. cbn [main_at]. unfold the_client. cbn [state]. by rewrite Eq. }
    set (c := {| (client s) with observation_list := q |}).
    set (m3 := mkProgram (mkSender c (wire s) (slept s)) sp rp
      (CSearch obs (RawDataList.observations (raw_data_list c))) None).
    assert (run (replicate 3 (MainStep now)) (mkProgram s sp rp CBody None) = Some m3) as E3.
    { cbn [replicate run]. rewrite step_main by done. unfold main_step at 1. cbn [main_at].
      unfold the_client. cbn [state]. rewrite Ee. cbn [mbind option_bind]. rewrite step_main by done.
      unfold main_step at 1. cbn [main_at]. unfold the_client. cbn [state]. rewrite Eq. cbn [mbind option_bind].
      rewrite step_main by done. reflexivity. }
    destruct (search_turn now obs (RawDataList.observations (raw_data_list c)) m3 eq_refl eq_refl) as [n En].
    { apply Nat.leb_le. done. }
    exists (3 + n)%nat. rewrite replicate_add, run_app, E3. cbn [mbind option_bind]. rewrite En.
    unfold process_observation. change (the_client m3) with c. by destruct (find_entry _ _ _) as [[]|].
  - exists 3%nat. cbn [replicate run]. rewrite step_main by done. unfold main_step at 1. cbn [main_at].
    unfold the_client. cbn [state]. rewrite Ee. cbn [mbind option_bind]. rewrite step_main by done.
    unfold main_step at 1. cbn [main_at]. unfold the_client. cbn [state mbind option_bind].
    rewrite step_main by done. unfold main_step at 1. cbn [main_at]. unfold the_client. cbn [state].
    unfold check_if_oldest_packet_should_be_processed. by destruct (check_oldest _ _ _ _).
Qed.

End Program.

(** ** Properties *)

(** The steps of the threads compose to the functions of the source.  Whatever
    places the other threads are at, a thread that runs undisturbed from the head of
    its loop to the next one does what one iteration does when it is read as a
    sequential function: the sender one [send_iteration_body], the receiver one
    [receiver_iteration] (or the exit in the middle of it), the collator one
    [collator_iteration]; and it is undefined exactly when that function is. *)
Lemma thread_turns {S} `{SqaStats S} inet_ntop args hosts (m : program S) : exited m = None →
  (∀ it index, sender_at m = SHead index → keep_sending args index = true → runtime_over args it (the_client m) = false →
    ∃ n, run inet_ntop args hosts (replicate n (SenderStep it)) m =
      s ← send_iteration_body args hosts it index (state m);
      Some {| m with state := s; sender_at := SHead (u32 (index + 1)) |}) ∧
  (∀ it, receiver_at m = RAwait →
    ∃ n, match receiver_iteration inet_ntop args it (the_client m) with
         | None => run inet_ntop args hosts (replicate n (ReceiverStep it)) m = None
         | Some (inr c) =>
             run inet_ntop args hosts (replicate n (ReceiverStep it)) m = Some {| (set_client c m) with receiver_at := RHead |}
         | Some (inl (code, c)) =>
             ∃ m', run inet_ntop args hosts (replicate n (ReceiverStep it)) m = Some m' ∧
               exited m' = Some code ∧ the_client m' = c
         end) ∧
  (∀ now, main_at m = CBody →
    ∃ n, run inet_ntop args hosts (replicate n (MainStep now)) m =
      c ← collator_iteration args now (the_client m); Some {| (set_client c m) with main_at := CHead |}).
Proof.
  intros Hx. split; [|split]; intros.
  - by apply sender_turn.
  - by apply receiver_turn.
  - by apply collator_turn.
Qed.

Lemma thread_turns_witness :
  ∃ n s, run (λ _ _, None) (example_args 2 0) example_hosts (replicate n (SenderStep (example_send 1700000000)))
           (start (client example_sender)) =
         Some {| (start (client example_sender)) with state := s; sender_at := SHead 1 |} ∧
         sent_packets (client s) = 2.
Proof.
  destruct (thread_turns (λ _ _, None) (example_args 2 0) example_hosts (start (client example_sender)) eq_refl)
    as [H _].
  destruct (H (example_send 1700000000) 0) as [n Hn]; [reflexivity|reflexivity|reflexivity|].
  exists n. eexists. split; [rewrite Hn; reflexivity|vm_compute; reflexivity].
Defined.
