(* ===== verification/ProgramSpec.v ===== *)
(** * ProgramSpec: what the threads of the client promise together

    The abstract client: a queue of observations, a list of entries and the entries
    reported so far, with three atomic actions.  A schedule in which the threads are
    [exclusive] refines it ([simulation]): the two checks of the oldest entry never
    overlap, and the receiver retires no entry while the collator is at it with an
    observation to file.  The abstract client's invariant says that its entries
    partition the observations. *)

From S2P Require Import Prelude Double Text Packets Timestamps Sockets Observations ClientState Collator CollatorRuns Sender ClientOutput Receiver Setup Program.

(** ** The abstract client *)

Record abstract := mkAbstract {
  a_enqueued : list QEDObservation;  (** all the observations enqueued so far *)
  a_queue : list QEDObservation;     (** those not filed yet *)
  a_listed : list RawData;
  a_reported : list RawData;         (** the entries the statistics were told, in order *)
}.

Definition a_start : abstract := mkAbstract [] [] [] [].

Inductive astep : abstract → abstract → Prop :=
  | a_enqueue obs a :
      astep a {| a with a_enqueued := a_enqueued a ++ [obs]; a_queue := a_queue a ++ [obs] |}
  | a_file added obs q a : a_queue a = obs :: q →
      astep a {| a with a_queue := q; a_listed := file added obs (a_listed a) |}
  | a_retire r es a : a_listed a = r :: es →
      astep a {| a with a_listed := es; a_reported := a_reported a ++ [r] |}.

(** An entry made at [added] from the observations [g], all of its packet. *)
Definition entry_of (r : RawData) (g : Z * list QEDObservation) : Prop :=
  r = foldl (λ r o, update_entry o r) (new_RawData g.1 (packet_id r)) g.2 ∧ g.2 ≠ [] ∧
  Forall (λ o, o_packet_id o = packet_id r) g.2.

(** The entries, reported or listed, partition the observations filed; those listed
    are of distinct packets. *)
Definition partitioned (a : abstract) : Prop :=
  NoDup (packet_id <$> a_listed a) ∧
  ∃ groups, Forall2 entry_of (a_reported a ++ a_listed a) groups ∧
    a_enqueued a ≡ₚ concat (snd <$> groups) ++ a_queue a.

(** ** Lemmas: the abstract client *)

Lemma file_cases added obs es :
  (Forall (λ r, packet_id r ≠ o_packet_id obs) es ∧
   file added obs es = es ++ [update_entry obs (new_RawData added (o_packet_id obs))]) ∨
  ∃ e1 r e2, es = e1 ++ r :: e2 ∧ packet_id r = o_packet_id obs ∧
    file added obs es = e1 ++ update_entry obs r :: e2.
Proof.
  induction es as [|r es [[HF E]|(e1 & r' & e2 & -> & Hr & E)]]; cbn [file].
  - by left.
  - destruct (Z.eqb_spec (packet_id r) (o_packet_id obs)); [right|left].
    + by exists [], r, es.
    + split; [by constructor|]. cbn [app]. by rewrite E.
  - right. destruct (Z.eqb_spec (packet_id r) (o_packet_id obs)).
    + by exists [], r, (e1 ++ r' :: e2).
    + exists (r :: e1), r', e2. cbn [app]. by rewrite E.
Qed.

Lemma entry_of_new added obs :
  entry_of (update_entry obs (new_RawData added (o_packet_id obs))) (added, [obs]).
Proof.
  unfold entry_of. rewrite packet_id_update. cbn [fst snd foldl packet_id new_RawData].
  split; [done|]. split; [done|]. by repeat constructor.
Qed.

Lemma entry_of_update obs r g : packet_id r = o_packet_id obs → entry_of r g →
  entry_of (update_entry obs r) (g.1, g.2 ++ [obs]).
Proof.
  intros Hr (E & _ & Hg). unfold entry_of. rewrite packet_id_update. cbn [fst snd].
  rewrite foldl_app, <- E. split; [done|]. split; [by destruct g.2|].
  apply Forall_app. split; [done|]. by repeat constructor.
Qed.

Lemma astep_partitioned a a' : partitioned a → astep a a' → partitioned a'.
Proof.
  intros [HN (groups & HF & HP)] Hs. destruct Hs as [obs a|added obs q a Eq|r es a El].
  - split; [done|]. exists groups. split; [done|]. cbn. by rewrite HP, app_assoc.
  - split; [by apply file_ids|]. cbn [a_listed a_reported a_enqueued a_queue]. rewrite Eq in HP.
    destruct (file_cases added obs (a_listed a)) as [[_ ->]|(e1 & r & e2 & El & Hr & ->)].
    + exists (groups ++ [(added, [obs])]). split.
      * rewrite app_assoc. apply Forall2_app; [done|]. constructor; [apply entry_of_new|constructor].
      * rewrite HP, fmap_app, concat_app. cbn. by rewrite <- !app_assoc.
    + rewrite El, app_assoc in HF. apply Forall2_app_inv_l in HF as (g1 & g2 & HF1 & HF2 & ->).
      inversion HF2 as [|? g ? g2' Hg HF2']; subst.
      exists (g1 ++ (g.1, g.2 ++ [obs]) :: g2'). split.
      * rewrite app_assoc. apply Forall2_app; [done|]. constructor; [by apply entry_of_update|done].
      * rewrite HP, !fmap_app, !concat_app. cbn [fmap list_fmap snd concat]. rewrite <- !app_assoc.
        do 2 apply Permutation_app_head. cbn [app]. by rewrite Permutation_middle.
  - rewrite El in HN, HF. apply NoDup_cons in HN as [_ HN]. split; [done|]. exists groups.
    split; [|done]. cbn [a_reported a_listed]. by rewrite <- app_assoc.
Qed.

Lemma a_start_partitioned : partitioned a_start.
Proof. split; [by apply NoDup_nil_2|]. exists []. by split. Qed.

Lemma reachable_partitioned a : rtc astep a_start a → partitioned a.
Proof.
  intros Hr. cut (∀ a0, rtc astep a0 a → partitioned a0 → partitioned a).
  { intros Hc. exact (Hc _ Hr a_start_partitioned). }
  clear. induction 1; eauto using astep_partitioned.
Qed.

(** ** The refinement *)

(** The two checks of the oldest entry do not overlap, and no entry is retired while
    the collator is at it to file an observation. *)
Definition exclusive {S} (m : program S) : Prop :=
  match receiver_at m, main_at m with
  | RLooked _, CLooked _ => False
  | _, CSearch _ it => valid_iterator it (the_client m) = true
  | _, CFound _ entry => entry ∈ RawDataList.observations (raw_data_list (the_client m))
  | _, _ => True
  end.

(** What a step enqueues. *)
Definition sender_enqueues {S} (m : program S) : list QEDObservation :=
  match sender_at m with
  | SSent sent_nsec index payload_len =>
      if collator_started (the_client m) =? 0 then []
      else [make_QEDObservation CLIENT_SEND sent_nsec index payload_len]
  | _ => []
  end.
Definition receiver_enqueues {S} (m : program S) : list QEDObservation :=
  match receiver_at m with RQueue (obs :: _) _ _ _ _ => [obs] | _ => [] end.
Definition enqueues {S} (e : event) (m : program S) : list QEDObservation :=
  match exited m with
  | Some _ => []
  | None => match e with
            | SenderStep _ => sender_enqueues m
            | ReceiverStep _ => receiver_enqueues m
            | MainStep _ => []
            end
  end.

(** The clock readings of a step are normalised. *)
Definition good_event (e : event) : Prop :=
  match e with
  | SenderStep it => good_time (clock it)
  | ReceiverStep it => good_time (recv_clock it) ∧ good_time (check_clock it)
  | MainStep now => good_time now
  end.

(** The observation the collator has popped and not filed yet. *)
Definition in_hand (pc : main_pc) : list QEDObservation := match pc with CFile obs | CSearch obs _ | CFound obs _ => [obs] | _ => [] end.

Definition is_oldest {S} (c : Client S) (oldest : option ptr) : Prop :=
  ∀ p, oldest = Some p → head (RawDataList.observations (raw_data_list c)) = Some p.

(** None of these entries is of the observation's packet. *)
Definition absent {S} (c : Client S) (obs : QEDObservation) (l : list ptr) : Prop :=
  Forall (λ p, ∀ r, heap c !! p = Some r → packet_id r ≠ o_packet_id obs) l.

(** What the main thread knows at its places in the collator. *)
Definition main_place {S} (c : Client S) (pc : main_pc) : Prop :=
  let l := RawDataList.observations (raw_data_list c) in
  match pc with
  | CPop => ObservationList.observations (observation_list c) ≠ []
  | CSearch obs it => ∃ pre, l = pre ++ it ∧ absent c obs pre
  | CFound obs entry => ∃ l1 l2 r, l = l1 ++ entry :: l2 ∧ absent c obs l1 ∧
      heap c !! entry = Some r ∧ packet_id r = o_packet_id obs
  | CLooked oldest => is_oldest c oldest
  | _ => True
  end.

Record sim {S} `{SqaStats S} (m : program S) (a : abstract) : Prop := {
  sim_queue : a_queue a = in_hand (main_at m) ++ ObservationList.observations (observation_list (the_client m));
  sim_repr : repr (the_client m) (a_listed a);
  sim_stats : stats (the_client m) = retire_stats (a_reported a) Stats_create;
  sim_exclusive : exclusive m;
  sim_receiver : ∀ oldest, receiver_at m = RLooked oldest → is_oldest (the_client m) oldest;
  sim_main : main_place (the_client m) (main_at m);
}.

(** ** Lemmas: what a step leaves alone *)

(** The members the collator's entries live in. *)
Definition entries {S} (c : Client S) := (heap c, next c, raw_data_list c, stats c).

Section Frame.
Context {S : Type} `{SqaStats S} (inet_ntop : Z → list Z → option string) (args : Args) (hosts : list (list Z)).

Lemma send_to_hosts_frame errors p len rest : ∀ i (s : Sender S) b s',
  send_to_hosts errors p len i rest s = Some (b, s') →
  receiving_part (client s') = receiving_part (client s) ∧
  observation_list (client s') = observation_list (client s) ∧
  collator_started (client s') = collator_started (client s) ∧
  sending_completed (client s') = sending_completed (client s).
Proof.
  induction rest as [|a rest IH]; intros i s b s'; cbn [send_to_hosts]; [by intros [= _ <-]|].
  destruct (gather _); [|done]. cbn [mbind option_bind].
  destruct (errors i) as [text|]; [by intros [= _ <-]|].
  destruct (checked_i 32 _); [|done]. cbn [mbind option_bind]. intros (E1 & E2 & E3 & E4)%IH.
  by rewrite E1, E2, E3, E4.
Qed.

Lemma send_phase_frame it index (s : Sender S) r s' : send_phase args hosts it index s = Some (r, s') →
  receiving_part (client s') = receiving_part (client s) ∧
  observation_list (client s') = observation_list (client s) ∧
  collator_started (client s') = collator_started (client s) ∧
  sending_completed (client s') = sending_completed (client s).
Proof.
  unfold send_phase. destruct (select_randomly _ _) as [len|]; [|done]. cbn [mbind option_bind].
  destruct (inter_packet_delay args (gap it)) as [d|]; [|done]. cbn [mbind option_bind].
  unfold sendPacket. destruct (craftSenderPacket _ _) as [pkt|]; [|done]. cbn [mbind option_bind].
  destruct (send_to_hosts _ _ _ _ _ _) as [[b s1]|] eqn:E; [|done]. cbn [mbind option_bind].
  apply send_to_hosts_frame in E as (E1 & E2 & E3 & E4). destruct b.
  - destruct (timestamp_to_nsec _) as [n|]; [|done]. cbn [mbind option_bind]. by intros [= <- <-].
  - intros [= <- <-]. done.
Qed.

Lemma print_response_frame rec msg len incoming (c : Client S) r :
  print_response inet_ntop args rec msg len incoming c = Some r →
  let c' := match r with inl (_, c') => c' | inr c' => c' end in
  receiving_part c' = receiving_part c ∧ observation_list c' = observation_list c ∧
  collator_started c' = collator_started c ∧ sending_completed c' = sending_completed c.
Proof.
  unfold print_response. destruct (String.eqb _ _); [|by intros [= <-]].
  destruct (printReflectorPacket _ _ _ _ _ _ _) as [pr|]; [|done]. cbn [mbind option_bind].
  intros [= <-]. by destruct (p_exit pr).
Qed.

Lemma entries_of_receiving (c c' : Client S) : receiving_part c' = receiving_part c → entries c' = entries c.
Proof. unfold receiving_part, entries. by intros [= -> -> -> -> _ _]. Qed.

Lemma exclusive_ext (m m' : program S) : exclusive m → receiver_at m' = receiver_at m → main_at m' = main_at m →
  raw_data_list (the_client m') = raw_data_list (the_client m) → exclusive m'.
Proof. unfold exclusive, valid_iterator. by intros H' -> -> ->. Qed.

Lemma exclusive_search (m : program S) obs it : exclusive m → main_at m = CSearch obs it →
  valid_iterator it (the_client m) = true.
Proof. unfold exclusive. intros Hx Ep. rewrite Ep in Hx. by destruct (receiver_at m). Qed.

Lemma exclusive_found (m : program S) obs entry : exclusive m → main_at m = CFound obs entry →
  entry ∈ RawDataList.observations (raw_data_list (the_client m)).
Proof. unfold exclusive. intros Hx Ep. rewrite Ep in Hx. by destruct (receiver_at m). Qed.

(** A check leaves the heap and the queue alone, and removes at most the front. *)
Lemma check_oldest_list now oldest (c c' : Client S) : check_oldest args now oldest c = Some c' →
  heap c' = heap c ∧ observation_list c' = observation_list c ∧
  (raw_data_list c' = raw_data_list c ∨
   ∃ p, RawDataList.observations (raw_data_list c) = p :: RawDataList.observations (raw_data_list c')).
Proof.
  unfold check_oldest. destruct (get_timestamp _); [|done]. cbn [mbind option_bind].
  destruct (timestamp_to_nsec _); [|done]. cbn [mbind option_bind].
  destruct oldest as [p|]; [|intros [= <-]; by destruct (_ >? 0); auto].
  destruct (_ !! p); [|done]. cbn [mbind option_bind]. destruct (_ || _); [|intros [= <-]; auto].
  destruct (aggregateRawData _ _); [|done]. cbn [mbind option_bind]. unfold RawDataList.popObservation.
  destruct (RawDataList.observations (raw_data_list c)) as [|q l]; [done|]. cbn [mbind option_bind].
  intros [= <-]. cbn. eauto.
Qed.

Lemma main_place_ext (c c' : Client S) pc obss : heap c' = heap c → raw_data_list c' = raw_data_list c →
  ObservationList.observations (observation_list c') = ObservationList.observations (observation_list c) ++ obss →
  main_place c pc → main_place c' pc.
Proof.
  unfold main_place, absent, is_oldest. intros -> -> ->. destruct pc; try done.
  by destruct (ObservationList.observations _).
Qed.

(** The front is retired away from where the collator is. *)
Lemma main_place_pop (c c' : Client S) pc p : main_place c pc → heap c' = heap c →
  observation_list c' = observation_list c →
  RawDataList.observations (raw_data_list c) = p :: RawDataList.observations (raw_data_list c') →
  NoDup (RawDataList.observations (raw_data_list c)) →
  match pc with
  | CSearch _ it => valid_iterator it c' = true
  | CFound _ entry => entry ∈ RawDataList.observations (raw_data_list c')
  | CLooked _ => False
  | _ => True
  end → main_place c' pc.
Proof.
  unfold main_place, absent, valid_iterator. intros Hp Eh Eq El HN Hx. rewrite Eh, Eq, El in *.
  destruct pc as [| | | | |obs|obs it|obs entry| |oldest| |]; try done.
  - destruct Hp as ([|q pre] & E & HF).
    + cbn [app] in E. subst it. apply Nat.leb_le in Hx. cbn [length] in Hx. lia.
    + injection E as <- E. apply Forall_cons in HF as [_ HF]. by exists pre.
  - destruct Hp as ([|q l1] & l2 & r & E & HF & Hr & Hid).
    + injection E as <- E. by apply NoDup_cons in HN as [HN _].
    + injection E as <- E. apply Forall_cons in HF as [_ HF]. by exists l1, l2, r.
Qed.
End Frame.

(** ** Lemmas: the simulation *)

Lemma is_oldest_get {S} (c : Client S) : is_oldest c (RawDataList.getOldestEntry (raw_data_list c)).
Proof. intros p. unfold RawDataList.getOldestEntry. by destruct (RawDataList.observations _). Qed.

Lemma is_oldest_ext {S} (c c' : Client S) o : raw_data_list c' = raw_data_list c → is_oldest c o → is_oldest c' o.
Proof. unfold is_oldest. by intros ->. Qed.

Section Simulation.
Context {S : Type} `{SqaStats S} (inet_ntop : Z → list Z → option string) (args : Args) (hosts : list (list Z)).

(** What a step may do to the places: a thread that enters the check has just looked. *)
Definition places_ok (m m' : program S) : Prop :=
  (∀ o, receiver_at m' = RLooked o → receiver_at m = RLooked o ∨ is_oldest (the_client m') o) ∧
  (main_at m' = main_at m ∨ main_place (the_client m') (main_at m')).

(** A step that leaves the entries alone, and enqueues [obss]. *)
Lemma sim_keep (m m' : program S) a obss :
  sim m a → entries (the_client m') = entries (the_client m) →
  ObservationList.observations (observation_list (the_client m')) =
    ObservationList.observations (observation_list (the_client m)) ++ obss →
  in_hand (main_at m') = in_hand (main_at m) → exclusive m' → places_ok m m' →
  ∃ a', rtc astep a a' ∧ a_enqueued a' = a_enqueued a ++ obss ∧ sim m' a'.
Proof.
  intros [Eq R Es _ Hr Hm] [= Eh En El Est] Eo Ei Hx (P1 & P2).
  exists {| a with a_enqueued := a_enqueued a ++ obss; a_queue := a_queue a ++ obss |}. split.
  - clear Eq R Es Eo. revert a. induction obss as [|obs obss IH]; intros a.
    + rewrite !app_nil_r. by destruct a.
    + eapply rtc_l; [apply (a_enqueue obs)|].
      specialize (IH {| a with a_enqueued := a_enqueued a ++ [obs]; a_queue := a_queue a ++ [obs] |}).
      cbn in IH. by rewrite <- !app_assoc in IH.
  - split; [done|]. split; cbn [a_queue a_listed a_reported].
    + by rewrite Eo, Ei, Eq, app_assoc.
    + by apply (repr_ext (the_client m)).
    + congruence.
    + done.
    + intros o Ho. destruct (P1 o Ho) as [Ho'|]; [|done]. by apply (is_oldest_ext (the_client m)); [|apply Hr].
    + destruct P2 as [-> |]; [|done]. by eapply main_place_ext.
Qed.

Lemma sim_stay (m : program S) a : sim m a →
  ∃ a', rtc astep a a' ∧ a_enqueued a' = a_enqueued a ++ [] ∧ sim m a'.
Proof. intros Hs. exists a. by rewrite app_nil_r. Qed.

(** The check of the oldest entry by a thread that has looked at it. *)
Lemma sim_check now oldest (m : program S) a c :
  good_time now → sim m a → is_oldest (the_client m) oldest →
  check_oldest args now oldest (the_client m) = Some c →
  ∃ a', rtc astep a a' ∧ a_enqueued a' = a_enqueued a ∧ a_queue a' = a_queue a ∧ repr c (a_listed a') ∧
    stats c = retire_stats (a_reported a') Stats_create ∧ observation_list c = observation_list (the_client m) ∧
    ∀ r es, oldest ≠ None → a_listed a = r :: es → expired args now r = true → a_reported a' = a_reported a ++ [r].
Proof.
  intros Hn [Eq R Es _ _ _] Ho. destruct oldest as [p|]; cycle 1.
  { unfold check_oldest. destruct (get_timestamp now); [|done]. cbn [mbind option_bind].
    destruct (timestamp_to_nsec _); [|done]. cbn [mbind option_bind]. intros [= <-]. exists a.
    split; [done|]. split; [done|]. split; [done|]. destruct (sending_completed (the_client m) >? 0); [|done].
    split; [by apply (repr_ext (the_client m))|done]. }
  specialize (Ho p eq_refl). intros E.
  assert (check_if_oldest_packet_should_be_processed args now (the_client m) = Some c) as E'.
  { unfold check_if_oldest_packet_should_be_processed, RawDataList.getOldestEntry.
    destruct (RawDataList.observations _) as [|q ?] eqn:El; [done|]. by injection Ho as ->. }
  destruct (check_spec args now (the_client m) (a_listed a) Hn R) as (c' & E2 & Hc).
  assert (c' = c) as -> by congruence. destruct (a_listed a) as [|r es] eqn:El.
  { destruct R as [HL _ _]. inversion HL as [HL'|]. by rewrite <- HL' in Ho. }
  fold (expired args now r) in Hc. destruct (expired args now r) eqn:Ex.
  - destruct Hc as [-> R']. exists {| a with a_listed := es; a_reported := a_reported a ++ [r] |}.
    split; [apply rtc_once; by apply a_retire|]. split; [done|]. split; [done|]. split; [done|].
    split; [cbn [a_reported put stats]; unfold retire_stats in *; by rewrite foldl_snoc, Es|].
    split; [done|]. by intros r' es' _ [= <- _].
  - subst c. exists a. rewrite El. do 6 (split; [done|]). intros r' es' _ [= <- _]. by rewrite Ex.
Qed.

(** A thread acting on the oldest entry; when it has seen one that may be retired, it
    is reported. *)
Lemma receiver_act_sim it oldest (m : program S) a m' : good_time (check_clock it) → sim m a →
  receiver_at m = RLooked oldest → receiver_step inet_ntop args it m = Some m' → exclusive m' →
  ∃ a', rtc astep a a' ∧ a_enqueued a' = a_enqueued a ++ [] ∧ sim m' a' ∧
    ∀ r es, oldest ≠ None → a_listed a = r :: es → expired args (check_clock it) r = true →
      a_reported a' = a_reported a ++ [r].
Proof.
  intros Hn Hs Ep E Hx. unfold receiver_step in E. rewrite Ep in E.
  destruct (check_oldest args (check_clock it) oldest (the_client m)) as [c|] eqn:Ec; [|done].
  cbn [mbind option_bind] in E. injection E as <-.
  destruct (sim_check (check_clock it) oldest m a c Hn Hs) as (a' & Ha & Een & Eq & R & Es & Eo & Hret);
    [by eapply sim_receiver|done|].
  exists a'. split; [done|]. split; [by rewrite app_nil_r|]. split; [|exact Hret].
  destruct Hs as [Hq R0 _ Hx' _ Hp]. split; try done.
  - rewrite Eq, Hq. unfold the_client at 2. cbn. by rewrite Eo.
  - destruct (check_oldest_list args _ _ _ _ Ec) as (Eh & Eob & [El|[p El]]).
    + eapply (main_place_ext (the_client m) c _ []); [done|done|by rewrite Eob, app_nil_r|exact Hp].
    + apply (main_place_pop (the_client m) c _ p); try done; [by destruct R0|].
      unfold exclusive in Hx, Hx'. rewrite Ep in Hx'. cbn in Hx. by destruct (main_at m).
Qed.

Lemma main_act_sim now oldest (m : program S) a m' : good_time now → sim m a →
  main_at m = CLooked oldest → main_step args now m = Some m' → exclusive m' →
  ∃ a', rtc astep a a' ∧ a_enqueued a' = a_enqueued a ++ [] ∧ sim m' a' ∧
    ∀ r es, oldest ≠ None → a_listed a = r :: es → expired args now r = true →
      a_reported a' = a_reported a ++ [r].
Proof.
  intros Hn Hs Ep E Hx. unfold main_step in E. rewrite Ep in E.
  destruct (check_oldest args now oldest (the_client m)) as [c|] eqn:Ec; [|done].
  cbn [mbind option_bind] in E. injection E as <-.
  destruct (sim_check now oldest m a c Hn Hs) as (a' & Ha & Een & Eq & R & Es & Eo & Hret); [by pose proof (sim_main _ _ Hs) as Hp; rewrite Ep in Hp|done|].
  exists a'. split; [done|]. split; [by rewrite app_nil_r|]. split; [|exact Hret].
  destruct Hs as [Hq _ _ Hx' _ _]. split; try done.
  - rewrite Eq, Hq, Ep. unfold the_client at 2. cbn. by rewrite Eo.
  - intros o Ho. unfold exclusive in Hx'. cbn in Ho. by rewrite Ho, Ep in Hx'.
Qed.

(** A step that touches neither the entries nor the queue. *)
Ltac keep := eapply (sim_keep _ _ _ []); [eassumption|done|by rewrite app_nil_r|done|done|];
  repeat split; try done; by left.

Lemma sender_sim it m a m' : sim m a → sender_step args hosts it m = Some m' → exclusive m' →
  ∃ a', rtc astep a a' ∧ a_enqueued a' = a_enqueued a ++ sender_enqueues m ∧ sim m' a'.
Proof.
  intros Hs E Hx. unfold sender_step in E. unfold sender_enqueues. destruct (sender_at m) as [index|n index len| |].
  - destruct (_ || _); [injection E as <-; keep|].
    destruct (send_phase args hosts it index (state m)) as [[r s]|] eqn:Ep; [|done].
    apply send_phase_frame in Ep as (E1 & E2 & _). cbn [mbind option_bind] in E. injection E as <-.
    apply (sim_keep m _ a []); try done.
    + by apply entries_of_receiving.
    + rewrite app_nil_r. unfold the_client. cbn [state]. by rewrite E2.
    + repeat split; try done; by left.
  - injection E as <-. destruct (record_sent_fields n index len (the_client m)) as (Eo & _ & _ & _ & _ & _ & Er).
    eapply (sim_keep m _ a); [done|by apply entries_of_receiving|exact Eo|done|done|repeat split; try done; by left].
  - injection E as <-. keep.
  - injection E as <-. by apply sim_stay.
Qed.

Lemma receiver_sim it m a m' : good_time (check_clock it) → sim m a →
  receiver_step inet_ntop args it m = Some m' → exclusive m' →
  ∃ a', rtc astep a a' ∧ a_enqueued a' = a_enqueued a ++ receiver_enqueues m ∧ sim m' a'.
Proof.
  intros Hn Hs E Hx. unfold receiver_step in E. unfold receiver_enqueues.
  destruct (receiver_at m) as [| |obss rec msg len incoming| |oldest|] eqn:Ep.
  - injection E as <-. eapply (sim_keep m _ a []); try done; [by rewrite app_nil_r|].
    split; [|by left]. cbn. by destruct (keep_receiving _ _ _).
  - destruct (await (response it)) as [[[[[rec msg] len] ts]|]|]; cbn [mbind option_bind] in E; [| |done].
    + destruct (incoming_nsec ts (recv_clock it)) as [incoming|]; [|done]. cbn [mbind option_bind] in E.
      unfold count_response in E. destruct (checked_i 32 _); [|done]. cbn [mbind option_bind] in E.
      destruct (response_observations _ _ _ _) as [obss|]; [|done]. cbn [mbind option_bind] in E.
      injection E as <-. keep.
    + injection E as <-. keep.
  - destruct obss as [|obs obss].
    + destruct (print_response _ _ _ _ _ _ _) as [r|] eqn:Er; [|done]. cbn [mbind option_bind] in E.
      apply print_response_frame in Er as (E1 & E2 & _). injection E as <-.
      apply (sim_keep m _ a []); try done.
      * apply entries_of_receiving. by destruct r as [[]|].
      * rewrite app_nil_r. destruct r as [[]|]; unfold the_client; cbn; by rewrite E2.
      * by destruct r as [[]|].
      * split; [|destruct r as [[]|]; by left]. intros o. destruct r as [[]|]; cbn; [|done]. by rewrite Ep.
    + injection E as <-. eapply (sim_keep m _ a [obs]); try done. repeat split; try done; by left.
  - injection E as <-. eapply (sim_keep m _ a []); try done; [by rewrite app_nil_r|].
    split; [|by left]. intros o [= <-]. right. apply is_oldest_get.
  - destruct (receiver_act_sim it oldest m a m') as (a' & ? & ? & ? & _); try done; [|by exists a'].
    unfold receiver_step. by rewrite Ep.
  - injection E as <-. by apply sim_stay.
Qed.

(** The entries of a part of the list that is without the observation's packet. *)
Lemma absent_entries (c : Client S) obs l es :
  absent c obs l → Forall2 (λ p r, heap c !! p = Some r) l es → Forall (λ r, packet_id r ≠ o_packet_id obs) es.
Proof.
  intros Ha HF. induction HF as [|p r l es Hp _ IH]; [done|]. apply Forall_cons in Ha as [Hr Ha].
  constructor; [by apply Hr|by apply IH].
Qed.

(** The end of filing: the collator adds an entry, or updates the one it has found. *)
Lemma add_entry_sim now obs (m : program S) a c : good_time now → sim m a → main_at m = CSearch obs [] →
  add_entry now obs (the_client m) = Some c →
  ∃ a', rtc astep a a' ∧ a_enqueued a' = a_enqueued a ++ [] ∧ sim {| (set_client c m) with main_at := CHead |} a'.
Proof.
  intros Hn [Hq R Es _ Hr Hp] Ep Ec. rewrite Ep in Hq, Hp. destruct Hp as (pre & El & Ha). rewrite app_nil_r in El.
  rewrite <- El in Ha. pose proof (absent_entries _ _ _ _ Ha (repr_lookup _ _ R)) as Habs.
  destruct (add_entry_file now obs (the_client m) (a_listed a) Hn R Habs) as (h & l & E & R' & El').
  rewrite Ec in E. injection E as ->.
  eexists. split; [apply rtc_once; eapply (a_file (now_nsec now) obs); exact Hq|]. split; [by rewrite app_nil_r|].
  split; try done.
  - unfold exclusive. cbn. by destruct (receiver_at m).
  - intros o Ho p ->. specialize (Hr _ Ho p eq_refl). cbn. rewrite El'. by destruct (RawDataList.observations _).
Qed.

Lemma update_at_sim (now : Z) obs entry (m : program S) a c : sim m a → main_at m = CFound obs entry →
  update_at obs entry (the_client m) = Some c →
  ∃ a', rtc astep a a' ∧ a_enqueued a' = a_enqueued a ++ [] ∧ sim {| (set_client c m) with main_at := CHead |} a'.
Proof.
  intros [Hq R Es _ Hr Hp] Ep Ec. rewrite Ep in Hq, Hp. destruct Hp as (l1 & l2 & r & El & Ha & Hrr & Hid).
  pose proof (repr_lookup _ _ R) as HL. rewrite El in HL.
  apply Forall2_app_inv_l in HL as (e1 & es2 & HL1 & HL2 & Ees). inversion HL2 as [|? r' ? e2 Hr' HL3]; subst es2.
  assert (r' = r) as -> by congruence. pose proof (absent_entries _ _ _ _ Ha HL1) as Habs. rewrite Ees in R.
  destruct (update_at_file now obs (the_client m) l1 entry l2 e1 r e2) as (h & E & R'); try done.
  { by eapply Forall2_length. }
  rewrite Ec in E. injection E as ->. rewrite <- Ees in R'.
  eexists. split; [apply rtc_once; eapply (a_file now obs); exact Hq|]. split; [by rewrite app_nil_r|].
  split; try done. unfold exclusive. cbn. by destruct (receiver_at m).
Qed.

(** A step of the main thread that changes its place only. *)
Ltac keep_main Ep := eapply (sim_keep _ _ _ []); [eassumption|done|by rewrite app_nil_r|rewrite Ep; cbn|done|
  split; [by left|right; cbn]].

Lemma main_sim now m a m' : good_time now → sim m a → main_step args now m = Some m' → exclusive m' →
  ∃ a', rtc astep a a' ∧ a_enqueued a' = a_enqueued a ++ [] ∧ sim m' a'.
Proof.
  intros Hn Hs E Hx. unfold main_step in E.
  destruct (main_at m) as [| | | | |obs|obs [|entry it]|obs entry| |oldest| |] eqn:Ep.
  - injection E as <-. keep_main Ep; by destruct (runs_collator _).
  - injection E as <-. by keep_main Ep.
  - injection E as <-. keep_main Ep; by destruct (_ =? _).
  - injection E as <-. keep_main Ep; unfold ObservationList.isEmpty;
      destruct (ObservationList.observations _) eqn:Eo; try done. unfold the_client in *. cbn. by rewrite Eo.
  - unfold ObservationList.popObservation in E.
    destruct (ObservationList.observations _) as [|obs q] eqn:Eo; [done|]. cbn [mbind option_bind] in E.
    injection E as <-. exists a. split; [done|]. split; [by rewrite app_nil_r|]. destruct Hs as [Hq R Es _ Hr _].
    split; [by rewrite Hq, Ep, Eo|by apply (repr_ext (the_client m))|exact Es|done| |done].
    intros o Ho. apply (is_oldest_ext (the_client m)); [done|by apply Hr].
  - injection E as <-. keep_main Ep; [done|]. exists []. by split; [|constructor].
  - destruct (add_entry now obs (the_client m)) as [c|] eqn:Ec; [|done]. cbn [mbind option_bind] in E.
    injection E as <-. by eapply add_entry_sim.
  - destruct (valid_iterator _ _); [|done]. destruct (heap (the_client m) !! entry) as [r|] eqn:Er; [|done].
    cbn [mbind option_bind] in E. injection E as <-. pose proof (sim_main _ _ Hs) as Hp. rewrite Ep in Hp.
    destruct Hp as (pre & El & Ha). destruct (Z.eqb_spec (packet_id r) (o_packet_id obs)); keep_main Ep; try done.
    + by exists pre, it, r.
    + exists (pre ++ [entry]). rewrite <- app_assoc. split; [done|]. apply Forall_app. split; [done|].
      constructor; [|done]. intros r' Hr'. unfold the_client in *. cbn in Hr'. congruence.
  - destruct (update_at obs entry (the_client m)) as [c|] eqn:Ec; [|done]. cbn [mbind option_bind] in E.
    injection E as <-. by eapply (update_at_sim 0).
  - injection E as <-. keep_main Ep; [done|]. apply is_oldest_get.
  - destruct (main_act_sim now oldest m a m') as (a' & ? & ? & ? & _); try done; [|by exists a'].
    unfold main_step. by rewrite Ep.
  - injection E as <-. destruct (sender_at m), (receiver_at m); (by apply sim_stay) || idtac. by keep_main Ep.
  - injection E as <-. by apply sim_stay.
Qed.
End Simulation.

(** ** Runs *)

Section Runs.
Context {S : Type} `{SqaStats S} (inet_ntop : Z → list Z → option string) (args : Args) (hosts : list (list Z)).

(** The programs reached from [m0] while the threads are exclusive, with all the
    observations enqueued on the way. *)
Inductive runs (m0 : program S) : list QEDObservation → program S → Prop :=
  | runs_start : runs m0 [] m0
  | runs_step obss m e m' : runs m0 obss m → good_event e →
      step inet_ntop args hosts e m = Some m' → exclusive m' → runs m0 (obss ++ enqueues e m) m'.

Lemma step_sim e m a m' : good_event e → sim m a → step inet_ntop args hosts e m = Some m' → exclusive m' →
  ∃ a', rtc astep a a' ∧ a_enqueued a' = a_enqueued a ++ enqueues e m ∧ sim m' a'.
Proof.
  intros Hg Hs E Hx. unfold step in E. unfold enqueues. destruct (exited m); [injection E as <-; by apply sim_stay|].
  destruct e as [it|it|now]; [by eapply sender_sim|destruct Hg; by eapply receiver_sim|by eapply main_sim].
Qed.

Lemma sim_start now : sim (start (Client_init now : Client S)) a_start.
Proof. split; try done. apply repr_init. Qed.

Lemma runs_sim now obss m : runs (start (Client_init now)) obss m →
  ∃ a, rtc astep a_start a ∧ a_enqueued a = obss ∧ sim m a.
Proof.
  intros Hr. induction Hr as [|obss m e m' Hr (a & Ha & Hen & Hs) Hg E Hx].
  - exists a_start. split; [done|]. split; [done|apply sim_start].
  - destruct (step_sim e m a m' Hg Hs E Hx) as (a' & Ha' & Hen' & Hs'). exists a'.
    split; [by etrans|]. split; [by rewrite Hen', Hen|done].
Qed.

(** The same, computed. *)
Definition good_timeb (tv : timespec) : bool := (0 <=? tv_nsec tv) && (tv_nsec tv <? 10 ^ 9).
Definition good_eventb (e : event) : bool :=
  match e with
  | SenderStep it => good_timeb (clock it)
  | ReceiverStep it => good_timeb (recv_clock it) && good_timeb (check_clock it)
  | MainStep now => good_timeb now
  end.
Definition exclusiveb (m : program S) : bool :=
  match receiver_at m, main_at m with
  | RLooked _, CLooked _ => false
  | _, CSearch _ it => valid_iterator it (the_client m)
  | _, CFound _ entry => bool_decide (entry ∈ RawDataList.observations (raw_data_list (the_client m)))
  | _, _ => true
  end.

Fixpoint guarded (schedule : list event) (obss : list QEDObservation) (m : program S)
    : option (list QEDObservation * program S) :=
  match schedule with
  | [] => Some (obss, m)
  | e :: schedule =>
      m' ← step inet_ntop args hosts e m;
      if good_eventb e && exclusiveb m' then guarded schedule (obss ++ enqueues e m) m' else None
  end.

Lemma guarded_app es1 es2 : ∀ obss m,
  guarded (es1 ++ es2) obss m = '(obss, m) ← guarded es1 obss m; guarded es2 obss m.
Proof.
  induction es1 as [|e es1 IH]; intros obss m; [done|]. cbn [app guarded].
  destruct (step _ _ _ e m) as [m'|]; [|done]. cbn [mbind option_bind]. destruct (_ && _); [apply IH|done].
Qed.

Lemma good_timeb_spec tv : good_timeb tv = true → good_time tv.
Proof. unfold good_timeb, good_time. intros [?%Z.leb_le ?%Z.ltb_lt]%andb_prop. done. Qed.

Lemma good_eventb_spec e : good_eventb e = true → good_event e.
Proof.
  destruct e as [it|it|now]; cbn; [apply good_timeb_spec| |apply good_timeb_spec].
  intros [H1 H2]%andb_prop. auto using good_timeb_spec.
Qed.

Lemma exclusiveb_spec m : exclusiveb m = true → exclusive m.
Proof. unfold exclusiveb, exclusive. by destruct (receiver_at m), (main_at m); rewrite ?bool_decide_eq_true. Qed.

Lemma guarded_runs schedule m0 : ∀ obss m obss' m', runs m0 obss m →
  guarded schedule obss m = Some (obss', m') → runs m0 obss' m'.
Proof.
  induction schedule as [|e schedule IH]; intros obss m obss' m' Hr; cbn [guarded]; [by intros [= <- <-]|].
  destruct (step _ _ _ e m) as [m1|] eqn:E; [|done]. cbn [mbind option_bind].
  destruct (_ && _) eqn:Eg; [|done]. apply andb_prop in Eg as [?%good_eventb_spec ?%exclusiveb_spec].
  apply IH. by eapply runs_step.
Qed.
End Runs.

(** ** Properties *)

(** C3: the client refines the abstract one.  However its threads interleave, as long
    as they are exclusive (the checks of the oldest entry by the receiver and the
    collator do not overlap, and no entry is retired while the collator is at it to
    file an observation), what it keeps is that of an abstract client that enqueued
    the same observations: the queue holds those not filed, the list of pointers points to the
    listed entries, and the statistics have been told of exactly the reported
    entries, each once and in order, whatever implements them. *)
Theorem program_refines {S} `{SqaStats S} inet_ntop args hosts now obss (m : program S) :
  runs inet_ntop args hosts (start (Client_init now)) obss m →
  ∃ a, rtc astep a_start a ∧ a_enqueued a = obss ∧
    a_queue a = in_hand (main_at m) ++ ObservationList.observations (observation_list (the_client m)) ∧
    repr (the_client m) (a_listed a) ∧
    stats (the_client m) = retire_stats (a_reported a) Stats_create.
Proof.
  intros Hr. destruct (runs_sim inet_ntop args hosts now obss m Hr) as (a & Ha & Hen & []).
  by exists a.
Qed.

Definition raw_args : Args := Sender.example_args 1 0.
Definition main_steps (n : nat) : list event := replicate n (MainStep (mkTimespec 1700000001 0)).
Definition sender_steps (n : nat) : list event := replicate n (SenderStep (Sender.example_send 1700000000)).
Definition receiver_steps (n : nat) : list event := replicate n (ReceiverStep (example_recv 1700000001)).

(** The collator starts, one packet is sent, a reply comes in, and two of the four
    observations are filed. *)
Definition example_schedule : list event :=
  main_steps 2 ++ sender_steps 2 ++ receiver_steps 4 ++ main_steps 12 ++ receiver_steps 1.

Definition example_guarded : option (list QEDObservation * program SqaLog) :=
  guarded no_ntop raw_args [replicate 16 1] example_schedule [] (start (Client_init 1700000000)).

Lemma example_guarded_runs obss m : example_guarded = Some (obss, m) →
  runs no_ntop raw_args [replicate 16 1] (start (Client_init 1700000000)) obss m.
Proof. unfold example_guarded. apply guarded_runs, runs_start. Qed.

Lemma example_guarded_length : (λ p, length p.1) <$> example_guarded = Some 4%nat.
Proof. vm_compute. reflexivity. Qed.

Lemma example_guarded_some : ∃ obss m, example_guarded = Some (obss, m).
Proof.
  pose proof example_guarded_length as El. destruct example_guarded as [[obss m]|]; [by exists obss, m|done].
Qed.

Lemma program_refines_witness :
  ∃ obss m a, example_guarded = Some (obss, m) ∧ a_enqueued a = obss ∧ repr (the_client m) (a_listed a).
Proof.
  destruct example_guarded_some as (obss & m & E).
  destruct (program_refines no_ntop raw_args [replicate 16 1] 1700000000 obss m (example_guarded_runs obss m E))
    as (a & _ & Hen & _ & R & _).
  exists obss, m, a. split; [exact E|]. split; [exact Hen|exact R].
Defined.

(** C4: no observation is lost or counted twice.  In every such run the observations
    enqueued are those still waiting (in the queue or in the collator's hands) and
    those of the entries, each in exactly one entry, of its own packet; an entry is
    what its observations make of a new one; the statistics are those of the reported
    entries, and the entries still listed are of distinct packets. *)
Theorem observations_partitioned {S} `{SqaStats S} inet_ntop args hosts now obss (m : program S) :
  runs inet_ntop args hosts (start (Client_init now)) obss m →
  ∃ reported listed groups,
    obss ≡ₚ concat (snd <$> groups) ++ in_hand (main_at m) ++
              ObservationList.observations (observation_list (the_client m)) ∧
    Forall2 entry_of (reported ++ listed) groups ∧
    repr (the_client m) listed ∧ NoDup (packet_id <$> listed) ∧
    stats (the_client m) = retire_stats reported Stats_create.
Proof.
  intros Hr. destruct (runs_sim inet_ntop args hosts now obss m Hr) as (a & Ha & <- & [Hq R Hs _ _ _]).
  destruct (reachable_partitioned a Ha) as (HN & groups & HF & HP).
  exists (a_reported a), (a_listed a), groups. by rewrite <- Hq.
Qed.

Lemma observations_partitioned_witness :
  ∃ obss m reported listed, example_guarded = Some (obss, m) ∧ repr (the_client m) listed ∧
    stats (the_client m) = retire_stats reported Stats_create.
Proof.
  destruct example_guarded_some as (obss & m & E).
  destruct (observations_partitioned no_ntop raw_args [replicate 16 1] 1700000000 obss m
    (example_guarded_runs obss m E)) as (reported & listed & groups & _ & _ & R & _ & Hs).
  exists obss, m, reported, listed. split; [exact E|]. split; [exact R|exact Hs].
Defined.

(** C23: as long as the threads are exclusive, nothing the main thread does is
    undefined (no dangling pointer, no invalid iterator, no pop of an empty queue or
    list, no overflow), nor is the receiver's check; so the only ways to such a fault
    are the two races. *)
Theorem collator_defined {S} `{SqaStats S} inet_ntop args hosts now obss (m : program S) e :
  runs inet_ntop args hosts (start (Client_init now)) obss m → good_event e →
  match e with
  | MainStep _ => True
  | ReceiverStep _ => receiver_at m = RMissed ∨ ∃ oldest, receiver_at m = RLooked oldest
  | SenderStep _ => False
  end → is_Some (step inet_ntop args hosts e m).
Proof.
  intros Hr Hg He. destruct (runs_sim inet_ntop args hosts now obss m Hr) as (a & _ & _ & [Hq R _ Hx Hlr Hlm]).
  unfold step. destruct (exited m); [done|].
  assert (∀ now oldest, good_time now → is_oldest (the_client m) oldest →
    is_Some (check_oldest args now oldest (the_client m))) as Hcheck.
  { intros t oldest Ht Ho. destruct (check_spec args t (the_client m) (a_listed a) Ht R) as (c & E & _).
    unfold check_if_oldest_packet_should_be_processed in E. destruct oldest as [p|].
    - specialize (Ho p eq_refl). unfold RawDataList.getOldestEntry in E.
      destruct (RawDataList.observations _); [done|]. injection Ho as ->. by rewrite E.
    - unfold check_oldest. rewrite get_timestamp_exact by done. cbn [mbind option_bind].
      by rewrite timestamp_to_nsec_exact by (apply wf_ntp_of_timespec; done). }
  destruct e as [it|it|t]; [done|..].
  - destruct Hg as [_ Hg]. unfold receiver_step. destruct He as [-> | [oldest Ep]]; [done|]. rewrite Ep.
    destruct (Hcheck (check_clock it) oldest Hg (Hlr _ Ep)) as [c ->]. done.
  - unfold main_step. destruct (main_at m) as [| | | | |obs|obs [|entry it]|obs entry| |oldest| |] eqn:Ep; try done.
    + unfold ObservationList.popObservation. cbn in Hlm. by destruct (ObservationList.observations _).
    + destruct Hlm as (pre & El & Ha). rewrite app_nil_r in El. rewrite <- El in Ha.
      destruct (add_entry_file t obs (the_client m) (a_listed a) Hg R) as (h & l & -> & _); [|done].
      eapply absent_entries; [exact Ha|by destruct R].
    + rewrite (exclusive_search m obs (entry :: it) Hx Ep). destruct Hlm as (pre & El & _).
      destruct (Forall2_lookup_l _ _ _ (length pre) entry (repr_lookup _ _ R)) as (r & _ & Hrr);
        [by rewrite El, lookup_app_r, Nat.sub_diag by lia|]. by rewrite Hrr.
    + destruct Hlm as (_ & _ & r & _ & _ & Hrr & _). unfold update_at. by rewrite Hrr.
    + destruct (Hcheck t oldest Hg Hlm) as [c ->]. done.
Qed.

Lemma collator_defined_witness :
  ∃ obss m, example_guarded = Some (obss, m) ∧
    is_Some (step no_ntop raw_args [replicate 16 1] (MainStep (mkTimespec 1700000001 0)) m).
Proof.
  destruct example_guarded_some as (obss & m & E). exists obss, m. split; [exact E|].
  apply (collator_defined no_ntop raw_args [replicate 16 1] 1700000000 obss m
    (MainStep (mkTimespec 1700000001 0)) (example_guarded_runs obss m E)); [|exact I].
  unfold good_event, good_time. simpl. lia.
Defined.

(** ** More on runs *)

Section MoreRuns.
Context {S : Type} `{SqaStats S} (inet_ntop : Z → list Z → option string) (args : Args) (hosts : list (list Z)).

Lemma runs_trans (m0 m1 m2 : program S) o1 o2 :
  runs inet_ntop args hosts m0 o1 m1 → runs inet_ntop args hosts m1 o2 m2 →
  runs inet_ntop args hosts m0 (o1 ++ o2) m2.
Proof.
  intros H1 H2. induction H2 as [|o2 m e m' H2 IH Hg E Hx]; [by rewrite app_nil_r|].
  rewrite app_assoc. by eapply runs_step.
Qed.

(** A step of another thread leaves the main thread where it is and the entries in
    the list, unless the receiver acts on the oldest one. *)
Lemma other_step e (m m' : program S) :
  match e with MainStep _ => False | _ => True end → step inet_ntop args hosts e m = Some m' →
  main_at m' = main_at m ∧
  ObservationList.observations (observation_list (the_client m')) =
    ObservationList.observations (observation_list (the_client m)) ++ enqueues e m ∧
  (raw_data_list (the_client m') = raw_data_list (the_client m) ∨ ∃ o, receiver_at m = RLooked o).
Proof.
  unfold step, enqueues. destruct (exited m); [intros _ [= <-]; rewrite app_nil_r; auto|].
  destruct e as [it|it|now]; [intros _|intros _|done].
  - unfold sender_step, sender_enqueues. destruct (sender_at m) as [index|n index len| |].
    + destruct (_ || _); [intros [= <-]; rewrite app_nil_r; auto|].
      destruct (send_phase args hosts it index (state m)) as [[r s]|] eqn:Ep; [|done].
      apply send_phase_frame in Ep as (E1 & E2 & _). cbn [mbind option_bind]. intros [= <-].
      apply entries_of_receiving in E1 as [= _ _ El _]. unfold the_client. cbn. rewrite E2, El, app_nil_r. auto.
    + intros [= <-]. destruct (record_sent_fields n index len (the_client m)) as (Eo & _ & _ & _ & _ & _ & Er).
      apply entries_of_receiving in Er as [= _ _ El _]. unfold the_client in *. cbn. rewrite Eo, El. auto.
    + intros [= <-]. rewrite app_nil_r. auto.
    + intros [= <-]. rewrite app_nil_r. auto.
  - unfold receiver_step, receiver_enqueues.
    destruct (receiver_at m) as [| |obss rec msg len incoming| |oldest|] eqn:Ep.
    + intros [= <-]. rewrite app_nil_r. auto.
    + destruct (await (response it)) as [[[[[rec msg] len] ts]|]|]; cbn [mbind option_bind]; [| |done].
      * destruct (incoming_nsec ts (recv_clock it)) as [incoming|]; [|done]. cbn [mbind option_bind].
        unfold count_response. destruct (checked_i 32 _); [|done]. cbn [mbind option_bind].
        destruct (response_observations _ _ _ _) as [obss|]; [|done]. cbn [mbind option_bind].
        intros [= <-]. rewrite app_nil_r. auto.
      * intros [= <-]. rewrite app_nil_r. auto.
    + destruct obss as [|obs obss].
      * destruct (print_response _ _ _ _ _ _ _) as [r|] eqn:Er; [|done]. cbn [mbind option_bind].
        apply print_response_frame in Er as (E1 & E2 & _). intros [= <-].
        apply entries_of_receiving in E1 as [= _ _ El _]. rewrite app_nil_r.
        destruct r as [[]|]; unfold the_client; cbn; rewrite E2, El; auto.
      * intros [= <-]. auto.
    + intros [= <-]. rewrite app_nil_r. auto.
    + destruct (check_oldest _ _ _ _) as [c|] eqn:Ec; [|done]. cbn [mbind option_bind]. intros [= <-].
      rewrite app_nil_r. split; [done|]. split; [|by right; eexists].
      unfold the_client in *. cbn.
      unfold check_oldest in Ec. destruct (get_timestamp _); [|done]. cbn [mbind option_bind] in Ec.
      destruct (timestamp_to_nsec _); [|done]. cbn [mbind option_bind] in Ec.
      destruct oldest as [p|]; [|injection Ec as <-; by destruct (_ >? 0)].
      destruct (_ !! p); [|done]. cbn [mbind option_bind] in Ec. destruct (_ || _); [|by injection Ec as <-].
      destruct (aggregateRawData _ _); [|done]. cbn [mbind option_bind] in Ec.
      destruct (RawDataList.popObservation _) as [[]|]; [|done]. cbn [mbind option_bind] in Ec. by injection Ec as <-.
    + intros [= <-]. rewrite app_nil_r. auto.
Qed.
End MoreRuns.
