(* ===== verification/Accounting.v ===== *)
(** * Accounting: every packet sent is in one entry

    The numbers of the packets whose sending is enqueued, over a whole schedule of the
    program: the sender numbers them consecutively, and once the collator has started
    and no [sendmsg] fails it skips none.  With the partition of [ProgramSpec] this
    gives the account of a measurement that has come to rest. *)

From S2P Require Import Prelude Double Text Packets Timestamps Sockets Observations ClientState Collator CollatorRuns Sender ClientOutput Receiver Setup Program ProgramSpec.

(** The packets whose sending times are among the observations, in order. *)
Definition sent_ids (obss : list QEDObservation) : list Z :=
  o_packet_id <$> filter (λ o, observation_point o = CLIENT_SEND) obss.

Lemma sent_ids_app l1 l2 : sent_ids (l1 ++ l2) = sent_ids l1 ++ sent_ids l2.
Proof. unfold sent_ids. by rewrite filter_app, fmap_app. Qed.

Lemma sent_ids_nil obss : Forall (λ o, observation_point o ≠ CLIENT_SEND) obss → sent_ids obss = [].
Proof.
  induction 1 as [|o obss Ho _ IH]; [done|]. unfold sent_ids in *. by rewrite filter_cons_False.
Qed.

Lemma sent_ids_forall (P : Z → Prop) obss :
  Forall P (sent_ids obss) ↔ Forall (λ o, observation_point o = CLIENT_SEND → P (o_packet_id o)) obss.
Proof.
  induction obss as [|o obss IH]; [done|]. unfold sent_ids in *. rewrite Forall_cons, filter_cons.
  case_decide; [|by rewrite IH; intuition]. rewrite fmap_cons, Forall_cons, IH. by intuition.
Qed.

#[export] Instance sent_ids_perm : Proper ((≡ₚ) ==> (≡ₚ)) sent_ids.
Proof. intros l1 l2 E. unfold sent_ids. by rewrite E. Qed.

(** No [sendmsg] of a step fails. *)
Definition no_send_error (e : event) : Prop :=
  match e with SenderStep it => ∀ i, sendmsg_error it i = None | _ => True end.

Section Sends.
Context {S : Type} `{SqaStats S}.
Variables (inet_ntop : Z → list Z → option string) (args : Args) (hosts : list (list Z)).
Hypothesis Hnum : 0 < num_samples args < 2 ^ 32.
Hypothesis Hrun : runtime args = 0.

(** The next packet of the sender. *)
Definition index_of (pc : sender_pc) : Z :=
  match pc with SHead k | SSent _ k _ => k | SLeft | SDone => num_samples args end.

Record numbered (m : program S) : Prop := {
  n_range : 0 ≤ index_of (sender_at m) ≤ num_samples args;
  n_sent : match sender_at m with SSent _ k _ => k < num_samples args | _ => True end;
  n_receiver : match receiver_at m with
               | RQueue q _ _ _ _ => Forall (λ o, observation_point o ≠ CLIENT_SEND) q | _ => True end;
}.

Lemma replies_not_sent p len incoming obss : reply_observations p len incoming = Some obss →
  Forall (λ o, observation_point o ≠ CLIENT_SEND) obss.
Proof. rewrite reply_observations_exact. intros [= <-]. by repeat constructor. Qed.

Lemma send_to_hosts_no_error errors p len rest : (∀ i, errors i = None) → ∀ i (s : Sender S) b s',
  send_to_hosts errors p len i rest s = Some (b, s') → b = true.
Proof.
  intros He. induction rest as [|a rest IH]; intros i s b s'; cbn [send_to_hosts]; [by intros [= <- _]|].
  destruct (gather _); [|done]. cbn [mbind option_bind]. rewrite He.
  destruct (checked_i 32 _); [|done]. apply IH.
Qed.

Lemma send_phase_no_error it k (s : Sender S) s' : (∀ i, sendmsg_error it i = None) →
  send_phase args hosts it k s = Some (None, s') → False.
Proof.
  intros He. unfold send_phase. destruct (select_randomly _ _); [|done]. cbn [mbind option_bind].
  destruct (inter_packet_delay _ _); [|done]. cbn [mbind option_bind]. unfold sendPacket.
  destruct (craftSenderPacket _ _); [|done]. cbn [mbind option_bind].
  destruct (send_to_hosts _ _ _ _ _ _) as [[b s1]|] eqn:E; [|done].
  apply send_to_hosts_no_error in E as ->; [|done]. cbn [mbind option_bind].
  by destruct (timestamp_to_nsec _).
Qed.

(** How far a step takes the sender and which sending it enqueues. *)
Definition advances (e : event) (m m' : program S) : Prop :=
  (index_of (sender_at m') = index_of (sender_at m) ∧ sent_ids (enqueues e m) = []) ∨
  (index_of (sender_at m') = index_of (sender_at m) + 1 ∧
   (sent_ids (enqueues e m) = [index_of (sender_at m)] ∨
    sent_ids (enqueues e m) = [] ∧ (no_send_error e → collator_started (the_client m) = 0))).

Lemma sender_advances it (m m' : program S) : exited m = None → numbered m →
  sender_step args hosts it m = Some m' → numbered m' ∧ advances (SenderStep it) m m'.
Proof.
  intros Hx [R1 R2 HR] E. unfold sender_step in E. unfold advances, enqueues, sender_enqueues. rewrite Hx.
  destruct (sender_at m) as [k|n k len| |] eqn:Es; cbn [index_of] in *.
  - assert (keep_sending args k = (k <? num_samples args)) as Hk.
    { unfold keep_sending. rewrite Hrun, (proj2 (Z.eqb_neq (num_samples args) 0)) by lia. apply orb_false_r. }
    rewrite Hk in E. unfold runtime_over in E. rewrite Hrun in E. cbn [Z.eqb negb andb] in E.
    rewrite orb_false_r in E. destruct (Z.ltb_spec k (num_samples args)); cbn [negb] in E; cycle 1.
    { injection E as <-. split; [split; cbn; (done || lia)|]. left. cbn. split; [lia|done]. }
    destruct (send_phase _ _ _ _ _) as [[[[n len]|] s]|] eqn:Ep; [| |done]; cbn [mbind option_bind] in E;
      injection E as <-; rewrite ?(wrap_small 32 (k + 1)) by wsolve.
    + split; [by split|]. by left.
    + split; [split; cbn; try done; lia|]. right. split; [done|]. right. split; [done|]. intros He.
      by destruct (send_phase_no_error _ _ _ _ He Ep).
  - injection E as <-. cbn [sender_at receiver_at index_of]. rewrite (wrap_small 32 (k + 1)) by wsolve.
    split; [split; cbn; rewrite ?(wrap_small 32 (k + 1)) by wsolve; try done; lia|].
    right. split; [done|]. destruct (Z.eqb_spec (collator_started (the_client m)) 0); [by right|left].
    unfold sent_ids, make_QEDObservation. cbn. by rewrite (wrap_small 32 k) by wsolve.
  - injection E as <-. split; [by split|]. by left.
  - injection E as <-. split; [by split; rewrite ?Es|]. left. by rewrite Es.
Qed.

Lemma receiver_advances it (m m' : program S) : exited m = None → numbered m →
  receiver_step inet_ntop args it m = Some m' → numbered m' ∧ advances (ReceiverStep it) m m'.
Proof.
  intros Hx [R1 R2 HR] E. unfold receiver_step in E. unfold advances, enqueues, receiver_enqueues. rewrite Hx.
  destruct (receiver_at m) as [| |q rec msg len incoming| |oldest|] eqn:Ep.
  - injection E as <-. split; [|by left]. split; try done. cbn. by destruct (keep_receiving _ _ _).
  - destruct (await (response it)) as [[[[[rec msg] len] ts]|]|]; cbn [mbind option_bind] in E; [| |done].
    + destruct (incoming_nsec ts (recv_clock it)) as [incoming|]; [|done]. cbn [mbind option_bind] in E.
      destruct (count_response _ _ _) as [c|]; [|done]. cbn [mbind option_bind] in E.
      destruct (response_observations _ _ _ _) as [q|] eqn:Eq; [|done]. cbn [mbind option_bind] in E.
      injection E as <-. split; [|by left]. split; try done. cbn. unfold response_observations in Eq.
      destruct (negb _); [by eapply replies_not_sent|by injection Eq as <-].
    + injection E as <-. split; [by split|by left].
  - destruct q as [|o q].
    + destruct (print_response _ _ _ _ _ _ _) as [r|]; [|done]. cbn [mbind option_bind] in E. injection E as <-.
      destruct r as [[]|]; (split; [|by left]); split; try done. cbn. by rewrite Ep.
    + injection E as <-. apply Forall_cons in HR as [Ho HR]. split; [by split|]. left. split; [done|].
      apply sent_ids_nil. by constructor.
  - injection E as <-. split; [by split|by left].
  - destruct (check_oldest _ _ _ _); [|done]. cbn [mbind option_bind] in E. injection E as <-.
    split; [by split|by left].
  - injection E as <-. split; [|by left]. split; try done. by rewrite Ep.
Qed.

Lemma main_keeps now (m m' : program S) : main_step args now m = Some m' →
  sender_at m' = sender_at m ∧ receiver_at m' = receiver_at m.
Proof.
  intros E. unfold main_step in E. destruct (main_at m); try (by injection E as <-).
  - destruct (ObservationList.popObservation _) as [[]|]; [|done]. by injection E as <-.
  - destruct it as [|entry it]; [destruct (add_entry _ _ _); [by injection E as <-|done]|].
    destruct (valid_iterator _ _); [|done]. destruct (_ !! entry); [|done]. by injection E as <-.
  - destruct (update_at _ _ _); [by injection E as <-|done].
  - destruct (check_oldest _ _ _ _); [|done]. by injection E as <-.
  - injection E as <-. destruct (sender_at m) eqn:?, (receiver_at m) eqn:?; cbn; auto.
Qed.

Lemma step_advances e (m m' : program S) : numbered m → step inet_ntop args hosts e m = Some m' →
  numbered m' ∧ advances e m m'.
Proof.
  intros Hn E. unfold step in E. destruct (exited m) eqn:Hx.
  { injection E as <-. split; [done|]. left. unfold enqueues. by rewrite Hx. }
  destruct e as [it|it|now]; [by apply sender_advances|by apply receiver_advances|].
  apply main_keeps in E as [E1 E2]. destruct Hn. split; [split; by rewrite ?E1, ?E2|].
  left. unfold enqueues. by rewrite Hx, E1.
Qed.

(** Since the sender was at packet [lo], only packets from [lo] on and before its own
    have been enqueued. *)
Lemma runs_sends lo m0 obss (m : program S) : numbered m0 → index_of (sender_at m0) = lo →
  runs inet_ntop args hosts m0 obss m →
  numbered m ∧ lo ≤ index_of (sender_at m) ∧ Forall (λ k, lo ≤ k < index_of (sender_at m)) (sent_ids obss) ∧
  NoDup (sent_ids obss).
Proof.
  intros H0 Hlo. induction 1 as [|obss m e m' _ (Hn & Hi & HF & HN) _ E _].
  { subst. do 2 (split; [done|]). split; [constructor|apply NoDup_nil_2]. }
  destruct (step_advances e m m' Hn E) as [Hn' Ha]. split; [done|].
  assert (Forall (λ k, lo ≤ k < index_of (sender_at m) + 1) (sent_ids obss)) as HF1
    by (eapply Forall_impl; [exact HF|cbn; lia]).
  rewrite sent_ids_app. destruct Ha as [[-> ->]|[-> [-> | [-> _]]]]; rewrite ?app_nil_r; [by auto| |by auto with lia].
  split; [lia|]. split; [apply Forall_app; split; [done|by repeat constructor; lia]|].
  apply NoDup_app. split; [done|]. split; [|apply NoDup_singleton]. rewrite Forall_forall in HF.
  intros k Hk%HF ->%list_elem_of_singleton. lia.
Qed.

Lemma start_numbered now : numbered (start (Client_init now) : program S).
Proof. split; cbn; try done. lia. Qed.

(** ** The collator once started *)

Lemma update_at_started obs p (c c' : Client S) :
  update_at obs p c = Some c' →
  collator_started c' = collator_started c ∧ sending_completed c' = sending_completed c.
Proof. unfold update_at. destruct (heap c !! p); [|done]. by intros [= <-]. Qed.

Lemma add_entry_started now obs (c c' : Client S) :
  add_entry now obs c = Some c' →
  collator_started c' = collator_started c ∧ sending_completed c' = sending_completed c.
Proof.
  unfold add_entry. destruct (get_timestamp now); [|done]. cbn [mbind option_bind].
  destruct (timestamp_to_nsec _); [|done]. by intros [= <-].
Qed.

Lemma check_oldest_started now o (c c' : Client S) :
  check_oldest args now o c = Some c' →
  collator_started c' = collator_started c ∧ sending_completed c' = sending_completed c.
Proof.
  unfold check_oldest. destruct (get_timestamp now); [|done]. cbn [mbind option_bind].
  destruct (timestamp_to_nsec _); [|done]. cbn [mbind option_bind]. destruct o as [p|].
  - destruct (heap c !! p); [|done]. cbn [mbind option_bind]. destruct (_ || _); [|by intros [= <-]].
    destruct (aggregateRawData _ _); [|done]. cbn [mbind option_bind].
    destruct (RawDataList.popObservation _) as [[]|]; [|done]. by intros [= <-].
  - intros [= <-]. by destruct (_ >? 0).
Qed.

Lemma receiver_started it (m m' : program S) : receiver_step inet_ntop args it m = Some m' →
  collator_started (the_client m') = collator_started (the_client m).
Proof.
  intros E. unfold receiver_step in E.
  destruct (receiver_at m) as [| |[|o q] rec msg len incoming| |oldest|]; try (by injection E as <-).
  - destruct (await (response it)) as [[[[[rec msg] len] ts]|]|]; cbn [mbind option_bind] in E; [|by injection E as <-|done].
    destruct (incoming_nsec _ _) as [incoming|]; [|done]. cbn [mbind option_bind] in E.
    unfold count_response in E. destruct (checked_i 32 _); [|done]. cbn [mbind option_bind] in E.
    destruct (response_observations _ _ _ _); [|done]. by injection E as <-.
  - destruct (print_response _ _ _ _ _ _ _) as [r|] eqn:Er; [|done]. cbn [mbind option_bind] in E. injection E as <-.
    apply print_response_frame in Er as (_ & _ & Ec & _). by destruct r as [[]|].
  - destruct (check_oldest _ _ _ _) as [c|] eqn:Ec; [|done]. cbn [mbind option_bind] in E. injection E as <-.
    by apply check_oldest_started in Ec as [? _].
Qed.

Lemma step_started e (m m' : program S) : step inet_ntop args hosts e m = Some m' →
  collator_started (the_client m) ≠ 0 → collator_started (the_client m') ≠ 0.
Proof.
  intros E Hc. unfold step in E. destruct (exited m); [by injection E as <-|]. destruct e as [it|it|now].
  - unfold sender_step in E. destruct (sender_at m) as [k|n k len| |]; try (by injection E as <-).
    + destruct (_ || _); [by injection E as <-|].
      destruct (send_phase _ _ _ _ _) as [[r s]|] eqn:Ep; [|done]. cbn [mbind option_bind] in E. injection E as <-.
      apply send_phase_frame in Ep as (_ & _ & Ec & _). unfold the_client in *. cbn. by rewrite Ec.
    + injection E as <-. unfold set_client. cbn.
      destruct (record_sent_fields n k len (the_client m)) as (_ & _ & _ & -> & _). done.
  - apply receiver_started in E. by rewrite E.
  - unfold main_step in E. destruct (main_at m); try (by injection E as <-).
    + destruct (ObservationList.popObservation _) as [[]|]; [|done]. by injection E as <-.
    + destruct it as [|entry it].
      * destruct (add_entry _ _ _) as [c|] eqn:Ec; [|done]. cbn [mbind option_bind] in E. injection E as <-.
        cbn. by rewrite (proj1 (add_entry_started _ _ _ _ Ec)).
      * destruct (valid_iterator _ _); [|done]. destruct (_ !! entry); [|done]. by injection E as <-.
    + destruct (update_at _ _ _) as [c|] eqn:Ec; [|done]. cbn [mbind option_bind] in E. injection E as <-.
      cbn. by rewrite (proj1 (update_at_started _ _ _ _ Ec)).
    + destruct (check_oldest _ _ _ _) as [c|] eqn:Ec; [|done]. cbn [mbind option_bind] in E. injection E as <-.
      cbn. by rewrite (proj1 (check_oldest_started _ _ _ _ Ec)).
    + injection E as <-. destruct (sender_at m), (receiver_at m); done.
Qed.

(** From a started collator on, no packet is skipped. *)
Lemma guarded_sends schedule : ∀ obss (m : program S) obss' m', numbered m → collator_started (the_client m) ≠ 0 →
  Forall no_send_error schedule → guarded inet_ntop args hosts schedule obss m = Some (obss', m') →
  numbered m' ∧ index_of (sender_at m) ≤ index_of (sender_at m') ∧ ∃ new, obss' = obss ++ new ∧
    sent_ids new = seqZ (index_of (sender_at m)) (index_of (sender_at m') - index_of (sender_at m)).
Proof.
  induction schedule as [|e schedule IH]; intros obss m obss' m' Hn Hc He; cbn [guarded].
  { intros [= <- <-]. split; [done|]. split; [done|]. exists []. by rewrite app_nil_r, Z.sub_diag. }
  apply Forall_cons in He as [He HF].
  destruct (step _ _ _ e m) as [m1|] eqn:E; [|done]. cbn [mbind option_bind]. destruct (_ && _); [|done]. intros Hg.
  destruct (step_advances e m m1 Hn E) as [Hn1 Ha].
  destruct (IH _ _ _ _ Hn1 (step_started _ _ _ E Hc) HF Hg) as (Hn' & Hi & new & -> & Enew).
  split; [done|]. destruct Ha as [[E1 E2]|[E1 [E2|[_ E2]]]]; [| |by destruct (Hc (E2 He))].
  - split; [lia|]. exists (enqueues e m ++ new). rewrite <- app_assoc, sent_ids_app, E2, Enew, E1. done.
  - split; [lia|]. exists (enqueues e m ++ new). rewrite <- app_assoc, sent_ids_app, E2, Enew, E1. split; [done|].
    rewrite (seqZ_cons (index_of (sender_at m)) (index_of (sender_at m') - index_of (sender_at m))) by lia.
    cbn [app]. f_equal. f_equal; lia.
Qed.
End Sends.

(** An element of a concatenation without duplicates is in one of the lists. *)
Lemma in_one_group {A} (groups : list (A * list QEDObservation)) k :
  NoDup (sent_ids (concat (snd <$> groups))) → k ∈ sent_ids (concat (snd <$> groups)) →
  ∃ i g, groups !! i = Some g ∧ k ∈ sent_ids g.2 ∧
    ∀ j g', groups !! j = Some g' → k ∈ sent_ids g'.2 → j = i.
Proof.
  induction groups as [|g groups IH]; cbn [fmap list_fmap concat]; [by intros _ ?%not_elem_of_nil|].
  rewrite sent_ids_app, NoDup_app, elem_of_app. intros (_ & Hd & HN) Hk.
  assert (∀ j g', groups !! j = Some g' → k ∈ sent_ids g'.2 → k ∈ sent_ids (concat (snd <$> groups))) as Hin.
  { intros j g' Hj Hk'. clear -Hj Hk'. revert j Hj. induction groups as [|g0 groups IH]; intros j Hj; [done|].
    cbn [fmap list_fmap concat]. rewrite sent_ids_app, elem_of_app.
    destruct j as [|j]; [injection Hj as ->; by left|right; by eapply IH]. }
  destruct Hk as [Hk|Hk].
  - exists O, g. split; [done|]. split; [done|]. intros [|j] g' Hj Hk'; [done|]. by destruct (Hd k Hk (Hin j g' Hj Hk')).
  - destruct (IH HN Hk) as (i & g' & Hi & Hg & Hu). exists (Datatypes.S i), g'. split; [done|]. split; [done|].
    intros [|j] g'' Hj Hk'; [injection Hj as <-; by destruct (Hd k Hk' Hk)|]. by rewrite (Hu j g'').
Qed.

Lemma group_NoDup {A} (groups : list (A * list QEDObservation)) i g :
  NoDup (sent_ids (concat (snd <$> groups))) → groups !! i = Some g → NoDup (sent_ids g.2).
Proof.
  revert i. induction groups as [|g0 groups IH]; intros i HN Hi; [done|].
  cbn [fmap list_fmap concat] in HN. rewrite sent_ids_app in HN. apply NoDup_app in HN as (HN1 & _ & HN2).
  destruct i as [|i]; [by injection Hi as ->|by eapply IH].
Qed.

Lemma sent_ids_one id obss : Forall (λ o, o_packet_id o = id) obss → NoDup (sent_ids obss) →
  id ∈ sent_ids obss → sent_ids obss = [id].
Proof.
  intros HF HN Hin. assert (Forall (λ k, k = id) (sent_ids obss)) as HF'.
  { apply sent_ids_forall. eapply Forall_impl; [exact HF|]. done. }
  destruct (sent_ids obss) as [|a l]; [by apply not_elem_of_nil in Hin|]. apply Forall_cons in HF' as [-> HF'].
  destruct l as [|b l]; [done|]. apply Forall_cons in HF' as [-> _]. apply NoDup_cons in HN as [HN _]. set_solver.
Qed.

(** An entry with a sending time of packet [k] is of that packet, and has one. *)
Lemma entry_sent k r g : entry_of r g → k ∈ sent_ids g.2 → NoDup (sent_ids g.2) →
  packet_id r = k ∧ sent_ids g.2 = [k].
Proof.
  intros (_ & _ & HF) Hk HN. assert (k = packet_id r) as ->; [|by auto using sent_ids_one].
  assert (Forall (λ k, k = packet_id r) (sent_ids g.2)) as HF'.
  { apply sent_ids_forall. eapply Forall_impl; [exact HF|]. done. }
  rewrite Forall_forall in HF'. by apply HF'.
Qed.

(** ** Property *)

(** C5: the account of a measurement at rest.  Let the sender be at packet [lo] when
    the collator has started.  After any schedule from there in which no [sendmsg]
    fails and the threads are exclusive, once the sender is done, nothing is queued or
    in the collator's hands and nothing is listed, the statistics are those of the
    reported entries, and each packet from [lo] to the number of samples has its
    sending time in exactly one of these, once, and that entry is of that packet: it
    is measured or counted as lost, never forgotten and never counted from two
    sendings. *)
Theorem every_packet_counted {S} `{SqaStats S} inet_ntop args hosts now obss0 (m0 : program S) lo schedule obss m :
  0 < num_samples args < 2 ^ 32 → runtime args = 0 →
  runs inet_ntop args hosts (start (Client_init now)) obss0 m0 →
  sender_at m0 = SHead lo → collator_started (the_client m0) ≠ 0 →
  Forall no_send_error schedule → guarded inet_ntop args hosts schedule obss0 m0 = Some (obss, m) →
  sender_at m = SDone → in_hand (main_at m) = [] →
  ObservationList.observations (observation_list (the_client m)) = [] →
  RawDataList.observations (raw_data_list (the_client m)) = [] →
  ∃ reported groups, stats (the_client m) = retire_stats reported Stats_create ∧
    Forall2 entry_of reported groups ∧ obss ≡ₚ concat (snd <$> groups) ∧
    ∀ k, lo ≤ k < num_samples args → ∃ i r g,
      reported !! i = Some r ∧ groups !! i = Some g ∧ packet_id r = k ∧ sent_ids g.2 = [k] ∧
      ∀ j g', groups !! j = Some g' → k ∈ sent_ids g'.2 → j = i.
Proof.
  intros Hnum Hrt Hr Hp Hc He Hg Hd Hh Hq Hl.
  destruct (runs_sends inet_ntop args hosts Hnum Hrt 0 _ obss0 m0 (start_numbered args Hnum now) eq_refl Hr)
    as (Hn0 & _ & _ & _).
  destruct (guarded_sends inet_ntop args hosts Hnum Hrt _ _ _ _ _ Hn0 Hc He Hg) as (_ & _ & new & -> & Hnew).
  rewrite Hd, Hp in Hnew. cbn [index_of] in Hnew.
  apply (guarded_runs _ _ _ _ _ _ _ _ _ Hr) in Hg as Hr'.
  destruct (runs_sends inet_ntop args hosts Hnum Hrt 0 _ _ m (start_numbered args Hnum now) eq_refl Hr')
    as (_ & _ & _ & HN).
  destruct (runs_sim inet_ntop args hosts now _ m Hr') as (a & Ha & Hen & [Hqa R Hs _ _ _]).
  destruct (reachable_partitioned a Ha) as (_ & groups & HF & HP).
  assert (a_listed a = []) as Hnil by (destruct R as [HL _ _]; rewrite Hl in HL; by inversion HL).
  rewrite Hnil, app_nil_r in HF. rewrite Hqa, Hh, Hq, Hen, app_nil_r in HP.
  exists (a_reported a), groups. split; [done|]. split; [done|]. split; [done|]. intros k Hk.
  assert (k ∈ sent_ids (concat (snd <$> groups))) as Hin.
  { rewrite <- HP, sent_ids_app, Hnew, elem_of_app. right. apply elem_of_seqZ. lia. }
  rewrite HP in HN. destruct (in_one_group groups k HN Hin) as (i & g & Hi & Hkg & Hu).
  destruct (Forall2_lookup_r _ _ _ _ _ HF Hi) as (r & Hri & Hent). exists i, r, g.
  destruct (entry_sent k r g Hent Hkg) as [Hid Hone]; [|by auto].
  by apply (group_NoDup groups i).
Qed.

(** One packet is sent, a reply is handled, everything is filed and, late, retired. *)
Definition late_steps (n : nat) : list event := replicate n (MainStep (mkTimespec 1700000100 0)).
Definition rest_schedule : list event :=
  sender_steps 4 ++ receiver_steps 5 ++ main_steps 32 ++ late_steps 9.

Definition started : option (list QEDObservation * program SqaLog) :=
  guarded no_ntop raw_args [replicate 16 1] (main_steps 2) [] (start (Client_init 1700000000)).

Definition rest_facts (p : list QEDObservation * program SqaLog) :=
  '(_, m) ← guarded no_ntop raw_args [replicate 16 1] rest_schedule p.1 p.2;
  Some (sender_at p.2, collator_started (the_client p.2), sender_at m, in_hand (main_at m),
        ObservationList.observations (observation_list (the_client m)),
        RawDataList.observations (raw_data_list (the_client m))).

Lemma started_facts : (p ← started; rest_facts p) = Some (SHead 0, 1, SDone, [], [], []).
Proof. vm_compute. reflexivity. Qed.

Lemma rest_facts_inv obss0 m0 : rest_facts (obss0, m0) = Some (SHead 0, 1, SDone, [], [], []) →
  ∃ obss m, guarded no_ntop raw_args [replicate 16 1] rest_schedule obss0 m0 = Some (obss, m) ∧
    sender_at m0 = SHead 0 ∧ collator_started (the_client m0) = 1 ∧ sender_at m = SDone ∧ in_hand (main_at m) = [] ∧
    ObservationList.observations (observation_list (the_client m)) = [] ∧
    RawDataList.observations (raw_data_list (the_client m)) = [].
Proof.
  unfold rest_facts. cbn [fst snd]. destruct (guarded _ _ _ rest_schedule obss0 m0) as [[obss m]|]; [|discriminate].
  cbn [mbind option_bind]. intros [= E1 E2 E3 E4 E5 E6]. exists obss, m. split; [reflexivity|]. auto 6.
Qed.

Lemma started_runs obss m : started = Some (obss, m) →
  runs no_ntop raw_args [replicate 16 1] (start (Client_init 1700000000)) obss m.
Proof. unfold started. apply guarded_runs, runs_start. Qed.

Lemma rest_schedule_sent : Forall no_send_error rest_schedule.
Proof.
  unfold rest_schedule, sender_steps, receiver_steps, main_steps, late_steps.
  repeat (apply Forall_app; split); apply Forall_replicate; cbn; reflexivity || exact I.
Qed.

Lemma every_packet_counted_witness :
  ∃ (m : program SqaLog) reported r, stats (the_client m) = retire_stats reported Stats_create ∧
    r ∈ reported ∧ packet_id r = 0.
Proof.
  pose proof started_facts as E. destruct started as [[obss0 m0]|] eqn:Es; [|discriminate E].
  apply started_runs in Es as Hr. apply rest_facts_inv in E as (obss & m & Hg & Hp & Hc & Hd & Hh & Hq & Hl).
  destruct (every_packet_counted no_ntop raw_args [replicate 16 1] 1700000000 obss0 m0 0 rest_schedule obss m
    ltac:(by vm_compute) eq_refl Hr Hp ltac:(rewrite Hc; discriminate) rest_schedule_sent Hg Hd Hh Hq Hl)
    as (reported & groups & Hs & _ & _ & Hall).
  destruct (Hall 0) as (i & r & g & Hi & _ & Hk & _); [by vm_compute|].
  exists m, reported, r. split; [exact Hs|]. split; [by eapply list_elem_of_lookup_2|exact Hk].
Defined.
