(* ===== verification/Typing.v ===== *)
(** * Typing: every member keeps its C++ type

    Numbers are unbounded here and wrapped where the source converts them; that no
    conversion is missing is a theorem: in every state any schedule reaches, races
    included, each member, queued observation, raw datum and local variable of the
    threads is in the range of its type. *)

From S2P Require Import Prelude Double Text Packets Timestamps Sockets Observations ClientState Collator CollatorRuns Sender ClientOutput Receiver Setup Program ProgramSpec.

(** [QEDObservation]: an observation point the switch knows, [uint64_t], [uint32_t], [uint16_t]. *)
Record typed_observation (o : QEDObservation) : Prop := {
  t_point : observation_point o ≠ NUM_OBSERVATION_POINTS;
  t_epoch : epoch_nanoseconds o ∈u 64;
  t_id : o_packet_id o ∈u 32;
  t_len : o_payload_len o ∈u 16;
}.

(** [RawData]: five [uint64_t], a [uint32_t] and a [uint16_t]. *)
Record typed_raw (r : RawData) : Prop := {
  t_added : added_at_epoch_nanoseconds r ∈u 64;
  t_packet_id : packet_id r ∈u 32;
  t_payload_len : payload_len r ∈u 16;
  t_client_send : client_send_epoch_nanoseconds r ∈u 64;
  t_server_receive : server_receive_epoch_nanoseconds r ∈u 64;
  t_server_send : server_send_epoch_nanoseconds r ∈u 64;
  t_client_receive : client_receive_epoch_nanoseconds r ∈u 64;
}.

(** The members of [Client]. *)
Record typed_client {S} (c : Client S) : Prop := {
  t_sent : sent_packets c ∈i 32;
  t_received : received_packets c ∈i 32;
  t_last : last_received_packet_id c ∈i 32;
  t_completed : sending_completed c ∈u 64;
  t_start : start_time c ∈u 64;
  t_started : collator_started c ∈i 32;
  t_finished : collator_finished c ∈i 32;
  t_first_sent : first_packet_sent_epoch_nanoseconds c ∈u 64;
  t_last_sent : last_packet_sent_epoch_nanoseconds c ∈u 64;
  t_last_received : last_packet_received_epoch_nanoseconds c ∈u 64;
  t_queue : Forall typed_observation (ObservationList.observations (observation_list c));
  t_heap : map_Forall (λ _ r, typed_raw r) (heap c);
}.

(** The local variables of the threads. *)
Definition typed_sender (pc : sender_pc) : Prop :=
  match pc with
  | SHead index => index ∈u 32
  | SSent sent_nsec index payload_len => sent_nsec ∈u 64 ∧ index ∈u 32 ∧ payload_len ∈u 64
  | _ => True
  end.
Definition typed_receiver (pc : receiver_pc) : Prop :=
  match pc with
  | RQueue obss _ _ _ incoming => Forall typed_observation obss ∧ incoming ∈u 64
  | _ => True
  end.
Definition typed_main (pc : main_pc) : Prop := 
  match pc with CFile obs | CSearch obs _ | CFound obs _ => typed_observation obs | _ => True end.

Record typed {S} (m : program S) : Prop := {
  t_client : typed_client (the_client m);
  t_sender : typed_sender (sender_at m);
  t_receiver : typed_receiver (receiver_at m);
  t_main : typed_main (main_at m);
}.

(** ** Lemmas *)

Lemma timestamp_to_nsec_typed ts n : timestamp_to_nsec ts = Some n → n ∈u 64.
Proof.
  unfold timestamp_to_nsec. destruct (timestamp_to_timespec _ _) as [[tv|]|]; [|done|done].
  cbn [mbind option_bind]. intros [= <-]. auto with twamp.
Qed.

Lemma make_QEDObservation_typed point epoch id len :
  point ≠ NUM_OBSERVATION_POINTS → typed_observation (make_QEDObservation point epoch id len).
Proof. intros Hp. split; cbn; [done|apply wrap_range; lia..]. Qed.

Lemma incoming_nsec_typed ts clock n : incoming_nsec ts clock = Some n → n ∈u 64.
Proof.
  unfold incoming_nsec. destruct (_ && _).
  - destruct (get_timestamp clock); [|done]. cbn [mbind option_bind]. apply timestamp_to_nsec_typed.
  - intros [= <-]. apply wrap_range. lia.
Qed.

Lemma update_typed obs r : typed_observation obs → typed_raw r → typed_raw (update_entry obs r).
Proof.
  intros [_ He Hi Hl] []. unfold update_entry, record_point.
  destruct (observation_point obs); by split.
Qed.

Lemma new_typed added id : added ∈u 64 → id ∈u 32 → typed_raw (new_RawData added id).
Proof. intros Ha Hi. split; cbn; try done; wsolve. Qed.

Lemma checked_typed w z n : checked_i w z = Some n → n ∈i w.
Proof. unfold checked_i. destruct (decide _); [by intros [= <-]|done]. Qed.

Section Steps.
Context {S : Type} `{SqaStats S} (inet_ntop : Z → list Z → option string) (args : Args) (hosts : list (list Z)).

Lemma send_to_hosts_typed errors p len rest : ∀ i (s : Sender S) b s',
  send_to_hosts errors p len i rest s = Some (b, s') → typed_client (client s) → typed_client (client s').
Proof.
  induction rest as [|a rest IH]; intros i s b s'; cbn [send_to_hosts]; [by intros [= _ <-]|].
  destruct (gather _); [|done]. cbn [mbind option_bind].
  destruct (errors i) as [text|]; [intros [= _ <-] []; by split|].
  destruct (checked_i 32 _) as [n|] eqn:En; [|done]. cbn [mbind option_bind]. intros E Hc.
  apply (IH _ _ _ _ E). apply checked_typed in En. destruct Hc. by split.
Qed.

Lemma send_phase_typed it index (s : Sender S) r s' : send_phase args hosts it index s = Some (r, s') →
  typed_client (client s) →
  typed_client (client s') ∧ match r with Some (n, len) => n ∈u 64 ∧ len ∈u 64 | None => True end.
Proof.
  unfold send_phase. destruct (select_randomly _ _) as [len|]; [|done]. cbn [mbind option_bind].
  destruct (inter_packet_delay args (gap it)) as [d|]; [|done]. cbn [mbind option_bind].
  unfold sendPacket. destruct (craftSenderPacket _ _) as [pkt|]; [|done]. cbn [mbind option_bind].
  destruct (send_to_hosts _ _ _ _ _ _) as [[b s1]|] eqn:E; [|done]. cbn [mbind option_bind].
  intros E' Hc. apply send_to_hosts_typed in E; [|exact Hc]. destruct b.
  - destruct (timestamp_to_nsec _) as [n|] eqn:En; [|done]. cbn [mbind option_bind] in E'.
    injection E' as <- <-. split; [done|]. split; [by eapply timestamp_to_nsec_typed|apply wrap_range; lia].
  - injection E' as <- <-. destruct E. by split.
Qed.

Lemma record_sent_typed n index len (c : Client S) : n ∈u 64 → typed_client c →
  typed_client (record_sent n index len c).
Proof.
  intros Hn []. unfold record_sent. destruct (_ =? 0); cbn [collator_started]; destruct (_ =? 0); cbn [negb];
    split; cbn; try done; apply Forall_app; (split; [done|]); constructor; try done;
    by apply make_QEDObservation_typed.
Qed.

Lemma print_response_typed rec msg len incoming (c : Client S) r :
  print_response inet_ntop args rec msg len incoming c = Some r → typed_client c →
  typed_client (match r with inl (_, c') => c' | inr c' => c' end).
Proof.
  unfold print_response. destruct (String.eqb _ _); [|by intros [= <-]].
  destruct (printReflectorPacket _ _ _ _ _ _ _) as [pr|]; [|done]. cbn [mbind option_bind].
  intros [= <-] []. destruct (p_exit pr); by split.
Qed.

Lemma check_oldest_typed now oldest (c c' : Client S) : check_oldest args now oldest c = Some c' →
  typed_client c → typed_client c'.
Proof.
  unfold check_oldest. destruct (get_timestamp now); [|done]. cbn [mbind option_bind].
  destruct (timestamp_to_nsec _); [|done]. cbn [mbind option_bind]. intros E [].
  destruct oldest as [p|].
  - destruct (heap c !! p); [|done]. cbn [mbind option_bind] in E. destruct (_ || _); [|injection E as <-; by split].
    destruct (aggregateRawData _ _); [|done]. cbn [mbind option_bind] in E.
    destruct (RawDataList.popObservation _) as [[]|]; [|done]. cbn [mbind option_bind] in E.
    injection E as <-. by split.
  - injection E as <-. destruct (_ >? 0); split; cbn; (done || wsolve).
Qed.

Lemma update_at_typed obs p (c c' : Client S) : update_at obs p c = Some c' →
  typed_observation obs → typed_client c → typed_client c'.
Proof.
  unfold update_at. intros E Ho []. destruct (heap c !! p) as [r|] eqn:Er; [|done]. cbn [mbind option_bind] in E.
  injection E as <-. split; cbn; try done. apply map_Forall_insert_2; [|done].
  apply update_typed; [done|]. by apply (t_heap0 p).
Qed.

Lemma add_entry_typed now obs (c c' : Client S) : add_entry now obs c = Some c' →
  typed_observation obs → typed_client c → typed_client c'.
Proof.
  unfold add_entry. intros E Ho []. destruct (get_timestamp now); [|done]. cbn [mbind option_bind] in E.
  destruct (timestamp_to_nsec _) as [added|] eqn:Ea; [|done]. cbn [mbind option_bind] in E. injection E as <-.
  split; cbn; try done. apply map_Forall_insert_2; [|done]. apply update_typed; [done|].
  apply new_typed; [by eapply timestamp_to_nsec_typed|by destruct Ho].
Qed.

Lemma sender_typed it (m m' : program S) : typed m → sender_step args hosts it m = Some m' → typed m'.
Proof.
  intros [Hc Hs Hr Hm] E. unfold sender_step in E.
  destruct (sender_at m) as [index|n index len| |] eqn:Ep; cbn [typed_sender] in Hs.
  - destruct (_ || _); [injection E as <-; by split|].
    destruct (send_phase args hosts it index (state m)) as [[r s]|] eqn:Es; [|done].
    cbn [mbind option_bind] in E. injection E as <-. apply send_phase_typed in Es as [Hc' Ht]; [|done].
    split; try done. destruct r as [[n len]|]; cbn; [tauto|apply wrap_range; lia].
  - destruct Hs as (Hn & _ & _). injection E as <-.
    split; try done; [by apply record_sent_typed|apply wrap_range; lia].
  - injection E as <-. split; try done. destruct Hc. split; cbn; try done. apply wrap_range. lia.
  - injection E as <-. split; try done. by rewrite Ep.
Qed.

Lemma receiver_typed it (m m' : program S) : typed m → receiver_step inet_ntop args it m = Some m' → typed m'.
Proof.
  intros [Hc Hs Hr Hm] E. unfold receiver_step in E.
  destruct (receiver_at m) as [| |obss rec msg len incoming| |oldest|] eqn:Ep; cbn [typed_receiver] in Hr.
  - injection E as <-. split; try done. cbn. by destruct (keep_receiving _ _ _).
  - destruct (await (response it)) as [[[[[rec msg] len] ts]|]|]; cbn [mbind option_bind] in E; [| |done].
    + destruct (incoming_nsec ts (recv_clock it)) as [incoming|] eqn:Ei; [|done]. cbn [mbind option_bind] in E.
      apply incoming_nsec_typed in Ei. unfold count_response in E.
      destruct (checked_i 32 _) as [n|] eqn:En; [|done]. cbn [mbind option_bind] in E. apply checked_typed in En.
      unfold response_observations in E. cbn [collator_started] in E.
      destruct (if negb _ then _ else _) as [obss|] eqn:Eo; [|done]. cbn [mbind option_bind] in E.
      injection E as <-. split; try done.
      * destruct Hc. split; cbn; try done. apply swrap_range. lia.
      * split; [|done]. destruct (negb _); [|by injection Eo as <-]. rewrite reply_observations_exact in Eo.
        injection Eo as <-. repeat constructor; by apply make_QEDObservation_typed.
    + injection E as <-. by split.
  - destruct Hr as [Ho Hi]. destruct obss as [|obs obss].
    + destruct (print_response _ _ _ _ _ _ _) as [r|] eqn:Er; [|done]. cbn [mbind option_bind] in E.
      apply print_response_typed in Er; [|done]. injection E as <-. destruct r as [[]|]; split; try done.
      cbn. by rewrite Ep.
    + apply Forall_cons in Ho as [Ho Ho']. injection E as <-. split; try done. destruct Hc. split; cbn; try done.
      apply Forall_app. split; [done|]. by constructor.
  - injection E as <-. by split.
  - destruct (check_oldest _ _ _ _) as [c|] eqn:Ec; [|done]. cbn [mbind option_bind] in E. injection E as <-.
    split; try done. by eapply check_oldest_typed.
  - injection E as <-. split; try done. by rewrite Ep.
Qed.

Lemma main_typed now (m m' : program S) : typed m → main_step args now m = Some m' → typed m'.
Proof.
  intros [Hc Hs Hr Hm] E. unfold main_step in E.
  destruct (main_at m) as [| | | | |obs|obs it|obs entry| |oldest| |] eqn:Ep; cbn [typed_main] in Hm.
  - injection E as <-. split; try done; [destruct Hc; by split|]. cbn. by destruct (runs_collator _).
  - injection E as <-. split; try done. destruct Hc. split; cbn; (done || wsolve).
  - injection E as <-. split; try done. cbn. by destruct (_ =? _).
  - injection E as <-. split; try done. cbn. by destruct (negb _).
  - unfold ObservationList.popObservation in E. pose proof (t_queue _ Hc) as Hq.
    destruct (ObservationList.observations _) as [|obs q] eqn:Eq; [done|]. cbn [mbind option_bind] in E.
    injection E as <-. apply Forall_cons in Hq as [Ho Hq]. split; try done. destruct Hc. by split.
  - injection E as <-. by split.
  - destruct it as [|entry it].
    + destruct (add_entry _ _ _) as [c|] eqn:Ec; [|done]. cbn [mbind option_bind] in E. injection E as <-.
      split; try done. by eapply add_entry_typed.
    + destruct (valid_iterator _ _); [|done]. destruct (_ !! entry); [|done]. cbn [mbind option_bind] in E.
      injection E as <-. split; try done. cbn. by destruct (_ =? _).
  - destruct (update_at _ _ _) as [c|] eqn:Ec; [|done]. cbn [mbind option_bind] in E. injection E as <-.
    split; try done. by eapply update_at_typed.
  - injection E as <-. by split.
  - destruct (check_oldest _ _ _ _) as [c|] eqn:Ec; [|done]. cbn [mbind option_bind] in E. injection E as <-.
    split; try done. by eapply check_oldest_typed.
  - injection E as <-. assert (typed m) by (split; try done; by rewrite Ep).
    assert (typed {| m with main_at := MDone |}) by by split. by destruct (sender_at m), (receiver_at m).
  - injection E as <-. split; try done. by rewrite Ep.
Qed.

Lemma step_typed e (m m' : program S) : typed m → step inet_ntop args hosts e m = Some m' → typed m'.
Proof.
  unfold step. intros Ht E. destruct (exited m); [by injection E as <-|].
  destruct e; [by eapply sender_typed|by eapply receiver_typed|by eapply main_typed].
Qed.

Lemma run_typed es : ∀ m m' : program S, typed m → run inet_ntop args hosts es m = Some m' → typed m'.
Proof.
  induction es as [|e es IH]; intros m m' Ht; cbn [run]; [by intros [= <-]|].
  destruct (step _ _ _ e m) as [m1|] eqn:E; [|done]. cbn [mbind option_bind].
  apply IH. by eapply step_typed.
Qed.

Lemma start_typed now : typed (start (Client_init now : Client S)).
Proof.
  split; cbn; try done. split; cbn; try (split; done); try done. apply wrap_range. lia.
Qed.
End Steps.

(** ** Property *)

(** Types are preserved.  Whatever the schedule, races included, and whatever the
    clocks, packets and draws are, in every state the client reaches all its members,
    the queued observations, the raw data in the heap and the threads' local
    variables are within their C++ types: the model's unbounded numbers never stand
    for values the program could not hold. *)
Lemma members_in_range {S} `{SqaStats S} inet_ntop args hosts now es (m : program S) :
  run inet_ntop args hosts es (start (Client_init now)) = Some m → typed m.
Proof. apply run_typed, start_typed. Qed.

Lemma example_run_some : ∃ m : program SqaLog,
  run no_ntop raw_args [replicate 16 1] example_schedule (start (Client_init 1700000000)) = Some m.
Proof. vm_compute. by eexists. Qed.

Lemma members_in_range_witness : ∃ m : program SqaLog,
  run no_ntop raw_args [replicate 16 1] example_schedule (start (Client_init 1700000000)) = Some m ∧
  typed_client (the_client m).
Proof.
  destruct example_run_some as [m E]. exists m. split; [exact E|].
  exact (t_client _ (members_in_range no_ntop raw_args [replicate 16 1] 1700000000 example_schedule m E)).
Defined.
