(* ===== verification/Completion.v ===== *)
(** * Completion: the client can always end

    From every state that the threads reach without racing, once sending is over, a
    schedule leads to the end of [main]: the collator finishes what it is at, the
    receiver runs into its timeouts, the collator files and retires what is left,
    and the threads are joined.  So no interleaving gets the threads stuck, unless
    the timeout is 0, where a receiver without a reply waits for ever. *)

From S2P Require Import Prelude Double Text Packets Timestamps Sockets Observations ClientState Collator CollatorRuns Sender ClientOutput Receiver Setup Program ProgramSpec Accounting Typing.

(** ** What the system offers *)

(** [recvmsg] gives up with [EAGAIN] only when the socket has a timeout, which
    [set_socket_options] sets unless it is 0: without one it waits. *)
Definition possible (args : Args) (e : event) : Prop :=
  match e with
  | ReceiverStep it =>
      match response it with
      | Failed errno _ => errno = Server.EAGAIN → timeout args ≠ 0
      | Datagram _ _ _ => True
      end
  | _ => True
  end.

(** No datagram comes: all [recvmsg] could do is to give up. *)
Definition nothing_comes (e : event) : Prop :=
  match e with ReceiverStep it => ∃ text, response it = Failed Server.EAGAIN text | _ => True end.

Lemma all_possible args schedule : timeout args ≠ 0 → Forall (possible args) schedule.
Proof. intros Ht. apply Forall_true. intros [it|it|now]; cbn; [done|by destruct (response it)|done]. Qed.

(** With a timeout of 0 and no datagram, a receiver in [recvmsg] stays there, and
    [main] never gets past joining it. *)
Lemma waits_for_ever {S} `{SqaStats S} inet_ntop args hosts schedule : ∀ m m' : program S,
  timeout args = 0 → receiver_at m = RAwait → main_at m ≠ MDone →
  Forall (possible args) schedule → Forall nothing_comes schedule →
  run inet_ntop args hosts schedule m = Some m' → receiver_at m' = RAwait ∧ main_at m' ≠ MDone.
Proof.
  induction schedule as [|e schedule IH]; intros m m' Ht Hr Hm Hp Hn; cbn [run]; [by intros [= <-]|].
  apply Forall_cons in Hp as [He Hp]. apply Forall_cons in Hn as [Hne Hn].
  destruct (step inet_ntop args hosts e m) as [m1|] eqn:E; [|done]. cbn [mbind option_bind].
  assert (receiver_at m1 = RAwait ∧ main_at m1 ≠ MDone) as [Hr1 Hm1]; [|by apply IH].
  unfold step in E. destruct (exited m); [by injection E as <-|]. destruct e as [it|it|now].
  - unfold sender_step in E. destruct (sender_at m); try (by injection E as <-).
    destruct (_ || _); [by injection E as <-|]. destruct (send_phase _ _ _ _ _) as [[r s]|]; [|done].
    cbn [mbind option_bind] in E. by injection E as <-.
  - destruct Hne as [text Et]. cbn in He. rewrite Et in He. by destruct (He eq_refl).
  - split; [apply main_keeps in E as [_ ->]; done|]. intros Hd. unfold main_step in E.
    destruct (main_at m) eqn:Ep; try (by injection E as <-).
    + injection E as <-. cbn in Hd. by destruct (runs_collator args).
    + injection E as <-. cbn in Hd. by destruct (_ =? _).
    + injection E as <-. cbn in Hd. by destruct (negb _).
    + destruct (ObservationList.popObservation _) as [[]|]; [|done]. by injection E as <-.
    + destruct it as [|entry it]; [destruct (add_entry _ _ _); [by injection E as <-|done]|].
      destruct (valid_iterator _ _); [|done]. destruct (_ !! entry); [|done]. cbn [mbind option_bind] in E.
      injection E as <-. cbn in Hd. by destruct (_ =? _).
    + destruct (update_at _ _ _); [by injection E as <-|done].
    + destruct (check_oldest _ _ _ _); [by injection E as <-|done].
    + injection E as <-. rewrite Hr in Hd. destruct (sender_at m); by rewrite ?Ep in Hd.
Qed.

(** ** The collator from a list of entries *)

Section Collating.
Context {S : Type} `{SqaStats S}.
Variable args : Args.
Hypothesis Htimeout : timeout args ∈u 8.

(** Entries dated by some clock, and sending over. *)
Record fit (es : list RawData) (c : Client S) : Prop := {
  fit_repr : repr c es;
  fit_added : Forall (λ r, added_at_epoch_nanoseconds r ∈u 64) es;
  fit_completed : 0 < sending_completed c < 2 ^ 64;
}.

Lemma now_nsec_u64 now : good_time now → now_nsec now ∈u 64.
Proof. intros Hn. by apply ntp_nsec_u64, wf_ntp_of_timespec. Qed.

Lemma file_added added obs es : added ∈u 64 → Forall (λ r, added_at_epoch_nanoseconds r ∈u 64) es →
  Forall (λ r, added_at_epoch_nanoseconds r ∈u 64) (file added obs es).
Proof.
  assert (∀ r, added_at_epoch_nanoseconds (update_entry obs r) = added_at_epoch_nanoseconds r) as Hu
    by (intros r; unfold update_entry, record_point; by destruct (observation_point obs)).
  intros Ha HF. destruct (file_cases added obs es) as [[_ ->]|(e1 & r & e2 & -> & _ & ->)].
  - apply Forall_app. split; [done|]. constructor; [by rewrite Hu|done].
  - apply Forall_app in HF as [H1 [H2 H3]%Forall_cons]. apply Forall_app. split; [done|].
    constructor; [by rewrite Hu|done].
Qed.

Lemma process_fit now obs es (c : Client S) : good_time now → fit es c →
  ∃ c', process_observation now obs c = Some c' ∧ fit (file (now_nsec now) obs es) c' ∧
    observation_list c' = observation_list c ∧ collator_finished c' = collator_finished c ∧
    RawDataList.observations (raw_data_list c) `prefix_of` RawDataList.observations (raw_data_list c').
Proof.
  intros Hn [R Ha Hc]. destruct (process_observation_file now obs c es Hn R) as (h & n & l & -> & R' & _ & Hl).
  eexists. split; [done|]. split; [|done]. split; [exact R'|by apply file_added; [apply now_nsec_u64|]|done].
Qed.

(** Some reading of the clock lets an entry be retired. *)
Lemma can_expire r : added_at_epoch_nanoseconds r ∈u 64 → ∃ now, good_time now ∧ expired args now r = true.
Proof.
  intros Ha. unfold expired, timed_out, Collator.NANOSECONDS_IN_SECOND. set (a := added_at_epoch_nanoseconds r) in *.
  assert (now_nsec (mkTimespec 0 0) = 0 ∧ now_nsec (mkTimespec 2000000000 0) = 2000000000000000000) as [E0 E1]
    by (by vm_compute).
  destruct (decide (1000000000000000000 < a ≤ 2000000000000000000)) as [Hd|Hd].
  - exists (mkTimespec 0 0). split; [by vm_compute|]. apply orb_true_intro. right. rewrite E0, Z.gtb_ltb.
    apply Z.ltb_lt. replace (u64 (0 - a)) with (2 ^ 64 - a); [wsolve|].
    unfold wrap. rewrite <- (Z_mod_plus_full _ 1), Z.mod_small by wsolve. lia.
  - exists (mkTimespec 2000000000 0). split; [by vm_compute|]. apply orb_true_intro. right. rewrite E1, Z.gtb_ltb.
    apply Z.ltb_lt. destruct (decide (a ≤ 1000000000000000000)).
    + rewrite wrap_small by wsolve. wsolve.
    + replace (u64 (2000000000000000000 - a)) with (2000000000000000000 + 2 ^ 64 - a); [wsolve|].
      unfold wrap. rewrite <- (Z_mod_plus_full _ 1), Z.mod_small by wsolve. lia.
Qed.

Lemma finish_entries es : ∀ c : Client S, fit es c →
  ObservationList.observations (observation_list c) = [] → collator_finished c = 0 →
  ∃ nows c', collate args nows c = Some (true, c').
Proof.
  induction es as [|r es IH]; intros c [R Ha Hc] Hq Hf.
  - destruct (check_spec args (mkTimespec 0 0) c [] ltac:(by vm_compute) R) as (c' & E & -> & _).
    exists [mkTimespec 0 0], {| c with collator_finished := 1 |}. cbn [collate]. rewrite Hf. cbn [negb Z.eqb].
    unfold collator_iteration, ObservationList.isEmpty. rewrite Hq. cbn [negb]. rewrite E. cbn [mbind option_bind].
    by rewrite Z.gtb_ltb, (proj2 (Z.ltb_lt _ _)) by lia.
  - apply Forall_cons in Ha as [Hr Ha]. destruct (can_expire r Hr) as (now & Hn & He).
    destruct (check_spec args now c (r :: es) Hn R) as (c' & E & Hc').
    unfold expired in He. rewrite He in Hc'. destruct Hc' as [Ec R'].
    destruct (IH c') as (nows & c2 & E2); [split; subst; done|by subst|by subst|].
    exists (now :: nows), c2. cbn [collate]. rewrite Hf. cbn [negb Z.eqb].
    unfold collator_iteration, ObservationList.isEmpty. rewrite Hq. cbn [negb]. rewrite E. exact E2.
Qed.

Lemma finish_queue q : ∀ es (c : Client S), fit es c →
  ObservationList.observations (observation_list c) = q → collator_finished c = 0 →
  ∃ nows c', collate args nows c = Some (true, c').
Proof.
  induction q as [|obs q IH]; intros es c Hfit Hq Hf; [by eapply finish_entries|].
  destruct (process_fit (mkTimespec 0 0) obs es {| c with observation_list := ObservationList.mk q |})
    as (c1 & E & Hfit1 & Eq & Ef & _); [by vm_compute|destruct Hfit as [[] ? ?]; by split|].
  destruct (IH _ c1 Hfit1) as (nows & c2 & E2); [by rewrite Eq|by rewrite Ef|].
  exists (mkTimespec 0 0 :: nows), c2. cbn [collate]. rewrite Hf. cbn [negb Z.eqb].
  unfold collator_iteration, ObservationList.isEmpty, ObservationList.popObservation. rewrite Hq.
  cbn [negb mbind option_bind]. rewrite E. exact E2.
Qed.

Lemma collator_finishes es (c : Client S) : fit es c → ∃ nows c', collate args nows c = Some (true, c').
Proof.
  intros Hfit. destruct (Z.eq_dec (collator_finished c) 0) as [Hf|Hf]; [by eapply finish_queue|].
  exists [], c. cbn [collate]. by rewrite (proj2 (Z.eqb_neq _ _) Hf).
Qed.

(** The check of the oldest entry, in two steps or one. *)
Lemma check_fit now es (c : Client S) : good_time now → fit es c →
  ∃ c' es', check_if_oldest_packet_should_be_processed args now c = Some c' ∧ fit es' c'.
Proof.
  intros Hn [R Ha Hc]. destruct (check_spec args now c es Hn R) as (c' & E & Hc'). exists c'.
  destruct es as [|r es].
  - destruct Hc' as [-> R']. exists []. split; [done|]. by destruct (_ >? 0).
  - destruct (_ || _); [|subst c'; by exists (r :: es)]. destruct Hc' as [-> R']. exists es.
    split; [done|]. split; [done|by apply Forall_cons in Ha as [_ Ha]|done].
Qed.

Lemma check_oldest_fit now oldest es (c : Client S) : good_time now → fit es c → is_oldest c oldest →
  ∃ c' es', check_oldest args now oldest c = Some c' ∧ fit es' c'.
Proof.
  intros Hn Hfit Ho. destruct oldest as [p|].
  - destruct (check_fit now es c Hn Hfit) as (c' & es' & E & Hfit'). exists c', es'. split; [|done].
    specialize (Ho p eq_refl). unfold check_if_oldest_packet_should_be_processed, RawDataList.getOldestEntry in E.
    destruct (RawDataList.observations _); [done|]. by injection Ho as ->.
  - unfold check_oldest. rewrite get_timestamp_exact by done. cbn [mbind option_bind].
    rewrite timestamp_to_nsec_exact by (apply wf_ntp_of_timespec; done). cbn [mbind option_bind].
    eexists _, es. split; [done|]. destruct Hfit. destruct (_ >? 0); [|done]. split; try done. by apply (repr_ext c).
Qed.
End Collating.

(** ** The threads from where they are *)

Section Leading.
Context {S : Type} `{SqaStats S}.
Variables (inet_ntop : Z → list Z → option string) (args : Args) (hosts : list (list Z)).
Hypothesis Htimeout : timeout args ∈u 8.
Hypothesis Hformat : print_format args ≠ "legacy".

(** Some schedule takes the program from one state to the other. *)
Definition leads (m m' : program S) : Prop := ∃ schedule, run inet_ntop args hosts schedule m = Some m'.

Lemma leads_refl m : leads m m.
Proof. by exists []. Qed.

Lemma leads_trans m1 m2 m3 : leads m1 m2 → leads m2 m3 → leads m1 m3.
Proof. intros [l1 E1] [l2 E2]. exists (l1 ++ l2). by rewrite run_app, E1. Qed.

Lemma leads_step e m m' : step inet_ntop args hosts e m = Some m' → leads m m'.
Proof. intros E. exists [e]. cbn [run]. by rewrite E. Qed.

Lemma leads_l e m m1 m' : step inet_ntop args hosts e m = Some m1 → leads m1 m' → leads m m'.
Proof. intros E. by apply leads_trans, (leads_step e). Qed.

(** A clock that reads the epoch. *)
Definition tick : event := MainStep (mkTimespec 0 0).

Lemma tick_good : good_time (mkTimespec 0 0).
Proof. by vm_compute. Qed.

Lemma find_entry_skip (c : Client S) obs pre it es :
  Forall2 (λ p r, heap c !! p = Some r) (pre ++ it) es → absent c obs pre →
  find_entry (heap c) (o_packet_id obs) (pre ++ it) = find_entry (heap c) (o_packet_id obs) it.
Proof.
  revert es. induction pre as [|p pre IH]; intros es HF Ha; [done|]. inversion HF as [|? r ? es' Hp HF']; subst.
  apply Forall_cons in Ha as [Hr Ha]. cbn [app find_entry]. rewrite Hp. cbn [mbind option_bind].
  destruct (Z.eqb_spec (packet_id r) (o_packet_id obs)) as [E|_]; [by destruct (Hr r Hp)|by apply (IH es')].
Qed.

(** The collator finishes the observation it is at. *)
Lemma search_leads obs it m es : exited m = None → main_at m = CSearch obs it →
  valid_iterator it (the_client m) = true → main_place (the_client m) (CSearch obs it) → fit es (the_client m) →
  ∃ c' es', leads m {| (set_client c' m) with main_at := CHead |} ∧ fit es' c' ∧
    RawDataList.observations (raw_data_list (the_client m)) `prefix_of` RawDataList.observations (raw_data_list c').
Proof.
  intros Hx Ep Hv (pre & El & Ha) Hfit.
  destruct (process_fit (mkTimespec 0 0) obs es (the_client m) tick_good Hfit) as (c' & E & Hfit' & _ & _ & Hl).
  destruct (search_turn inet_ntop args hosts (mkTimespec 0 0) obs it m Hx Ep Hv) as [n En].
  exists c', (file (now_nsec (mkTimespec 0 0)) obs es). split; [|done]. exists (replicate n tick). unfold tick. rewrite En.
  unfold process_observation in E. destruct Hfit as [[HL _ _] _ _]. rewrite El in *.
  rewrite (find_entry_skip (the_client m) obs pre it es HL Ha) in E.
  destruct (find_entry _ _ it) as [[entry|]|]; [| |done]; cbn [mbind option_bind] in E |- *; by rewrite E.
Qed.

Lemma file_leads obs m es : exited m = None → main_at m = CFile obs → fit es (the_client m) →
  ∃ c' es', leads m {| (set_client c' m) with main_at := CHead |} ∧ fit es' c' ∧
    RawDataList.observations (raw_data_list (the_client m)) `prefix_of` RawDataList.observations (raw_data_list c').
Proof.
  intros Hx Ep Hfit. set (it := RawDataList.observations (raw_data_list (the_client m))).
  destruct (search_leads obs it {| m with main_at := CSearch obs it |} es) as (c' & es' & Hl & Hfit' & Hp); try done.
  { unfold valid_iterator. apply Nat.leb_le. done. }
  { exists []. split; [done|constructor]. }
  exists c', es'. split; [|done]. apply (leads_l tick _ {| m with main_at := CSearch obs it |}); [|exact Hl].
  unfold tick. rewrite step_main by done. unfold main_step. by rewrite Ep.
Qed.

Lemma found_leads obs entry m es : exited m = None → main_at m = CFound obs entry →
  main_place (the_client m) (CFound obs entry) → fit es (the_client m) →
  ∃ c' es', leads m {| (set_client c' m) with main_at := CHead |} ∧ fit es' c' ∧
    RawDataList.observations (raw_data_list (the_client m)) `prefix_of` RawDataList.observations (raw_data_list c').
Proof.
  intros Hx Ep (l1 & l2 & r & El & Ha & Hr & Hid) Hfit.
  destruct (process_fit (mkTimespec 0 0) obs es (the_client m) tick_good Hfit) as (c' & E & Hfit' & _ & _ & Hl).
  exists c', (file (now_nsec (mkTimespec 0 0)) obs es). split; [|done]. apply (leads_step tick).
  unfold tick. rewrite step_main by done. unfold main_step. rewrite Ep.
  unfold process_observation in E. destruct Hfit as [[HL _ _] _ _]. rewrite El in *.
  rewrite (find_entry_skip (the_client m) obs l1 _ es HL Ha) in E. cbn [find_entry] in E. rewrite Hr in E.
  cbn [mbind option_bind] in E. rewrite Hid, Z.eqb_refl in E. cbn [mbind option_bind] in E. by rewrite E.
Qed.

Lemma pop_leads m es : exited m = None → main_at m = CPop → main_place (the_client m) CPop → fit es (the_client m) →
  ∃ c' es', leads m {| (set_client c' m) with main_at := CHead |} ∧ fit es' c' ∧
    RawDataList.observations (raw_data_list (the_client m)) `prefix_of` RawDataList.observations (raw_data_list c').
Proof.
  intros Hx Ep Hq Hfit. cbn in Hq.
  destruct (ObservationList.observations (observation_list (the_client m))) as [|obs q] eqn:Eq; [done|].
  set (m1 := {| (set_client {| (the_client m) with observation_list := ObservationList.mk q |} m) with main_at := CFile obs |}).
  destruct (file_leads obs m1 es Hx eq_refl) as (c' & es' & Hl & Hfit' & Hp).
  { destruct Hfit as [R ? ?]. split; [by apply (repr_ext (the_client m))|done|done]. }
  exists c', es'. split; [|done]. apply (leads_l tick _ m1); [|exact Hl].
  unfold tick. rewrite step_main by done. unfold main_step, ObservationList.popObservation. by rewrite Ep, Eq.
Qed.

Lemma act_leads now oldest m es : good_time now → exited m = None → main_at m = CLooked oldest →
  is_oldest (the_client m) oldest → fit es (the_client m) →
  ∃ c' es', leads m {| (set_client c' m) with main_at := CHead |} ∧ fit es' c'.
Proof.
  intros Hn Hx Ep Ho Hfit. destruct (check_oldest_fit args now oldest es (the_client m) Hn Hfit Ho) as (c' & es' & E & Hfit').
  exists c', es'. split; [|done]. apply (leads_step (MainStep now)). rewrite (main_acts _ _ _ _ oldest) by done. by rewrite E.
Qed.

(** ** The receiver *)

Lemma fit_enqueue es obss : ∀ c : Client S, fit es c → fit es (foldl (λ c obs, enqueue_observation obs c) c obss).
Proof.
  induction obss as [|obs obss IH]; intros c Hfit; [done|]. cbn [foldl]. apply IH.
  destruct Hfit as [R ? ?]. split; [by apply (repr_ext c)|done|done].
Qed.

(** A reception that fails, at a time when the timeout after sending has passed. *)
Definition late_recv (c : Client S) : recv_iteration :=
  mkRecv (Failed 11 "Resource temporarily unavailable") (mkTimespec 0 0) (mkTimespec 0 0)
    (sending_completed c + timeout args).

Lemma late_keep (c : Client S) : 0 < sending_completed c < 2 ^ 64 →
  keep_receiving args (loop_time (late_recv c)) c = false.
Proof.
  intros Hc. unfold keep_receiving, late_recv. cbn [loop_time]. rewrite (proj2 (Z.eqb_neq _ _)) by lia. cbn [orb].
  assert (u64 (u64 (sending_completed c + timeout args) - sending_completed c) = timeout args) as ->.
  { unfold wrap. rewrite Zminus_mod_idemp_l. replace (_ - _) with (timeout args) by lia. apply Z.mod_small. wsolve. }
  by rewrite Z.ltb_irrefl, andb_false_r.
Qed.

Lemma looked_leads oldest m es : exited m = None → receiver_at m = RLooked oldest →
  is_oldest (the_client m) oldest → fit es (the_client m) →
  ∃ c' es', leads m {| (set_client c' m) with receiver_at := RHead |} ∧ fit es' c'.
Proof.
  intros Hx Ep Ho Hfit.
  destruct (check_oldest_fit args _ oldest es (the_client m) tick_good Hfit Ho) as (c' & es' & E & Hfit').
  exists c', es'. split; [|done]. apply (leads_step (ReceiverStep (late_recv (the_client m)))).
  rewrite (receiver_acts _ _ _ _ oldest) by done. cbn [late_recv check_clock]. by rewrite E.
Qed.

Lemma missed_leads m es : exited m = None → receiver_at m = RMissed → fit es (the_client m) →
  ∃ c' es', leads m {| (set_client c' m) with receiver_at := RHead |} ∧ fit es' c'.
Proof.
  intros Hx Ep Hfit. set (oldest := RawDataList.getOldestEntry (raw_data_list (the_client m))).
  destruct (looked_leads oldest {| m with receiver_at := RLooked oldest |} es) as (c' & es' & Hl & Hfit');
    [done|done|apply is_oldest_get|done|].
  exists c', es'. split; [|done]. eapply leads_l; [|exact Hl].
  rewrite (step_receiver _ _ _ (late_recv (the_client m))) by done. unfold receiver_step. by rewrite Ep.
Qed.

Lemma receiver_head m es : exited m = None → fit es (the_client m) →
  (∀ oldest, receiver_at m = RLooked oldest → is_oldest (the_client m) oldest) → receiver_at m ≠ RDone →
  ∃ c' es', leads m {| (set_client c' m) with receiver_at := RHead |} ∧ fit es' c'.
Proof.
  intros Hx Hfit Ho Hd. destruct (receiver_at m) as [| |obss rec msg len incoming| |oldest|] eqn:Ep; [..|done].
  - exists (the_client m), es. split; [|done]. destruct m as [[] ? ? ? ?]. cbn in Ep. subst. apply leads_refl.
  - destruct (missed_leads {| m with receiver_at := RMissed |} es Hx eq_refl Hfit) as (c' & es' & Hl & Hfit').
    exists c', es'. split; [|done]. eapply leads_l; [|exact Hl].
    rewrite (step_receiver _ _ _ (late_recv (the_client m))) by done. unfold receiver_step. by rewrite Ep.
  - eexists _, es. split; [|apply (fit_enqueue es obss), Hfit].
    eapply leads_trans; [eexists; apply (run_queue inet_ntop args hosts (late_recv (the_client m)) obss); done|].
    apply (leads_step (ReceiverStep (late_recv (the_client m)))). rewrite step_receiver by done.
    unfold receiver_step. cbn [receiver_at]. unfold print_response.
    by rewrite (proj2 (String.eqb_neq _ _) Hformat).
  - by eapply missed_leads.
  - by eapply looked_leads; [..|apply Ho|].
Qed.

(** The receiver ends. *)
Lemma receiver_leads m es : exited m = None → fit es (the_client m) →
  (∀ oldest, receiver_at m = RLooked oldest → is_oldest (the_client m) oldest) →
  ∃ c' es', leads m {| (set_client c' m) with receiver_at := RDone |} ∧ fit es' c'.
Proof.
  intros Hx Hfit Ho. assert (receiver_at m = RDone ∨ receiver_at m ≠ RDone) as [Ed|Hd]
    by (destruct (receiver_at m); by auto).
  { exists (the_client m), es. split; [|done]. destruct m as [[] ? ? ? ?]. cbn in Ed. subst. apply leads_refl. }
  destruct (receiver_head m es Hx Hfit Ho Hd) as (c' & es' & Hl & Hfit'). exists c', es'. split; [|done].
  eapply leads_trans; [exact Hl|]. apply (leads_step (ReceiverStep (late_recv c'))). rewrite step_receiver by done.
  unfold receiver_step. cbn [receiver_at]. unfold the_client. cbn [set_client state client].
  by rewrite late_keep by by destruct Hfit'.
Qed.

(** ** The main thread *)

(** A run of the collator's loop, as steps. *)
Lemma collate_leads nows (s : Sender S) sp rp : ∀ c c', collate args nows c = Some (true, c') →
  leads (mkProgram (mkSender c (wire s) (slept s)) sp rp CHead None)
        (mkProgram (mkSender c' (wire s) (slept s)) sp rp MJoin None).
Proof.
  induction nows as [|now nows IH]; intros c c'; cbn [collate];
    destruct (Z.eqb_spec (collator_finished c) 0) as [Hf|Hf]; cbn [negb]; try done.
  1, 3: intros [= <-]; apply (leads_step tick); unfold tick; rewrite step_main by done; unfold main_step;
    cbn [main_at]; unfold the_client; cbn [state client]; by rewrite (proj2 (Z.eqb_neq _ _) Hf).
  destruct (collator_iteration args now c) as [c1|] eqn:E; [|done]. cbn [mbind option_bind]. intros Hl%IH.
  eapply leads_trans; [|exact Hl].
  apply (leads_l tick _ (mkProgram (mkSender c (wire s) (slept s)) sp rp CBody None)).
  { unfold tick. rewrite step_main by done. unfold main_step. cbn [main_at]. unfold the_client. cbn [state client].
    by rewrite Hf. }
  destruct (collator_turn inet_ntop args hosts now (mkProgram (mkSender c (wire s) (slept s)) sp rp CBody None) eq_refl eq_refl)
    as [n En]. eexists. rewrite En. unfold the_client. cbn [state client]. by rewrite E.
Qed.

(** From the head of the collator's loop, with the others done, to the end. *)
Lemma head_leads m es : exited m = None → main_at m = CHead → sender_at m = SDone → receiver_at m = RDone →
  fit es (the_client m) → ∃ m', leads m m' ∧ main_at m' = MDone.
Proof.
  intros Hx Ep Hs Hr Hfit. destruct (collator_finishes args Htimeout es (the_client m) Hfit) as (nows & c' & E).
  destruct m as [[c w sl] sp rp mp x]. cbn in *. subst.
  eexists. split; [|shelve]. eapply leads_trans; [exact (collate_leads nows (mkSender c w sl) SDone RDone c c' E)|].
  apply (leads_step tick). unfold tick. rewrite step_main by done. reflexivity.
  Unshelve. reflexivity.
Qed.

(** The same from where the main thread is when it is not filing. *)
Definition at_rest (pc : main_pc) : Prop :=
  match pc with MHeader | MEnter | CHead | CBody | CCheck | MJoin | MDone => True | _ => False end.

Lemma rest_leads m es : exited m = None → at_rest (main_at m) → sender_at m = SDone → receiver_at m = RDone →
  fit es (the_client m) → ∃ m', leads m m' ∧ main_at m' = MDone.
Proof.
  intros Hx Hp Hs Hr Hfit. destruct m as [s sp rp mp x]. cbn in Hx, Hp, Hs, Hr. subst. unfold the_client in Hfit. cbn in Hfit.
  assert (∀ c es, fit es c → ∃ m', leads (mkProgram (mkSender c (wire s) (slept s)) SDone RDone CHead None) m' ∧ main_at m' = MDone)
    as Hhead by (intros; by eapply head_leads).
  assert (∀ c es, fit es c → ∃ m', leads (mkProgram (mkSender c (wire s) (slept s)) SDone RDone MEnter None) m' ∧ main_at m' = MDone)
    as Henter.
  { intros c es0 Hf. destruct (Hhead {| c with collator_started := 1 |} es0) as (m' & Hl & Hm).
    { destruct Hf as [R ? ?]. split; [by apply (repr_ext c)|done|done]. }
    exists m'. split; [|done]. eapply leads_l; [|exact Hl]. unfold tick. by rewrite (step_main _ _ _ (mkTimespec 0 0)). }
  destruct mp as [| | | | |obs|obs it|obs entry| |oldest| |]; try done.
  - destruct (Henter (put (printHeader args) (client s)) es) as (m' & Hl & Hm).
    { destruct Hfit as [R ? ?]. split; [by apply (repr_ext (client s))|done|done]. }
    exists m'. split; [|done]. eapply leads_l; [|exact Hl]. rewrite (step_main _ _ _ (mkTimespec 0 0)) by done.
    unfold main_step. cbn [main_at]. unfold runs_collator. by rewrite (proj2 (String.eqb_neq _ _) Hformat).
  - destruct (Henter (client s) es Hfit) as (m' & Hl & Hm). exists m'. by destruct s.
  - destruct (Hhead (client s) es Hfit) as (m' & Hl & Hm). exists m'. by destruct s.
  - assert (∃ c1 es1, collator_iteration args (mkTimespec 0 0) (client s) = Some c1 ∧ fit es1 c1) as (c1 & es1 & E & Hfit1).
    { unfold collator_iteration, ObservationList.isEmpty, ObservationList.popObservation.
      destruct (ObservationList.observations (observation_list (client s))) as [|obs q]; cbn [negb].
      - by apply (check_fit args _ es); [apply tick_good|].
      - cbn [mbind option_bind].
        destruct (process_fit (mkTimespec 0 0) obs es {| (client s) with observation_list := ObservationList.mk q |})
          as (c1 & E & Hfit1 & _); [apply tick_good| |by eauto].
        destruct Hfit as [R ? ?]. split; [by apply (repr_ext (client s))|done|done]. }
    destruct (Hhead c1 es1 Hfit1) as (m' & Hl & Hm). exists m'. split; [|done]. eapply leads_trans; [|exact Hl].
    destruct (collator_turn inet_ntop args hosts (mkTimespec 0 0) (mkProgram s SDone RDone CBody None) eq_refl eq_refl) as [n En].
    eexists. rewrite En. unfold the_client. cbn [state]. by rewrite E.
  - set (oldest := RawDataList.getOldestEntry (raw_data_list (client s))).
    destruct (act_leads _ oldest (mkProgram s SDone RDone (CLooked oldest) None) es tick_good eq_refl eq_refl
      (is_oldest_get _) Hfit) as (c1 & es1 & Hl1 & Hfit1).
    destruct (Hhead c1 es1 Hfit1) as (m' & Hl & Hm). exists m'. split; [|done].
    eapply (leads_l tick _ (mkProgram s SDone RDone (CLooked oldest) None)); [|by eapply leads_trans].
    unfold tick. by rewrite step_main by done.
  - eexists. split; [apply (leads_step tick); unfold tick; by rewrite step_main by done|done].
  - eexists. split; [apply leads_refl|done].
Qed.

(** The main thread comes to rest; what the receiver has seen stays the oldest. *)
Lemma main_rest m es : exited m = None → fit es (the_client m) → exclusive m → main_place (the_client m) (main_at m) →
  (∀ oldest, receiver_at m = RLooked oldest → is_oldest (the_client m) oldest) →
  ∃ m' es', leads m m' ∧ exited m' = None ∧ at_rest (main_at m') ∧ sender_at m' = sender_at m ∧ fit es' (the_client m') ∧
    ∀ oldest, receiver_at m' = RLooked oldest → is_oldest (the_client m') oldest.
Proof.
  intros Hx Hfit Hex Hp Ho.
  assert (at_rest (main_at m) ∨ ¬ at_rest (main_at m)) as [Hr|Hr] by (destruct (main_at m); cbn; auto).
  { exists m, es. by repeat (split; [done || apply leads_refl|]). }
  assert ((∃ c' es', leads m {| (set_client c' m) with main_at := CHead |} ∧ fit es' c' ∧
    RawDataList.observations (raw_data_list (the_client m)) `prefix_of` RawDataList.observations (raw_data_list c')) →
    ∃ m' es', leads m m' ∧ exited m' = None ∧ at_rest (main_at m') ∧ sender_at m' = sender_at m ∧ fit es' (the_client m') ∧
      ∀ oldest, receiver_at m' = RLooked oldest → is_oldest (the_client m') oldest) as Hcase.
  { intros (c' & es' & Hl & Hfit' & Hpre). eexists _, es'. split; [exact Hl|]. do 4 (split; [done|]).
    intros oldest Hro p ->. specialize (Ho _ Hro p eq_refl). unfold the_client. cbn.
    destruct Hpre as [l ->]. by destruct (RawDataList.observations _). }
  destruct (main_at m) as [| | | | |obs|obs it|obs entry| |oldest| |] eqn:Ep; cbn in Hr; try tauto.
  - by eapply Hcase, pop_leads.
  - by eapply Hcase, file_leads.
  - eapply Hcase, search_leads; try done. by eapply exclusive_search.
  - by eapply Hcase, found_leads.
  - destruct (act_leads _ oldest m es tick_good Hx Ep Hp Hfit) as (c' & es' & Hl & Hfit').
    eexists _, es'. split; [exact Hl|]. do 4 (split; [done|]). intros o Hro. unfold exclusive in Hex. cbn in Hro.
    by rewrite Ep, Hro in Hex.
Qed.
End Leading.

Lemma runs_typed {S} `{SqaStats S} inet_ntop args hosts now obss (m : program S) :
  runs inet_ntop args hosts (start (Client_init now)) obss m → typed m.
Proof. induction 1; [apply start_typed|by eapply step_typed]. Qed.

(** What a reachable client lists is dated by 64-bit numbers. *)
Lemma listed_added {S} (c : Client S) es : repr c es → typed_client c →
  Forall (λ r, added_at_epoch_nanoseconds r ∈u 64) es.
Proof.
  intros [HL _ _] Ht. induction HL as [|p r l es Hp _ IH]; constructor; [|done].
  by destruct (t_heap _ Ht p r Hp).
Qed.

(** ** Property *)


(** The sender is done, a reply is being handled and an observation is being filed. *)
Definition halfway : option (list QEDObservation * program SqaLog) :=
  guarded no_ntop raw_args [replicate 16 1] (main_steps 2 ++ sender_steps 4 ++ receiver_steps 2 ++ main_steps 3) []
    (start (Client_init 1700000000)).

Definition halfway_facts (p : list QEDObservation * program SqaLog) :=
  (exited p.2, sender_at p.2, sending_completed (the_client p.2) =? 0, main_at p.2).

Lemma halfway_some : halfway_facts <$> halfway =
  Some (None, SDone, false, CFile (make_QEDObservation CLIENT_SEND 1700000000500000000 0 14)).
Proof. vm_compute. reflexivity. Qed.

Lemma halfway_facts_inv obss m :
  halfway_facts (obss, m) =
    (None, SDone, false, CFile (make_QEDObservation CLIENT_SEND 1700000000500000000 0 14)) →
  exited m = None ∧ sender_at m = SDone ∧ sending_completed (the_client m) ≠ 0 ∧
  main_at m = CFile (make_QEDObservation CLIENT_SEND 1700000000500000000 0 14).
Proof.
  unfold halfway_facts. cbn [fst snd]. intros [= E1 E2 E3 E4]. rewrite E4. apply Z.eqb_neq in E3. done.
Qed.

Lemma halfway_runs obss m : halfway = Some (obss, m) →
  runs no_ntop raw_args [replicate 16 1] (start (Client_init 1700000000)) obss m.
Proof. unfold halfway. apply guarded_runs, runs_start. Qed.

Lemma raw_format : print_format raw_args ≠ "legacy".
Proof. intros Hf. vm_compute in Hf. discriminate Hf. Qed.

Lemma raw_timeout : timeout raw_args ∈u 8.
Proof. by vm_compute. Qed.

Lemma raw_waits : timeout raw_args ≠ 0.
Proof. by vm_compute. Qed.

