(* ===== verification/Threads.v ===== *)
(** * Threads: the races of the client's threads

    Schedules of [Program] with results no sequential order of the threads has: both
    threads checking the oldest entry at once, an entry retired while the collator is
    filing an observation in it, a packet sent before the collator has started, the
    collator ended by itself or by the receiver while observations are queued; and two
    assurances: a clean end, and what a client without a collator leaves untouched. *)

From S2P Require Import Prelude Double Text Packets Timestamps Sockets Observations ClientState Collator CollatorRuns Sender ClientOutput Receiver Setup Program ProgramSpec Accounting.

Lemma check_oldest_at {S} `{SqaStats S} args now (c : Client S) p r :
  good_time now → heap c !! p = Some r → expired args now r = true →
  check_oldest args now (Some p) c =
    match RawDataList.observations (raw_data_list c) with
    | [] => None
    | _ :: l => Some (put (raw_line args r) {| c with stats := replay_stats (aggregate_calls r) (stats c);
                                                      raw_data_list := RawDataList.mk l |})
    end.
Proof.
  intros Hn Hp Hr. unfold check_oldest. rewrite get_timestamp_exact by done. cbn [mbind option_bind].
  rewrite timestamp_to_nsec_exact by (apply wf_ntp_of_timespec; done). cbn [mbind option_bind].
  fold (now_nsec now). rewrite Hp. cbn [mbind option_bind]. unfold expired in Hr. rewrite Hr.
  rewrite aggregate_exact. cbn [mbind option_bind]. unfold RawDataList.popObservation.
  by destruct (RawDataList.observations (raw_data_list c)).
Qed.

(** With nothing listed, the check reports nothing. *)
Lemma check_oldest_none {S} `{SqaStats S} args now (c c' : Client S) :
  check_oldest args now None c = Some c' →
  c' = c ∨ (sending_completed c > 0 ∧ c' = {| c with collator_finished := 1 |}).
Proof.
  unfold check_oldest. destruct (get_timestamp now); [|done]. cbn [mbind option_bind].
  destruct (timestamp_to_nsec _); [|done]. cbn [mbind option_bind]. intros [= <-].
  destruct (sending_completed c >? 0) eqn:E; [right|by left]. split; [|done]. by apply Z.gtb_gt in E.
Qed.

(** ** Without a collator *)

Section Legacy.
Context {S : Type} `{SqaStats S}.
Variables (inet_ntop : Z → list Z → option string) (args : Args) (hosts : list (list Z)).

(** Nothing is queued, listed or reported, and no thread is about to. *)
Record idle (st0 : Stats S) (m : program S) : Prop := {
  i_main : main_at m = MHeader ∨ main_at m = MJoin ∨ main_at m = MDone;
  i_receiver : match receiver_at m with
               | RQueue obss _ _ _ _ => obss = [] | RLooked oldest => oldest = None | _ => True end;
  i_started : collator_started (the_client m) = 0;
  i_queue : ObservationList.observations (observation_list (the_client m)) = [];
  i_list : RawDataList.observations (raw_data_list (the_client m)) = [];
  i_heap : heap (the_client m) = ∅;
  i_stats : stats (the_client m) = st0;
}.

Lemma idle_keep st0 m m' : idle st0 m → entries (the_client m') = entries (the_client m) →
  observation_list (the_client m') = observation_list (the_client m) →
  collator_started (the_client m') = collator_started (the_client m) →
  (main_at m' = main_at m ∨ main_at m' = MJoin ∨ main_at m' = MDone) →
  match receiver_at m' with
  | RQueue obss _ _ _ _ => obss = [] | RLooked oldest => oldest = None | _ => True end → idle st0 m'.
Proof.
  intros [] [= Eh En El Est] Eo Ec [E|[E|E]] Hr; split; try congruence; rewrite ?E; auto.
Qed.

Lemma idle_receiver st0 it m m' : idle st0 m → receiver_step inet_ntop args it m = Some m' → idle st0 m'.
Proof.
  intros Hi E. pose proof Hi as [_ Hr Hs _ Hl _ _]. unfold receiver_step in E.
  destruct (receiver_at m) as [| |obss rec msg len incoming| |oldest|] eqn:Ep.
  - injection E as <-. eapply idle_keep; try done; [by left|]. cbn. by destruct (keep_receiving _ _ _).
  - destruct (await (response it)) as [[[[[rec msg] len] ts]|]|]; cbn [mbind option_bind] in E; [| |done].
    + destruct (incoming_nsec ts (recv_clock it)) as [incoming|]; [|done]. cbn [mbind option_bind] in E.
      unfold count_response in E. destruct (checked_i 32 _); [|done].
      unfold response_observations in E. cbn [mbind option_bind collator_started] in E.
      rewrite Hs in E. cbn [negb Z.eqb mbind option_bind] in E.
      injection E as <-. eapply idle_keep; try done. by left.
    + injection E as <-. eapply idle_keep; try done. by left.
  - subst obss. destruct (print_response _ _ _ _ _ _ _) as [r|] eqn:Er; [|done]. cbn [mbind option_bind] in E.
    apply print_response_frame in Er as (E1 & E2 & E3 & _). injection E as <-.
    eapply idle_keep; [exact Hi|..]; destruct r as [[]|]; try done; try (by left);
      try (by apply entries_of_receiving). cbn. by rewrite Ep.
  - injection E as <-. eapply idle_keep; try done; [by left|]. cbn.
    unfold RawDataList.getOldestEntry. by rewrite Hl.
  - subst oldest. destruct (check_oldest _ _ _ _) as [c|] eqn:Ec; [|done]. cbn [mbind option_bind] in E.
    injection E as <-. apply check_oldest_none in Ec as [->|[_ ->]]; eapply idle_keep; try done; by left.
  - by injection E as <-.
Qed.

Lemma idle_step st0 e m m' : runs_collator args = false → idle st0 m →
  step inet_ntop args hosts e m = Some m' → idle st0 m'.
Proof.
  intros Hc Hi E. unfold step in E. destruct (exited m); [by injection E as <-|].
  pose proof Hi as [Hm Hr Hs _ _ _ _]. destruct e as [it|it|now]; [|by eapply idle_receiver|].
  - unfold sender_step in E. destruct (sender_at m) as [index|n index len| |].
    + destruct (_ || _); [injection E as <-; eapply idle_keep; try done; by left|].
      destruct (send_phase args hosts it index (state m)) as [[r s]|] eqn:Ep; [|done].
      apply send_phase_frame in Ep as (E1 & E2 & E3 & _). cbn [mbind option_bind] in E. injection E as <-.
      eapply idle_keep; try done; [by apply entries_of_receiving|by left].
    + injection E as <-. destruct (record_sent_fields n index len (the_client m)) as (Eo & _ & _ & Ec & _ & _ & Er).
      rewrite Hs, Z.eqb_refl, app_nil_r in Eo.
      eapply idle_keep; [exact Hi|by apply entries_of_receiving| |exact Ec|by left|exact Hr].
      unfold the_client at 1. cbn. destruct (observation_list (record_sent _ _ _ _)), (observation_list (the_client m)).
      cbn in Eo. by subst.
    + injection E as <-. eapply idle_keep; try done. by left.
    + by injection E as <-.
  - unfold main_step in E. destruct Hm as [Hm|[Hm|Hm]]; rewrite Hm in E.
    + injection E as <-. rewrite Hc. eapply idle_keep; try done. by right; left.
    + injection E as <-. destruct (sender_at m), (receiver_at m); try done.
      eapply idle_keep; try done. by right; right.
    + by injection E as <-.
Qed.

Lemma run_idle st0 es : ∀ m m', runs_collator args = false → idle st0 m →
  run inet_ntop args hosts es m = Some m' → idle st0 m'.
Proof.
  induction es as [|e es IH]; intros m m' Hc Hi; cbn [run]; [by intros [= <-]|].
  destruct (step _ _ _ e m) as [m1|] eqn:E; [|done]. cbn [mbind option_bind].
  apply IH; [done|by eapply idle_step].
Qed.
End Legacy.

(** ** After the collator has been told to finish *)

Section Finished.
Context {S : Type} `{SqaStats S}.
Variables (inet_ntop : Z → list Z → option string) (args : Args) (hosts : list (list Z)).

(** The collator has finished with [q] queued and the statistics [st], and nothing
    listed; nobody is about to file or to report. *)
Record finished (st : Stats S) (q : list QEDObservation) (m : program S) : Prop := {
  f_main : main_at m = CHead ∨ main_at m = MJoin ∨ main_at m = MDone;
  f_receiver : match receiver_at m with RLooked oldest => oldest = None | _ => True end;
  f_finished : collator_finished (the_client m) ≠ 0;
  f_queue : ∃ q', ObservationList.observations (observation_list (the_client m)) = q ++ q';
  f_list : RawDataList.observations (raw_data_list (the_client m)) = [];
  f_stats : stats (the_client m) = st;
}.

Lemma finished_keep st q m m' obss : finished st q m →
  receiving_part (the_client m') = receiving_part (the_client m) →
  ObservationList.observations (observation_list (the_client m')) =
    ObservationList.observations (observation_list (the_client m)) ++ obss →
  (main_at m' = main_at m ∨ main_at m' = MJoin ∨ main_at m' = MDone) →
  match receiver_at m' with RLooked oldest => oldest = None | _ => True end → finished st q m'.
Proof.
  intros [Hm Hr Hf [q' Hq] Hl Hs] [= Eh En El Est Er Ef] Eo E Hr'.
  split; try congruence; [destruct E as [E|[E|E]]; rewrite E; auto|].
  exists (q' ++ obss). by rewrite Eo, Hq, app_assoc.
Qed.

Ltac fkeep := eapply (finished_keep _ _ _ _ []); [eassumption|done|by rewrite app_nil_r|by left|done].

Lemma finished_step st q e m m' : finished st q m → step inet_ntop args hosts e m = Some m' → finished st q m'.
Proof.
  intros Hi E. unfold step in E. destruct (exited m); [by injection E as <-|].
  pose proof Hi as [Hm Hr Hf Hq Hl Hs]. destruct e as [it|it|now].
  - unfold sender_step in E. destruct (sender_at m) as [index|n index len| |].
    + destruct (_ || _); [injection E as <-; fkeep|].
      destruct (send_phase args hosts it index (state m)) as [[r s]|] eqn:Ep; [|done].
      apply send_phase_frame in Ep as (E1 & E2 & _). cbn [mbind option_bind] in E. injection E as <-.
      eapply (finished_keep _ _ _ _ []); [exact Hi|exact E1| |by left|done].
      rewrite app_nil_r. unfold the_client. cbn [state]. by rewrite E2.
    + injection E as <-. destruct (record_sent_fields n index len (the_client m)) as (Eo & _ & _ & _ & _ & _ & Er).
      eapply finished_keep; [exact Hi|exact Er|exact Eo|by left|done].
    + injection E as <-. fkeep.
    + by injection E as <-.
  - unfold receiver_step in E. destruct (receiver_at m) as [| |obss rec msg len incoming| |oldest|] eqn:Ep.
    + injection E as <-. eapply (finished_keep _ _ _ _ []); [exact Hi|done|by rewrite app_nil_r|by left|].
      cbn. by destruct (keep_receiving _ _ _).
    + destruct (await (response it)) as [[[[[rec msg] len] ts]|]|]; cbn [mbind option_bind] in E; [| |done].
      * destruct (incoming_nsec ts (recv_clock it)) as [incoming|]; [|done]. cbn [mbind option_bind] in E.
        unfold count_response in E. destruct (checked_i 32 _); [|done]. cbn [mbind option_bind] in E.
        destruct (response_observations _ _ _ _) as [obss|]; [|done]. cbn [mbind option_bind] in E.
        injection E as <-. destruct Hi. by split.
      * injection E as <-. fkeep.
    + destruct obss as [|obs obss].
      * destruct (print_response _ _ _ _ _ _ _) as [r|] eqn:Er; [|done]. cbn [mbind option_bind] in E.
        apply print_response_frame in Er as (E1 & E2 & _). injection E as <-.
        eapply (finished_keep _ _ _ _ []); [exact Hi|..]; destruct r as [[]|]; try done; try (by left);
          try (by rewrite app_nil_r; unfold the_client; cbn; rewrite E2). cbn. by rewrite Ep.
      * injection E as <-. eapply (finished_keep _ _ _ _ [obs]); [exact Hi|done|done|by left|done].
    + injection E as <-. eapply (finished_keep _ _ _ _ []); [exact Hi|done|by rewrite app_nil_r|by left|].
      cbn. unfold RawDataList.getOldestEntry. by rewrite Hl.
    + subst oldest. destruct (check_oldest _ _ _ _) as [c|] eqn:Ec; [|done]. cbn [mbind option_bind] in E.
      injection E as <-. apply check_oldest_none in Ec as [->|[_ ->]]; destruct Hi; by split.
    + by injection E as <-.
  - unfold main_step in E. destruct Hm as [Hm|[Hm|Hm]]; rewrite Hm in E.
    + injection E as <-. apply Z.eqb_neq in Hf as Hf'. rewrite Hf'.
      eapply (finished_keep _ _ _ _ []); [exact Hi|done|by rewrite app_nil_r|by right; left|done].
    + injection E as <-. destruct (sender_at m), (receiver_at m); try done.
      eapply (finished_keep _ _ _ _ []); [exact Hi|done|by rewrite app_nil_r|by right; right|done].
    + by injection E as <-.
Qed.

Lemma run_finished st q es : ∀ m m', finished st q m → run inet_ntop args hosts es m = Some m' → finished st q m'.
Proof.
  induction es as [|e es IH]; intros m m' Hi; cbn [run]; [by intros [= <-]|].
  destruct (step _ _ _ e m) as [m1|] eqn:E; [|done]. cbn [mbind option_bind].
  apply IH. by eapply finished_step.
Qed.
End Finished.

(** ** Properties *)

(** C21: the check of the oldest entry is not atomic.  When the receiver, whose
    reception timed out, and the collator both look at the oldest entry before
    either acts on it, that entry is reported to the statistics twice and the one
    behind it is removed without ever being reported; when there is no second
    entry, the second thread takes the front of an empty deque, which is undefined. *)
Theorem oldest_check_race {S} `{SqaStats S} inet_ntop args hosts it n1 n2 (m : program S) r es :
  exited m = None → receiver_at m = RMissed → main_at m = CCheck →
  good_time (check_clock it) → good_time n2 → repr (the_client m) (r :: es) →
  expired args (check_clock it) r = true → expired args n2 r = true →
  let race := run inet_ntop args hosts [ReceiverStep it; MainStep n1; ReceiverStep it; MainStep n2] m in
  match es with
  | [] => race = None
  | _ :: es' => ∃ m', race = Some m' ∧ repr (the_client m') es' ∧
      stats (the_client m') =
        replay_stats (aggregate_calls r) (replay_stats (aggregate_calls r) (stats (the_client m)))
  end.
Proof.
  intros Hx Hr Hm H1 H2 [HL HN HF] He1 He2 race. unfold race.
  destruct m as [s sp rp mp x]. unfold the_client in *. cbn [state exited receiver_at main_at] in *. subst.
  destruct (RawDataList.observations (raw_data_list (client s))) as [|p ptrs] eqn:El;
    inversion HL as [|? ? ? ? Hp HL']; subst.
  assert (run inet_ntop args hosts [ReceiverStep it; MainStep n1] (mkProgram s sp RMissed CCheck None) =
    Some (mkProgram s sp (RLooked (Some p)) (CLooked (Some p)) None)) as E.
  { cbn [run step exited receiver_step receiver_at mbind option_bind main_step main_at].
    unfold the_client, RawDataList.getOldestEntry. cbn [state]. by rewrite El. }
  change [ReceiverStep it; MainStep n1; ReceiverStep it; MainStep n2] with
    ([ReceiverStep it; MainStep n1] ++ [ReceiverStep it; MainStep n2]).
  rewrite run_app, E. cbn [run mbind option_bind].
  rewrite (receiver_acts _ _ _ _ (Some p)) by done. change (the_client (mkProgram s _ _ _ _)) with (client s).
  rewrite (check_oldest_at args (check_clock it) (client s) p r H1 Hp He1), El. cbn [mbind option_bind].
  rewrite (main_acts _ _ _ _ (Some p)) by done. cbn [the_client set_client state client].
  rewrite (check_oldest_at args n2 _ p r H2) by (exact Hp || exact He2).
  cbn [put raw_data_list RawDataList.observations].
  inversion HL' as [|q r2 ptrs' es' Hq HL2]; subst; [done|].
  cbn [mbind option_bind]. eexists. split; [done|]. split; [|done].
  apply NoDup_cons in HN as [_ HN]. apply NoDup_cons in HN as [_ HN]. by split.
Qed.

Definition lost_entry : RawData := mkRawData 1700000001000000000 8 50 6 0 0 0.
Definition two_listed : Client SqaLog :=
  {| example_client with heap := {[ 0%nat := mkRawData 1700000001000000000 7 50 5 6 7 8; 1%nat := lost_entry ]};
                         next := 2%nat; raw_data_list := RawDataList.mk [0%nat; 1%nat] |}.

Lemma repr_two_listed : repr two_listed [mkRawData 1700000001000000000 7 50 5 6 7 8; lost_entry].
Proof.
  split; cbn [two_listed heap next raw_data_list RawDataList.observations].
  - by repeat constructor.
  - apply (bool_decide_unpack _). vm_compute. exact I.
  - intros p Hp. destruct p as [|[|p]]; [lia|lia|]. exfalso. destruct Hp as [x Hx].
    by rewrite lookup_insert_ne, lookup_singleton_ne in Hx by done.
Qed.

Definition checking : program SqaLog := mkProgram (mkSender two_listed [] []) (SHead 9) RMissed CCheck None.

Lemma oldest_check_race_witness :
  ∃ m, run no_ntop Args_init [] [ReceiverStep (example_recv 0); MainStep (mkTimespec 1700000002 0);
      ReceiverStep (example_recv 0); MainStep (mkTimespec 1700000002 0)] checking = Some m ∧
    stats_server_client (stats (the_client m)) = [AddSample (mkTimespec 0 1); AddSample (mkTimespec 0 1)] ∧
    repr (the_client m) [].
Proof.
  destruct (oldest_check_race no_ntop Args_init [] (example_recv 0) (mkTimespec 1700000002 0)
    (mkTimespec 1700000002 0) checking (mkRawData 1700000001000000000 7 50 5 6 7 8) [lost_entry]) as (m & E & R & Es).
  - reflexivity.
  - reflexivity.
  - reflexivity.
  - by vm_compute.
  - by vm_compute.
  - apply repr_two_listed.
  - by vm_compute.
  - by vm_compute.
  - exists m. split; [exact E|]. rewrite Es. split; [vm_compute; reflexivity|exact R].
Defined.

(** C22: [process_observation] walks over the list of entries without its lock.  When
    the receiver, whose reception timed out, retires the oldest entry while the
    collator is at it, the collator goes on from a removed element of the deque,
    which is undefined; and when the collator had just found that entry to file an
    observation in, the observation goes into an entry that has been reported without
    it: it is in no listed entry, in no queue, and the statistics never see it. *)
Theorem filing_race {S} `{SqaStats S} inet_ntop args hosts it now obs (m : program S) p l r es :
  exited m = None → receiver_at m = RMissed → good_time (check_clock it) →
  repr (the_client m) (r :: es) → RawDataList.observations (raw_data_list (the_client m)) = p :: l →
  expired args (check_clock it) r = true →
  let race := run inet_ntop args hosts [ReceiverStep it; ReceiverStep it; MainStep now] m in
  (main_at m = CSearch obs (p :: l) → race = None) ∧
  (main_at m = CFound obs p → ∃ m', race = Some m' ∧ main_at m' = CHead ∧ repr (the_client m') es ∧
     observation_list (the_client m') = observation_list (the_client m) ∧
     stats (the_client m') = replay_stats (aggregate_calls r) (stats (the_client m))).
Proof.
  intros Hx Hr Hn [HL HN HF] El He race. unfold race. clear race.
  destruct m as [s sp rp mp x]. unfold the_client in *. cbn [state exited receiver_at main_at] in *. subst.
  rewrite El in HL, HN. inversion HL as [|? ? ? ? Hp HL']; subst. apply NoDup_cons in HN as [Hnin HN].
  set (c := put (raw_line args r) {| (client s) with stats := replay_stats (aggregate_calls r) (stats (client s));
                                                     raw_data_list := RawDataList.mk l |}).
  assert (run inet_ntop args hosts [ReceiverStep it; ReceiverStep it] (mkProgram s sp RMissed mp None) =
    Some (mkProgram (mkSender c (wire s) (slept s)) sp RHead mp None)) as E.
  { cbn [run]. rewrite step_receiver by done. unfold receiver_step at 1. cbn [receiver_at mbind option_bind].
    unfold RawDataList.getOldestEntry, the_client. cbn [state]. rewrite El.
    rewrite (receiver_acts _ _ _ _ (Some p)) by done. unfold the_client. cbn [state].
    by rewrite (check_oldest_at args (check_clock it) (client s) p r Hn Hp He), El. }
  change [ReceiverStep it; ReceiverStep it; MainStep now] with ([ReceiverStep it; ReceiverStep it] ++ [MainStep now]).
  rewrite run_app, E. cbn [run mbind option_bind].
  split; intros ->; rewrite step_main by done; unfold main_step; cbn [main_at]; unfold the_client; cbn [state client].
  - unfold valid_iterator. cbn [c put raw_data_list RawDataList.observations length].
    by rewrite (proj2 (Nat.leb_gt _ _)) by lia.
  - unfold update_at. cbn [c put heap]. rewrite Hp. cbn [mbind option_bind].
    eexists. split; [done|]. split; [done|]. split; [|done]. split; cbn.
    + by apply Forall2_heap_ne.
    + done.
    + intros q. rewrite lookup_insert. case_decide as Eq; [|apply HF]. intros _. apply HF. rewrite <- Eq. eauto.
Qed.

Definition filing_at (pc : main_pc) : program SqaLog := mkProgram (mkSender two_listed [] []) (SHead 9) RMissed pc None.

Lemma filing_race_witness :
  run no_ntop Args_init [] [ReceiverStep (example_recv 0); ReceiverStep (example_recv 0); MainStep (mkTimespec 1700000002 0)]
    (filing_at (CSearch (mkQED CLIENT_RECEIVE 9 7 50) [0%nat; 1%nat])) = None ∧
  ∃ m, run no_ntop Args_init [] [ReceiverStep (example_recv 0); ReceiverStep (example_recv 0); MainStep (mkTimespec 1700000002 0)]
    (filing_at (CFound (mkQED CLIENT_RECEIVE 9 7 50) 0%nat)) = Some m ∧ repr (the_client m) [lost_entry].
Proof.
  split.
  - apply (filing_race no_ntop Args_init [] (example_recv 0) (mkTimespec 1700000002 0) (mkQED CLIENT_RECEIVE 9 7 50)
      (filing_at _) 0%nat [1%nat] (mkRawData 1700000001000000000 7 50 5 6 7 8) [lost_entry]);
      [reflexivity|reflexivity|by vm_compute|apply repr_two_listed|reflexivity|by vm_compute|reflexivity].
  - destruct (filing_race no_ntop Args_init [] (example_recv 0) (mkTimespec 1700000002 0) (mkQED CLIENT_RECEIVE 9 7 50)
      (filing_at (CFound (mkQED CLIENT_RECEIVE 9 7 50) 0%nat)) 0%nat [1%nat]
      (mkRawData 1700000001000000000 7 50 5 6 7 8) [lost_entry]) as [_ Hf];
      [reflexivity|reflexivity|by vm_compute|apply repr_two_listed|reflexivity|by vm_compute|].
    destruct (Hf eq_refl) as (m & E & _ & R & _). exists m. split; [exact E|exact R].
Defined.

(** A client without a collator (legacy format without [--print-lost-packets]).
    However its threads interleave, nothing is ever queued, listed or reported: the
    check that the receiver does on a timeout finds an empty list, so the race
    cannot happen. *)
Lemma legacy_without_collator {S} `{SqaStats S} inet_ntop args hosts now es (m : program S) :
  runs_collator args = false →
  run inet_ntop args hosts es (start (Client_init now)) = Some m →
  let c := the_client m in
  ObservationList.observations (observation_list c) = [] ∧
  RawDataList.observations (raw_data_list c) = [] ∧ heap c = ∅ ∧
  stats c = Stats_create ∧ collator_started c = 0.
Proof.
  intros Hc Hr. assert (idle (Stats_create (S:=S)) (start (Client_init now))) as Hi by (split; try done; by left).
  by destruct (run_idle inet_ntop args hosts Stats_create es _ m Hc Hi Hr).
Qed.

Lemma legacy_without_collator_witness :
  ∃ m, run no_ntop Args_init [replicate 16 1]
      (main_steps 2 ++ sender_steps 2 ++ receiver_steps 1) (start (Client_init 1700000000 : Client SqaLog)) = Some m ∧
    ObservationList.observations (observation_list (the_client m)) = [].
Proof.
  assert (is_Some (run no_ntop Args_init [replicate 16 1]
      (main_steps 2 ++ sender_steps 2 ++ receiver_steps 1) (start (Client_init 1700000000 : Client SqaLog))))
    as [m E] by (vm_compute; by eexists).
  exists m. split; [exact E|].
  apply (legacy_without_collator no_ntop Args_init [replicate 16 1] 1700000000 _ m eq_refl E).
Defined.

(** C25: the collator can end before the last packet.  It finds the queue empty; then
    the sender queues the observation of its last packet and completes; then the
    collator finds nothing listed and sending completed, and finishes.  From there,
    whatever the threads do, that observation stays in the queue and the statistics
    stay as they were: the packet is counted neither as measured nor as lost. *)
Theorem collator_ends_early {S} `{SqaStats S} inet_ntop args hosts it now (m : program S) n index len :
  exited m = None → main_at m = CBody → receiver_at m = RAwait → sender_at m = SSent n index len →
  ObservationList.observations (observation_list (the_client m)) = [] →
  RawDataList.observations (raw_data_list (the_client m)) = [] →
  collator_started (the_client m) ≠ 0 → keep_sending args (u32 (index + 1)) = false →
  good_time now → 0 < Sender.now it < 2 ^ 64 →
  ∃ m', run inet_ntop args hosts [MainStep now; SenderStep it; SenderStep it; SenderStep it;
                                  MainStep now; MainStep now] m = Some m' ∧
    sender_at m' = SDone ∧ collator_finished (the_client m') ≠ 0 ∧
    ∀ es m'', run inet_ntop args hosts es m' = Some m'' →
      stats (the_client m'') = stats (the_client m) ∧
      ∃ q, ObservationList.observations (observation_list (the_client m'')) =
             make_QEDObservation CLIENT_SEND n index len :: q.
Proof.
  intros Hx Hm Hr Hs Hq Hl Hc Hk Hn Ht. destruct m as [s sp rp mp x].
  unfold the_client in *. cbn [state exited receiver_at main_at sender_at] in *. subst.
  set (c1 := set_sending_completed (u64 (Sender.now it)) (record_sent n index len (client s))).
  destruct (record_sent_fields n index len (client s)) as (Eo & _ & _ & _ & _ & _ & [= Eh En El Est _ Ef]).
  rewrite Hq in Eo. apply Z.eqb_neq in Hc as Hc'. rewrite Hc' in Eo. cbn [app] in Eo.
  assert (RawDataList.observations (raw_data_list c1) = []) as El1 by (unfold c1; cbn; by rewrite El).
  set (m1 := mkProgram (mkSender c1 (wire s) (slept s)) SDone RAwait (CLooked None) None).
  assert (run inet_ntop args hosts [MainStep now; SenderStep it; SenderStep it; SenderStep it; MainStep now]
    (mkProgram s (SSent n index len) RAwait CBody None) = Some m1) as E1.
  { set (s1 := mkSender (record_sent n index len (client s)) (wire s) (slept s)).
    rewrite (run_cons _ _ _ _ _ _ (mkProgram s (SSent n index len) RAwait CCheck None)).
    2: { rewrite step_main by done. unfold main_step, ObservationList.isEmpty, the_client. cbn. by rewrite Hq. }
    rewrite (run_cons _ _ _ _ _ _ (mkProgram s1 (SHead (u32 (index + 1))) RAwait CCheck None)) by done.
    rewrite (run_cons _ _ _ _ _ _ (mkProgram s1 SLeft RAwait CCheck None)).
    2: { rewrite step_sender by done. unfold sender_step. cbn. by rewrite Hk. }
    rewrite (run_cons _ _ _ _ _ _ (mkProgram (mkSender c1 (wire s) (slept s)) SDone RAwait CCheck None)) by done.
    cbn [run]. rewrite step_main by done. unfold main_step, RawDataList.getOldestEntry, the_client.
    cbn [main_at state client]. by rewrite El1. }
  set (c2 := {| c1 with collator_finished := 1 |}).
  assert (check_oldest args now None c1 = Some c2) as E2.
  { unfold check_oldest. rewrite get_timestamp_exact by done. cbn [mbind option_bind].
    rewrite timestamp_to_nsec_exact by (apply wf_ntp_of_timespec; done). cbn [mbind option_bind].
    unfold c1 at 1, set_sending_completed. cbn [sending_completed]. rewrite wrap_small by wsolve.
    by rewrite Z.gtb_ltb, (proj2 (Z.ltb_lt 0 _)) by lia. }
  exists (mkProgram (mkSender c2 (wire s) (slept s)) SDone RAwait CHead None).
  change [MainStep now; SenderStep it; SenderStep it; SenderStep it; MainStep now; MainStep now] with
    ([MainStep now; SenderStep it; SenderStep it; SenderStep it; MainStep now] ++ [MainStep now]).
  rewrite run_snoc, E1. cbn [mbind option_bind].
  rewrite (main_acts _ _ _ _ None) by done. change (the_client m1) with c1. rewrite E2.
  split; [done|]. split; [done|]. split; [done|]. intros es m'' Hrun.
  apply (run_finished _ _ _ (stats (client s)) [make_QEDObservation CLIENT_SEND n index len]) in Hrun
    as [_ _ _ [q Hq'] _ Hst]; [by split; [|exists q]|].
  split; try done; [by left|]. exists []. unfold the_client, c2, c1. cbn. by rewrite Eo.
Qed.

Definition last_sent : program SqaLog :=
  mkProgram (mkSender {| (Client_init 1700000000 : Client SqaLog) with collator_started := 1 |} [] [])
    (SSent 1700000001000000000 0 50) RAwait CBody None.

Lemma collator_ends_early_witness :
  ∃ m', run no_ntop raw_args [] [MainStep (mkTimespec 1700000001 0); SenderStep (Sender.example_send 1700000001);
      SenderStep (Sender.example_send 1700000001); SenderStep (Sender.example_send 1700000001);
      MainStep (mkTimespec 1700000001 0); MainStep (mkTimespec 1700000001 0)] last_sent = Some m' ∧
    sender_at m' = SDone ∧ stats (the_client m') = Stats_create.
Proof.
  destruct (collator_ends_early no_ntop raw_args [] (Sender.example_send 1700000001) (mkTimespec 1700000001 0)
    last_sent 1700000001000000000 0 50) as (m' & E & Hs & _ & Hall); [reflexivity..|discriminate|by vm_compute|by vm_compute|by vm_compute|].
  exists m'. split; [exact E|]. split; [exact Hs|]. exact (proj1 (Hall [] m' eq_refl)).
Defined.

(** The receiver can end the collator.  When its reception fails after sending
    has completed and nothing is listed at that moment, it tells the collator to
    finish even though observations are queued; they stay queued for ever, and the
    packets they belong to are not counted. *)
Lemma receiver_ends_collator {S} `{SqaStats S} inet_ntop args hosts it (m : program S) :
  exited m = None → main_at m = CHead → receiver_at m = RMissed → good_time (check_clock it) →
  RawDataList.observations (raw_data_list (the_client m)) = [] → sending_completed (the_client m) > 0 →
  ∃ m', run inet_ntop args hosts [ReceiverStep it; ReceiverStep it] m = Some m' ∧
    ∀ es m'', run inet_ntop args hosts es m' = Some m'' →
      stats (the_client m'') = stats (the_client m) ∧
      ∃ q, ObservationList.observations (observation_list (the_client m'')) =
             ObservationList.observations (observation_list (the_client m)) ++ q.
Proof.
  intros Hx Hm Hr Hn Hl Hc. destruct m as [s sp rp mp x].
  unfold the_client in *. cbn [state exited receiver_at main_at] in *. subst.
  set (c1 := {| (client s) with collator_finished := 1 |}).
  assert (check_oldest args (check_clock it) None (client s) = Some c1) as E.
  { unfold check_oldest. rewrite get_timestamp_exact by done. cbn [mbind option_bind].
    rewrite timestamp_to_nsec_exact by (apply wf_ntp_of_timespec; done). cbn [mbind option_bind].
    by rewrite Z.gtb_ltb, (proj2 (Z.ltb_lt 0 _)) by lia. }
  exists (mkProgram (mkSender c1 (wire s) (slept s)) sp RHead CHead None). split.
  - cbn [run]. rewrite step_receiver by done. unfold receiver_step. cbn [receiver_at mbind option_bind].
    rewrite (receiver_acts _ _ _ _ None); [|done|unfold the_client, RawDataList.getOldestEntry; cbn; by rewrite Hl].
    change (the_client _) with (client s). by rewrite E.
  - intros es m'' Hrun.
    apply (run_finished _ _ _ (stats (client s)) (ObservationList.observations (observation_list (client s)))) in Hrun
      as [_ _ _ [q Hq'] _ Hst]; [by split; [|exists q]|].
    split; try done; [by left|]. exists []. by rewrite app_nil_r.
Qed.

Definition queued_at_end : program SqaLog :=
  mkProgram (mkSender {| (Client_init 1700000000 : Client SqaLog) with collator_started := 1;
       sending_completed := 1700000001;
       observation_list := ObservationList.mk [mkQED CLIENT_SEND 1700000001000000000 0 50] |} [] [])
    SDone RMissed CHead None.

Lemma receiver_ends_collator_witness :
  ∃ m', run no_ntop raw_args [] [ReceiverStep (example_recv 0); ReceiverStep (example_recv 0)] queued_at_end = Some m' ∧
    stats (the_client m') = Stats_create.
Proof.
  destruct (receiver_ends_collator no_ntop raw_args [] (example_recv 0) queued_at_end)
    as (m' & E & Hall); [reflexivity..|by vm_compute|reflexivity|reflexivity|].
  exists m'. split; [exact E|]. exact (proj1 (Hall [] m' eq_refl)).
Defined.

(** ** A packet sent too early *)

(** An entry none of whose observations is a sending time is a lost packet. *)
Lemma unsent_entries id es groups :
  Forall2 entry_of es groups →
  Forall (λ o, o_packet_id o = id → observation_point o ≠ CLIENT_SEND) (concat (snd <$> groups)) →
  Forall (λ r, packet_id r = id → is_complete r = false ∧ losses (stats_RTT (aggregate_calls r)) = 1%nat) es.
Proof.
  intros HF Hno. induction HF as [|r [added g] es groups Hg HF IH]; [constructor|].
  cbn [fmap list_fmap snd concat] in Hno. apply Forall_app in Hno as [Hno Hno']. constructor; [|by apply IH].
  intros Hk. destruct Hg as (Er & _ & Hids). cbn [fst snd] in *.
  assert (is_complete r = false) as Hi.
  { rewrite Er. destruct (missing_point_entry CLIENT_SEND added (packet_id r) g) as [_ Hz].
    - apply Forall_forall. intros o Ho. rewrite Forall_forall in Hno, Hids. apply Hno; [done|].
      by rewrite Hids.
    - cbn in Hz. unfold is_complete. by rewrite Hz. }
  split; [done|]. unfold aggregate_calls. rewrite Hi. cbn. by destruct (0 <? rtt_total r).
Qed.

(** The entries of a partition and its observations are of the same packets. *)
Lemma groups_packets rs groups k : Forall2 entry_of rs groups →
  (∃ r, r ∈ rs ∧ packet_id r = k) ↔ ∃ o, o ∈ concat (snd <$> groups) ∧ o_packet_id o = k.
Proof.
  intros HF. induction HF as [|r g rs groups (_ & Hne & Hids) _ IH]; cbn [fmap list_fmap concat].
  { split; [intros (r & Hr & _)|intros (o & Ho & _)]; by apply elem_of_nil in Hr || by apply elem_of_nil in Ho. }
  rewrite Forall_forall in Hids. split.
  - intros (r' & [-> |Hr]%elem_of_cons & Hk).
    + destruct g.2 as [|o q]; [done|]. exists o. split; [by left|]. rewrite Hids; [done|by left].
    + destruct (proj1 IH (ex_intro _ r' (conj Hr Hk))) as (o & Ho & Hok). exists o. split; [|done].
      apply elem_of_app. by right.
  - intros (o & [Ho|Ho]%elem_of_app & Hk).
    + exists r. split; [by left|]. by rewrite <- (Hids o Ho).
    + destruct (proj2 IH (ex_intro _ o (conj Ho Hk))) as (r' & Hr & Hrk). exists r'. split; [by right|done].
Qed.

(** C26: a packet the sender records before the collator has started is never
    measured, however the threads go on as long as they are exclusive.  Its sending
    time is not enqueued, then or later, so that each entry of the packet, reported or
    listed, is incomplete, and reporting it counts exactly one loss of the round trip.
    There is such an entry as soon as an observation of a reply to the packet is
    filed, that is, unless all of them are still queued or in the collator's hands:
    an answered packet is counted as lost.  If none was enqueued there is no entry at
    all, and the packet is not counted in any way. *)
Theorem startup_race {S} `{SqaStats S} inet_ntop args hosts now obss obss' it (m m1 m' : program S) n k len :
  0 < num_samples args < 2 ^ 32 → runtime args = 0 →
  runs inet_ntop args hosts (start (Client_init now)) obss m →
  exited m = None → sender_at m = SSent n k len → collator_started (the_client m) = 0 → good_time (clock it) →
  step inet_ntop args hosts (SenderStep it) m = Some m1 → runs inet_ntop args hosts m1 obss' m' →
  ∃ reported listed,
    stats (the_client m') = retire_stats reported Stats_create ∧ repr (the_client m') listed ∧
    Forall (λ r, packet_id r = k → is_complete r = false ∧ losses (stats_RTT (aggregate_calls r)) = 1%nat)
      (reported ++ listed) ∧
    (∀ o, o ∈ obss ++ obss' → o_packet_id o = k →
       o ∈ in_hand (main_at m') ++ ObservationList.observations (observation_list (the_client m')) ∨
       ∃ r, r ∈ reported ++ listed ∧ packet_id r = k) ∧
    ((∃ r, r ∈ reported ++ listed ∧ packet_id r = k) → ∃ o, o ∈ obss ++ obss' ∧ o_packet_id o = k).
Proof.
  intros Hnum Hrt Hr Hx Hp Hc Hg E Hr'.
  destruct (runs_sends inet_ntop args hosts Hnum Hrt 0 _ obss m (start_numbered args Hnum now) eq_refl Hr)
    as ([R1 R2 HR] & _ & HO & _).
  rewrite Hp in R1, R2, HO. cbn [index_of] in R1, HO.
  assert (sender_at m1 = SHead (k + 1) ∧ enqueues (SenderStep it) m = []) as [Hp1 Hen].
  { unfold enqueues, sender_enqueues. rewrite Hx, Hp, Hc. rewrite step_sender in E by done.
    unfold sender_step in E. rewrite Hp in E. injection E as <-. cbn. by rewrite wrap_small by wsolve. }
  assert (exclusive m1 ∧ receiver_at m1 = receiver_at m) as [Hx1 Hrm].
  { destruct (runs_sim inet_ntop args hosts now obss m Hr) as (a & _ & _ & [_ _ _ Hxm _ _]).
    rewrite step_sender in E by done. unfold sender_step in E. rewrite Hp in E. injection E as <-.
    split; [|done]. apply (exclusive_ext m); try done. unfold set_client, the_client. cbn.
    by destruct (record_sent_fields n k len (client (state m))) as (_ & _ & _ & _ & _ & _ & [=]). }
  pose proof (runs_trans inet_ntop args hosts _ _ _ _ _
    (runs_step _ _ _ _ _ _ (SenderStep it) _ Hr Hg E Hx1) Hr') as Hall.
  rewrite Hen, app_nil_r in Hall.
  apply (runs_sends inet_ntop args hosts Hnum Hrt (k + 1)) in Hr' as (_ & _ & HO' & _).
  2: { split; rewrite ?Hp1, ?Hrm; try done. cbn. lia. }
  2: { by rewrite Hp1. }
  rewrite sent_ids_forall in HO, HO'.
  destruct (runs_sim inet_ntop args hosts now _ m' Hall) as (a & Ha & Hena & [Hqa R Hs _ _ _]).
  destruct (reachable_partitioned a Ha) as (_ & groups & HF & HP).
  exists (a_reported a), (a_listed a). split; [done|]. split; [done|].
  split; cycle 1.
  { rewrite <- Hqa, <- Hena. split.
    - intros o Ho Hk. rewrite HP in Ho. apply elem_of_app in Ho as [Ho|Ho]; [right|by left].
      apply (groups_packets _ groups k HF). by exists o.
    - intros (o & Ho & Hk)%(groups_packets _ groups k HF). exists o. split; [|done].
      rewrite HP. apply elem_of_app. by left. }
  assert (Forall (λ o, o_packet_id o = k → observation_point o ≠ CLIENT_SEND) (concat (snd <$> groups))) as Hno.
  { assert (Forall (λ o, o_packet_id o = k → observation_point o ≠ CLIENT_SEND) (a_enqueued a)) as H0.
    - rewrite Hena. apply Forall_app. split; eapply Forall_impl; try eassumption; cbn; intros o Ho Hk Hpt;
        specialize (Ho Hpt); lia.
    - rewrite HP in H0. by apply Forall_app in H0 as [H0 _]. }
  by eapply unsent_entries.
Qed.

Definition first_sent : option (list QEDObservation * program SqaLog) :=
  guarded no_ntop raw_args [replicate 16 1] (sender_steps 1) [] (start (Client_init 1700000000)).

Lemma first_sent_some : ∃ m, first_sent = Some ([], m) ∧ runs no_ntop raw_args [replicate 16 1] (start (Client_init 1700000000)) [] m ∧
  exited m = None ∧ sender_at m = SSent 1700000000500000000 0 14 ∧ collator_started (the_client m) = 0.
Proof.
  assert ((λ p, (p.1, exited p.2, sender_at p.2, collator_started (the_client p.2))) <$> first_sent =
    Some ([], None, SSent 1700000000500000000 0 14, 0)) as E by (vm_compute; reflexivity).
  destruct first_sent as [[obss m]|] eqn:Eg; [|done]. injection E as -> E1 E2 E3. exists m. split; [done|].
  split; [|split; [exact E1|split; [exact E2|exact E3]]]. unfold first_sent in Eg. eapply guarded_runs; [apply runs_start|exact Eg].
Qed.

(** The collator starts, a reply to that packet comes in and everything is filed. *)
Definition first_reply (t : Z) : recv_iteration :=
  {| (example_recv t) with response :=
       Datagram (take 50 (reflector_bytes {| example_reply with r_seq_number := htonl 0 |})) (replicate 16 1)
         [mkCmsg SOL_SOCKET SO_TIMESTAMPNS (timespec_bytes (mkTimespec 1700000001 500000000))] |}.
Definition reply_filed (m1 : program SqaLog) : option (list QEDObservation * program SqaLog) :=
  guarded no_ntop raw_args [replicate 16 1]
    (main_steps 2 ++ replicate 6 (ReceiverStep (first_reply 1700000001)) ++ main_steps 19) [] m1.

Lemma reply_filed_some : (λ p, (length p.1, head (o_packet_id <$> p.1), in_hand (main_at p.2) ++
    ObservationList.observations (observation_list (the_client p.2)))) <$>
  ('(_, m) ← first_sent; m1 ← step no_ntop raw_args [replicate 16 1] (SenderStep (Sender.example_send 1700000000)) m;
   reply_filed m1) = Some (3%nat, Some 0, []).
Proof. vm_compute. reflexivity. Qed.

Lemma reply_filed_facts : ∃ m m1 o obss' m',
  runs no_ntop raw_args [replicate 16 1] (start (Client_init 1700000000)) [] m ∧
  exited m = None ∧ sender_at m = SSent 1700000000500000000 0 14 ∧ collator_started (the_client m) = 0 ∧
  step no_ntop raw_args [replicate 16 1] (SenderStep (Sender.example_send 1700000000)) m = Some m1 ∧
  runs no_ntop raw_args [replicate 16 1] m1 (o :: obss') m' ∧ o_packet_id o = 0 ∧
  in_hand (main_at m') ++ ObservationList.observations (observation_list (the_client m')) = [].
Proof.
  pose proof reply_filed_some as E. destruct first_sent_some as (m & Hf & Hr & Hx & Hp & Hc). rewrite Hf in E.
  cbn [mbind option_bind] in E. destruct (step _ _ _ _ m) as [m1|] eqn:E1; [|done]. cbn [mbind option_bind] in E.
  destruct (reply_filed m1) as [[obss' m']|] eqn:E2; [|done]. injection E as E3 E4 E5.
  destruct obss' as [|o obss']; [done|]. injection E4 as E4.
  exists m, m1, o, obss', m'. split; [exact Hr|]. split; [exact Hx|]. split; [exact Hp|]. split; [exact Hc|]. split; [exact E1|].
  split; [|split; [exact E4|exact E5]]. eapply guarded_runs; [apply runs_start|exact E2].
Qed.

Lemma startup_race_witness :
  ∃ (m m' : program SqaLog) reported listed r,
    sender_at m = SSent 1700000000500000000 0 14 ∧ stats (the_client m') = retire_stats reported Stats_create ∧
    repr (the_client m') listed ∧ r ∈ reported ++ listed ∧ packet_id r = 0 ∧ is_complete r = false.
Proof.
  destruct reply_filed_facts as (m & m1 & o & obss' & m' & Hr & Hx & Hp & Hc & E & Hr' & Ho & Hq).
  destruct (startup_race no_ntop raw_args [replicate 16 1] 1700000000 [] (o :: obss') (Sender.example_send 1700000000)
    m m1 m' 1700000000500000000 0 14) as (reported & listed & Hs & R & HF & Hin & _);
    [by vm_compute|reflexivity|exact Hr|exact Hx|exact Hp|exact Hc|by vm_compute|exact E|exact Hr'|].
  destruct (Hin o (list_elem_of_here _ _) Ho) as [Hw|(r & Hrin & Hrk)]; [rewrite Hq in Hw; by apply elem_of_nil in Hw|].
  exists m, m', reported, listed, r. split; [exact Hp|]. split; [exact Hs|]. split; [exact R|]. split; [exact Hrin|].
  split; [exact Hrk|]. rewrite Forall_forall in HF. exact (proj1 (HF r Hrin Hrk)).
Defined.

(** ** Lemmas: the other threads during an iteration of the collator *)

Lemma guarded_others {S} `{SqaStats S} inet_ntop args hosts l : ∀ obss (m : program S) obss' m',
  Forall (λ e, match e with MainStep _ => False | _ => True end) l →
  guarded inet_ntop args hosts l obss m = Some (obss', m') → exclusive m →
  ∃ new, obss' = obss ++ new ∧ main_at m' = main_at m ∧ exclusive m' ∧
    ObservationList.observations (observation_list (the_client m')) =
      ObservationList.observations (observation_list (the_client m)) ++ new ∧
    ∀ o, main_at m = CLooked o → raw_data_list (the_client m') = raw_data_list (the_client m).
Proof.
  induction l as [|e l IH]; intros obss m obss' m' Hl; cbn [guarded].
  { intros [= <- <-] Hx. exists []. by rewrite !app_nil_r. }
  apply Forall_cons in Hl as [He Hl].
  destruct (step _ _ _ e m) as [m1|] eqn:E; [|done]. cbn [mbind option_bind].
  destruct (_ && _) eqn:Eg; [|done]. apply andb_prop in Eg as [_ Hx1%exclusiveb_spec]. intros Hrest Hx.
  destruct (other_step _ _ _ e m m1 He E) as (Em & Eq & El).
  destruct (IH _ _ _ _ Hl Hrest Hx1) as (new & -> & Em' & Hx' & Eq' & El').
  exists (enqueues e m ++ new). rewrite Eq', Eq, !app_assoc. split; [done|]. split; [congruence|].
  split; [done|]. split; [done|]. intros o Ho. rewrite (El' o) by congruence.
  destruct El as [El|[o' Ho']]; [done|]. unfold exclusive in Hx. by rewrite Ho', Ho in Hx.
Qed.

(** C24: a clean end.  When, in a run in which the threads are exclusive, the
    collator finds the queue empty and then, whatever the other threads do meanwhile,
    nothing listed, everything that was enqueued before it looked at the queue has
    been reported: the statistics are those of entries that partition exactly those
    observations.  So if sending had completed by then, the collator ends with every
    packet sent after its start counted. *)
Theorem clean_end {S} `{SqaStats S} inet_ntop args hosts now obss (m : program S) t1 l1 t2 l2 obss' m' :
  runs inet_ntop args hosts (start (Client_init now)) obss m →
  main_at m = CBody → exited m = None →
  ObservationList.observations (observation_list (the_client m)) = [] →
  Forall (λ e, match e with MainStep _ => False | _ => True end) (l1 ++ l2) →
  guarded inet_ntop args hosts (MainStep t1 :: l1 ++ MainStep t2 :: l2) obss m = Some (obss', m') →
  main_at m' = CLooked None →
  ∃ reported groups, Forall2 entry_of reported groups ∧ obss ≡ₚ concat (snd <$> groups) ∧
    stats (the_client m') = retire_stats reported Stats_create.
Proof.
  intros Hr Hm Hx Hq [Hl1 Hl2]%Forall_app Hg Hm'.
  pose proof (guarded_runs _ _ _ _ _ _ _ _ _ Hr Hg) as Hr'. cbn [guarded] in Hg.
  rewrite step_main in Hg by done. unfold main_step in Hg at 1. rewrite Hm in Hg.
  unfold ObservationList.isEmpty in Hg. rewrite Hq in Hg. cbn [negb mbind option_bind] in Hg.
  destruct (_ && _) eqn:Eg; [|done]. apply andb_prop in Eg as [_ Hx1%exclusiveb_spec].
  rewrite guarded_app in Hg. unfold enqueues in Hg. rewrite Hx, app_nil_r in Hg.
  destruct (guarded _ _ _ l1 obss _) as [[obss2 m2]|] eqn:E1; [|done]. cbn [mbind option_bind] in Hg.
  destruct (guarded_others _ _ _ l1 _ _ _ _ Hl1 E1 Hx1) as (new1 & -> & Em2 & Hx2 & Eq2 & _).
  cbn [main_at] in Em2. cbn [guarded] in Hg.
  destruct (step _ _ _ (MainStep t2) m2) as [m3|] eqn:E2; [|done]. cbn [mbind option_bind] in Hg.
  destruct (_ && _) eqn:Eg; [|done]. apply andb_prop in Eg as [_ Hx3%exclusiveb_spec].
  destruct (guarded_others _ _ _ l2 _ _ _ _ Hl2 Hg Hx3) as (new2 & -> & Em' & _ & Eq' & El').
  rewrite Em' in Hm'. unfold step in E2. unfold enqueues in Hr'.
  destruct (exited m2); [injection E2 as <-; by rewrite Em2 in Hm'|].
  unfold main_step in E2. rewrite Em2 in E2. injection E2 as <-. cbn [main_at] in Hm'.
  specialize (El' None ltac:(by cbn; rewrite Hm')). injection Hm' as Hm'.
  change (the_client {| m2 with main_at := _ |}) with (the_client m2) in *.
  destruct (runs_sim inet_ntop args hosts now _ m' Hr') as (a & Ha & Hen & [Hqa R Hs _ _ _]).
  destruct (reachable_partitioned a Ha) as (_ & groups & HF & HP).
  assert (a_listed a = []) as Hnil.
  { destruct R as [HL _ _]. rewrite El' in HL. unfold RawDataList.getOldestEntry in Hm'.
    destruct (RawDataList.observations _); [by inversion HL|done]. }
  exists (a_reported a), groups. rewrite Hnil, app_nil_r in HF. split; [done|]. split; [|done].
  change (ObservationList.observations (observation_list (the_client m2)) =
    ObservationList.observations (observation_list (the_client m)) ++ new1) in Eq2.
  rewrite Hen, Hqa, Em', Eq', Eq2, Hq in HP. cbn [in_hand app main_at] in HP.
  rewrite app_nil_r, <- app_assoc in HP. by apply Permutation_app_inv_r in HP.
Qed.

(** One packet is sent and timed out; the collator then finds nothing. *)
Definition retired_schedule : list event := main_steps 2 ++ sender_steps 2 ++ main_steps 5 ++ late_steps 5.
Definition retired_one : option (list QEDObservation * program SqaLog) :=
  guarded no_ntop raw_args [replicate 16 1] retired_schedule [] (start (Client_init 1700000000)).

Lemma retired_one_runs obss m : retired_one = Some (obss, m) →
  runs no_ntop raw_args [replicate 16 1] (start (Client_init 1700000000)) obss m.
Proof. unfold retired_one. apply guarded_runs, runs_start. Qed.

Definition retired_facts (p : list QEDObservation * program SqaLog) :=
  '(_, m') ← guarded no_ntop raw_args [replicate 16 1] (late_steps 2) p.1 p.2;
  Some (main_at p.2, exited p.2, ObservationList.observations (observation_list (the_client p.2)), length p.1,
        main_at m').

Lemma retired_one_facts :
  (p ← retired_one; retired_facts p) = Some (CBody, None, [], 1%nat, CLooked None).
Proof. vm_compute. reflexivity. Qed.

Lemma retired_facts_inv obss m : retired_facts (obss, m) = Some (CBody, None, [], 1%nat, CLooked None) →
  ∃ obss' m', main_at m = CBody ∧ exited m = None ∧
    ObservationList.observations (observation_list (the_client m)) = [] ∧ length obss = 1%nat ∧
    guarded no_ntop raw_args [replicate 16 1] (late_steps 2) obss m = Some (obss', m') ∧ main_at m' = CLooked None.
Proof.
  unfold retired_facts. cbn [fst snd]. destruct (guarded _ _ _ (late_steps 2) obss m) as [[obss' m']|]; [|done].
  cbn [mbind option_bind]. intros [= E1 E2 E3 E4 E5]. exists obss', m'.
  split; [exact E1|]. split; [exact E2|]. split; [exact E3|]. split; [exact E4|]. split; [reflexivity|exact E5].
Qed.

Lemma clean_end_witness :
  ∃ obss (m' : program SqaLog) reported, length obss = 1%nat ∧ stats (the_client m') = retire_stats reported Stats_create ∧
    ∃ groups, Forall2 entry_of reported groups ∧ obss ≡ₚ concat (snd <$> groups).
Proof.
  pose proof retired_one_facts as E. destruct retired_one as [[obss m]|] eqn:Er; [|discriminate E].
  apply retired_one_runs in Er as Hr. apply retired_facts_inv in E as (obss' & m' & Hm & Hx & Hq & Hl & Hg & Hm').
  destruct (clean_end no_ntop raw_args [replicate 16 1] 1700000000 obss m (mkTimespec 1700000100 0) []
    (mkTimespec 1700000100 0) [] obss' m' Hr Hm Hx Hq (List.Forall_nil _) Hg Hm') as (reported & groups & HF & HP & Hs).
  exists obss, m', reported. split; [exact Hl|]. split; [exact Hs|]. exists groups. split; [exact HF|exact HP].
Defined.
