(* ===== verification/Liveness.v ===== *)
(** * Liveness: every entry is reported in the end

    An entry of the collator leaves the list only by being reported, and it is
    reported after at most as many late checks as there are entries up to it: a check
    is late when its clock is past the time at which all of them have timed out.  The
    schedule decides when checks happen; nothing else has to be fair. *)

From S2P Require Import Prelude Double Text Packets Timestamps Sockets Observations ClientState Collator CollatorRuns Sender ClientOutput Receiver Setup Program ProgramSpec.

(** What stays the same of an entry while observations are filed under it. *)
Definition key (r : RawData) : Z * Z := (packet_id r, added_at_epoch_nanoseconds r).

Lemma key_update obs r : key (update_entry obs r) = key r.
Proof. unfold key, update_entry, record_point. by destruct (observation_point obs). Qed.

Lemma file_keys added obs es : key <$> es `prefix_of` key <$> file added obs es.
Proof.
  destruct (file_cases added obs es) as [[_ ->]|(e1 & r & e2 & -> & _ & ->)].
  - rewrite fmap_app. by apply prefix_app_r.
  - rewrite !fmap_app. cbn [fmap list_fmap]. by rewrite key_update.
Qed.

(** Entries keep their order, and what is reported stays reported. *)
Lemma astep_keys a a' : rtc astep a a' →
  a_reported a `prefix_of` a_reported a' ∧
  (key <$> a_reported a ++ a_listed a) `prefix_of` (key <$> a_reported a' ++ a_listed a').
Proof.
  induction 1 as [a|a a1 a2 Hs _ [IH1 IH2]]; [done|].
  enough (a_reported a `prefix_of` a_reported a1 ∧
    (key <$> a_reported a ++ a_listed a) `prefix_of` (key <$> a_reported a1 ++ a_listed a1)) as [? ?]
    by (split; by etrans).
  destruct Hs as [obs a|added obs q a _|r es a El]; cbn [a_reported a_listed].
  - done.
  - split; [done|]. rewrite !fmap_app. apply prefix_app, file_keys.
  - rewrite El. split; [by apply prefix_app_r|]. by rewrite <- app_assoc.
Qed.

Section Liveness.
Context {S : Type} `{SqaStats S} (inet_ntop : Z → list Z → option string) (args : Args) (hosts : list (list Z)).

(** The oldest entry a step acts on, and at what time. *)
Definition acts (e : event) (m : program S) : option (option ptr * timespec) :=
  match exited m, e with
  | None, ReceiverStep it =>
      match receiver_at m with RLooked oldest => Some (oldest, check_clock it) | _ => None end
  | None, MainStep now => match main_at m with CLooked oldest => Some (oldest, now) | _ => None end
  | _, _ => None
  end.

(** Past the timeout of every entry added until [deadline]. *)
Definition late (deadline : Z) (now : timespec) : bool := deadline + timeout args * 10 ^ 9 <? now_nsec now.

Definition is_late (deadline : Z) (e : event) (m : program S) : bool :=
  match acts e m with Some (_, now) => late deadline now | None => false end.

(** The number of late checks in a schedule. *)
Fixpoint late_checks (deadline : Z) (schedule : list event) (m : program S) : nat :=
  match schedule with
  | [] => 0
  | e :: schedule =>
      (if is_late deadline e m then 1 else 0) +
      match step inet_ntop args hosts e m with Some m' => late_checks deadline schedule m' | None => 0 end
  end%nat.

(** No thread is in the check after having found nothing. *)
Definition looking (m : program S) : Prop :=
  receiver_at m ≠ RLooked None ∧ main_at m ≠ CLooked None.

Lemma late_expired deadline now r : good_time now → timeout args ∈u 8 →
  0 ≤ added_at_epoch_nanoseconds r ≤ deadline → late deadline now = true → expired args now r = true.
Proof.
  intros Hn Ht Ha Hl%Z.ltb_lt. unfold expired, timed_out, Collator.NANOSECONDS_IN_SECOND.
  pose proof (ntp_nsec_range (ntp_of_timespec now) (proj2 (wf_ntp_of_timespec now Hn))) as Hr.
  fold (now_nsec now) in Hr. change (10 ^ 9) with 1000000000 in *. rewrite wrap_small by wsolve.
  rewrite Z.gtb_ltb. apply orb_true_intro. right. apply Z.ltb_lt. lia.
Qed.

(** The simulation, with what a late check reports. *)
Lemma live_step deadline e (m : program S) a m' : timeout args ∈u 8 → good_event e → sim m a → looking m →
  step inet_ntop args hosts e m = Some m' → exclusive m' →
  ∃ a', rtc astep a a' ∧ sim m' a' ∧
    ∀ r es, a_listed a = r :: es → 0 ≤ added_at_epoch_nanoseconds r ≤ deadline →
      is_late deadline e m = true → a_reported a' = a_reported a ++ [r].
Proof.
  intros Ht Hg Hs [L1 L2] E Hx. unfold is_late, acts.
  destruct (step_sim inet_ntop args hosts e m a m' Hg Hs E Hx) as (a1 & Ha1 & _ & Hs1).
  unfold step in E. destruct (exited m); [by exists a1|].
  destruct e as [it|it|now]; [by exists a1|..].
  - destruct (receiver_at m) as [| | | |oldest|] eqn:Ep; try by exists a1. destruct Hg as [_ Hg].
    destruct (receiver_act_sim inet_ntop args it oldest m a m' Hg Hs Ep E Hx) as (a' & Ha & _ & Hs' & Hret).
    exists a'. split; [done|]. split; [done|]. intros r es El Hr Hl. apply (Hret r es); [congruence|done|].
    by eapply late_expired.
  - destruct (main_at m) as [| | | | | | | | |oldest| |] eqn:Ep; try by exists a1.
    destruct (main_act_sim args now oldest m a m' Hg Hs Ep E Hx) as (a' & Ha & _ & Hs' & Hret).
    exists a'. split; [done|]. split; [done|]. intros r es El Hr Hl. apply (Hret r es); [congruence|done|].
    by eapply late_expired.
Qed.

(** With something listed, a thread that looks sees it. *)
Lemma looking_step e (m : program S) a m' : sim m a → a_listed a ≠ [] → looking m →
  step inet_ntop args hosts e m = Some m' → looking m'.
Proof.
  intros [_ [HL _ _] _ _ _ _] Hne [L1 L2] E.
  assert (RawDataList.getOldestEntry (raw_data_list (the_client m)) ≠ None) as Ho.
  { unfold RawDataList.getOldestEntry. destruct (RawDataList.observations _); [by inversion HL; subst|done]. }
  unfold step in E. destruct (exited m); [by injection E as <-|]. destruct e as [it|it|now].
  - unfold sender_step in E. destruct (sender_at m).
    + destruct (_ || _); [by injection E as <-|].
      destruct (send_phase _ _ _ _ _) as [[? ?]|]; [|done]. by injection E as <-.
    + by injection E as <-.
    + by injection E as <-.
    + by injection E as <-.
  - unfold receiver_step in E. destruct (receiver_at m) as [| |obss| | |] eqn:Ep.
    + injection E as <-. split; [|done]. cbn. by destruct (keep_receiving _ _ _).
    + destruct (await _) as [[[[[? ?] ?] ?]|]|]; cbn [mbind option_bind] in E; [|by injection E as <-|done].
      destruct (incoming_nsec _ _); [|done]. cbn [mbind option_bind] in E.
      destruct (count_response _ _ _); [|done]. cbn [mbind option_bind] in E.
      destruct (response_observations _ _ _ _); [|done]. by injection E as <-.
    + destruct obss; [|by injection E as <-].
      destruct (print_response _ _ _ _ _ _ _) as [r|]; [|done]. injection E as <-.
      destruct r as [[]|]; split; try done. cbn. by rewrite Ep.
    + injection E as <-. split; [|done]. cbn. by intros [= Hn].
    + destruct (check_oldest _ _ _ _); [|done]. by injection E as <-.
    + injection E as <-. split; [by rewrite Ep|done].
  - unfold main_step in E. destruct (main_at m) eqn:Ep.
    + injection E as <-. split; [done|]. cbn. by destruct (runs_collator _).
    + by injection E as <-.
    + injection E as <-. split; [done|]. cbn. by destruct (_ =? 0).
    + injection E as <-. split; [done|]. cbn. by destruct (negb _).
    + destruct (ObservationList.popObservation _) as [[]|]; [|done]. by injection E as <-.
    + by injection E as <-.
    + destruct it as [|entry it]; [destruct (add_entry _ _ _); [by injection E as <-|done]|].
      destruct (valid_iterator _ _); [|done]. destruct (_ !! entry); [|done]. injection E as <-.
      split; [done|]. cbn. by destruct (_ =? _).
    + destruct (update_at _ _ _); [by injection E as <-|done].
    + injection E as <-. split; [done|]. cbn. by intros [= Hn].
    + destruct (check_oldest _ _ _ _); [|done]. by injection E as <-.
    + injection E as <-. destruct (sender_at m), (receiver_at m) eqn:?; (split; cbn; congruence).
    + injection E as <-. split; [done|by rewrite Ep].
Qed.

(** The entry at position [i] of those reported and listed is reported. *)
Definition reported_at (i : nat) (k : Z * Z) (a : abstract) : Prop :=
  ∃ r, a_reported a !! i = Some r ∧ key r = k.

Lemma reported_at_mono i k a a' : rtc astep a a' → reported_at i k a → reported_at i k a'.
Proof.
  intros Ha (r & Hr & Hk). exists r. split; [|done].
  destruct (astep_keys a a' Ha) as [Hp _]. by eapply prefix_lookup_Some.
Qed.

Lemma reported_lookup i k a : (key <$> a_reported a ++ a_listed a) !! i = Some k →
  (i < length (a_reported a))%nat → reported_at i k a.
Proof.
  rewrite list_lookup_fmap. intros Hi Hlt. rewrite lookup_app_l in Hi by done.
  destruct (a_reported a !! i) as [r|] eqn:E; [|done]. injection Hi as <-. by exists r.
Qed.

Lemma guarded_sim schedule : ∀ obss (m : program S) a obss' m', sim m a →
  guarded inet_ntop args hosts schedule obss m = Some (obss', m') → ∃ a', rtc astep a a' ∧ sim m' a'.
Proof.
  induction schedule as [|e schedule IH]; intros obss m a obss' m' Hs; cbn [guarded]; [by intros [= _ <-]; exists a|].
  destruct (step _ _ _ e m) as [m1|] eqn:E; [|done]. cbn [mbind option_bind].
  destruct (_ && _) eqn:Eg; [|done]. apply andb_prop in Eg as [?%good_eventb_spec ?%exclusiveb_spec]. intros Hg.
  destruct (step_sim inet_ntop args hosts e m a m1) as (a1 & Ha1 & _ & Hs1); [done..|].
  destruct (IH _ _ _ _ _ Hs1 Hg) as (a' & Ha' & Hs'). exists a'. split; [by etrans|done].
Qed.

(** Enough late checks report the entry at position [i], if every entry up to it was
    added by the deadline. *)
Lemma late_checks_report deadline (Ht : timeout args ∈u 8) schedule : ∀ obss (m : program S) a obss' m' i k,
  sim m a → looking m → guarded inet_ntop args hosts schedule obss m = Some (obss', m') →
  (key <$> a_reported a ++ a_listed a) !! i = Some k →
  (∀ j k', (length (a_reported a) ≤ j ≤ i)%nat → (key <$> a_reported a ++ a_listed a) !! j = Some k' →
     0 ≤ k'.2 ≤ deadline) →
  (i < length (a_reported a) + late_checks deadline schedule m)%nat →
  ∃ a', rtc astep a a' ∧ sim m' a' ∧ reported_at i k a'.
Proof.
  induction schedule as [|e schedule IH]; intros obss m a obss' m' i k Hs Hlk Hg Hi Hd Hc.
  { injection Hg as _ <-. exists a. split; [done|]. split; [done|]. apply reported_lookup; [done|].
    cbn [late_checks] in Hc. lia. }
  destruct (decide (i < length (a_reported a))%nat) as [Hlt|Hge].
  { destruct (guarded_sim _ _ _ _ _ _ Hs Hg) as (a' & Ha & Hs'). exists a'. split; [done|]. split; [done|].
    by apply (reported_at_mono i k a a'), reported_lookup. }
  cbn [guarded late_checks] in Hg, Hc.
  destruct (step _ _ _ e m) as [m1|] eqn:E; [|done]. cbn [mbind option_bind] in Hg.
  destruct (_ && _) eqn:Eg; [|done]. apply andb_prop in Eg as [Hge1%good_eventb_spec Hx1%exclusiveb_spec].
  assert (∃ r es, a_listed a = r :: es ∧ 0 ≤ added_at_epoch_nanoseconds r ≤ deadline) as (r & es & El & Hr).
  { destruct (a_listed a) as [|r es] eqn:El.
    - rewrite app_nil_r in Hi. apply lookup_lt_Some in Hi. rewrite length_fmap in Hi. lia.
    - exists r, es. split; [done|]. apply (Hd (length (a_reported a)) (key r)); [lia|].
      by rewrite list_lookup_fmap, lookup_app_r, Nat.sub_diag by lia. }
  destruct (live_step deadline e m a m1 Ht Hge1 Hs Hlk E Hx1) as (a1 & Ha1 & Hs1 & Hret).
  destruct (astep_keys a a1 Ha1) as [Hp1 Hp2].
  destruct (IH (obss ++ enqueues e m) m1 a1 obss' m' i k) as (a' & Ha' & Hs' & Hrep).
  - done.
  - eapply looking_step; [exact Hs|by rewrite El|exact Hlk|exact E].
  - done.
  - by eapply prefix_lookup_Some.
  - intros j k' Hj Hk'. apply prefix_length in Hp1 as Hlen. apply (Hd j k'); [lia|].
    destruct Hp2 as [rest Er]. rewrite Er in Hk'. rewrite lookup_app_l in Hk'; [done|].
    apply lookup_lt_Some in Hi. lia.
  - specialize (Hret r es El Hr). apply prefix_length in Hp1. destruct (is_late deadline e m); [|lia].
    rewrite Hret, length_app by done. simpl. lia.
  - exists a'. split; [by etrans|]. split; [done|done].
Qed.
End Liveness.

(** ** Property *)

(** C8: every entry is reported in the end.  From any state reached while the threads
    are exclusive, let any such schedule follow.  The entry at position [length pre] of
    the list has been reported by its end, in its place in the order of the reports,
    if the schedule has more than [length pre] late checks: checks of the oldest
    entry, by either thread, at clock readings past the time at which that entry and
    those before it have timed out.  Observations filed meanwhile cannot delay it. *)
Theorem entry_reported {S} `{SqaStats S} inet_ntop args hosts now obss (m : program S) schedule obss' m' deadline :
  timeout args ∈u 8 → runs inet_ntop args hosts (start (Client_init now)) obss m →
  receiver_at m ≠ RLooked None → main_at m ≠ CLooked None →
  guarded inet_ntop args hosts schedule obss m = Some (obss', m') →
  ∃ reported listed, stats (the_client m) = retire_stats reported Stats_create ∧ repr (the_client m) listed ∧
    ∀ pre r post, listed = pre ++ r :: post →
      Forall (λ r, 0 ≤ added_at_epoch_nanoseconds r ≤ deadline) (pre ++ [r]) →
      (length pre < late_checks inet_ntop args hosts deadline schedule m)%nat →
      ∃ reported' r', stats (the_client m') = retire_stats reported' Stats_create ∧
        reported `prefix_of` reported' ∧
        reported' !! (length reported + length pre)%nat = Some r' ∧ key r' = key r.
Proof.
  intros Ht Hr L1 L2 Hg. destruct (runs_sim inet_ntop args hosts now obss m Hr) as (a & _ & _ & Hs).
  pose proof Hs as [_ R Hst _ _ _]. exists (a_reported a), (a_listed a). split; [done|]. split; [done|].
  intros pre r post El Hd Hc.
  (* only the reported part may have any age *)
  destruct (late_checks_report inet_ntop args hosts deadline Ht schedule obss m a obss' m'
    (length (a_reported a) + length pre) (key r)) as (a' & Ha & Hs' & (r' & Hr' & Hk)); try done.
  - rewrite list_lookup_fmap, lookup_app_r, El by lia.
    replace (_ + _ - _)%nat with (length pre) by lia. by rewrite lookup_app_r, Nat.sub_diag by lia.
  - intros j k' Hj. rewrite list_lookup_fmap, lookup_app_r, El by lia. intros Hk'.
    rewrite Forall_lookup in Hd. replace (pre ++ r :: post) with ((pre ++ [r]) ++ post) in Hk' by by rewrite <- app_assoc.
    rewrite lookup_app_l in Hk' by (rewrite length_app; simpl; lia).
    destruct ((pre ++ [r]) !! (j - _)%nat) as [r0|] eqn:E0; [|done]. injection Hk' as <-. exact (Hd _ r0 E0).
  - lia.
  - exists (a_reported a'), r'. destruct Hs' as [_ _ Hst' _ _ _]. split; [done|].
    split; [by apply astep_keys|]. done.
Qed.

(** One packet is filed; a check at a late time follows. *)
Definition filed_one : option (list QEDObservation * program SqaLog) :=
  guarded no_ntop raw_args [replicate 16 1] (main_steps 2 ++ sender_steps 2 ++ main_steps 5) []
    (start (Client_init 1700000000)).

Lemma filed_one_runs obss m : filed_one = Some (obss, m) →
  runs no_ntop raw_args [replicate 16 1] (start (Client_init 1700000000)) obss m.
Proof. unfold filed_one. apply guarded_runs, runs_start. Qed.

Definition example_late : list event := replicate 4 (MainStep (mkTimespec 1700000100 0)).

Definition filed_facts (p : list QEDObservation * program SqaLog) :=
  '(obss', _) ← guarded no_ntop raw_args [replicate 16 1] example_late p.1 p.2;
  Some (main_at p.2, receiver_at p.2, obss',
        late_checks no_ntop raw_args [replicate 16 1] 1700000002000000000 example_late p.2,
        (λ q, added_at_epoch_nanoseconds <$> heap (the_client p.2) !! q) <$>
          RawDataList.observations (raw_data_list (the_client p.2))).

Lemma filed_one_facts : (p ← filed_one; filed_facts p) =
  Some (CHead, RHead, [make_QEDObservation CLIENT_SEND 1700000000500000000 0 14], 1%nat, [Some 1700000001000000000]).
Proof. vm_compute. reflexivity. Qed.

Lemma filed_facts_inv obss m o : filed_facts (obss, m) = Some (CHead, RHead, o, 1%nat, [Some 1700000001000000000]) →
  ∃ obss' m', main_at m = CHead ∧ receiver_at m = RHead ∧
    guarded no_ntop raw_args [replicate 16 1] example_late obss m = Some (obss', m') ∧
    late_checks no_ntop raw_args [replicate 16 1] 1700000002000000000 example_late m = 1%nat ∧
    ∀ listed, repr (the_client m) listed → ∃ r, listed = [r] ∧ added_at_epoch_nanoseconds r = 1700000001000000000.
Proof.
  unfold filed_facts. cbn [fst snd]. destruct (guarded _ _ _ example_late obss m) as [[obss' m']|]; [|done].
  cbn [mbind option_bind]. intros [= E1 E2 E3 E4 E5]. exists obss', m'.
  split; [exact E1|]. split; [exact E2|]. split; [reflexivity|]. split; [exact E4|].
  intros listed [HL _ _]. destruct (RawDataList.observations _) as [|p [|]]; [discriminate E5| |discriminate E5].
  inversion HL as [|? r ? ? Hp HL']; subst. inversion HL'; subst. exists r. split; [reflexivity|].
  cbn in E5. rewrite Hp in E5. by injection E5.
Qed.

Lemma entry_reported_witness :
  ∃ (m' : program SqaLog) reported' r', stats (the_client m') = retire_stats reported' Stats_create ∧
    r' ∈ reported' ∧ added_at_epoch_nanoseconds r' = 1700000001000000000.
Proof.
  pose proof filed_one_facts as E. destruct filed_one as [[obss m]|] eqn:Er; [|discriminate E].
  apply filed_one_runs in Er as Hr. apply filed_facts_inv in E as (obss' & m' & Hm & Hrv & Hg & Hl & Hlist).
  destruct (entry_reported no_ntop raw_args [replicate 16 1] 1700000000 obss m example_late obss' m'
    1700000002000000000) as (reported & listed & _ & R & Hall);
    [split; vm_compute; congruence|exact Hr|rewrite Hrv; discriminate|rewrite Hm; discriminate|exact Hg|].
  destruct (Hlist listed R) as (r & -> & Ha).
  destruct (Hall [] r [] eq_refl) as (reported' & r' & Hs & _ & Hr' & Hk).
  - constructor; [rewrite Ha; lia|constructor].
  - rewrite Hl. simpl. lia.
  - exists m', reported', r'. split; [exact Hs|]. split; [by eapply list_elem_of_lookup_2|].
    injection Hk as _ Hk. by rewrite Hk.
Defined.
