(* ===== verification/Termination.v ===== *)
(** * Termination: every measurement ends

    Ranking functions for the three threads.  Whatever the schedule, as long as the
    threads are exclusive, each turn of the sender, then, past the receiver's timeout,
    each turn of the receiver, and then each turn of the collator brings its thread
    nearer to the end; so a schedule with enough turns of each thread, one after the
    other, leaves [main] done.  [Completion] shows that the turns can be made. *)

From S2P Require Import Prelude Double Text Packets Timestamps Sockets Observations ClientState Collator CollatorRuns Sender ClientOutput Receiver Setup Program ProgramSpec Accounting Typing Completion Threads Liveness.

(** ** Turns *)

Definition of_sender (e : event) : bool := match e with SenderStep _ => true | _ => false end.
Definition of_receiver (e : event) : bool := match e with ReceiverStep _ => true | _ => false end.
Definition of_main (e : event) : bool := match e with MainStep _ => true | _ => false end.

(** The number of steps of a thread in a schedule. *)
Definition turns (who : event → bool) (schedule : list event) : nat := length (List.filter who schedule).

(** An entry that was listed holds an observation. *)
Lemma partitioned_size a : partitioned a → (length (a_listed a) + length (a_queue a) ≤ length (a_enqueued a))%nat.
Proof.
  intros (_ & groups & HF & Hp). apply Permutation_length in Hp. rewrite Hp, length_app.
  assert (length (a_reported a ++ a_listed a) ≤ length (concat (snd <$> groups)))%nat as Hle;
    [|rewrite length_app in Hle; lia].
  clear Hp. induction HF as [|r g l groups (_ & Hne & _) _ IH]; [done|].
  cbn [fmap list_fmap concat length]. rewrite length_app. destruct g.2; [done|]. cbn [length]. change (list_fmap _ _ snd groups) with (groups.*2). lia.
Qed.

Section Termination.
Context {S : Type} `{SqaStats S}.
Variables (inet_ntop : Z → list Z → option string) (args : Args) (hosts : list (list Z)).
Hypothesis Hnum : 0 < num_samples args < 2 ^ 32.
Hypothesis Hrun : runtime args = 0.
Hypothesis Hformat : print_format args ≠ "legacy".
Hypothesis Htimeout : timeout args ∈u 8.

(** A rank that no step increases and the steps of one thread decrease. *)
Lemma ranked (I : list QEDObservation → program S → Prop) (E : event → Prop) (who : event → bool) (rank : program S → nat) :
  (∀ obss e m m', I obss m → E e → good_event e → step inet_ntop args hosts e m = Some m' → exclusive m' →
    I (obss ++ enqueues e m) m' ∧ (rank m' ≤ rank m - (if who e then 1 else 0))%nat) →
  ∀ schedule obss m obss' m', I obss m → Forall E schedule →
    guarded inet_ntop args hosts schedule obss m = Some (obss', m') →
    I obss' m' ∧ (rank m' ≤ rank m - turns who schedule)%nat.
Proof.
  intros Hstep. induction schedule as [|e schedule IH]; intros obss m obss' m' HI HE; cbn [guarded].
  { intros [= <- <-]. unfold turns. cbn. split; [done|lia]. }
  apply Forall_cons in HE as [He HE]. destruct (step _ _ _ e m) as [m1|] eqn:E1; [|done]. cbn [mbind option_bind].
  destruct (_ && _) eqn:Eg; [|done]. apply andb_prop in Eg as [?%good_eventb_spec ?%exclusiveb_spec]. intros Hg.
  destruct (Hstep obss e m m1) as [HI1 Hr1]; [done..|]. destruct (IH _ _ _ _ HI1 HE Hg) as [HI' Hr'].
  split; [done|]. unfold turns in *. cbn [List.filter]. destruct (who e); cbn [length]; lia.
Qed.

(** ** The invariant *)

(** Sending completes at a time up to [T], the entries are dated up to [D]. *)
Record going (T D : Z) (m : program S) : Prop := {
  g_exited : exited m = None;
  g_numbered : numbered args m;
  g_replies : match receiver_at m with RQueue q _ _ _ _ => (length q ≤ 3)%nat | _ => True end;
  g_completed : sender_at m = SDone → 0 < sending_completed (the_client m) ≤ T;
  g_dated : map_Forall (λ _ r, 0 ≤ added_at_epoch_nanoseconds r ≤ D) (heap (the_client m));
}.

(** What a step has to observe of these bounds. *)
Definition observes (T D : Z) (e : event) (m : program S) : Prop :=
  match e with
  | SenderStep it => sender_at m = SLeft → 0 < now it ≤ T
  | ReceiverStep _ => True
  | MainStep now => ∀ obs, main_at m = CSearch obs [] → now_nsec now ≤ D
  end.

Lemma added_update obs r : added_at_epoch_nanoseconds (update_entry obs r) = added_at_epoch_nanoseconds r.
Proof. unfold update_entry, record_point. by destruct (observation_point obs). Qed.

Lemma sender_going T D it (m m' : program S) : T < 2 ^ 64 → going T D m → observes T D (SenderStep it) m →
  sender_step args hosts it m = Some m' → going T D m' ∧ receiver_at m' = receiver_at m.
Proof.
  intros HT [Hx Hn Hq Hc Hd] Ho E.
  destruct (sender_advances args hosts Hnum Hrun it m m' Hx Hn E) as [Hn' _].
  unfold sender_step in E. cbn [observes] in Ho. destruct (sender_at m) as [k|n k len| |] eqn:Es.
  - destruct (_ || _); [by injection E as <-|].
    destruct (send_phase args hosts it k (state m)) as [[r s]|] eqn:Ep; [|done]. cbn [mbind option_bind] in E.
    apply send_phase_frame in Ep as (E1%entries_of_receiving & _). injection E as <-. split; [|done].
    split; try done; [by destruct r as [[]|]|]. injection E1 as Eh _ _ _. unfold the_client in *. cbn. by rewrite Eh.
  - injection E as <-. destruct (record_sent_fields n k len (the_client m)) as (_ & _ & _ & _ & _ & _ & Er%entries_of_receiving).
    split; [|done]. split; try done. injection Er as Eh _ _ _. unfold the_client at 1. cbn. by rewrite Eh.
  - injection E as <-. split; [|done]. specialize (Ho eq_refl). split; try done. intros _. cbn.
    by rewrite wrap_small by wsolve.
  - injection E as <-. split; [|done]. split; try done. by rewrite Es.
Qed.

Lemma receiver_going T D it (m m' : program S) : going T D m → receiver_step inet_ntop args it m = Some m' →
  going T D m' ∧ sender_at m' = sender_at m.
Proof.
  intros [Hx Hn Hq Hc Hd] E. destruct (receiver_advances inet_ntop args it m m' Hx Hn E) as [Hn' _].
  unfold receiver_step in E. destruct (receiver_at m) as [| |[|o q] rec msg len incoming| |oldest|] eqn:Er.
  - injection E as <-. split; [|done]. split; try done. cbn. by destruct (keep_receiving _ _ _).
  - destruct (await (response it)) as [[[[[rec msg] len] ts]|]|]; cbn [mbind option_bind] in E; [| |done].
    + destruct (incoming_nsec _ _) as [incoming|]; [|done]. cbn [mbind option_bind] in E. unfold count_response in E.
      destruct (checked_i 32 _); [|done]. cbn [mbind option_bind] in E.
      destruct (response_observations _ _ _ _) as [q|] eqn:Eq; [|done]. cbn [mbind option_bind] in E. injection E as <-.
      split; [|done]. split; try done. cbn. unfold response_observations in Eq. destruct (negb _); [|injection Eq as <-; cbn; lia].
      rewrite reply_observations_exact in Eq. injection Eq as <-. cbn. lia.
    + injection E as <-. by split.
  - unfold print_response in E. rewrite (proj2 (String.eqb_neq _ _) Hformat) in E. injection E as <-. by split.
  - injection E as <-. split; [|done]. split; try done. cbn in Hq |- *. lia.
  - injection E as <-. by split.
  - destruct (check_oldest _ _ _ _) as [c|] eqn:Ec; [|done]. cbn [mbind option_bind] in E. injection E as <-.
    split; [|done]. pose proof (check_oldest_started _ _ _ _ _ Ec) as (_ & Esc).
    apply check_oldest_list in Ec as (Eh & _). split; try done; unfold the_client at 1; cbn; [by rewrite Esc|by rewrite Eh].
  - injection E as <-. split; [|done]. split; try done. by rewrite Er.
Qed.

Lemma add_entry_dated D now obs (c c' : Client S) : good_time now → now_nsec now ≤ D →
  add_entry now obs c = Some c' → map_Forall (λ _ r, 0 ≤ added_at_epoch_nanoseconds r ≤ D) (heap c) →
  map_Forall (λ _ r, 0 ≤ added_at_epoch_nanoseconds r ≤ D) (heap c').
Proof.
  intros Hg HD. unfold add_entry. rewrite get_timestamp_exact by done. cbn [mbind option_bind].
  rewrite timestamp_to_nsec_exact by (apply wf_ntp_of_timespec; done). cbn [mbind option_bind].
  fold (now_nsec now). intros [= <-] Hd. apply map_Forall_insert_2; [|done]. rewrite added_update.
  destruct (now_nsec_u64 now Hg) as [? _]. by cbn.
Qed.

Lemma main_going T D now (m m' : program S) : good_time now → going T D m → observes T D (MainStep now) m →
  main_step args now m = Some m' → going T D m'.
Proof.
  intros Hg [Hx Hn Hq Hc Hd] Ho E. destruct (main_keeps _ _ _ _ E) as [Es Er].
  assert (numbered args m') as Hn' by (destruct Hn; split; by rewrite ?Es, ?Er).
  cut (exited m' = None ∧ sending_completed (the_client m') = sending_completed (the_client m) ∧
    map_Forall (λ _ r, 0 ≤ added_at_epoch_nanoseconds r ≤ D) (heap (the_client m'))).
  { intros (Ex' & Esc & Hd'). split; rewrite ?Er, ?Es, ?Esc; done. }
  unfold main_step in E. cbn [observes] in Ho. destruct (main_at m) eqn:Ep; try (by injection E as <-).
  - destruct (ObservationList.popObservation _) as [[]|]; [|done]. by injection E as <-.
  - destruct it as [|entry it].
    + destruct (add_entry _ _ _) as [c|] eqn:Ec; [|done]. cbn [mbind option_bind] in E. injection E as <-.
      split; [done|]. split; [by apply add_entry_started in Ec as [_ ?]|].
      eapply add_entry_dated; [done|by eapply Ho|exact Ec|done].
    + destruct (valid_iterator _ _); [|done]. destruct (_ !! entry); [|done]. by injection E as <-.
  - destruct (update_at _ _ _) as [c|] eqn:Ec; [|done]. cbn [mbind option_bind] in E. injection E as <-.
    split; [done|]. split; [by apply update_at_started in Ec as [_ ?]|]. unfold update_at in Ec.
    destruct (heap (the_client m) !! entry) as [r|] eqn:Eh; [|done]. cbn [mbind option_bind] in Ec. injection Ec as <-.
    apply map_Forall_insert_2; [|done]. rewrite added_update. by eapply Hd.
  - destruct (check_oldest _ _ _ _) as [c|] eqn:Ec; [|done]. cbn [mbind option_bind] in E. injection E as <-.
    split; [done|]. split; [by apply check_oldest_started in Ec as [_ ?]|].
    apply check_oldest_list in Ec as (Eh & _). unfold the_client at 1. cbn. by rewrite Eh.
  - injection E as <-. destruct (sender_at m), (receiver_at m); done.
Qed.

(** With the abstract client and the number of observations enqueued. *)
Definition reached (T D : Z) (obss : list QEDObservation) (m : program S) : Prop :=
  going T D m ∧ ∃ a, partitioned a ∧ a_enqueued a = obss ∧ sim m a.

Lemma reached_step T D obss e (m m' : program S) : T < 2 ^ 64 → reached T D obss m → observes T D e m → good_event e →
  step inet_ntop args hosts e m = Some m' → exclusive m' → reached T D (obss ++ enqueues e m) m'.
Proof.
  intros HT (Hg & a & Hp & Hen & Hs) Ho He E Hx. split.
  - unfold step in E. rewrite (g_exited _ _ _ Hg) in E. destruct e as [it|it|now].
    + by eapply sender_going.
    + by eapply receiver_going.
    + by eapply main_going.
  - destruct (step_sim inet_ntop args hosts e m a m' He Hs E Hx) as (a' & Ha & Hen' & Hs').
    exists a'. split; [|by rewrite Hen', Hen]. clear -Ha Hp. induction Ha; eauto using astep_partitioned.
Qed.

Lemma reached_start T D now : reached T D [] (start (Client_init now)).
Proof.
  split; [split; cbn; try done; by apply start_numbered|]. exists a_start. split; [apply a_start_partitioned|].
  split; [done|apply sim_start].
Qed.

(** ** The sender *)

Definition sender_rank (m : program S) : nat :=
  match sender_at m with
  | SHead k => 2 * Z.to_nat (num_samples args - k) + 2
  | SSent _ k _ => 2 * Z.to_nat (num_samples args - k) + 1
  | SLeft => 1
  | SDone => 0
  end.

Lemma sender_rank_step T D e (m m' : program S) : going T D m →
  step inet_ntop args hosts e m = Some m' →
  (sender_rank m' ≤ sender_rank m - (if of_sender e then 1 else 0))%nat.
Proof.
  intros Hg E. unfold step in E. rewrite (g_exited _ _ _ Hg) in E. unfold sender_rank.
  pose proof (g_numbered _ _ _ Hg) as [R1 R2 _]. destruct e as [it|it|now]; cbn [of_sender].
  - unfold sender_step in E. destruct (sender_at m) as [k|n k len| |] eqn:Es; cbn [index_of] in R1.
    + assert (keep_sending args k = (k <? num_samples args)) as Hk.
      { unfold keep_sending. rewrite Hrun, (proj2 (Z.eqb_neq (num_samples args) 0)) by lia. apply orb_false_r. }
      rewrite Hk in E. destruct (Z.ltb_spec k (num_samples args)); cbn [negb orb] in E; cycle 1.
      { injection E as <-. cbn. lia. }
      destruct (runtime_over _ _ _); [injection E as <-; cbn; lia|].
      destruct (send_phase _ _ _ _ _) as [[[[n len]|] s]|]; [| |done]; cbn [mbind option_bind] in E;
        injection E as <-; cbn [sender_at]; rewrite ?(wrap_small 32 (k + 1)) by wsolve; lia.
    + injection E as <-. cbn [sender_at]. rewrite (wrap_small 32 (k + 1)) by wsolve. lia.
    + injection E as <-. cbn. lia.
    + injection E as <-. rewrite Es. lia.
  - destruct (receiver_going T D it m m' Hg E) as [_ ->]. lia.
  - apply main_keeps in E as [-> _]. lia.
Qed.

Lemma sender_done_step T D e (m m' : program S) : T < 2 ^ 64 → going T D m → sender_at m = SDone →
  step inet_ntop args hosts e m = Some m' → sender_at m' = SDone.
Proof.
  intros HT Hg Hs E. unfold step in E. rewrite (g_exited _ _ _ Hg) in E. destruct e as [it|it|now].
  - unfold sender_step in E. rewrite Hs in E. by injection E as <-.
  - destruct (receiver_going T D it m m' Hg E) as [_ ->]. done.
  - apply main_keeps in E as [-> _]. done.
Qed.

(** ** The receiver *)

Definition receiver_rank (m : program S) : nat :=
  match receiver_at m with
  | RAwait => 6
  | RQueue q _ _ _ _ => length q + 2
  | RMissed => 3
  | RLooked _ => 2
  | RHead => 1
  | RDone => 0
  end.

(** The receiver looks at the clock past its timeout. *)
Definition past (T : Z) (e : event) : Prop :=
  match e with ReceiverStep it => T + timeout args ≤ loop_time it < 2 ^ 64 | _ => True end.

Lemma past_timeout T it (c : Client S) : past T (ReceiverStep it) → 0 < sending_completed c ≤ T →
  keep_receiving args (loop_time it) c = false.
Proof.
  intros Hp Hc. cbn [past] in Hp. unfold keep_receiving. rewrite (proj2 (Z.eqb_neq _ _)) by lia. cbn [orb].
  rewrite (wrap_small 64 (loop_time it)) by wsolve. rewrite wrap_small by wsolve.
  rewrite (proj2 (Z.ltb_ge (loop_time it - sending_completed c) (timeout args))) by lia. apply andb_false_r.
Qed.

Lemma receiver_rank_step T D e (m m' : program S) : T < 2 ^ 64 → going T D m → sender_at m = SDone → past T e →
  observes T D e m → step inet_ntop args hosts e m = Some m' →
  (receiver_rank m' ≤ receiver_rank m - (if of_receiver e then 1 else 0))%nat.
Proof.
  intros HT Hg Hs Hp Ho E. unfold step in E. rewrite (g_exited _ _ _ Hg) in E. unfold receiver_rank.
  destruct e as [it|it|now]; cbn [of_receiver].
  - destruct (sender_going T D it m m' HT Hg Ho E) as [_ ->]. lia.
  - destruct (receiver_going T D it m m' Hg E) as [Hg' _]. pose proof (g_replies _ _ _ Hg') as Hq.
    unfold receiver_step in E. destruct (receiver_at m) as [| |[|o q] rec msg len incoming| |oldest|] eqn:Er.
    + rewrite (past_timeout T) in E by (done || by apply Hg). injection E as <-. cbn. lia.
    + destruct (await (response it)) as [[[[[rec msg] len] ts]|]|]; cbn [mbind option_bind] in E; [| |done].
      * destruct (incoming_nsec _ _) as [incoming|]; [|done]. cbn [mbind option_bind] in E.
        destruct (count_response _ _ _); [|done]. cbn [mbind option_bind] in E.
        destruct (response_observations _ _ _ _); [|done]. cbn [mbind option_bind] in E. injection E as <-.
        cbn in Hq |- *. lia.
      * injection E as <-. cbn. lia.
    + unfold print_response in E. rewrite (proj2 (String.eqb_neq _ _) Hformat) in E. injection E as <-. cbn. lia.
    + injection E as <-. cbn. lia.
    + injection E as <-. cbn. lia.
    + destruct (check_oldest _ _ _ _); [|done]. injection E as <-. cbn. lia.
    + injection E as <-. rewrite Er. lia.
  - apply main_keeps in E as [_ ->]. lia.
Qed.

(** ** The collator with observations queued *)

Definition queued (m : program S) : list QEDObservation := ObservationList.observations (observation_list (the_client m)).
Definition listed (m : program S) : list ptr := RawDataList.observations (raw_data_list (the_client m)).

(** What the collator has to deal with. *)
Definition load (m : program S) : nat := length (listed m) + length (queued m) + length (in_hand (main_at m)).

(** Nothing is left to file, or the collator has ended. *)
Definition settled (m : program S) : bool :=
  match main_at m with
  | MJoin | MDone => true
  | pc => match queued m, in_hand pc with [], [] => true | _, _ => false end
  end.

Definition filing_rank (m : program S) : nat :=
  if settled m then 0 else
  length (queued m) * (load m + 6) +
  match main_at m with
  | CFile _ => load m + 5
  | CSearch _ it => length it + 4
  | CFound _ _ => 3
  | MHeader | CCheck => 4
  | MEnter | CLooked _ => 3
  | CHead => 2
  | CBody => 1
  | _ => 0
  end.

Lemma filing_rank_bound m : main_place (the_client m) (main_at m) →
  (filing_rank m ≤ (load m + 1) * (load m + 6))%nat.
Proof.
  intros Hp. unfold filing_rank. destruct (settled m); [lia|].
  assert (length (queued m) ≤ load m)%nat by (unfold load; lia).
  assert (length (queued m) * (load m + 6) ≤ load m * (load m + 6))%nat by (apply Nat.mul_le_mono_r; done).
  destruct (main_at m) as [| | | | |obs|obs it|obs entry| |oldest| |] eqn:Ep; try lia.
  destruct Hp as (pre & El & _). unfold load, listed in *. rewrite El, Ep, length_app in *. cbn [in_hand length] in *. lia.
Qed.

Lemma add_entry_lists now obs (c c' : Client S) : add_entry now obs c = Some c' →
  length (RawDataList.observations (raw_data_list c')) = (1 + length (RawDataList.observations (raw_data_list c)))%nat ∧
  observation_list c' = observation_list c.
Proof.
  unfold add_entry. destruct (get_timestamp now); [|done]. cbn [mbind option_bind].
  destruct (timestamp_to_nsec _); [|done]. cbn [mbind option_bind]. intros [= <-]. cbn.
  rewrite length_app. cbn. split; [lia|done].
Qed.

Lemma update_at_lists obs p (c c' : Client S) : update_at obs p c = Some c' →
  raw_data_list c' = raw_data_list c ∧ observation_list c' = observation_list c.
Proof. unfold update_at. destruct (heap c !! p); [|done]. cbn [mbind option_bind]. by intros [= <-]. Qed.

Lemma collator_runs : runs_collator args = true.
Proof. unfold runs_collator. by rewrite (proj2 (String.eqb_neq _ _) Hformat). Qed.

(** Back at the head of the loop. *)
Lemma head_rank (m : program S) c : observation_list c = observation_list (the_client m) →
  (length (RawDataList.observations (raw_data_list c)) ≤ length (listed m) + length (in_hand (main_at m)))%nat →
  let m' := {| (set_client c m) with main_at := CHead |} in
  (load m' ≤ load m)%nat ∧
  (filing_rank m' ≤ if queued m is [] then 0 else length (queued m) * (load m + 6) + 2)%nat.
Proof.
  intros Eq Hl m'.
  assert (queued m' = queued m) as Hq by (unfold queued, m', the_client at 1; cbn; by rewrite Eq).
  assert (load m' ≤ load m)%nat as Hload by (unfold load; rewrite Hq; unfold listed at 1, m', the_client; cbn; lia).
  split; [done|]. unfold filing_rank, settled. rewrite Hq. change (main_at m') with CHead. cbn [in_hand].
  destruct (queued m) as [|o q]; [done|]. apply Nat.add_le_mono; [|done]. apply Nat.mul_le_mono_l. lia.
Qed.

Ltac same_load Ep := unfold filing_rank, settled, load, queued, listed, the_client, set_client in *; cbn -[Nat.mul] in *;
  rewrite ?Ep; cbn -[Nat.mul].

Lemma filing_step now (m m' : program S) : main_place (the_client m) (main_at m) →
  main_step args now m = Some m' → (load m' ≤ load m)%nat ∧ (filing_rank m' ≤ filing_rank m - 1)%nat.
Proof.
  intros Hp E. unfold main_step in E.
  destruct (main_at m) as [| | | | |obs|obs [|entry it]|obs entry| |oldest| |] eqn:Ep.
  - rewrite collator_runs in E. injection E as <-. same_load Ep. destruct (ObservationList.observations _); lia.
  - injection E as <-. same_load Ep. destruct (ObservationList.observations _); lia.
  - injection E as <-. destruct (_ =? _); same_load Ep; destruct (ObservationList.observations _); lia.
  - injection E as <-. unfold ObservationList.isEmpty.
    destruct (ObservationList.observations (observation_list (the_client m))) eqn:Eq; cbn [negb];
      same_load Ep; rewrite Eq; lia.
  - unfold ObservationList.popObservation in E. cbn in Hp.
    destruct (ObservationList.observations (observation_list (the_client m))) as [|o q] eqn:Eq; [done|].
    cbn [mbind option_bind] in E. injection E as <-. same_load Ep. rewrite Eq. cbn -[Nat.mul].
    destruct q; cbn -[Nat.mul]; lia.
  - injection E as <-. same_load Ep. destruct (ObservationList.observations _); lia.
  - destruct (add_entry now obs (the_client m)) as [c|] eqn:Ec; [|done]. cbn [mbind option_bind] in E. injection E as <-.
    apply add_entry_lists in Ec as [El Eq]. destruct (head_rank m c) as [H1 H2]; [done|rewrite Ep, El; unfold listed; cbn; lia|].
    split; [exact H1|]. etrans; [exact H2|]. unfold filing_rank, settled. rewrite Ep. cbn -[Nat.mul].
    destruct (queued m); lia.
  - destruct (valid_iterator _ _); [|done]. destruct (heap (the_client m) !! entry) as [r|]; [|done].
    cbn [mbind option_bind] in E. injection E as <-. destruct (_ =? _); same_load Ep; destruct (ObservationList.observations _); lia.
  - destruct (update_at obs entry (the_client m)) as [c|] eqn:Ec; [|done]. cbn [mbind option_bind] in E. injection E as <-.
    apply update_at_lists in Ec as [El Eq]. destruct (head_rank m c) as [H1 H2]; [done|rewrite Ep, El; unfold listed; cbn; lia|].
    split; [exact H1|]. etrans; [exact H2|]. unfold filing_rank, settled. rewrite Ep. cbn -[Nat.mul].
    destruct (queued m); lia.
  - injection E as <-. same_load Ep. destruct (ObservationList.observations _); lia.
  - destruct (check_oldest args now oldest (the_client m)) as [c|] eqn:Ec; [|done]. cbn [mbind option_bind] in E.
    injection E as <-. apply check_oldest_list in Ec as (_ & Eq & El).
    destruct (head_rank m c) as [H1 H2];
      [done|rewrite Ep; unfold listed; destruct El as [-> |[p ->]]; cbn; lia|].
    split; [exact H1|]. etrans; [exact H2|]. unfold filing_rank, settled. rewrite Ep. cbn -[Nat.mul].
    destruct (queued m); lia.
  - injection E as <-. destruct (sender_at m), (receiver_at m); same_load Ep; lia.
  - injection E as <-. same_load Ep. lia.
Qed.

Lemma settled_zero (m : program S) : main_place (the_client m) (main_at m) → filing_rank m = 0%nat → settled m = true.
Proof.
  intros Hp. unfold filing_rank. destruct (settled m) eqn:E; [done|]. intros Hz. exfalso. unfold settled in E.
  destruct (main_at m) eqn:Ep; try lia; destruct (queued m) eqn:Eq; cbn in E, Hz; try done; try lia.
Qed.

Lemma reached_load T D obss (m : program S) : reached T D obss m →
  (load m ≤ length obss)%nat ∧ main_place (the_client m) (main_at m).
Proof.
  intros (_ & a & Hp%partitioned_size & <- & [Eq [HL _ _] _ _ _ Hm]). split; [|done].
  rewrite Eq, length_app in Hp. apply Forall2_length in HL. unfold load, listed, queued. lia.
Qed.

(** With the other threads done, only the main thread does anything. *)
Lemma step_done e (m m' : program S) : exited m = None → sender_at m = SDone → receiver_at m = RDone →
  step inet_ntop args hosts e m = Some m' →
  if of_main e then ∃ now, e = MainStep now ∧ main_step args now m = Some m' else m' = m.
Proof.
  intros Hx Hs Hr E. unfold step in E. rewrite Hx in E. destruct e as [it|it|now]; cbn [of_main].
  - unfold sender_step in E. rewrite Hs in E. congruence.
  - unfold receiver_step in E. rewrite Hr in E. congruence.
  - by exists now.
Qed.

(** ** The collator with nothing queued *)

Definition retire_rank (m : program S) : nat :=
  match main_at m with
  | MHeader => 4 * length (listed m) + 8
  | MEnter => 4 * length (listed m) + 7
  | CHead => if collator_finished (the_client m) =? 0 then 4 * length (listed m) + 6 else 2
  | CBody => 4 * length (listed m) + 5
  | CCheck => 4 * length (listed m) + 4
  | CLooked _ => 4 * length (listed m) + 3
  | MJoin => 1
  | _ => 0
  end.

(** The collator looks at the clock past the timeout of all entries. *)
Definition later (D : Z) (e : event) : Prop :=
  match e with MainStep now => late args D now = true | _ => True end.

Lemma retire_looked now oldest D obss T (m m' : program S) : good_time now → late args D now = true →
  reached T D obss m → sender_at m = SDone → main_at m = CLooked oldest → main_step args now m = Some m' →
  (retire_rank m' ≤ retire_rank m - 1)%nat.
Proof.
  intros Hn Hl (Hg & a & _ & _ & [_ [HL _ _] _ _ _ Ho]) Hs Ep E. unfold main_step in E. rewrite Ep in E, Ho.
  destruct (check_oldest args now oldest (the_client m)) as [c|] eqn:Ec; [|done]. cbn [mbind option_bind] in E.
  assert (retire_rank m' =
    (if (collator_finished c =? 0)%Z then 4 * length (RawDataList.observations (raw_data_list c)) + 6 else 2)%nat) as ->
    by by injection E as <-.
  unfold retire_rank. rewrite Ep. destruct oldest as [p|].
  - specialize (Ho p eq_refl). unfold listed.
    destruct (RawDataList.observations (raw_data_list (the_client m))) as [|q l] eqn:El; [done|].
    injection Ho as ->. inversion HL as [|? r ? es Hp _]; subst.
    rewrite (check_oldest_at args now (the_client m) p r Hn Hp) in Ec.
    + rewrite El in Ec. injection Ec as <-. cbn. destruct (_ =? 0); lia.
    + eapply late_expired; [done|done| |done]. by apply (g_dated _ _ _ Hg p).
  - unfold check_oldest in Ec. rewrite get_timestamp_exact in Ec by done. cbn [mbind option_bind] in Ec.
    rewrite timestamp_to_nsec_exact in Ec by (apply wf_ntp_of_timespec; done). cbn [mbind option_bind] in Ec.
    destruct (g_completed _ _ _ Hg Hs) as [Hc _]. rewrite Z.gtb_ltb, (proj2 (Z.ltb_lt _ _)) in Ec by done.
    injection Ec as <-. cbn. lia.
Qed.

Lemma retire_step now D obss T (m m' : program S) : good_time now → late args D now = true →
  reached T D obss m → sender_at m = SDone → receiver_at m = RDone → settled m = true →
  main_step args now m = Some m' → (retire_rank m' ≤ retire_rank m - 1)%nat.
Proof.
  intros Hn Hl Hre Hs Hr Hset E. destruct (reached_load _ _ _ _ Hre) as [_ Hp].
  destruct (main_at m) as [| | | | |obs|obs it|obs entry| |oldest| |] eqn:Ep;
    try (by eapply retire_looked); unfold settled in Hset; rewrite Ep in Hset; cbn [in_hand] in Hset;
    try (by destruct (queued m)); unfold main_step in E; rewrite Ep in E; unfold retire_rank at 2; rewrite Ep.
  - rewrite collator_runs in E. injection E as <-. unfold retire_rank, listed, the_client. cbn. lia.
  - injection E as <-. unfold retire_rank, listed, the_client. cbn. destruct (_ =? 0); lia.
  - injection E as <-. unfold retire_rank, listed, the_client. cbn. destruct (_ =? 0); cbn; lia.
  - injection E as <-. unfold ObservationList.isEmpty. fold (queued m). destruct (queued m); [|done].
    unfold retire_rank, listed, the_client. cbn. lia.
  - cbn in Hp. fold (queued m) in Hp. by destruct (queued m).
  - injection E as <-. unfold retire_rank, listed, the_client. cbn. lia.
  - rewrite Hs, Hr in E. injection E as <-. cbn. lia.
  - injection E as <-. unfold retire_rank. by rewrite Ep.
Qed.

(** ** The phases *)

(** What the steps observe until nothing is left to file. *)
Definition early (T D : Z) (e : event) : Prop :=
  match e with
  | SenderStep it => 0 < now it ≤ T
  | ReceiverStep _ => True
  | MainStep now => now_nsec now ≤ D
  end.

Lemma early_observes T D e (m : program S) : early T D e → observes T D e m.
Proof. destruct e; cbn; auto. Qed.

Lemma guarded_length schedule : ∀ obss (m : program S) obss' m',
  guarded inet_ntop args hosts schedule obss m = Some (obss', m') → (length obss ≤ length obss')%nat.
Proof.
  induction schedule as [|e schedule IH]; intros obss m obss' m'; cbn [guarded]; [by intros [= <- _]|].
  destruct (step _ _ _ e m) as [m1|]; [|done]. cbn [mbind option_bind]. destruct (_ && _); [|done].
  intros Hl%IH. rewrite length_app in Hl. lia.
Qed.

Lemma sending_ends T D schedule obss (m : program S) obss' m' : T < 2 ^ 64 → reached T D obss m →
  Forall (early T D) schedule → guarded inet_ntop args hosts schedule obss m = Some (obss', m') →
  (sender_rank m ≤ turns of_sender schedule)%nat → reached T D obss' m' ∧ sender_at m' = SDone.
Proof.
  intros HT HI HE Hg Ht.
  destruct (ranked (reached T D) (early T D) of_sender sender_rank) with (schedule := schedule) (obss := obss)
    (m := m) (obss' := obss') (m' := m') as [HI' Hr]; try done.
  - intros o e m1 m2 Hre He Hge E Hx. split; [by apply (reached_step T D o e m1 m2); auto using early_observes|].
    apply (sender_rank_step T D); [by destruct Hre|done].
  - split; [done|]. unfold sender_rank in Hr at 1. destruct (sender_at m'); (done || lia).
Qed.

Lemma receiving_ends T D schedule obss (m : program S) obss' m' : T < 2 ^ 64 → reached T D obss m → sender_at m = SDone →
  Forall (early T D) schedule → Forall (past T) schedule →
  guarded inet_ntop args hosts schedule obss m = Some (obss', m') → (6 ≤ turns of_receiver schedule)%nat →
  reached T D obss' m' ∧ sender_at m' = SDone ∧ receiver_at m' = RDone.
Proof.
  intros HT HI Hs HE HP Hg Ht.
  destruct (ranked (λ o m, reached T D o m ∧ sender_at m = SDone) (λ e, early T D e ∧ past T e) of_receiver receiver_rank)
    with (schedule := schedule) (obss := obss) (m := m) (obss' := obss') (m' := m') as [[HI' Hs'] Hr]; try done.
  - intros o e m1 m2 [Hre Hs1] [He Hp] Hge E Hx. pose proof (proj1 Hre) as Hgo.
    split; [split; [by apply (reached_step T D o e m1 m2); auto using early_observes|by eapply sender_done_step]|].
    apply (receiver_rank_step T D); auto using early_observes.
  - by apply Forall_and.
  - split; [done|]. split; [done|]. assert (receiver_rank m ≤ 6)%nat.
    { pose proof (g_replies _ _ _ (proj1 HI)). unfold receiver_rank. destruct (receiver_at m); lia. }
    unfold receiver_rank in Hr at 1. destruct (receiver_at m'); (done || lia).
Qed.

(** Both threads but the main one are done, in a reached state. *)
Definition alone (T D : Z) (obss : list QEDObservation) (m : program S) : Prop :=
  reached T D obss m ∧ sender_at m = SDone ∧ receiver_at m = RDone.

Lemma alone_step T D obss e (m m' : program S) : T < 2 ^ 64 → alone T D obss m → observes T D e m → good_event e →
  step inet_ntop args hosts e m = Some m' → exclusive m' → alone T D (obss ++ enqueues e m) m'.
Proof.
  intros HT (Hre & Hs & Hr) Ho Hge E Hx. split; [by apply (reached_step T D obss e m m')|].
  pose proof (step_done e m m' (g_exited _ _ _ (proj1 Hre)) Hs Hr E) as Hd. destruct (of_main e); [|by subst].
  destruct Hd as (now & _ & Em). by apply main_keeps in Em as [-> ->].
Qed.

Lemma filing_ends T D schedule obss (m : program S) obss' m' : T < 2 ^ 64 → alone T D obss m →
  Forall (early T D) schedule → guarded inet_ntop args hosts schedule obss m = Some (obss', m') →
  ((length obss + 1) * (length obss + 6) ≤ turns of_main schedule)%nat →
  alone T D obss' m' ∧ settled m' = true.
Proof.
  intros HT HI HE Hg Ht.
  destruct (ranked (alone T D) (early T D) of_main filing_rank) with (schedule := schedule) (obss := obss)
    (m := m) (obss' := obss') (m' := m') as [HI' Hr]; try done.
  - intros o e m1 m2 Ha He Hge E Hx. split; [by apply (alone_step T D o e m1 m2); auto using early_observes|].
    destruct Ha as (Hre & Hs & Hr). pose proof (step_done e m1 m2 (g_exited _ _ _ (proj1 Hre)) Hs Hr E) as Hd.
    destruct (of_main e); [|subst; lia]. destruct Hd as (now & _ & Em).
    by apply (filing_step now m1 m2); [apply (reached_load T D o)|].
  - split; [done|]. destruct HI as (Hre & _). apply reached_load in Hre as [Hl Hp]. apply filing_rank_bound in Hp.
    assert ((load m + 1) * (load m + 6) ≤ (length obss + 1) * (length obss + 6))%nat by (apply Nat.mul_le_mono; lia).
    apply settled_zero; [by apply (reached_load T D obss'); destruct HI'|lia].
Qed.

Lemma retiring_ends T D schedule obss (m : program S) obss' m' : T < 2 ^ 64 → alone T D obss m → settled m = true →
  Forall (later D) schedule → guarded inet_ntop args hosts schedule obss m = Some (obss', m') →
  (4 * length obss + 8 ≤ turns of_main schedule)%nat → main_at m' = MDone ∧ exited m' = None.
Proof.
  intros HT HI Hset HE Hg Ht.
  destruct (ranked (λ o m, alone T D o m ∧ settled m = true) (later D) of_main retire_rank) with (schedule := schedule)
    (obss := obss) (m := m) (obss' := obss') (m' := m') as [[HI' Hset'] Hr]; try done.
  - intros o e m1 m2 [Ha Hset1] He Hge E Hx. destruct Ha as (Hre & Hs & Hr).
    assert (alone T D (o ++ enqueues e m1) m2) as Ha'.
    { apply (alone_step T D o e m1 m2); try done. destruct e as [it|it|now]; cbn; [by rewrite Hs|done|].
      intros obs Ep. unfold settled in Hset1. rewrite Ep in Hset1. cbn in Hset1. by destruct (queued m1). }
    pose proof (step_done e m1 m2 (g_exited _ _ _ (proj1 Hre)) Hs Hr E) as Hd.
    destruct (of_main e); [|subst; by auto with lia]. destruct Hd as (now & -> & Em). split; [split; [done|]|].
    + apply settled_zero; [by apply (reached_load T D (o ++ enqueues (MainStep now) m1)); destruct Ha'|].
      destruct (filing_step now m1 m2) as [_ Hf]; [by apply (reached_load T D o)|done|].
      unfold filing_rank in Hf at 2. rewrite Hset1 in Hf. lia.
    + by apply (retire_step now D o T m1 m2).
  - split; [|by apply HI'].
    assert (retire_rank m ≤ 4 * length obss + 8)%nat.
    { destruct HI as (Hre & _). apply reached_load in Hre as [Hl _]. unfold load in Hl. unfold retire_rank.
      destruct (main_at m); try lia. destruct (_ =? _); lia. }
    assert (retire_rank m' = 0)%nat as Hz by lia. destruct HI' as (Hre & _). apply reached_load in Hre as [_ Hp].
    unfold retire_rank in Hz. unfold settled in Hset'. destruct (main_at m') eqn:Ep; try done; try lia.
    + by destruct (_ =? _) in Hz; lia.
    + cbn in Hp, Hset'. fold (queued m') in Hp. by destruct (queued m').
    + by destruct (queued m').
    + by destruct (queued m').
    + by destruct (queued m').
Qed.
End Termination.

(** ** Property *)

(** C9: every measurement ends.  Let the threads of a client with a collator be
    scheduled in any way in which they are exclusive.  If the sender gets two steps
    for each packet and two more, its clock below [T]; then the receiver six, at
    times its timeout after [T]; then the main thread enough to file the observations
    enqueued, dating entries up to [D]; and then enough to retire the entries, at
    times the timeout after [D]; then [main] is at its end, whatever the other steps
    in between were, whatever was received, and whichever [sendmsg] failed.  The
    numbers of steps are bounded by the number of packets and of observations. *)
Theorem program_terminates {S} `{SqaStats S} inet_ntop args hosts now T D sending receiving filing retiring obss
    (m : program S) :
  0 < num_samples args < 2 ^ 32 → runtime args = 0 → print_format args ≠ "legacy" → timeout args ∈u 8 → T < 2 ^ 64 →
  guarded inet_ntop args hosts (sending ++ receiving ++ filing ++ retiring) [] (start (Client_init now)) = Some (obss, m) →
  Forall (early T D) (sending ++ receiving ++ filing) → Forall (past args T) receiving → Forall (later args D) retiring →
  (2 * Z.to_nat (num_samples args) + 2 ≤ turns of_sender sending)%nat →
  (6 ≤ turns of_receiver receiving)%nat →
  ((length obss + 1) * (length obss + 6) ≤ turns of_main filing)%nat →
  (4 * length obss + 8 ≤ turns of_main retiring)%nat →
  main_at m = MDone ∧ exited m = None.
Proof.
  intros Hn Hrun Hf Ht HT E He Hp Hl N1 N2 N3 N4. rewrite guarded_app in E.
  apply Forall_app in He as [He1 [He2 He3]%Forall_app].
  destruct (guarded _ _ _ sending _ _) as [[o1 m1]|] eqn:E1; [|done]. cbn [mbind option_bind] in E. rewrite guarded_app in E.
  destruct (guarded _ _ _ receiving _ _) as [[o2 m2]|] eqn:E2; [|done]. cbn [mbind option_bind] in E. rewrite guarded_app in E.
  destruct (guarded _ _ _ filing _ _) as [[o3 m3]|] eqn:E3; [|done]. cbn [mbind option_bind] in E.
  pose proof (guarded_length inet_ntop args hosts _ _ _ _ _ E) as L3.
  pose proof (guarded_length inet_ntop args hosts _ _ _ _ _ E3) as L2.
  destruct (sending_ends inet_ntop args hosts Hn Hrun Hf T D sending [] _ o1 m1 HT (reached_start args Hn T D now) He1 E1)
    as [R1 S1]; [unfold sender_rank; cbn; lia|].
  destruct (receiving_ends inet_ntop args hosts Hn Hrun Hf Ht T D receiving o1 m1 o2 m2) as (R2 & S2 & V2); try done.
  assert ((length o2 + 1) * (length o2 + 6) ≤ (length obss + 1) * (length obss + 6))%nat by (apply Nat.mul_le_mono; lia).
  destruct (filing_ends inet_ntop args hosts Hn Hrun Hf T D filing o2 m2 o3 m3) as [A3 Z3]; try done; [lia|].
  apply (retiring_ends inet_ntop args hosts Hn Hrun Hf Ht T D retiring o3 m3 obss m); try done. lia.
Qed.

(** One packet is sent and a reply received; the receiver is at its observations when
    its timeout passes. *)
Definition late_receiver_steps (n : nat) : list event :=
  replicate n (ReceiverStep {| (example_recv 1700000001) with loop_time := 1700000100 |}).
Definition ending_sending : list event := main_steps 2 ++ sender_steps 4 ++ receiver_steps 2.
Definition ending_filing : list event := main_steps 50.
Definition ending : option (list QEDObservation * program SqaLog) :=
  guarded no_ntop raw_args [replicate 16 1]
    (ending_sending ++ late_receiver_steps 6 ++ ending_filing ++ late_steps 24) [] (start (Client_init 1700000000)).

Lemma ending_some : (λ p, length p.1) <$> ending = Some 4%nat.
Proof. vm_compute. reflexivity. Qed.

Lemma ending_guarded obss m : ending = Some (obss, m) →
  guarded no_ntop raw_args [replicate 16 1] (ending_sending ++ late_receiver_steps 6 ++ ending_filing ++ late_steps 24) []
    (start (Client_init 1700000000)) = Some (obss, m).
Proof. unfold ending. exact id. Qed.

Lemma ending_turns n : n = 4%nat →
  (2 * Z.to_nat (num_samples raw_args) + 2 ≤ turns of_sender ending_sending)%nat ∧
  (6 ≤ turns of_receiver (late_receiver_steps 6))%nat ∧
  ((n + 1) * (n + 6) ≤ turns of_main ending_filing)%nat ∧ (4 * n + 8 ≤ turns of_main (late_steps 24))%nat.
Proof. intros ->. apply (bool_decide_unpack _). vm_compute. exact I. Qed.

Lemma raw_samples : 0 < num_samples raw_args < 2 ^ 32 ∧ runtime raw_args = 0.
Proof. by vm_compute. Qed.

Lemma ending_early :
  Forall (early 1700000000 (now_nsec (mkTimespec 1700000001 0))) (ending_sending ++ late_receiver_steps 6 ++ ending_filing).
Proof. repeat apply Forall_app_2; apply Forall_replicate; cbn; (lia || done). Qed.

Lemma ending_past : Forall (past raw_args 1700000000) (late_receiver_steps 6).
Proof. apply Forall_replicate. by vm_compute. Qed.

Lemma ending_later : Forall (later raw_args (now_nsec (mkTimespec 1700000001 0))) (late_steps 24).
Proof. apply Forall_replicate. by vm_compute. Qed.

Lemma program_terminates_witness : ∃ obss (m : program SqaLog), ending = Some (obss, m) ∧ main_at m = MDone.
Proof.
  pose proof ending_some as E. destruct ending as [[obss m]|] eqn:Ee; [|discriminate E].
  apply (inj Some) in E. change (length obss = 4%nat) in E. exists obss, m. split; [reflexivity|].
  apply ending_guarded in Ee. destruct (ending_turns _ E) as (N1 & N2 & N3 & N4).
  exact (proj1 (program_terminates no_ntop raw_args [replicate 16 1] 1700000000 1700000000
    (now_nsec (mkTimespec 1700000001 0)) ending_sending (late_receiver_steps 6) ending_filing (late_steps 24) obss m
    (proj1 raw_samples) (proj2 raw_samples) raw_format raw_timeout eq_refl Ee ending_early ending_past ending_later
    N1 N2 N3 N4)).
Defined.
