(* ===== verification/Main.v ===== *)
(** * Main: the two programs from their command lines to their exit codes

    [parse_args] and [main] of [src/client/main_client.cpp] and
    [src/server/main_server.cpp].  The parser of the command line is the CLI11
    library: an argument of the definitions, which gives for each option the value
    that was given, already of the option's type.  The checks the source attaches to
    options and what it does with the values are modelled here; the values are
    stored in the order in which the options were added. *)

From S2P Require Import Prelude Double Text Packets Timestamps Sockets Observations ClientState Collator CollatorRuns Sender ClientOutput JsonReport Receiver Setup Program ProgramSpec.
From S2P Require Server.

(** ** The command line *)

(** What the parser makes of a command line: [CLI::ParseError], with the code and the
    text of [app.exit(e)], or the options' values. *)
Inductive cli (A : Type) := ParseError (code : Z) (text : string) | Parsed (options : A).
Arguments ParseError {A} _ _.
Arguments Parsed {A} _.

Record client_options := mkClientOptions {
  o_local_address : option string;
  o_local_port : option string;
  o_payload_lens : option (list Z);
  o_num_samples : option Z;
  o_timeout : option Z;
  o_seed : option Z;
  o_print_digest : bool;
  o_json_output : option string;
  o_print_lost_packets : bool;
  o_print_RTT_only : option bool;
  o_print_format : option string;
  o_sep : option ascii;
  o_ip : option Z;
  o_runtime : option Z;
  o_mean_inter_packet_delay : option Z;
  o_constant_inter_packet_delay : bool;
  o_tos : option Z;
  o_version : bool;
  o_addresses : list string;
}.

(** The members of [args] the options are bound to. *)
Definition store_options (o : client_options) (args : Args) : Args := {| args with
  local_host := default (local_host args) (o_local_address o);
  local_port := default (local_port args) (o_local_port o);
  payload_lens := default (payload_lens args) (o_payload_lens o);
  num_samples := default (num_samples args) (o_num_samples o);
  timeout := default (timeout args) (o_timeout o);
  seed := default (seed args) (o_seed o);
  print_digest := o_print_digest o || print_digest args;
  json_output_file := default (json_output_file args) (o_json_output o);
  print_lost_packets := o_print_lost_packets o || print_lost_packets args;
  print_RTT_only := default (print_RTT_only args) (o_print_RTT_only o);
  print_format := default (print_format args) (o_print_format o);
  sep := default (sep args) (o_sep o);
  ip_version := default (ip_version args) (o_ip o);
  runtime := default (runtime args) (o_runtime o);
  mean_inter_packet_delay_ms := default (mean_inter_packet_delay_ms args) (o_mean_inter_packet_delay o);
  constant_inter_packet_delay := o_constant_inter_packet_delay o || constant_inter_packet_delay args
|}.

Definition MIN_PAYLOAD_LEN : Z := 42.
Definition MAX_PAYLOAD_LEN : Z := 1473.

(** [CLI::Range(min, max)]: the bounds are included. *)
Definition Range (min max value : Z) : bool := (min <=? value) && (value <=? max).

(** [vectorToString], with which the help prints the default payload lengths. *)
Definition vectorToString {T} (print : T → string) (vec : list T) (sep : string) : string :=
  let result := foldr (λ x s, print x +:+ sep +:+ s) "" vec in
  String.substring 0 (String.length result - 1) result.

(** How a program ends: [std::exit] or a return from [main], with what it has written;
    or it runs on. *)
Inductive outcome (A : Type) :=
  | Exits (code : Z) (out err : string)
  | Returns (code : Z) (out err : string) (result : A)
  | Runs.
Arguments Exits {A} _ _ _.
Arguments Returns {A} _ _ _ _.
Arguments Runs {A}.

Definition EXIT_SUCCESS : Z := 0.
Definition EXIT_FAILURE : Z := 1.

Definition what_stoi : string := "stoi".

Section Main.
Context {S H : Type} `{SqaStats S} `{SqaSummary S} `{TdHistogram H} `{SqaReport S H}.
Variable client_cli : list string → cli client_options.
(** [app.exit] for a failed check, from its message. *)
Variable validation_exit : string → Z * string.
Variable range_error : string.
(** The version text, from strings the build generates. *)
Variable version_text : string.
(** The report's file and printer. *)
Variables (can_open : string → bool) (dump : nat → json → string * option string).

(** [parse_args] of the client; [inl]: it exits. *)
Definition client_parse_args (argv : list string) : (Z * string * string) + Args :=
  match client_cli argv with
  | ParseError code text => inl (code, "", text)
  | Parsed o =>
      let invalid message := let '(code, text) := validation_exit message in inl (code, "", text) in
      let args := store_options o Args_init in
      if negb (forallb (Range MIN_PAYLOAD_LEN MAX_PAYLOAD_LEN) (default [] (o_payload_lens o))) then invalid range_error
      else if negb (forallb (Range 0 256) (option_list (o_tos o))) then invalid range_error
      else
        match check_addresses (o_addresses o) args with
        | inl message => invalid message
        | inr args =>
            if o_version o then inl (EXIT_SUCCESS, version_text, "")
            else match finish_args (o_tos o) (o_addresses o) args with
                 | inl message => inl (EXIT_SUCCESS, message, "")
                 | inr args => inr args
                 end
        end
  end.

Definition getSentPackets (c : Client S) : Z := sent_packets c.

(** What [main] does after the threads have been joined: the text of the digest, and
    the file of the report with its exception. *)
Definition client_reports (stats_clock : timespec) (args : Args) (args' : Args) (c : Client S)
    : option (string * (option string * option log_error)) :=
  text ← (if prints_stats args then printStats stats_clock (getSentPackets c) c else Some "");
  report ← (if writes_json args then JsonLog can_open dump (json_output_file args) args' c else Some (None, None));
  Some (text, report).

(** What [main] prints of an exception of [JsonLog]. *)
Definition log_message (e : log_error) : string :=
  match e with
  | DateError what => "Runtime error: " +:+ what +:+ nl
  | TypeError what => "JSON error: " +:+ what +:+ nl
  end.

(** [main] of the client, its threads under a schedule; [None] is undefined behaviour.
    [sys] answers the constructor and [stats_clock] is the clock in [printStats]. *)
Definition client_main (inet_ntop : Z → list Z → option string) (sys : os) (schedule : list event)
    (stats_clock : timespec) (argv : list string) : option (outcome (option string)) :=
  match client_parse_args argv with
  | inl (code, out, err) => Some (Exits code out err)
  | inr args =>
      let '(args, notice) := effective_args args in
      constructed ← Client_construct sys args;
      match constructed with
      | ExitFailure text => Some (Exits EXIT_FAILURE notice text)
      | RuntimeError what text =>
          Some (Returns EXIT_FAILURE notice (text +:+ "Runtime error: " +:+ what +:+ nl) None)
      | Built (args', ais, c) _ warnings =>
          m ← run inet_ntop args' (ai_addr <$> ais) schedule (start c);
          let c := the_client m in
          match exited m, main_at m with
          | Some code, _ => Some (Exits code (notice +:+ out c) (warnings +:+ err c))
          | None, MDone =>
              '(text, (report, error)) ← client_reports stats_clock args args' c;
              Some match error with
                   | None => Returns 0 (notice +:+ out c +:+ text) (warnings +:+ err c) report
                   | Some e =>
                       Returns EXIT_FAILURE (notice +:+ out c +:+ text) (warnings +:+ err c +:+ log_message e) report
                   end
          | None, _ => Some Runs
          end
      end
  end.
End Main.

(** ** The server *)

Record server_options := mkServerOptions {
  so_local_address : option string;
  so_local_port : option string;
  so_num_samples : option Z;
  so_timeout : option Z;
  so_sep : option ascii;
  so_ip : option Z;
  so_tos : option Z;
}.

Definition store_server_options (o : server_options) (args : Server.Args) : Server.Args := {| args with
  Server.local_host := default (Server.local_host args) (so_local_address o);
  Server.local_port := default (Server.local_port args) (so_local_port o);
  Server.num_samples := default (Server.num_samples args) (so_num_samples o);
  Server.timeout := default (Server.timeout args) (so_timeout o);
  Server.sep := default (Server.sep args) (so_sep o);
  Server.ip_version := default (Server.ip_version args) (so_ip o)
|}.

Section ServerMain.
Variable server_cli : list string → cli server_options.
Variable validation_exit : string → Z * string.
Variable range_error : string.

Definition server_parse_args (argv : list string) : (Z * string) + Server.Args :=
  match server_cli argv with
  | ParseError code text => inl (code, text)
  | Parsed o =>
      if negb (forallb (Range 0 256) (option_list (so_tos o))) then inl (validation_exit range_error)
      else let args := store_server_options o Server.Args_init in
           inr match so_tos o with
               | Some tos => {| args with Server.snd_tos := adjust_tos tos |}
               | None => args
               end
  end.

(** [main] of the server over the iterations its environment offers; the replies are
    the result. *)
Definition server_main (inet_ntop : Z → list Z → option string) (sys : os) (its : list Server.iteration)
    (argv : list string) : option (outcome (list msghdr)) :=
  match server_parse_args argv with
  | inl (code, text) => Some (Exits code "" text)
  | inr args =>
      match Server_construct sys args with
      | ExitFailure text => Some (Exits EXIT_FAILURE "" text)
      | RuntimeError what text => Some (Returns EXIT_FAILURE "" (text +:+ "Runtime error: " +:+ what +:+ nl) [])
      | Built _ _ warnings =>
          '(r, st) ← Server.listen inet_ntop args its;
          Some match r with
               | Server.Exit code => Returns code (Server.out st) (warnings +:+ Server.err st) (Server.sent st)
               | Server.Throw _ =>
                   Returns EXIT_FAILURE (Server.out st)
                     (warnings +:+ Server.err st +:+ "Exception: " +:+ what_stoi +:+ nl) (Server.sent st)
               | Server.Blocked => Runs
               end
      end
  end.
End ServerMain.

(** ** Lemmas: joined threads *)

Section Joined.
Context {S : Type} `{SqaStats S} (inet_ntop : Z → list Z → option string) (args : Args) (hosts : list (list Z)).

(** The main thread passes the joins only when the others are done, and gets to them
    only when the collator has finished or was not run. *)
Record joined (m : program S) : Prop := {
  j_done : main_at m = MDone → sender_at m = SDone ∧ receiver_at m = RDone;
  j_finished : main_at m = MJoin ∨ main_at m = MDone → runs_collator args = true →
    collator_finished (the_client m) ≠ 0;
}.

Lemma record_sent_finished n k len (c : Client S) :
  collator_finished (record_sent n k len c) = collator_finished c.
Proof. destruct (record_sent_fields n k len c) as (_ & _ & _ & _ & _ & _ & E). by injection E. Qed.

Lemma check_oldest_finished now o (c c' : Client S) : check_oldest args now o c = Some c' →
  collator_finished c ≠ 0 → collator_finished c' ≠ 0.
Proof.
  unfold check_oldest. destruct (get_timestamp now); [|done]. cbn [mbind option_bind].
  destruct (timestamp_to_nsec _); [|done]. cbn [mbind option_bind]. destruct o as [p|].
  - destruct (heap c !! p); [|done]. cbn [mbind option_bind]. destruct (_ || _); [|by intros [= <-]].
    destruct (aggregateRawData _ _); [|done]. cbn [mbind option_bind].
    destruct (RawDataList.popObservation _) as [[]|]; [|done]. cbn [mbind option_bind]. by intros [= <-].
  - intros [= <-]. by destruct (_ >? 0).
Qed.

Lemma finished_of_receiving (c c' : Client S) : receiving_part c' = receiving_part c →
  collator_finished c' = collator_finished c.
Proof. unfold receiving_part. by intros [=]. Qed.

Lemma joined_sender it (m m' : program S) : joined m → sender_step args hosts it m = Some m' → joined m'.
Proof.
  intros [J1 J2] E. unfold sender_step in E. destruct (sender_at m) eqn:Ep.
  - assert (main_at m ≠ MDone) as Hne by (intros Hd; by destruct (J1 Hd) as [? _]).
    destruct (_ || _); [by injection E as <-|].
    destruct (send_phase args hosts it index (state m)) as [[r s]|] eqn:Es; [|done]. cbn [mbind option_bind] in E.
    injection E as <-. apply send_phase_frame in Es as (Er & _). apply finished_of_receiving in Er.
    split; [done|]. unfold the_client. cbn [state main_at]. by rewrite Er.
  - assert (main_at m ≠ MDone) as Hne by (intros Hd; by destruct (J1 Hd) as [? _]).
    injection E as <-. split; [done|]. unfold the_client. cbn. by rewrite record_sent_finished.
  - assert (main_at m ≠ MDone) as Hne by (intros Hd; by destruct (J1 Hd) as [? _]). by injection E as <-.
  - injection E as <-. by split; rewrite ?Ep.
Qed.

Lemma joined_receiver it (m m' : program S) : joined m → receiver_step inet_ntop args it m = Some m' → joined m'.
Proof.
  intros [J1 J2] E. unfold receiver_step in E.
  assert (receiver_at m = RDone ∨ receiver_at m ≠ RDone) as [Ed|Hne] by (destruct (receiver_at m); by auto).
  { rewrite Ed in E. by injection E as <-. }
  assert (main_at m ≠ MDone) as Hm by (intros Hd; by destruct (J1 Hd)).
  destruct (receiver_at m) as [| |obss rec msg len incoming| |oldest|] eqn:Ep; [..|done].
  - injection E as <-. by split.
  - destruct (await (response it)) as [[[[[rec msg] len] ts]|]|]; cbn [mbind option_bind] in E; [| |done].
    + destruct (incoming_nsec _ _) as [incoming|]; [|done]. cbn [mbind option_bind] in E.
      unfold count_response in E. destruct (checked_i 32 _); [|done]. cbn [mbind option_bind] in E.
      destruct (response_observations _ _ _ _); [|done]. injection E as <-. by split.
    + injection E as <-. by split.
  - destruct obss.
    + destruct (print_response _ _ _ _ _ _ _) as [r|] eqn:Er; [|done]. cbn [mbind option_bind] in E.
      apply print_response_frame in Er as (Er & _). apply finished_of_receiving in Er. injection E as <-.
      destruct r as [[]|]; split; try done; unfold the_client; cbn; by rewrite Er.
    + injection E as <-. by split.
  - injection E as <-. by split.
  - destruct (check_oldest _ _ _ _) as [c|] eqn:Ec; [|done]. cbn [mbind option_bind] in E. injection E as <-.
    split; [done|]. intros Hj Hr. by apply (check_oldest_finished _ _ _ _ Ec), J2.
Qed.

Lemma joined_main now (m m' : program S) : joined m → main_step args now m = Some m' → joined m'.
Proof.
  intros [J1 J2] E. unfold main_step in E. destruct (main_at m) eqn:Ep.
  - injection E as <-. destruct (runs_collator args) eqn:Er; (split; [done|]); [by intros [|]|intros _; congruence].
  - injection E as <-. split; [done|]. by intros [|].
  - injection E as <-. destruct (Z.eqb_spec (collator_finished (the_client m)) 0); split; try done. by intros [|].
  - injection E as <-. destruct (negb _); split; try done; by intros [|].
  - destruct (ObservationList.popObservation _) as [[]|]; [|done]. injection E as <-. split; [done|]. by intros [|].
  - injection E as <-. split; [done|]. by intros [|].
  - destruct it as [|entry it].
    + destruct (add_entry _ _ _); [|done]. injection E as <-. split; [done|]. by intros [|].
    + destruct (valid_iterator _ _); [|done]. destruct (_ !! entry); [|done]. injection E as <-.
      destruct (_ =? _); (split; [done|]); by intros [|].
  - destruct (update_at _ _ _); [|done]. injection E as <-. split; [done|]. by intros [|].
  - injection E as <-. split; [done|]. by intros [|].
  - destruct (check_oldest _ _ _ _); [|done]. injection E as <-. split; [done|]. by intros [|].
  - injection E as <-. assert (joined m) by (split; rewrite Ep; auto; done).
    destruct (sender_at m) eqn:Es, (receiver_at m) eqn:Er; try done. split; [done|]. auto.
  - injection E as <-. split; rewrite Ep; auto.
Qed.

Lemma run_joined es : ∀ m m' : program S, joined m → run inet_ntop args hosts es m = Some m' → joined m'.
Proof.
  induction es as [|e es IH]; intros m m' Hj; cbn [run]; [by intros [= <-]|].
  destruct (step _ _ _ e m) as [m1|] eqn:E; [|done]. cbn [mbind option_bind]. apply IH.
  unfold step in E. destruct (exited m); [by injection E as <-|].
  destruct e; [by eapply joined_sender|by eapply joined_receiver|by eapply joined_main].
Qed.

Lemma start_joined c : joined (start c : program S).
Proof. split; [done|]. by intros [|]. Qed.
End Joined.

(** ** Lemmas: the options *)

Lemma check_addresses_keeps strs : ∀ args args', check_addresses strs args = inr args' →
  payload_lens args' = payload_lens args.
Proof.
  induction strs as [|str strs IH]; intros args args'; cbn [check_addresses]; [by intros [= <-]|].
  unfold check_address. destruct (if ip_version args =? IPV6 then _ else _) as [[ok ip] port].
  destruct ok; cbn [String.eqb address_error]; [|done]. intros ->%IH. done.
Qed.

Lemma substring_prefix s t : String.substring 0 (String.length s) (s +:+ t) = s.
Proof. induction s as [|c s IH]; [by destruct t|]. cbn. f_equal. exact IH. Qed.

(** The help shows the values separated by the separator. *)
Lemma vectorToString_join {T} (print : T → string) vec c :
  vectorToString print vec (String c "") = join c (print <$> vec).
Proof.
  unfold vectorToString. destruct vec as [|x vec]; [done|].
  assert (∀ x, foldr (λ x s, print x +:+ String c "" +:+ s) "" (x :: vec) =
    join c (print <$> x :: vec) +:+ String c "") as E.
  { clear x. induction vec as [|y vec IH]; intros x; [done|].
    cbn [foldr] in *. rewrite IH. change (join c (print <$> x :: y :: vec)) with
      (print x +:+ String c (join c (print <$> y :: vec))). rewrite sapp_assoc. done. }
  rewrite E, sapp_length. cbn [String.length]. rewrite Nat.add_sub. apply substring_prefix.
Qed.

(** ** Properties *)

(** Sending to hosts with a payload that fits is defined, errors included. *)
Lemma send_to_hosts_defined {S} `{SqaStats S} errors tv idx len rest : ∀ i (s : Sender S),
  0 ≤ len ≤ TST_PKT_SIZE → 0 ≤ sent_packets (client s) →
  sent_packets (client s) + Z.of_nat (length rest) < 2 ^ 31 →
  ∃ b s', send_to_hosts errors (crafted tv idx) len i rest s = Some (b, s').
Proof.
  induction rest as [|a rest IH]; intros i s Hl H0 Hn; cbn [send_to_hosts]; [by do 2 eexists|].
  rewrite gather_sender_message by done. cbn [mbind option_bind length] in *.
  destruct (errors i); [by do 2 eexists|].
  rewrite checked_i_Some by wsolve. cbn [mbind option_bind]. apply IH; [done|cbn; lia..].
Qed.

(** A length past the structure is read past its end. *)
Lemma gather_overread p len a : wf_client p → TST_PKT_SIZE < len →
  gather (msg_iov (sender_message p len a)) = None.
Proof.
  intros Hp Hl. cbn [sender_message msg_iov gather iov_base iov_len].
  rewrite length_client_bytes by done. by rewrite (proj2 (Z.ltb_lt _ _)) by (unfold TST_PKT_SIZE in *; lia).
Qed.

Section Properties.
Context {S H : Type} `{SqaStats S} `{SqaSummary S} `{TdHistogram H} `{SqaReport S H}.
Variables (client_cli : list string → cli client_options) (validation_exit : string → Z * string)
  (range_error version_text : string) (can_open : string → bool) (dump : nat → json → string * option string).

Lemma parsed_payload_lens argv args :
  client_parse_args client_cli validation_exit range_error version_text argv = inr args →
  Forall (λ l, MIN_PAYLOAD_LEN ≤ l ≤ MAX_PAYLOAD_LEN) (payload_lens args).
Proof.
  unfold client_parse_args. destruct (client_cli argv) as [|o]; [done|].
  destruct (forallb (Range MIN_PAYLOAD_LEN MAX_PAYLOAD_LEN) _) eqn:Ep; cbn [negb]; [|by destruct (validation_exit _)].
  destruct (forallb (Range 0 256) _); cbn [negb]; [|by destruct (validation_exit _)].
  destruct (check_addresses _ _) as [|args1] eqn:Ea; [by destruct (validation_exit _)|].
  destruct (o_version o); [done|]. unfold finish_args. destruct (o_addresses o); [done|]. intros E.
  assert (payload_lens args = payload_lens args1) as -> by (destruct (o_tos o); by injection E as <-).
  rewrite (check_addresses_keeps _ _ _ Ea). cbn [store_options payload_lens].
  destruct (o_payload_lens o) as [lens|]; cbn [default] in *.
  - apply Forall_forall. intros x Hx%list_elem_of_In. rewrite forallb_forall in Ep. specialize (Ep x Hx).
    unfold Range in Ep. apply andb_prop in Ep as [?%Z.leb_le ?%Z.leb_le]. done.
  - by repeat constructor.
Qed.

(** What a client that returns from [main] has done. *)
Lemma client_main_returns inet_ntop sys schedule stats_clock argv code out err report :
  client_main (S:=S) (H:=H) client_cli validation_exit range_error version_text can_open dump inet_ntop sys schedule stats_clock argv =
    Some (Returns code out err report) →
  ∃ args0, client_parse_args client_cli validation_exit range_error version_text argv = inr args0 ∧
    let '(args1, notice) := effective_args args0 in
    (∃ what text, Client_construct (S:=S) sys args1 = Some (RuntimeError what text) ∧ code = EXIT_FAILURE ∧
       out = notice ∧ err = text +:+ "Runtime error: " +:+ what +:+ nl ∧ report = None) ∨
    ∃ args ais c options warnings m text error,
      Client_construct sys args1 = Some (Built (args, ais, c) options warnings) ∧
      run inet_ntop args (ai_addr <$> ais) schedule (start c) = Some m ∧ exited m = None ∧
      sender_at m = SDone ∧ receiver_at m = RDone ∧ main_at m = MDone ∧
      (runs_collator args = true → collator_finished (the_client m) ≠ 0) ∧
      client_reports can_open dump stats_clock args1 args (the_client m) = Some (text, (report, error)) ∧
      code = (if error then EXIT_FAILURE else 0) ∧ out = notice +:+ ClientState.out (the_client m) +:+ text ∧
      err = warnings +:+ ClientState.err (the_client m) +:+ from_option log_message "" error.
Proof.
  unfold client_main. destruct (client_parse_args _ _ _ _ argv) as [[[c0 o] e]|args0] eqn:Ep; [done|].
  destruct (effective_args args0) as [args1 notice] eqn:Ee.
  destruct (Client_construct sys args1) as [[[[args ais] c] options warnings|text|what text]|] eqn:Ec;
    cbn [mbind option_bind]; try done.
  2: { intros [= <- <- <- <-]. exists args0. rewrite Ee. split; [done|]. left. by exists what, text. }
  destruct (run _ _ _ schedule (start c)) as [m|] eqn:Er; [|done]. cbn [mbind option_bind].
  pose proof (run_joined inet_ntop args (ai_addr <$> ais) schedule _ _ (start_joined args c) Er) as [J1 J2].
  destruct (exited m) eqn:Ex; [done|]. destruct (main_at m) eqn:Em; try done.
  destruct (J1 eq_refl) as [Hs Hr].
  destruct (client_reports _ _ _ _ _ _) as [[text [rep error]]|] eqn:Et; [|done]. cbn [mbind option_bind].
  intros E. exists args0. rewrite Ee. split; [done|]. right.
  exists args, ais, c, options, warnings, m, text, error.
  do 6 (split; [done|]). split; [intros Hrc; apply J2; [by right|done]|].
  destruct error; injection E as <- <- <- <-; cbn [from_option]; by rewrite ?sapp_nil_r.
Qed.

(** The runtime option decides none of these. *)
Lemma effective_args_reports args :
  prints_stats (effective_args args).1 = prints_stats args ∧
  writes_json (effective_args args).1 = writes_json args ∧
  json_output_file (effective_args args).1 = json_output_file args.
Proof. unfold effective_args. by destruct (_ && _). Qed.

(** The reports of a client: the digest and the file exactly as asked for, and an
    exception only from printing. *)
Lemma client_reports_spec stats_clock args args' (c : Client S) text report error :
  client_reports (H:=H) can_open dump stats_clock args args' c = Some (text, (report, error)) →
  (if prints_stats args then printStats stats_clock (sent_packets c) c = Some text else text = "") ∧
  if writes_json args then ∃ date doc, first_packet_date (first_packet_sent_epoch_nanoseconds c) = inr date ∧
      log_data args' date c = Some doc ∧ error = TypeError <$> (dump 4%nat doc).2 ∧
      report = if can_open (json_output_file args)
               then Some ((dump 4%nat doc).1 +:+ if (dump 4%nat doc).2 then "" else nl) else None
  else report = None ∧ error = None.
Proof.
  unfold client_reports, getSentPackets.
  destruct (if prints_stats args then _ else _) as [t|] eqn:Et; [|done]. cbn [mbind option_bind].
  destruct (if writes_json args then _ else _) as [[rep err]|] eqn:Ej; [|done]. cbn [mbind option_bind].
  intros [= <- <- <-]. split; [destruct (prints_stats args); [done|by injection Et as <-]|].
  destruct (writes_json args); [|by injection Ej as <- <-].
  unfold JsonLog in Ej. destruct (first_packet_date _) as [what|date] eqn:Edate.
  { by rewrite first_packet_date_inr in Edate. }
  destruct (log_data _ _ _) as [doc|] eqn:Ed; [|done]. cbn [mbind option_bind] in Ej.
  exists date, doc. destruct (dump 4%nat doc) as [txt e]. injection Ej as <- <-.
  do 3 (split; [done|]). cbn [fst snd]. destruct e; by rewrite ?sapp_nil_r.
Qed.

(** C29: what an exit code of 0 means.  [main] of the client returns 0 only when its
    options were accepted, its client was built and, at the end of the schedule, the
    sender and the receiver have both ended and been joined and the collator, if it
    was to run, has finished.  What it prints is the notice about the options, the
    output of the threads and, exactly when it was asked for outside the legacy
    format, the digest of the packets sent; the errors are those of the constructor
    and the threads.  When a report was named outside that format, it is the document
    of this client and its file holds the document printed whole; but a file that
    could not be opened is left unwritten, and the exit code is still 0.  Otherwise
    there is no report. *)
Theorem client_success inet_ntop sys schedule stats_clock argv out err report :
  client_main (S:=S) (H:=H) client_cli validation_exit range_error version_text can_open dump inet_ntop sys schedule stats_clock argv =
    Some (Returns 0 out err report) →
  ∃ args0 args ais c options warnings m text,
    client_parse_args client_cli validation_exit range_error version_text argv = inr args0 ∧
    Client_construct sys (effective_args args0).1 = Some (Built (args, ais, c) options warnings) ∧
    run inet_ntop args (ai_addr <$> ais) schedule (start c) = Some m ∧ exited m = None ∧
    sender_at m = SDone ∧ receiver_at m = RDone ∧
    (runs_collator args = true → collator_finished (the_client m) ≠ 0) ∧
    out = (effective_args args0).2 +:+ ClientState.out (the_client m) +:+ text ∧
    err = warnings +:+ ClientState.err (the_client m) ∧
    (if prints_stats args0 then printStats stats_clock (sent_packets (the_client m)) (the_client m) = Some text
     else text = "") ∧
    if writes_json args0 then ∃ date doc printed,
        first_packet_date (first_packet_sent_epoch_nanoseconds (the_client m)) = inr date ∧
        log_data args date (the_client m) = Some doc ∧ dump 4%nat doc = (printed, None) ∧
        report = if can_open (json_output_file args0) then Some (printed +:+ nl) else None
    else report = None.
Proof.
  intros (args0 & Hp & Hret)%client_main_returns. destruct (effective_args_reports args0) as (E1 & E2 & E3).
  destruct (effective_args args0) as [args1 notice] eqn:Ee. cbn [fst] in *.
  destruct Hret as [(what & text & _ & [=] & _)|(args & ais & c & options & warnings & m & text & error & Hc & Hrun & Hx &
    Hs & Hr & _ & Hf & Hrep & Hcode & Ho & He)].
  destruct error as [e|]; [done|]. cbn [from_option] in He. rewrite sapp_nil_r in He.
  apply client_reports_spec in Hrep as (R1 & R2). rewrite E1 in R1. rewrite E2, E3 in R2.
  exists args0, args, ais, c, options, warnings, m, text. rewrite Ee. cbn [fst snd].
  do 10 (split; [done|]). destruct (writes_json args0); [|by destruct R2].
  destruct R2 as (date & doc & Hdate & Hd & Hn & ->). exists date, doc.
  destruct (dump 4%nat doc) as [printed [what|]]; [done|]. by exists printed.
Qed.

(** C30: the client's other exit codes.  A client that returns from [main] returns 0
    or 1, and 1 only in two cases.  Its constructor threw: the socket could not be
    made, or not be bound, or the memory of one of the four statistics not be had;
    then the message names that cause and there is no report.  Or the report it was
    to write holds a text the JSON library refuses to print; then the threads have
    all ended, the message is the library's, and the file, if it could be opened, is
    left with what was printed until then. *)
Theorem client_exit_codes inet_ntop sys schedule stats_clock argv code out err report :
  client_main (S:=S) (H:=H) client_cli validation_exit range_error version_text can_open dump inet_ntop sys schedule stats_clock argv =
    Some (Returns code out err report) → code ≠ 0 →
  code = 1 ∧ ∃ args0, client_parse_args client_cli validation_exit range_error version_text argv = inr args0 ∧
    ((∃ what text, Client_construct (S:=S) sys (effective_args args0).1 = Some (RuntimeError what text) ∧
        ((∃ family e, socket sys family = Some e ∧ what = "Failed to create socket: " +:+ e) ∨
         (∃ addr e, bind sys addr = Some e ∧ what = "Failed to bind socket: " +:+ e) ∨
         (∃ k member, allocated sys k = false ∧ what = "Failed to allocate memory for " +:+ member ∧
            ["stats_RTT"; "stats_internal"; "stats_client_server"; "stats_server_client"] !! k = Some member)) ∧
        err = text +:+ "Runtime error: " +:+ what +:+ nl ∧ report = None) ∨
     writes_json args0 = true ∧
     ∃ args ais c options warnings m date doc printed what,
       Client_construct sys (effective_args args0).1 = Some (Built (args, ais, c) options warnings) ∧
       run inet_ntop args (ai_addr <$> ais) schedule (start c) = Some m ∧
       sender_at m = SDone ∧ receiver_at m = RDone ∧ main_at m = MDone ∧
       log_data args date (the_client m) = Some doc ∧ dump 4%nat doc = (printed, Some what) ∧
       err = warnings +:+ ClientState.err (the_client m) +:+ "JSON error: " +:+ what +:+ nl ∧
       report = if can_open (json_output_file args0) then Some printed else None).
Proof.
  intros (args0 & Hp & Hret)%client_main_returns Hne. destruct (effective_args_reports args0) as (_ & E2 & E3).
  destruct (effective_args args0) as [args1 notice] eqn:Ee. cbn [fst] in *.
  destruct Hret as [(what & text & Hc & -> & _ & He & Hrep)|(args & ais & c & options & warnings & m & text & error & Hc & Hrun & _ &
    Hs & Hr & Hm & _ & Hrep & Hcode & _ & He)].
  - split; [done|]. exists args0. rewrite Ee. split; [done|]. left. exists what, text. split; [done|].
    split; [exact (Client_construct_throws _ _ _ _ Hc)|done].
  - destruct error as [e|]; [|done]. split; [done|]. exists args0. split; [done|]. right.
    apply client_reports_spec in Hrep as (_ & R). rewrite E2, E3 in R.
    destruct (writes_json args0); [split; [done|]|by destruct R]. destruct R as (date & doc & _ & Hd & Hn & ->).
    destruct (dump 4%nat doc) as [printed [what|]] eqn:Ed; [|done]. injection Hn as ->. rewrite Ee. cbn [fst].
    exists args, ais, c, options, warnings, m, date, doc, printed, what. do 7 (split; [done|]). split; [done|].
    cbn [fst snd]. by rewrite sapp_nil_r.
Qed.

(** C31: the payload lengths.  Every length the options let through is from 42 to 1473,
    and sending a packet of the length picked is defined, when no counter overflows,
    unless it is 1473: the check admits one byte more than the packet structure has,
    and [sendmsg] then reads past its end. *)
Theorem payload_length_defined argv args hosts it index (s : Sender S) :
  client_parse_args client_cli validation_exit range_error version_text argv = inr args →
  hosts ≠ [] → good_time (clock it) → is_Some (inter_packet_delay args (gap it)) →
  0 ≤ pick it < Z.of_nat (length (payload_lens args)) →
  0 ≤ sent_packets (client s) → sent_packets (client s) + Z.of_nat (length hosts) < 2 ^ 31 →
  ∃ len, payload_lens args !! Z.to_nat (pick it) = Some len ∧ 42 ≤ len ≤ 1473 ∧
    (send_phase args hosts it index s = None ↔ len = 1473).
Proof.
  intros Hparse Hh Hc [d Hd] Hp Hz Hs. apply parsed_payload_lens in Hparse.
  destruct (lookup_lt_is_Some_2 (payload_lens args) (Z.to_nat (pick it))) as [len Hlen]; [lia|].
  exists len. split; [done|]. rewrite Forall_lookup in Hparse. specialize (Hparse _ _ Hlen).
  unfold MIN_PAYLOAD_LEN, MAX_PAYLOAD_LEN in Hparse. split; [done|].
  assert (select_randomly (payload_lens args) (pick it) = Some len) as Hsel.
  { unfold select_randomly. rewrite (proj2 (Z.leb_le _ _)), (proj2 (Z.leb_le _ _)) by lia. done. }
  unfold send_phase. rewrite Hsel, Hd. cbn [mbind option_bind]. unfold sendPacket.
  rewrite craftSenderPacket_exact by done. cbn [mbind option_bind]. rewrite wrap_small by wsolve.
  set (s0 := {| s with slept := _ |}).
  destruct (Z.eq_dec len 1473) as [->|Hne].
  - split; [done|]. intros _. destruct hosts as [|h hosts]; [done|]. cbn [send_to_hosts].
    rewrite gather_overread; [done|apply wf_crafted|done].
  - split; [|lia]. intros E. exfalso. revert E.
    destruct (send_to_hosts_defined (sendmsg_error it) (clock it) index len hosts 0 s0) as (b & s' & ->);
      [unfold TST_PKT_SIZE; lia|done|done|].
    cbn [mbind option_bind crafted timestamp]. destruct b; [|done].
    rewrite ntohts_htonts by by apply wf_ntp_of_timespec.
    by rewrite timestamp_to_nsec_exact by by apply wf_ntp_of_timespec.
Qed.
End Properties.

(** ** A run of the client *)

#[local] Instance log_summary : SqaSummary SqaLog := {
  sqa_stats_get_mean _ := of_int 0; sqa_stats_get_median _ := of_int 0;
  sqa_stats_get_min_as_seconds _ := of_int 0; sqa_stats_get_max_as_seconds _ := of_int 0;
  sqa_stats_get_standard_deviation _ := of_int 0; sqa_stats_get_variance _ := of_int 0;
  sqa_stats_get_percentile _ _ := of_int 0; sqa_stats_get_loss_percentage _ := of_int 0;
  sqa_stats_get_number_of_lost_packets l := Z.of_nat (losses l) }.

#[local] Instance unit_histogram : TdHistogram unit := {
  td_compress h := h; td_compression _ := JNumber 100; td_merged_nodes _ := 0%nat;
  td_node_mean _ _ := JNumber 0; td_node_weight _ _ := JNumber 0 }.

#[local] Instance log_report : SqaReport SqaLog unit := {
  sqa_stats_get_number_of_samples l := Z.of_nat (length (samples l)); empirical_distribution _ := tt }.

(** [twamp-client -n 1 -l lens --print-format raw -j report.json 192.0.2.1:862] *)
Definition example_options (lens : list Z) : client_options :=
  mkClientOptions None None (Some lens) (Some 1) None None false (Some "report.json") false None (Some "raw")
    None None None None false None false ["192.0.2.1:862"].

(** The collator starts, a packet is sent and the sender ends, a reply comes in and
    the receiver ends, everything is filed and retired, and the threads are joined. *)
Definition whole_schedule : list event :=
  main_steps 2 ++ sender_steps 4 ++ receiver_steps 7 ++ main_steps 40 ++
  replicate 14 (MainStep (mkTimespec 1700000100 0)).

Lemma example_success : ∃ out err report,
  client_main (S:=SqaLog) (H:=unit) (λ _, Parsed (example_options [50; 250])) (λ m, (105, m)) "range" "version"
    (λ _, true) (λ _ _, ("{}", None)) no_ntop example_os
    whole_schedule (mkTimespec 1700000101 0) [] = Some (Returns 0 out err (Some report)).
Proof. vm_compute. by do 3 eexists. Qed.

(** The same, with a text in the document that is not printable. *)
Lemma example_failure : ∃ out err report,
  client_main (S:=SqaLog) (H:=unit) (λ _, Parsed (example_options [50; 250])) (λ m, (105, m)) "range" "version"
    (λ _, true) (λ _ _, ("{", Some "invalid UTF-8")) no_ntop example_os
    whole_schedule (mkTimespec 1700000101 0) [] = Some (Returns 1 out err (Some report)).
Proof. vm_compute. by do 3 eexists. Qed.

Lemma client_exit_codes_witness :
  ∃ args0, client_parse_args (λ _, Parsed (example_options [50; 250])) (λ m, (105, m)) "range" "version" [] = inr args0 ∧
    writes_json args0 = true.
Proof.
  destruct example_failure as (out & err & report & E).
  destruct (client_exit_codes _ _ _ _ _ _ _ _ _ _ _ _ _ _ _ E) as (_ & args0 & Hp & Hc); [discriminate|].
  exists args0. split; [exact Hp|]. destruct Hc as [(what & text & Hc & _)|[Hw _]]; [|exact Hw]. exfalso.
  assert (args0 = {| (store_options (example_options [50; 250]) Args_init) with
    remote_hosts := ["192.0.2.1"]; remote_ports := [862] |}) as -> by (vm_compute in Hp |- *; congruence).
  vm_compute in Hc. discriminate Hc.
Defined.

(** The arguments of the example, as parsed. *)
Lemma example_parsed args0 :
  client_parse_args (λ _, Parsed (example_options [50; 250])) (λ m, (105, m)) "range" "version" [] = inr args0 →
  prints_stats args0 = false ∧ writes_json args0 = true.
Proof. intros E. vm_compute in E. injection E as <-. by vm_compute. Qed.

Lemma client_success_witness :
  ∃ args0 m out err report, client_parse_args (λ _, Parsed (example_options [50; 250])) (λ m, (105, m)) "range" "version" [] = inr args0 ∧
    client_main (S:=SqaLog) (H:=unit) (λ _, Parsed (example_options [50; 250])) (λ m, (105, m)) "range" "version"
      (λ _, true) (λ _ _, ("{}", None)) no_ntop example_os
      whole_schedule (mkTimespec 1700000101 0) [] = Some (Returns 0 out err report) ∧
    sender_at (m : program SqaLog) = SDone ∧ receiver_at m = RDone ∧ report = Some ("{}" +:+ nl).
Proof.
  destruct example_success as (out & err & report & E).
  destruct (client_success _ _ _ _ _ _ _ _ _ _ _ _ _ _ E)
    as (args0 & args & ais & c & options & warnings & m & text & Hp & _ & _ & _ & Hs & Hr & _ & _ & _ & _ & Hw).
  exists args0, m, out, err, (Some report). split; [exact Hp|]. split; [exact E|]. split; [exact Hs|]. split; [exact Hr|].
  destruct (example_parsed args0 Hp) as [_ Ew]. rewrite Ew in Hw.
  destruct Hw as (date & doc & printed & _ & _ & Hd & Hrep). injection Hd as <-. exact Hrep.
Defined.

Lemma payload_length_defined_witness :
  send_phase (store_options (example_options [50; 1473]) Args_init) [replicate 16 1]
    (mkSend (mkTimespec 1700000000 0) 0 1 (λ _, of_int 0) (λ _, None)) 0
    (mkSender (Client_init 1700000000 : Client SqaLog) [] []) = None.
Proof.
  set (args := {| (store_options (example_options [50; 1473]) Args_init) with
    remote_hosts := ["192.0.2.1"]; remote_ports := [862] |}).
  destruct (payload_length_defined (λ _, Parsed (example_options [50; 1473])) (λ m, (105, m)) "range" "version" [] args
    [replicate 16 1] (mkSend (mkTimespec 1700000000 0) 0 1 (λ _, of_int 0) (λ _, None)) 0
    (mkSender (Client_init 1700000000 : Client SqaLog) [] [])) as (len & Hl & _ & Hn).
  - vm_compute. reflexivity.
  - discriminate.
  - by vm_compute.
  - vm_compute. by eexists.
  - by vm_compute.
  - by vm_compute.
  - by vm_compute.
  - injection Hl as <-. exact (proj2 Hn eq_refl).
Defined.

(** ** The server's exit codes *)

(** Why the server's loop ends. *)
Definition ended_by (args : Server.Args) (its : list Server.iteration) (r : Server.result) : Prop :=
  match r with
  | Server.Exit code =>
      (code = 0 ∧ Server.num_samples args ≠ 0) ∨
      ∃ it errno text, it ∈ its ∧ Server.recv it = Failed errno text ∧
        code = if errno =? Server.EAGAIN then 11 else 1
  | Server.Throw e => stoi (Server.local_port args) = inl e
  | Server.Blocked => True
  end.

Lemma listen_loop_ended inet_ntop args its : ∀ counter st r st',
  Server.listen_loop inet_ntop args its counter st = Some (r, st') → ended_by args its r.
Proof.
  induction its as [|it its IH]; intros counter st r st'; cbn [Server.listen_loop];
    destruct (Server.count_sample args counter) as [stop counter'] eqn:Ec; destruct stop;
    try (intros [= <- <-]; left; split; [done|]; unfold Server.count_sample in Ec;
         destruct (Z.eqb_spec (Server.num_samples args) 0); [by injection Ec|done]); [by intros [= <- <-]|].
  destruct (Server.receive inet_ntop args it st) as [[[r1 st1]|st1]|] eqn:E; [| |done]; cbn [mbind option_bind].
  - intros [= <- <-]. unfold Server.receive in E. destruct (Server.recv it) as [errno text|payload from control] eqn:Er.
    + destruct (errno =? Server.EAGAIN) eqn:Ee; injection E as <- _; right; exists it, errno, text;
        (split; [by left|]); by rewrite Ee.
    + destruct (get_kernel_timestamp _ _); [|done]. cbn [mbind option_bind] in E.
      destruct (negb _); [done|]. unfold Server.handleTestPacket in E.
      destruct (Server.craftReflectorPacket _ _ _ _ _) as [[? ?]|]; [|done]. cbn [mbind option_bind] in E.
      destruct (stoi (Server.local_port args)) as [e|lp] eqn:Es; [by injection E as <- _|].
      destruct (Server.metrics _ _ _ _ _ _); [|done]. cbn [mbind option_bind] in E.
      destruct (Server.printMetrics _ _ _) as [? ?]. destruct (gather _); [|done]. by cbn in E.
  - intros E'%IH. unfold ended_by in *. destruct r; try done. destruct E' as [?|(it' & errno & text & Hin & ?)]; [by left|].
    right. exists it', errno, text. split; [by right|done].
Qed.

(** C32: the server's exit codes.  A server that returns from [main] returns 0 only if
    it was given a number of samples; 11 or 1 when a receive failed with [EAGAIN] or
    with another error; and 1 after the exception of a local port that is no number.
    So a server without a number of samples never ends with success. *)
Theorem server_exit_codes cli validation_exit range_error inet_ntop sys its argv code out err replies :
  server_main cli validation_exit range_error inet_ntop sys its argv = Some (Returns code out err replies) →
  ∃ args, server_parse_args cli validation_exit range_error argv = inr args ∧
    ((code = 0 ∧ Server.num_samples args ≠ 0) ∨
     (∃ it errno text, it ∈ its ∧ Server.recv it = Failed errno text ∧
        code = if errno =? Server.EAGAIN then 11 else 1) ∨
     (code = 1 ∧ ∃ e, stoi (Server.local_port args) = inl e)).
Proof.
  unfold server_main. destruct (server_parse_args _ _ _ argv) as [[? ?]|args]; [done|]. intros E. exists args.
  split; [done|].
  destruct (Server_construct sys args) as [[] options warnings|text|what text] eqn:Ec; [|done|].
  - destruct (Server.listen inet_ntop args its) as [[r st]|] eqn:El; [|done]. cbn [mbind option_bind] in E.
    apply listen_loop_ended in El. destruct r as [c|e|]; [| |done]; injection E as <- _ _ _.
    + destruct El as [?|?]; auto.
    + right. right. split; [done|]. by exists e.
  - unfold Server_construct in Ec. destruct (family_of _); [|done]. destruct (getaddrinfo _ _ _ _); [done|].
    destruct (socket _ _); [done|]. destruct (setup_socket _ _ _). by destruct (bind _ _).
Qed.

Definition example_server_options : server_options := mkServerOptions None (Some "862") None None None None None.

Lemma server_exit_codes_witness :
  ∃ out err replies, server_main (λ _, Parsed example_server_options) (λ m, (105, m)) "range" no_ntop example_os
      [Server.mkIteration (Failed 11 "Resource temporarily unavailable") (mkTimespec 0 0) (mkTimespec 0 0) None] [] =
    Some (Returns 11 out err replies) ∧ (11 : Z) ≠ 0.
Proof.
  do 3 eexists. split; [vm_compute; reflexivity|].
  destruct (server_exit_codes (λ _, Parsed example_server_options) (λ m, (105, m)) "range" no_ntop example_os
    [Server.mkIteration (Failed 11 "Resource temporarily unavailable") (mkTimespec 0 0) (mkTimespec 0 0) None] []
    11 "" ("Socket timed out." +:+ nl) []) as (args & _ & [[H _]|[_|[H _]]]); [vm_compute; reflexivity|discriminate..].
Defined.
